(** * FM10000 autonegotiation dispatcher and Liberty Trail transceiver management

    A shallow embedding of

    - [src/api/fm10000/fm10000_api_an.c]      (module [An]), and
    - [src/platforms/libertyTrail/platform_mgmt.c] (module [Mgmt]),

    followed by the properties proved about them.  Machine integers are
    modelled as [Z] with the wrap-around written out, C arrays as lists
    with partial lookup, and calls that leave the two files (the state
    machine framework, the register layer, the platform library) as the
    fields of a class of callbacks whose invocations are logged. *)

From Stdlib Require Import ZArith List Bool Lia.
From stdpp Require Import base option list list_numbers.

Local Open Scope Z_scope.

(* ===================================================================== *)
(** * Part I: definitions                                                 *)
(* ===================================================================== *)

(** ** Common SDK types and macros *)
Module Std.

(** Status codes ([fm_status]); [FM_OK] is the only success value. *)
Inductive fm_status :=
| FM_OK
| FM_FAIL
| FM_ERR_INVALID_ARGUMENT
| FM_ERR_UNSUPPORTED
| FM_ERR_NOT_FOUND
| FM_ERR_INVALID_PORT
| FM_ERR_INVALID_SWITCH
| FM_ERR_NO_MEM
| FM_ERR_NO_FREE_RESOURCES
| FM_ERR_STATE_MACHINE_HANDLE
| FM_ERR_STATE_MACHINE_TYPE
| FM_ERR_I2C_NO_RESPONSE.

#[global] Instance fm_status_eq_dec : EqDecision fm_status.
Proof. solve_decision. Defined.

(** [if (status)] / [status == FM_OK] in C. *)
Definition is_ok (s : fm_status) : bool :=
  match s with FM_OK => true | _ => false end.

(** Conversion to [fm_uint] / [fm_uint32] and to [fm_uint64]. *)
Definition fm_uint32 (z : Z) : Z := z mod 2 ^ 32.
Definition fm_uint64 (z : Z) : Z := z mod 2 ^ 64.

(** The bit and field macros of the SDK's standard header.  That header
    is not among the sources; the macros are written here as the SDK
    defines them: a bit is [(rvalue >> b) & 1], a field lying between the
    bit positions [l] and [h] is [(rvalue >> l) & ((2 << (h - l)) - 1)],
    and a field is stored by xor-ing the difference into the lvalue. *)
Definition FM_GET_BIT (rvalue b : Z) : Z := Z.land (Z.shiftr rvalue b) 1.

Definition FM_GET_UNNAMED_BIT64 (rvalue bit : Z) : Z :=
  Z.land (Z.shiftr rvalue bit) 1.

Definition FM_GET_UNNAMED_FIELD64 (rvalue start len : Z) : Z :=
  Z.land (Z.shiftr rvalue start) (Z.shiftl 1 len - 1).

Definition FM_FIELD_MASK (l h : Z) : Z := Z.shiftl 2 (h - l) - 1.

Definition FM_GET_FIELD64 (rvalue l h : Z) : Z :=
  Z.land (Z.shiftr rvalue l) (FM_FIELD_MASK l h).

Definition FM_SET_FIELD64 (lvalue l h fieldvalue : Z) : Z :=
  fm_uint64
    (Z.lxor lvalue
       (Z.shiftl
          (Z.land (Z.lxor (Z.shiftr lvalue l) fieldvalue) (FM_FIELD_MASK l h))
          l)).

(** A C array read through a pointer: [None] is a read outside the
    storage the list stands for. *)
Definition array_get {A : Type} (a : list A) (i : Z) : option A :=
  if i <? 0 then None else a !! Z.to_nat i.

(** A write to an array element; [None] outside the array. *)
Definition array_set {A : Type} (a : list A) (i : Z) (v : A) : option (list A) :=
  if (0 <=? i) && (i <? Z.of_nat (length a))
  then Some (<[Z.to_nat i := v]> a) else None.

(** Truth value of a C integer used as a condition. *)
Definition truthy (z : Z) : bool := negb (z =? 0).

(** [fm_uint32 anMode]: the values of the port attribute FM_PORT_AUTONEG.
    The two files compare it with three enumerators only;
    [FM_PORT_AUTONEG_NONE] stands for every other value. *)
Inductive fm_autonegMode :=
| FM_PORT_AUTONEG_NONE
| FM_PORT_AUTONEG_SGMII
| FM_PORT_AUTONEG_CLAUSE_37
| FM_PORT_AUTONEG_CLAUSE_73.

(** [fm_ethMode]: the enumerators the two files name, and the others. *)
Inductive fm_ethMode :=
| FM_ETH_MODE_DISABLED
| FM_ETH_MODE_SGMII
| FM_ETH_MODE_1000BASE_X
| FM_ETH_MODE_1000BASE_KX
| FM_ETH_MODE_10GBASE_KR
| FM_ETH_MODE_25GBASE_KR
| FM_ETH_MODE_25GBASE_CR
| FM_ETH_MODE_40GBASE_KR4
| FM_ETH_MODE_40GBASE_CR4
| FM_ETH_MODE_100GBASE_KR4
| FM_ETH_MODE_100GBASE_CR4
| FM_ETH_MODE_AN_73
| FM_ETH_MODE_OTHER (code : Z).

#[global] Instance fm_autonegMode_eq_dec : EqDecision fm_autonegMode.
Proof. solve_decision. Defined.
#[global] Instance fm_ethMode_eq_dec : EqDecision fm_ethMode.
Proof. solve_decision. Defined.

End Std.

(* ===================================================================== *)
(** ** fm10000_api_an.c                                                   *)
(* ===================================================================== *)
Module An.
Import Std.

(** *** Enumerations *)

(** State machine types a handle can be bound to. *)
Inductive fm_smType :=
| FM_SMTYPE_UNSPECIFIED
| FM10000_CLAUSE37_AN_STATE_MACHINE
| FM10000_CLAUSE73_AN_STATE_MACHINE
| FM_SMTYPE_OTHER (code : Z).

(** Initial states handed to [fmStartStateMachine]. *)
Inductive fm_smState :=
| FM10000_AN_STATE_DISABLED
| FM_SMSTATE_OTHER (code : Z).

(** Event identifiers: the AN-level indications raised from interrupt
    bits and the two port-level requests. *)
Inductive fm_eventId :=
| FM10000_AN_EVENT_ABILITY_DETECT_IND
| FM10000_AN_EVENT_ACK_DETECT_IND
| FM10000_AN_EVENT_COMPLETE_ACK_IND
| FM10000_AN_EVENT_NEXT_PAGE_WAIT_IND
| FM10000_AN_EVENT_GOOD_CHECK_IND
| FM10000_AN_EVENT_GOOD_IND
| FM10000_AN_EVENT_TRANSMIT_DISABLE_IND
| FM10000_AN_EVENT_ENABLE_IND
| FM10000_AN_EVENT_RESTART_IND
| FM10000_AN_EVENT_DISABLE_LINK_OK_IND
| FM10000_AN_EVENT_IDLE_DETECT_IND
| FM10000_AN_EVENT_LINK_OK_IND
| FM10000_PORT_EVENT_AN_DISABLE_REQ
| FM10000_PORT_EVENT_AN_CONFIG_REQ.

Inductive fm_portType :=
| FM_PORT_TYPE_PHYSICAL
| FM_PORT_TYPE_CPU
| FM_PORT_TYPE_OTHER (code : Z).

Inductive fm_serdesRing :=
| FM10000_SERDES_RING_EPL
| FM10000_SERDES_RING_OTHER (code : Z).

Inductive fm_schedulerPortMode :=
| FM_SCHED_PORT_MODE_NONE
| FM_SCHED_PORT_MODE_SINGLE
| FM_SCHED_PORT_MODE_QUAD.

#[global] Instance fm_smType_eq_dec : EqDecision fm_smType.
Proof. solve_decision. Defined.
#[global] Instance fm_eventId_eq_dec : EqDecision fm_eventId.
Proof. solve_decision. Defined.
#[global] Instance fm_portType_eq_dec : EqDecision fm_portType.
Proof. solve_decision. Defined.
#[global] Instance fm_serdesRing_eq_dec : EqDecision fm_serdesRing.
Proof. solve_decision. Defined.

(** *** Constants of the register and API headers

    The file includes [fm_sdk_fm10000_int.h], which is not among the
    sources.  Every constant it takes from there is a field of this
    class, so that what is proved holds whatever the header says. *)
Class AnHeader := {
  (** bit positions in the AN interrupt-pending register FM10000_AN_IP *)
  FM10000_AN_IP_b_An73AbilityDetect : Z;
  FM10000_AN_IP_b_An73AcknowledgeDetect : Z;
  FM10000_AN_IP_b_An73CompleteAcknowledge : Z;
  FM10000_AN_IP_b_An73NextPageWait : Z;
  FM10000_AN_IP_b_An73AnGoodCheck : Z;
  FM10000_AN_IP_b_An73AnGood : Z;
  FM10000_AN_IP_b_An73TransmitDisable : Z;
  FM10000_AN_IP_b_An37AnEnable : Z;
  FM10000_AN_IP_b_An37AnRestart : Z;
  FM10000_AN_IP_b_An37AnDisableLinkOk : Z;
  FM10000_AN_IP_b_An37AbilityDetect : Z;
  FM10000_AN_IP_b_An37CompleteAcknowledge : Z;
  FM10000_AN_IP_b_An37NextPageWait : Z;
  FM10000_AN_IP_b_An37IdleDetect : Z;
  FM10000_AN_IP_b_An37LinkOk : Z;
  (** address of the AN interrupt mask register of an EPL lane *)
  FM10000_AN_IM : Z -> Z -> Z;
  (** technology ability field A of the Clause 73 base page *)
  FM10000_AN_73_BASE_PAGE_TX_l_A : Z;
  FM10000_AN_73_BASE_PAGE_TX_h_A : Z;
  (** message/unformatted code field MU of a next page *)
  FM10000_AN_73_NEXT_PAGE_RX_l_MU : Z;
  FM10000_AN_73_NEXT_PAGE_RX_h_MU : Z;
  FM10000_AN_NEXTPAGE_OUI_MSG_CODE : Z;
  (** Clause 73 technology abilities *)
  FM10000_AN73_ABILITY_1000BASE_KX : Z;
  FM10000_AN73_ABILITY_10GBASE_KR : Z;
  FM10000_AN73_ABILITY_25GBASE_KR : Z;
  FM10000_AN73_ABILITY_25GBASE_CR : Z;
  FM10000_AN73_ABILITY_40GBASE_KR4 : Z;
  FM10000_AN73_ABILITY_40GBASE_CR4 : Z;
  FM10000_AN73_ABILITY_100GBASE_KR4 : Z;
  FM10000_AN73_ABILITY_100GBASE_CR4 : Z;
  FM10000_AN73_ABILITIES_40G : Z;
  FM10000_AN73_ABILITIES_100G : Z;
  FM10000_AN73_SUPPORTED_ABILITIES : Z;
  FM10000_AN73_UNSUPPORTED_ABILITIES : Z;
  (** port capability bits *)
  FM_PORT_CAPABILITY_SPEED_1G : Z;
  FM_PORT_CAPABILITY_SPEED_10G : Z;
  FM_PORT_CAPABILITY_SPEED_25G : Z;
  FM_PORT_CAPABILITY_SPEED_40G : Z;
  FM_PORT_CAPABILITY_SPEED_100G : Z;
  (** AN interrupt mask templates *)
  FM10000_AN73_INT_MASK : Z;
  FM10000_AN37_INT_MASK : Z
}.

(** What the embedding needs of a header: each field lies inside a
    64-bit page, and the ability field fits an [fm_uint]. *)
Definition header_ok `{AnHeader} : bool :=
  (0 <=? FM10000_AN_73_BASE_PAGE_TX_l_A)
  && (FM10000_AN_73_BASE_PAGE_TX_l_A <=? FM10000_AN_73_BASE_PAGE_TX_h_A)
  && (FM10000_AN_73_BASE_PAGE_TX_h_A <? 64)
  && (FM10000_AN_73_BASE_PAGE_TX_h_A - FM10000_AN_73_BASE_PAGE_TX_l_A <? 32).

(** *** Port and switch records *)

(** [fm_anNextPages]: a page count and a pointer to the page storage.
    The list is the storage the pointer designates, which may be longer
    than [numPages]. *)
Record fm_anNextPages := {
  numPages : Z;
  nextPages : list Z
}.

Record fm_port := {
  portType : fm_portType;
  capabilities : Z;
  portNumber : Z
}.

Record fm_portAttr := {
  autoNegMode : fm_autonegMode;
  autoNegBasePage : Z;
  autoNegNextPages : fm_anNextPages;
  autoNeg25GNxtPgOui : Z
}.

(** The [info] member of the port's event record, by the member last
    written. *)
Inductive fm10000_smEventData :=
| InfoUnset
| InfoPhysLane (physLane : Z)
| InfoAnConfig (mode : fm_autonegMode) (basepage : Z) (pages : fm_anNextPages).

Record fm10000_portSmEventInfo := {
  info : fm10000_smEventData;
  regLockTaken : bool
}.

Record fm10000_port := {
  ring : fm_serdesRing;
  smType : fm_smType;
  smHandle : Z;
  anSmType : fm_smType;
  anSmHandle : Z;
  anInterruptMask : Z;
  eventInfo : fm10000_portSmEventInfo
}.

(** [fm10000_lane]: the port the lane currently belongs to, by number
    ([parentPortExt->base->portNumber]), or [None] for a NULL pointer. *)
Record fm10000_lane := {
  parentPortExt : option Z
}.

(** The switch state the file reaches through the GET_... macros, and
    [fw], whatever else the callbacks keep. *)
Record switch {FW : Type} := {
  GET_PORT_PTR : Z -> fm_port;
  GET_PORT_EXT : Z -> fm10000_port;
  GET_PORT_ATTR : Z -> fm_portAttr;
  GET_LANE_EXT : Z -> option fm10000_lane;
  fw : FW
}.
Arguments switch : clear implicits.


(** The generic event record handed to the state machine framework
    ([fm_smEventInfo]); its [lock] member is FM_GET_STATE_LOCK(sw), a
    constant of the switch, and is left out. *)
Module SmEvent.
Record t := {
  smType : fm_smType;
  eventId : fm_eventId;
  dontSaveRecord : bool
}.
End SmEvent.

(** *** fm10000AnGetTimeScale *)

(** The [for] loop, one unfolding per iteration; [n] bounds the number of
    iterations left.  The result is the returned value with the final
    contents of [*timeScale] and [*timeout]. *)
Fixpoint AnGetTimeScale_loop (n : nat)
  (timeoutUsec timeoutMax ts timeScale timeout : Z) : Z * Z * Z :=
  match n with
  | O => (fm_uint32 (ts / 10 * timeout), timeScale, timeout)
  | S n' =>
      if timeScale <=? 7 then
        let timeout := timeoutUsec / ts in
        let ts := fm_uint32 (ts * 10) in
        if timeout <? timeoutMax then
          (fm_uint32 (ts / 10 * timeout), timeScale, timeout)
        else
          AnGetTimeScale_loop n' timeoutUsec timeoutMax ts (timeScale + 1) timeout
      else (fm_uint32 (ts / 10 * timeout), timeScale, timeout)
  end.

(** [timeout0] is what the caller's [*timeout] held; the loop body runs
    at least once, so it is always overwritten. *)
Definition fm10000AnGetTimeScale (timeoutUsec timeoutMax timeout0 : Z)
  : Z * Z * Z :=
  AnGetTimeScale_loop 7 timeoutUsec timeoutMax 1 2 timeout0.

(** Result of a block that may [return] early. *)
Inductive block (A : Type) :=
| Return (status : fm_status)
| Continue (a : A).
Arguments Return {A}.
Arguments Continue {A}.

Section Pure.
Context `{AnHeader}.
Context {FW : Type}.

(** *** fm10000AnValidateBasePage *)

(** The body of [if ( ability != 0 )]: the ability after masking, or the
    status returned from inside the block. *)
Definition validate_abilities (capabilities ability : Z) : block Z :=
  let unsupported := Z.land ability FM10000_AN73_UNSUPPORTED_ABILITIES in
  let ability :=
    fm_uint32 (Z.land ability (Z.lnot FM10000_AN73_UNSUPPORTED_ABILITIES)) in
  if ability =? 0 then Return FM_ERR_UNSUPPORTED
  else if truthy (Z.land ability FM10000_AN73_ABILITY_1000BASE_KX)
          && negb (truthy (Z.land capabilities FM_PORT_CAPABILITY_SPEED_1G))
  then Return FM_ERR_UNSUPPORTED
  else if truthy (Z.land ability FM10000_AN73_ABILITY_10GBASE_KR)
          && negb (truthy (Z.land capabilities FM_PORT_CAPABILITY_SPEED_10G))
  then Return FM_ERR_UNSUPPORTED
  else if truthy (Z.land ability FM10000_AN73_ABILITY_25GBASE_KR)
          && negb (truthy (Z.land capabilities FM_PORT_CAPABILITY_SPEED_25G))
  then Return FM_ERR_UNSUPPORTED
  else if truthy (Z.land ability FM10000_AN73_ABILITY_40GBASE_KR4)
          && negb (truthy (Z.land capabilities FM_PORT_CAPABILITY_SPEED_40G))
  then Return FM_ERR_UNSUPPORTED
  else if truthy (Z.land ability FM10000_AN73_ABILITY_40GBASE_CR4)
          && negb (truthy (Z.land capabilities FM_PORT_CAPABILITY_SPEED_40G))
  then Return FM_ERR_UNSUPPORTED
  else if truthy (Z.land ability FM10000_AN73_ABILITY_100GBASE_KR4)
          && negb (truthy (Z.land capabilities FM_PORT_CAPABILITY_SPEED_100G))
  then Return FM_ERR_UNSUPPORTED
  else if truthy (Z.land ability FM10000_AN73_ABILITY_100GBASE_CR4)
          && negb (truthy (Z.land capabilities FM_PORT_CAPABILITY_SPEED_100G))
  then Return FM_ERR_UNSUPPORTED
  else Continue ability.

(** [modBasePage] is what the caller's [*modBasePage] holds on entry; the
    result pairs the status with its contents on return. *)
Definition fm10000AnValidateBasePage (sw : switch FW) (port : Z)
  (mode : fm_autonegMode) (basepage modBasePage : Z) : fm_status * Z :=
  let status := FM_OK in
  let portPtr := GET_PORT_PTR sw port in
  let capabilities := capabilities portPtr in
  match mode with
  | FM_PORT_AUTONEG_CLAUSE_73 =>
      let ability :=
        fm_uint32 (FM_GET_FIELD64 basepage FM10000_AN_73_BASE_PAGE_TX_l_A
                     FM10000_AN_73_BASE_PAGE_TX_h_A) in
      let blk :=
        if negb (ability =? 0) then validate_abilities capabilities ability
        else Continue ability in
      match blk with
      | Return st => (st, modBasePage)
      | Continue ability =>
          (status,
           FM_SET_FIELD64 modBasePage FM10000_AN_73_BASE_PAGE_TX_l_A
             FM10000_AN_73_BASE_PAGE_TX_h_A ability)
      end
  | _ => (status, modBasePage)
  end.

(** *** Reads of the next-page array

    A computation that reads array elements: the indices it read, in
    order, and its result, [None] once a read fell outside the storage. *)
Definition Rd (A : Type) : Type := list Z * option A.

Definition rd_ret {A} (a : A) : Rd A := ([], Some a).

Definition rd_bind {A B} (m : Rd A) (f : A -> Rd B) : Rd B :=
  match m with
  | (l, None) => (l, None)
  | (l, Some a) => let '(l', r) := f a in (l ++ l', r)
  end.

Definition rd_read (a : list Z) (i : Z) : Rd Z := ([i], array_get a i).

(** *** fm10000AnGetNextPageExtTechAbilityIndex *)

(** One of the three [for (cnt ...)] loops that assemble the OUI:
    [oui |= FM_GET_UNNAMED_BIT64(page, from + cnt) << (cnt + to)]. *)
Definition oui_bits (page from to : Z) (n : Z) (oui : Z) : Z :=
  fold_left
    (fun oui cnt =>
       fm_uint32
         (Z.lor oui (Z.shiftl (FM_GET_UNNAMED_BIT64 page (from + cnt)) (cnt + to))))
    (seqZ 0 n) oui.

Definition nextpage_oui (pageA pageB : Z) : Z :=
  let oui := 0 in
  let oui := oui_bits pageB 9 0 2 oui in
  let oui := oui_bits pageA 32 2 11 oui in
  let oui := oui_bits pageA 16 13 11 oui in
  oui.

(** The loop body at [pageNum]; [acc] is [( *extTechAbIndex, err )]. *)
Definition ext_tech_page (sw : switch FW) (port : Z)
  (nextPages : list Z) (numPages pageNum : Z) (acc : Z * fm_status)
  : Rd (Z * fm_status) :=
  let portAttr := GET_PORT_ATTR sw port in
  rd_bind (rd_read nextPages pageNum) (fun pageA =>
  if FM_GET_FIELD64 pageA FM10000_AN_73_NEXT_PAGE_RX_l_MU
       FM10000_AN_73_NEXT_PAGE_RX_h_MU =? FM10000_AN_NEXTPAGE_OUI_MSG_CODE
  then
    if pageNum >=? numPages then rd_ret acc
    else
      rd_bind (rd_read nextPages (pageNum + 1)) (fun pageB =>
      let val := fm_uint32 (FM_GET_UNNAMED_FIELD64 pageB 0 9) in
      if val =? 3 then
        let oui := nextpage_oui pageA pageB in
        if oui =? autoNeg25GNxtPgOui portAttr
        then rd_ret (fm_uint32 (pageNum + 1), FM_OK)
        else rd_ret acc
      else rd_ret acc)
  else rd_ret acc).

(** [for (pageNum = ...; pageNum < numPages; pageNum++)], with [n] the
    number of iterations left. *)
Fixpoint ext_tech_loop (sw : switch FW) (port : Z) (nextPages : list Z)
  (numPages : Z) (n : nat) (pageNum : Z) (acc : Z * fm_status)
  : Rd (Z * fm_status) :=
  match n with
  | O => rd_ret acc
  | S n' =>
      rd_bind (ext_tech_page sw port nextPages numPages pageNum acc)
        (fun acc' =>
           ext_tech_loop sw port nextPages numPages n' (pageNum + 1) acc')
  end.

(** The result is [(err, *extTechAbIndex)]; the caller's pointer is never
    NULL in this file. *)
Definition fm10000AnGetNextPageExtTechAbilityIndex (sw : switch FW)
  (port : Z) (nextPages : list Z) (numPages : Z) : Rd (fm_status * Z) :=
  rd_bind
    (ext_tech_loop sw port nextPages numPages (Z.to_nat numPages) 0
       (fm_uint32 (-1), FM_ERR_NOT_FOUND))
    (fun '(extTechAbIndex, err) => rd_ret (err, extTechAbIndex)).

(** *** IsAn25GConfiguredInNextPage *)
Definition IsAn25GConfiguredInNextPage (sw : switch FW) (port : Z)
  (np : fm_anNextPages) : Rd (fm_status * bool) :=
  rd_bind
    (fm10000AnGetNextPageExtTechAbilityIndex sw port (nextPages np)
       (numPages np))
    (fun '(status, extTechAbIndex) =>
       if is_ok status then
         rd_bind (rd_read (nextPages np) extTechAbIndex) (fun page =>
         if truthy (FM_GET_UNNAMED_BIT64 page 21)
            || truthy (FM_GET_UNNAMED_BIT64 page 20)
         then rd_ret (status, true)
         else rd_ret (status, false))
       else if decide (status = FM_ERR_NOT_FOUND) then rd_ret (FM_OK, false)
       else rd_ret (status, false)).

End Pure.

(** *** Calls that leave the file

    The state machine framework, the register access layer and two
    helpers of the port code are not among the sources.  They are the
    fields of this class; each takes the switch state it runs in and
    returns the state it leaves, so a callback may change anything the
    file later reads back through a pointer. *)
Class AnEnv (FW : Type) := {
  fmNotifyStateMachineEvent :
    switch FW -> Z -> SmEvent.t -> Z -> switch FW * fm_status;
  fmStartStateMachine :
    switch FW -> Z -> fm_smType -> fm_smState -> switch FW * fm_status;
  fmStopStateMachine : switch FW -> Z -> switch FW * fm_status;
  MaskUINT32 : switch FW -> Z -> Z -> bool -> switch FW * fm_status;
  fm10000MapEplLaneToSerdes : switch FW -> Z -> Z -> fm_status * Z;
  fm10000GetMultiLaneCapabilities : switch FW -> Z -> fm_status * bool * bool
}.

(** The log of such calls.  An entry holds the operation with its
    arguments, the switch state the callee was entered in, and the
    status it returned. *)
Inductive outside_op :=
| OpNotify (handle : Z) (ev : SmEvent.t) (port : Z)
| OpStart (handle : Z) (smType : fm_smType) (initState : fm_smState)
| OpStop (handle : Z)
| OpMaskUINT32 (reg mask : Z) (on : bool).

Inductive call (FW : Type) :=
| Call (before : switch FW) (op : outside_op) (result : fm_status).
Arguments Call {FW}.

Definition call_op {FW} (c : call FW) : outside_op :=
  match c with Call _ op _ => op end.
Definition call_result {FW} (c : call FW) : fm_status :=
  match c with Call _ _ st => st end.
Definition call_before {FW} (c : call FW) : switch FW :=
  match c with Call sw _ _ => sw end.

Section MaxSpeed.
Context `{AnHeader}.
Context {FW : Type} `{AnEnv FW}.

(** *** fm10000AnGetMaxSpeedAbilityAndMode

    The result is [(status, *maxSpeed, *laneMode)]. *)
Definition fm10000AnGetMaxSpeedAbilityAndMode (sw : switch FW) (port : Z)
  (mode : fm_autonegMode) (basepage : Z) (nextPages : fm_anNextPages)
  : Rd (fm_status * Z * fm_schedulerPortMode) :=
  let status := FM_OK in
  let maxSpeed := 0 in
  let laneMode := FM_SCHED_PORT_MODE_NONE in
  match mode with
  | FM_PORT_AUTONEG_CLAUSE_73 =>
      let blk :=
        if basepage =? 0 then
          let '(status, is40GCapable, is100GCapable) :=
            fm10000GetMultiLaneCapabilities sw port in
          if negb (is_ok status) then Return status
          else
            let ability := fm_uint32 FM10000_AN73_SUPPORTED_ABILITIES in
            let ability :=
              if negb is40GCapable
              then fm_uint32 (Z.land ability (Z.lnot FM10000_AN73_ABILITIES_40G))
              else ability in
            let ability :=
              if negb is100GCapable
              then fm_uint32 (Z.land ability (Z.lnot FM10000_AN73_ABILITIES_100G))
              else ability in
            Continue ability
        else
          Continue
            (fm_uint32
               (FM_GET_FIELD64 basepage FM10000_AN_73_BASE_PAGE_TX_l_A
                  FM10000_AN_73_BASE_PAGE_TX_h_A)) in
      match blk with
      | Return status => rd_ret (status, maxSpeed, laneMode)
      | Continue ability =>
          rd_bind (IsAn25GConfiguredInNextPage sw port nextPages)
            (fun '(status, is25GConfigInNextPage) =>
               if negb (is_ok status) then rd_ret (status, maxSpeed, laneMode)
               else if truthy (Z.land ability FM10000_AN73_ABILITIES_100G)
               then rd_ret (status, 100000, FM_SCHED_PORT_MODE_QUAD)
               else if truthy (Z.land ability FM10000_AN73_ABILITIES_40G)
               then rd_ret (status, 40000, FM_SCHED_PORT_MODE_QUAD)
               else if truthy
                         (Z.land ability
                            (Z.lor FM10000_AN73_ABILITY_25GBASE_KR
                               FM10000_AN73_ABILITY_25GBASE_CR))
                       || is25GConfigInNextPage
               then rd_ret (status, 25000, FM_SCHED_PORT_MODE_SINGLE)
               else if truthy (Z.land ability FM10000_AN73_ABILITY_10GBASE_KR)
               then rd_ret (status, 10000, FM_SCHED_PORT_MODE_SINGLE)
               else if truthy (Z.land ability FM10000_AN73_ABILITY_1000BASE_KX)
               then rd_ret (status, 2500, FM_SCHED_PORT_MODE_SINGLE)
               else rd_ret (status, maxSpeed, laneMode))
      end
  | FM_PORT_AUTONEG_CLAUSE_37 =>
      rd_ret (status, 1000, FM_SCHED_PORT_MODE_SINGLE)
  | FM_PORT_AUTONEG_SGMII =>
      rd_ret (status, 1000, FM_SCHED_PORT_MODE_SINGLE)
  | _ => rd_ret (FM_ERR_UNSUPPORTED, maxSpeed, laneMode)
  end.

End MaxSpeed.

(** *** Stateful code

    A function of the file runs in the switch state and appends to the
    log of outside calls.  [Aborted s] is control on its way to the
    function's ABORT label with [status = s]. *)
Inductive outcome (A : Type) :=
| Done (a : A)
| Aborted (status : fm_status).
Arguments Done {A}.
Arguments Aborted {A}.

Definition M (FW A : Type) : Type :=
  switch FW * list (call FW) -> outcome A * (switch FW * list (call FW)).

Definition ret {FW A} (a : A) : M FW A := fun s => (Done a, s).

Definition bind {FW A B} (m : M FW A) (f : A -> M FW B) : M FW B :=
  fun s =>
    match m s with
    | (Done a, s') => f a s'
    | (Aborted st, s') => (Aborted st, s')
    end.

Declare Scope an_scope.
Delimit Scope an_scope with an.
Notation "x <-- m ;; k" := (bind m (fun x => k))
  (at level 100, m at next level, right associativity) : an_scope.
Notation "m ;;; k" := (bind m (fun _ => k))
  (at level 100, right associativity) : an_scope.
Local Open Scope an_scope.

(** FM_LOG_ABORT_ON_ERR and its _V2 form: [goto ABORT] unless FM_OK. *)
Definition FM_LOG_ABORT_ON_ERR {FW} (status : fm_status) : M FW unit :=
  fun s => if is_ok status then (Done tt, s) else (Aborted status, s).

(** [ABORT: return status;] *)
Definition at_ABORT_return {FW} (m : M FW fm_status) : M FW fm_status :=
  fun s =>
    match m s with
    | (Done st, s') => (Done st, s')
    | (Aborted st, s') => (Done st, s')
    end.

Definition get_switch {FW} : M FW (switch FW) := fun s => (Done (fst s), s).

Definition set_port_ext {FW} (sw : switch FW) (port : Z) (p : fm10000_port)
  : switch FW :=
  {| GET_PORT_PTR := GET_PORT_PTR sw;
     GET_PORT_EXT := fun q => if decide (q = port) then p else GET_PORT_EXT sw q;
     GET_PORT_ATTR := GET_PORT_ATTR sw;
     GET_LANE_EXT := GET_LANE_EXT sw;
     fw := fw sw |}.

(** An assignment through [portExt]. *)
Definition update_port_ext {FW} (port : Z) (f : fm10000_port -> fm10000_port)
  : M FW unit :=
  fun s => (Done tt, (set_port_ext (fst s) port (f (GET_PORT_EXT (fst s) port)), snd s)).

Definition set_regLockTaken (b : bool) (p : fm10000_port) : fm10000_port :=
  {| ring := ring p; smType := smType p; smHandle := smHandle p;
     anSmType := anSmType p; anSmHandle := anSmHandle p;
     anInterruptMask := anInterruptMask p;
     eventInfo := {| info := info (eventInfo p); regLockTaken := b |} |}.

Definition set_info (i : fm10000_smEventData) (p : fm10000_port) : fm10000_port :=
  {| ring := ring p; smType := smType p; smHandle := smHandle p;
     anSmType := anSmType p; anSmHandle := anSmHandle p;
     anInterruptMask := anInterruptMask p;
     eventInfo := {| info := i; regLockTaken := regLockTaken (eventInfo p) |} |}.

Definition set_anSmType (t : fm_smType) (p : fm10000_port) : fm10000_port :=
  {| ring := ring p; smType := smType p; smHandle := smHandle p;
     anSmType := t; anSmHandle := anSmHandle p;
     anInterruptMask := anInterruptMask p;
     eventInfo := eventInfo p |}.

Definition set_anInterruptMask (m : Z) (p : fm10000_port) : fm10000_port :=
  {| ring := ring p; smType := smType p; smHandle := smHandle p;
     anSmType := anSmType p; anSmHandle := anSmHandle p;
     anInterruptMask := m;
     eventInfo := eventInfo p |}.

Section Stateful.
Context `{AnHeader}.
Context {FW : Type} `{AnEnv FW}.

(** The four outside calls, each logged with its result. *)
Definition call_fmNotifyStateMachineEvent (handle : Z) (ev : SmEvent.t)
  (port : Z) : M FW fm_status :=
  fun '(sw, log) =>
    let '(sw', st) := fmNotifyStateMachineEvent sw handle ev port in
    (Done st, (sw', log ++ [Call sw (OpNotify handle ev port) st])).

Definition call_fmStartStateMachine (handle : Z) (smType : fm_smType)
  (initState : fm_smState) : M FW fm_status :=
  fun '(sw, log) =>
    let '(sw', st) := fmStartStateMachine sw handle smType initState in
    (Done st, (sw', log ++ [Call sw (OpStart handle smType initState) st])).

Definition call_fmStopStateMachine (handle : Z) : M FW fm_status :=
  fun '(sw, log) =>
    let '(sw', st) := fmStopStateMachine sw handle in
    (Done st, (sw', log ++ [Call sw (OpStop handle) st])).

Definition call_MaskUINT32 (reg mask : Z) (on : bool) : M FW fm_status :=
  fun '(sw, log) =>
    let '(sw', st) := MaskUINT32 sw reg mask on in
    (Done st, (sw', log ++ [Call sw (OpMaskUINT32 reg mask on) st])).

(** *** NotifyClause73Events and NotifyClause37Events

    Each [if ( FM_GET_BIT( anIp, FM10000_AN_IP, bit ) ) { ... }] block of
    the two functions: set the event id, clear [regLockTaken], notify
    the port's AN state machine, abort on error.  [status] is the local
    variable as the block finds it, the result as the block leaves it. *)
Definition notify_if_pending (smType : fm_smType) (port anIp bit : Z)
  (eventId : fm_eventId) (status : fm_status) : M FW fm_status :=
  if truthy (FM_GET_BIT anIp bit) then
    let eventInfo :=
      {| SmEvent.smType := smType; SmEvent.eventId := eventId;
         SmEvent.dontSaveRecord := false |} in
    update_port_ext port (set_regLockTaken false) ;;;
    sw <-- get_switch ;;
    status <-- call_fmNotifyStateMachineEvent
                 (anSmHandle (GET_PORT_EXT sw port)) eventInfo port ;;
    FM_LOG_ABORT_ON_ERR status ;;;
    ret status
  else ret status.

Definition NotifyClause73Events (port anIp : Z) : M FW fm_status :=
  let smType := FM10000_CLAUSE73_AN_STATE_MACHINE in
  at_ABORT_return (
    let status := FM_OK in
    status <-- notify_if_pending smType port anIp
                 FM10000_AN_IP_b_An73AbilityDetect
                 FM10000_AN_EVENT_ABILITY_DETECT_IND status ;;
    status <-- notify_if_pending smType port anIp
                 FM10000_AN_IP_b_An73AcknowledgeDetect
                 FM10000_AN_EVENT_ACK_DETECT_IND status ;;
    status <-- notify_if_pending smType port anIp
                 FM10000_AN_IP_b_An73CompleteAcknowledge
                 FM10000_AN_EVENT_COMPLETE_ACK_IND status ;;
    status <-- notify_if_pending smType port anIp
                 FM10000_AN_IP_b_An73NextPageWait
                 FM10000_AN_EVENT_NEXT_PAGE_WAIT_IND status ;;
    status <-- notify_if_pending smType port anIp
                 FM10000_AN_IP_b_An73AnGoodCheck
                 FM10000_AN_EVENT_GOOD_CHECK_IND status ;;
    status <-- notify_if_pending smType port anIp
                 FM10000_AN_IP_b_An73AnGood
                 FM10000_AN_EVENT_GOOD_IND status ;;
    status <-- notify_if_pending smType port anIp
                 FM10000_AN_IP_b_An73TransmitDisable
                 FM10000_AN_EVENT_TRANSMIT_DISABLE_IND status ;;
    ret status).

Definition NotifyClause37Events (port anIp : Z) : M FW fm_status :=
  let smType := FM10000_CLAUSE37_AN_STATE_MACHINE in
  at_ABORT_return (
    let status := FM_OK in
    status <-- notify_if_pending smType port anIp
                 FM10000_AN_IP_b_An37AnEnable
                 FM10000_AN_EVENT_ENABLE_IND status ;;
    status <-- notify_if_pending smType port anIp
                 FM10000_AN_IP_b_An37AnRestart
                 FM10000_AN_EVENT_RESTART_IND status ;;
    status <-- notify_if_pending smType port anIp
                 FM10000_AN_IP_b_An37AnDisableLinkOk
                 FM10000_AN_EVENT_DISABLE_LINK_OK_IND status ;;
    status <-- notify_if_pending smType port anIp
                 FM10000_AN_IP_b_An37AbilityDetect
                 FM10000_AN_EVENT_ABILITY_DETECT_IND status ;;
    status <-- notify_if_pending smType port anIp
                 FM10000_AN_IP_b_An37CompleteAcknowledge
                 FM10000_AN_EVENT_COMPLETE_ACK_IND status ;;
    status <-- notify_if_pending smType port anIp
                 FM10000_AN_IP_b_An37NextPageWait
                 FM10000_AN_EVENT_GOOD_CHECK_IND status ;;
    status <-- notify_if_pending smType port anIp
                 FM10000_AN_IP_b_An37IdleDetect
                 FM10000_AN_EVENT_IDLE_DETECT_IND status ;;
    status <-- notify_if_pending smType port anIp
                 FM10000_AN_IP_b_An37LinkOk
                 FM10000_AN_EVENT_LINK_OK_IND status ;;
    ret status).

(** *** fm10000IsPortAutonegReady

    The result is [(status, *ready, *smType)]; both pointers are those of
    the caller's locals and never NULL in this file. *)
Definition fm10000IsPortAutonegReady (sw : switch FW) (port : Z)
  (ethMode : fm_ethMode) (anMode : fm_autonegMode)
  : fm_status * bool * fm_smType :=
  let portExt := GET_PORT_EXT sw port in
  let portPtr := GET_PORT_PTR sw port in
  let status := FM_OK in
  let ready := false in
  if (bool_decide (portType portPtr = FM_PORT_TYPE_PHYSICAL)
      || (bool_decide (portType portPtr = FM_PORT_TYPE_CPU)
          && negb (port =? 0)))
     && bool_decide (ring portExt = FM10000_SERDES_RING_EPL)
  then
    let smType := anSmType portExt in
    let '(ready, smType) :=
      if bool_decide (anMode = FM_PORT_AUTONEG_CLAUSE_73) then
        (if bool_decide (ethMode = FM_ETH_MODE_AN_73) then true else ready,
         FM10000_CLAUSE73_AN_STATE_MACHINE)
      else (ready, smType) in
    let '(ready, smType) :=
      if bool_decide (anMode = FM_PORT_AUTONEG_CLAUSE_37)
         || bool_decide (anMode = FM_PORT_AUTONEG_SGMII) then
        (if bool_decide (ethMode = FM_ETH_MODE_1000BASE_X)
            || bool_decide (ethMode = FM_ETH_MODE_SGMII) then true else ready,
         FM10000_CLAUSE37_AN_STATE_MACHINE)
      else (ready, smType) in
    (status, ready, smType)
  else (FM_ERR_INVALID_PORT, ready, FM_SMTYPE_UNSPECIFIED).

(** *** fm10000AnSendConfigEvent *)
Definition fm10000AnSendConfigEvent (port : Z) (eventId : fm_eventId)
  (mode : fm_autonegMode) (basepage : Z) (nextPages : fm_anNextPages)
  : M FW fm_status :=
  sw <-- get_switch ;;
  let eventInfo :=
    {| SmEvent.smType := smType (GET_PORT_EXT sw port);
       SmEvent.eventId := eventId;
       SmEvent.dontSaveRecord := false |} in
  update_port_ext port (set_info (InfoAnConfig mode basepage nextPages)) ;;;
  update_port_ext port (set_regLockTaken false) ;;;
  sw <-- get_switch ;;
  call_fmNotifyStateMachineEvent (smHandle (GET_PORT_EXT sw port)) eventInfo port.

(** *** fm10000AnRestartOnNewConfig *)

(** [if ( portExt->anSmType != FM_SMTYPE_UNSPECIFIED ) { ... }]: tell the
    port the current configuration is disabled and stop the current
    state machine.  The statuses of both calls are dropped. *)
Definition stop_current_sm (port : Z) : M FW unit :=
  sw <-- get_switch ;;
  if negb (bool_decide (anSmType (GET_PORT_EXT sw port) = FM_SMTYPE_UNSPECIFIED))
  then
    let portAttr := GET_PORT_ATTR sw port in
    fm10000AnSendConfigEvent port FM10000_PORT_EVENT_AN_DISABLE_REQ
      (autoNegMode portAttr) (autoNegBasePage portAttr)
      (autoNegNextPages portAttr) ;;;
    sw <-- get_switch ;;
    call_fmStopStateMachine (anSmHandle (GET_PORT_EXT sw port)) ;;;
    ret tt
  else ret tt.

(** Start the new state machine, abort on error, record its type. *)
Definition start_new_sm (port : Z) (newAnSmType : fm_smType) : M FW unit :=
  sw <-- get_switch ;;
  status <-- call_fmStartStateMachine (anSmHandle (GET_PORT_EXT sw port))
               newAnSmType FM10000_AN_STATE_DISABLED ;;
  FM_LOG_ABORT_ON_ERR status ;;;
  update_port_ext port (set_anSmType newAnSmType).

(** [/* change the AN interrupt mask */] *)
Definition change_interrupt_mask (port : Z) (anMode : fm_autonegMode)
  : M FW unit :=
  if bool_decide (anMode = FM_PORT_AUTONEG_CLAUSE_73) then
    update_port_ext port (set_anInterruptMask FM10000_AN73_INT_MASK)
  else if bool_decide (anMode = FM_PORT_AUTONEG_CLAUSE_37)
          || bool_decide (anMode = FM_PORT_AUTONEG_SGMII) then
    update_port_ext port (set_anInterruptMask FM10000_AN37_INT_MASK)
  else ret tt.

Definition fm10000AnRestartOnNewConfig (port : Z) (ethMode : fm_ethMode)
  (anMode : fm_autonegMode) (basepage : Z) (nextPages : fm_anNextPages)
  : M FW fm_status :=
  at_ABORT_return (
    sw <-- get_switch ;;
    let '(status, anReady, newAnSmType) :=
      fm10000IsPortAutonegReady sw port ethMode anMode in
    if is_ok status && anReady then
      (if negb (bool_decide (newAnSmType = anSmType (GET_PORT_EXT sw port))) then
         stop_current_sm port ;;;
         start_new_sm port newAnSmType
       else ret tt) ;;;
      change_interrupt_mask port anMode ;;;
      status <-- fm10000AnSendConfigEvent port FM10000_PORT_EVENT_AN_CONFIG_REQ
                   anMode basepage nextPages ;;
      ret status
    else ret status).

(** *** fm10000AnEventHandler *)

(** The part of the handler above its ABORT label. *)
Definition AnEventHandler_body (epl lane anIp : Z) : M FW unit :=
  sw <-- get_switch ;;
  let '(status, serDes) := fm10000MapEplLaneToSerdes sw epl lane in
  FM_LOG_ABORT_ON_ERR status ;;;
  match GET_LANE_EXT sw serDes with
  | Some laneExt =>
      match parentPortExt laneExt with
      | Some port =>
          update_port_ext port (set_info (InfoPhysLane lane)) ;;;
          sw <-- get_switch ;;
          if bool_decide (anSmType (GET_PORT_EXT sw port)
                          = FM10000_CLAUSE73_AN_STATE_MACHINE) then
            status <-- NotifyClause73Events port anIp ;;
            FM_LOG_ABORT_ON_ERR status
          else if bool_decide (anSmType (GET_PORT_EXT sw port)
                               = FM10000_CLAUSE37_AN_STATE_MACHINE) then
            status <-- NotifyClause37Events port anIp ;;
            FM_LOG_ABORT_ON_ERR status
          else ret tt
      | None => ret tt
      end
  | None => ret tt
  end.

(** [ABORT:] unmask the bits of [anIp] in the lane's AN interrupt mask
    register and return the status of that write. *)
Definition fm10000AnEventHandler (epl lane anIp : Z) : M FW fm_status :=
  fun s =>
    let '(_, s') := AnEventHandler_body epl lane anIp s in
    call_MaskUINT32 (FM10000_AN_IM epl lane) anIp false s'.

End Stateful.

(** *** The vocabulary of the properties

    The notions the specification speaks in (the order of the
    interrupt bits, readiness, the speed priority, the extended
    technology ability page), written after its words, and the tables
    and invariants the proofs of Part II relate the code to. *)

(** What the specification says of a result
    [(effective, timeScale, count)] of the timer scaler: [k] is the
    timescale of the last pass of the loop. *)
Definition first_fit (timeoutUsec timeoutMax : Z) (r : Z * Z * Z) : Prop :=
  let '(effective, timeScale, count) := r in
  exists k,
    2 <= k <= 7
    /\ count = timeoutUsec / 10 ^ (k - 2)
    /\ effective = 10 ^ (k - 2) * count
    /\ (forall j, 2 <= j < k -> ~ timeoutUsec / 10 ^ (j - 2) < timeoutMax)
    /\ ((count < timeoutMax /\ timeScale = k
         /\ Z.abs (effective - timeoutUsec) < 10 ^ (k - 1))
        \/ (~ count < timeoutMax /\ k = 7 /\ timeScale = 8)).

Section Vocabulary.
Context `{AnHeader}.
Context {FW : Type} `{AnEnv FW}.

(** The interrupt bits of the Clause 73 dispatcher in the order the
    specification lists them, each with the event named after it. *)
Definition clause73_order : list (Z * fm_eventId) :=
  [ (FM10000_AN_IP_b_An73AbilityDetect, FM10000_AN_EVENT_ABILITY_DETECT_IND);
    (FM10000_AN_IP_b_An73AcknowledgeDetect, FM10000_AN_EVENT_ACK_DETECT_IND);
    (FM10000_AN_IP_b_An73CompleteAcknowledge, FM10000_AN_EVENT_COMPLETE_ACK_IND);
    (FM10000_AN_IP_b_An73NextPageWait, FM10000_AN_EVENT_NEXT_PAGE_WAIT_IND);
    (FM10000_AN_IP_b_An73AnGoodCheck, FM10000_AN_EVENT_GOOD_CHECK_IND);
    (FM10000_AN_IP_b_An73AnGood, FM10000_AN_EVENT_GOOD_IND);
    (FM10000_AN_IP_b_An73TransmitDisable, FM10000_AN_EVENT_TRANSMIT_DISABLE_IND) ].

(** The same for the Clause 37 dispatcher. *)
Definition clause37_order : list (Z * fm_eventId) :=
  [ (FM10000_AN_IP_b_An37AnEnable, FM10000_AN_EVENT_ENABLE_IND);
    (FM10000_AN_IP_b_An37AnRestart, FM10000_AN_EVENT_RESTART_IND);
    (FM10000_AN_IP_b_An37AnDisableLinkOk, FM10000_AN_EVENT_DISABLE_LINK_OK_IND);
    (FM10000_AN_IP_b_An37AbilityDetect, FM10000_AN_EVENT_ABILITY_DETECT_IND);
    (FM10000_AN_IP_b_An37CompleteAcknowledge, FM10000_AN_EVENT_COMPLETE_ACK_IND);
    (FM10000_AN_IP_b_An37NextPageWait, FM10000_AN_EVENT_NEXT_PAGE_WAIT_IND);
    (FM10000_AN_IP_b_An37IdleDetect, FM10000_AN_EVENT_IDLE_DETECT_IND);
    (FM10000_AN_IP_b_An37LinkOk, FM10000_AN_EVENT_LINK_OK_IND) ].

(** The blocks of [NotifyClause37Events] as the code has them: the bit
    tested and the event id assigned in each. *)
Definition clause37_blocks : list (Z * fm_eventId) :=
  [ (FM10000_AN_IP_b_An37AnEnable, FM10000_AN_EVENT_ENABLE_IND);
    (FM10000_AN_IP_b_An37AnRestart, FM10000_AN_EVENT_RESTART_IND);
    (FM10000_AN_IP_b_An37AnDisableLinkOk, FM10000_AN_EVENT_DISABLE_LINK_OK_IND);
    (FM10000_AN_IP_b_An37AbilityDetect, FM10000_AN_EVENT_ABILITY_DETECT_IND);
    (FM10000_AN_IP_b_An37CompleteAcknowledge, FM10000_AN_EVENT_COMPLETE_ACK_IND);
    (FM10000_AN_IP_b_An37NextPageWait, FM10000_AN_EVENT_GOOD_CHECK_IND);
    (FM10000_AN_IP_b_An37IdleDetect, FM10000_AN_EVENT_IDLE_DETECT_IND);
    (FM10000_AN_IP_b_An37LinkOk, FM10000_AN_EVENT_LINK_OK_IND) ].

(** The events of the bits pending in [anIp], in the order of the list. *)
Definition pending_events (anIp : Z) (order : list (Z * fm_eventId))
  : list fm_eventId :=
  map snd (filter (fun be => truthy (FM_GET_BIT anIp (fst be)) = true) order).

(** The log entry [c] is the delivery of event [e] to the AN state
    machine of [port], of type [smT], with [regLockTaken] cleared, and
    it returned [st]. *)
Definition delivered (smT : fm_smType) (port : Z) (st : fm_status)
  (e : fm_eventId) (c : call FW) : Prop :=
  c = Call (call_before c)
        (OpNotify (anSmHandle (GET_PORT_EXT (call_before c) port))
           {| SmEvent.smType := smT; SmEvent.eventId := e;
              SmEvent.dontSaveRecord := false |}
           port)
        st
  /\ regLockTaken (eventInfo (GET_PORT_EXT (call_before c) port)) = false.

(** The sequence of blocks of a Notify function, given as the list of
    its (bit, event) pairs. *)
Fixpoint notify_chain (smT : fm_smType) (port anIp : Z)
  (blocks : list (Z * fm_eventId)) (status : fm_status) : M FW fm_status :=
  match blocks with
  | [] => ret status
  | (bit, e) :: rest =>
      status <-- notify_if_pending smT port anIp bit e status ;;
      notify_chain smT port anIp rest status
  end.

(** The outside call [c], entered in the state [call_before c], was
    answered with the status logged and left the switch in [after]. *)
Definition answered (c : call FW) (after : switch FW) : Prop :=
  match call_op c with
  | OpNotify handle ev port =>
      fmNotifyStateMachineEvent (call_before c) handle ev port
      = (after, call_result c)
  | OpStart handle smType initState =>
      fmStartStateMachine (call_before c) handle smType initState
      = (after, call_result c)
  | OpStop handle =>
      fmStopStateMachine (call_before c) handle = (after, call_result c)
  | OpMaskUINT32 reg mask on =>
      MaskUINT32 (call_before c) reg mask on = (after, call_result c)
  end.

(** The deliveries of the events [evs] to the AN state machine of
    [port] as the specification words them: one after the other in the
    order of the list, each made with [regLockTaken] cleared in the state
    the one before it left, until one is not answered with FM_OK.  The
    result is the log entries, the state the last delivery left and the
    status: FM_OK, or the status of the delivery that stopped them. *)
Fixpoint deliver_in_order (smT : fm_smType) (port : Z) (evs : list fm_eventId)
  (sw : switch FW) : list (call FW) * switch FW * fm_status :=
  match evs with
  | [] => ([], sw, FM_OK)
  | e :: rest =>
      let sw1 :=
        set_port_ext sw port (set_regLockTaken false (GET_PORT_EXT sw port)) in
      let handle := anSmHandle (GET_PORT_EXT sw1 port) in
      let ev := {| SmEvent.smType := smT; SmEvent.eventId := e;
                   SmEvent.dontSaveRecord := false |} in
      let '(sw2, st) := fmNotifyStateMachineEvent sw1 handle ev port in
      let c := Call sw1 (OpNotify handle ev port) st in
      if is_ok st then
        let '(calls, sw', status) := deliver_in_order smT port rest sw2 in
        (c :: calls, sw', status)
      else ([c], sw2, st)
  end.

(** The log entry [c] is the port-level request [e] sent to the port
    state machine of [port] carrying the configuration
    [(mode, basepage, pages)], and it returned [st]. *)
Definition config_event (port : Z) (e : fm_eventId) (mode : fm_autonegMode)
  (basepage : Z) (pages : fm_anNextPages) (st : fm_status) (c : call FW)
  : Prop :=
  let p := GET_PORT_EXT (call_before c) port in
  c = Call (call_before c)
        (OpNotify (smHandle p)
           {| SmEvent.smType := smType p; SmEvent.eventId := e;
              SmEvent.dontSaveRecord := false |}
           port)
        st
  /\ info (eventInfo p) = InfoAnConfig mode basepage pages
  /\ regLockTaken (eventInfo p) = false.

(** [sw'] is [sw] but for the extension of [port]. *)
Definition written_only_at (port : Z) (sw sw' : switch FW) : Prop :=
  GET_PORT_PTR sw' = GET_PORT_PTR sw
  /\ GET_PORT_ATTR sw' = GET_PORT_ATTR sw
  /\ GET_LANE_EXT sw' = GET_LANE_EXT sw
  /\ fw sw' = fw sw
  /\ forall q, q <> port -> GET_PORT_EXT sw' q = GET_PORT_EXT sw q.

(** [sw'] is [sw] but for the event information of [port]: the binding
    of the port to its state machines and its AN interrupt mask are
    those of [sw]. *)
Definition event_info_written (port : Z) (sw sw' : switch FW) : Prop :=
  written_only_at port sw sw'
  /\ ring (GET_PORT_EXT sw' port) = ring (GET_PORT_EXT sw port)
  /\ smType (GET_PORT_EXT sw' port) = smType (GET_PORT_EXT sw port)
  /\ smHandle (GET_PORT_EXT sw' port) = smHandle (GET_PORT_EXT sw port)
  /\ anSmType (GET_PORT_EXT sw' port) = anSmType (GET_PORT_EXT sw port)
  /\ anSmHandle (GET_PORT_EXT sw' port) = anSmHandle (GET_PORT_EXT sw port)
  /\ anInterruptMask (GET_PORT_EXT sw' port)
     = anInterruptMask (GET_PORT_EXT sw port).

(** [sw'] is [sw] with [port] bound to the AN state machine type [t],
    its AN interrupt mask set to [mask] and its event information
    written; nothing else differs. *)
Definition rebound (port : Z) (t : fm_smType) (mask : Z) (sw sw' : switch FW)
  : Prop :=
  written_only_at port sw sw'
  /\ ring (GET_PORT_EXT sw' port) = ring (GET_PORT_EXT sw port)
  /\ smType (GET_PORT_EXT sw' port) = smType (GET_PORT_EXT sw port)
  /\ smHandle (GET_PORT_EXT sw' port) = smHandle (GET_PORT_EXT sw port)
  /\ anSmHandle (GET_PORT_EXT sw' port) = anSmHandle (GET_PORT_EXT sw port)
  /\ anSmType (GET_PORT_EXT sw' port) = t
  /\ anInterruptMask (GET_PORT_EXT sw' port) = mask.

(** The state machine type an autonegotiation mode maps to, and the
    readiness condition of the specification. *)
Definition expected_smType (anMode : fm_autonegMode) : option fm_smType :=
  match anMode with
  | FM_PORT_AUTONEG_CLAUSE_73 => Some FM10000_CLAUSE73_AN_STATE_MACHINE
  | FM_PORT_AUTONEG_CLAUSE_37 => Some FM10000_CLAUSE37_AN_STATE_MACHINE
  | FM_PORT_AUTONEG_SGMII => Some FM10000_CLAUSE37_AN_STATE_MACHINE
  | FM_PORT_AUTONEG_NONE => None
  end.

Definition is_ethernet_port (sw : switch FW) (port : Z) : Prop :=
  (portType (GET_PORT_PTR sw port) = FM_PORT_TYPE_PHYSICAL
   \/ (portType (GET_PORT_PTR sw port) = FM_PORT_TYPE_CPU /\ port <> 0))
  /\ ring (GET_PORT_EXT sw port) = FM10000_SERDES_RING_EPL.

Definition an_ready (sw : switch FW) (port : Z) (ethMode : fm_ethMode)
  (anMode : fm_autonegMode) : Prop :=
  is_ethernet_port sw port
  /\ ((anMode = FM_PORT_AUTONEG_CLAUSE_73 /\ ethMode = FM_ETH_MODE_AN_73)
      \/ ((anMode = FM_PORT_AUTONEG_CLAUSE_37 \/ anMode = FM_PORT_AUTONEG_SGMII)
          /\ (ethMode = FM_ETH_MODE_1000BASE_X \/ ethMode = FM_ETH_MODE_SGMII))).

(** The interrupt mask template of a mode. *)
Definition mask_template (anMode : fm_autonegMode) : Z :=
  match anMode with
  | FM_PORT_AUTONEG_CLAUSE_73 => FM10000_AN73_INT_MASK
  | _ => FM10000_AN37_INT_MASK
  end.

(** Speed and lane mode by the priority 100G, 40G, 25G, 10G, KX over an
    ability word, with the next-page 25G indicator. *)
Definition speed_by_priority (ability : Z) (is25GInNextPage : bool)
  : Z * fm_schedulerPortMode :=
  if truthy (Z.land ability FM10000_AN73_ABILITIES_100G)
  then (100000, FM_SCHED_PORT_MODE_QUAD)
  else if truthy (Z.land ability FM10000_AN73_ABILITIES_40G)
  then (40000, FM_SCHED_PORT_MODE_QUAD)
  else if truthy (Z.land ability FM10000_AN73_ABILITY_25GBASE_KR)
          || truthy (Z.land ability FM10000_AN73_ABILITY_25GBASE_CR)
          || is25GInNextPage
  then (25000, FM_SCHED_PORT_MODE_SINGLE)
  else if truthy (Z.land ability FM10000_AN73_ABILITY_10GBASE_KR)
  then (10000, FM_SCHED_PORT_MODE_SINGLE)
  else if truthy (Z.land ability FM10000_AN73_ABILITY_1000BASE_KX)
  then (2500, FM_SCHED_PORT_MODE_SINGLE)
  else (0, FM_SCHED_PORT_MODE_NONE).

(** The ability word used when the base page is zero: the supported
    abilities without those the port is not capable of. *)
Definition default_abilities (is40GCapable is100GCapable : bool) : Z :=
  let a := fm_uint32 FM10000_AN73_SUPPORTED_ABILITIES in
  let a := if is40GCapable then a
           else fm_uint32 (Z.land a (Z.lnot FM10000_AN73_ABILITIES_40G)) in
  if is100GCapable then a
  else fm_uint32 (Z.land a (Z.lnot FM10000_AN73_ABILITIES_100G)).

(** The technology ability field of a base page. *)
Definition ability_field (basepage : Z) : Z :=
  FM_GET_FIELD64 basepage FM10000_AN_73_BASE_PAGE_TX_l_A
    FM10000_AN_73_BASE_PAGE_TX_h_A.

(** The page at [idx] of the array is an extended technology ability page
    for the port: the page before it is a message page with the OUI
    message code, the page itself is unformatted with code 3 in its low
    nine bits, and the OUI spread over the two equals the one configured
    for the port. *)
Definition ext_tech_page_at (sw : switch FW) (port : Z) (pages : list Z)
  (idx : Z) : Prop :=
  exists pageA pageB,
    array_get pages (idx - 1) = Some pageA
    /\ array_get pages idx = Some pageB
    /\ FM_GET_FIELD64 pageA FM10000_AN_73_NEXT_PAGE_RX_l_MU
         FM10000_AN_73_NEXT_PAGE_RX_h_MU = FM10000_AN_NEXTPAGE_OUI_MSG_CODE
    /\ fm_uint32 (FM_GET_UNNAMED_FIELD64 pageB 0 9) = 3
    /\ nextpage_oui pageA pageB = autoNeg25GNxtPgOui (GET_PORT_ATTR sw port).

(** [idx] is the last such page among the first [numPages] pages. *)
Definition last_ext_tech_page (sw : switch FW) (port : Z) (pages : list Z)
  (numPages idx : Z) : Prop :=
  1 <= idx <= numPages
  /\ ext_tech_page_at sw port pages idx
  /\ forall j, idx < j <= numPages -> ~ ext_tech_page_at sw port pages j.

(** The last of the [numPages] pages is a message page with the OUI
    message code: the unformatted page that should follow it is not
    among the pages. *)
Definition ends_with_oui_message (pages : list Z) (numPages : Z) : Prop :=
  exists page,
    array_get pages (numPages - 1) = Some page
    /\ FM_GET_FIELD64 page FM10000_AN_73_NEXT_PAGE_RX_l_MU
         FM10000_AN_73_NEXT_PAGE_RX_h_MU = FM10000_AN_NEXTPAGE_OUI_MSG_CODE.

(** The storage holds the [numPages] pages and, when the last of them
    is an OUI message page, one word more. *)
Definition pages_stored (pages : list Z) (numPages : Z) : Prop :=
  numPages <= Z.of_nat (length pages)
  /\ (ends_with_oui_message pages numPages ->
      numPages < Z.of_nat (length pages)).

(** Bit 20 or bit 21 of the page at [idx] is set. *)
Definition advertises_25G (pages : list Z) (idx : Z) : Prop :=
  exists page,
    array_get pages idx = Some page
    /\ (truthy (FM_GET_UNNAMED_BIT64 page 21)
        || truthy (FM_GET_UNNAMED_BIT64 page 20)) = true.

(** The runs of a chain of blocks entered with [status = FM_OK]. *)
Definition chain_run (smT : fm_smType) (port anIp : Z)
  (blocks : list (Z * fm_eventId)) (r : outcome fm_status)
  (calls : list (call FW)) : Prop :=
  let evs := pending_events anIp blocks in
  (r = Done FM_OK /\ Forall2 (delivered smT port FM_OK) evs calls)
  \/ (exists st pre e post cs c,
        r = Aborted st /\ st <> FM_OK
        /\ evs = pre ++ e :: post /\ calls = cs ++ [c]
        /\ Forall2 (delivered smT port FM_OK) pre cs
        /\ delivered smT port st e c).

(** What a Notify function leaves: its status, and the deliveries made. *)
Definition dispatch_run (smT : fm_smType) (port anIp : Z)
  (order : list (Z * fm_eventId)) (status : fm_status)
  (calls : list (call FW)) : Prop :=
  let evs := pending_events anIp order in
  (status = FM_OK /\ Forall2 (delivered smT port FM_OK) evs calls)
  \/ (status <> FM_OK
      /\ exists pre e post cs c,
           evs = pre ++ e :: post /\ calls = cs ++ [c]
           /\ Forall2 (delivered smT port FM_OK) pre cs
           /\ delivered smT port status e c).

(** The log entry [c] is a delivery to a state machine. *)
Definition is_delivery (c : call FW) : Prop :=
  exists handle ev port, call_op c = OpNotify handle ev port.

(** What the accumulator of the scan holds after the pages below
    [bound] were examined: nothing found, or the index of the last
    extended technology ability page up to [bound]. *)
Definition scan_acc (sw : switch FW) (port : Z) (pages : list Z) (bound : Z)
  (acc : Z * fm_status) : Prop :=
  (acc = (fm_uint32 (-1), FM_ERR_NOT_FOUND)
   /\ forall j, 1 <= j <= bound -> ~ ext_tech_page_at sw port pages j)
  \/ exists idx, acc = (idx, FM_OK) /\ last_ext_tech_page sw port pages bound idx.

(** Ability bits paired with the speed capability they need.  The first
    list holds the pairs the validator's seven tests name; the second
    adds 25GBASE-CR. *)
Definition checked_speeds : list (Z * Z) :=
  [ (FM10000_AN73_ABILITY_1000BASE_KX, FM_PORT_CAPABILITY_SPEED_1G);
    (FM10000_AN73_ABILITY_10GBASE_KR, FM_PORT_CAPABILITY_SPEED_10G);
    (FM10000_AN73_ABILITY_25GBASE_KR, FM_PORT_CAPABILITY_SPEED_25G);
    (FM10000_AN73_ABILITY_40GBASE_KR4, FM_PORT_CAPABILITY_SPEED_40G);
    (FM10000_AN73_ABILITY_40GBASE_CR4, FM_PORT_CAPABILITY_SPEED_40G);
    (FM10000_AN73_ABILITY_100GBASE_KR4, FM_PORT_CAPABILITY_SPEED_100G);
    (FM10000_AN73_ABILITY_100GBASE_CR4, FM_PORT_CAPABILITY_SPEED_100G) ].

Definition all_speeds : list (Z * Z) :=
  (FM10000_AN73_ABILITY_25GBASE_CR, FM_PORT_CAPABILITY_SPEED_25G)
  :: checked_speeds.

(** [ability] advertises the technology of [p] although [capabilities]
    lacks its speed. *)
Definition lacks_speed (capabilities ability : Z) (p : Z * Z) : bool :=
  truthy (Z.land ability (fst p)) && negb (truthy (Z.land capabilities (snd p))).

End Vocabulary.


End An.

(* ===================================================================== *)
(** ** platform_mgmt.c                                                    *)
(* ===================================================================== *)
Module Mgmt.
Import Std.

Definition MAX_EEPROM_READ_RETRY : Z := 4.
Definition MAX_CONFIG_RETRY : Z := 4.
Definition MAX_TEMP_PORTS : Z := 96.

(** *** Types of the platform headers *)

Inductive fm_platformIntfType :=
| FM_PLAT_INTF_TYPE_NONE
| FM_PLAT_INTF_TYPE_SFPP
| FM_PLAT_INTF_TYPE_QSFP_LANE0
| FM_PLAT_INTF_TYPE_QSFP_LANE1
| FM_PLAT_INTF_TYPE_QSFP_LANE2
| FM_PLAT_INTF_TYPE_QSFP_LANE3
| FM_PLAT_INTF_TYPE_OTHER (code : Z).

Inductive fm_platformXcvrType :=
| FM_PLATFORM_XCVR_TYPE_NOT_PRESENT
| FM_PLATFORM_XCVR_TYPE_UNKNOWN
| FM_PLATFORM_XCVR_TYPE_OTHER (code : Z).

#[global] Instance fm_platformIntfType_eq_dec : EqDecision fm_platformIntfType.
Proof. solve_decision. Defined.
#[global] Instance fm_platformXcvrType_eq_dec : EqDecision fm_platformXcvrType.
Proof. solve_decision. Defined.

(** Lane argument of the transceiver notifications. *)
Inductive fm_portLane :=
| FM_PORT_LANE_NA
| FM_PORT_LANE_ALL
| FM_PORT_LANE (lane : Z).

(** [fm_platformCfgPort], the immutable configuration of a port index. *)
Record fm_platformCfgPort := {
  intfType : fm_platformIntfType;
  port : Z;
  epl : Z;
  hwResourceId : Z
}.

(** [fm_platXcvrInfo], the transceiver record of a port index. *)
Record fm_platXcvrInfo := {
  modState : Z;
  present : bool;
  ethMode : fm_ethMode;
  anEnabled : bool;
  type : fm_platformXcvrType;
  cableLength : Z;
  eeprom : list Z;
  eepromBaseValid : bool;
  eepromExtValid : bool;
  eepromReadRetries : Z;
  configRetries : Z
}.

(** The switch configuration the file reads: FM_PLAT_GET_PORT_CFG,
    FM_PLAT_GET_SWITCH_CFG(sw)->epls[epl].laneToPortIdx[lane] and swNum. *)
Record fm_platformCfgSwitch := {
  ports : list fm_platformCfgPort;
  laneToPortIdx : Z -> Z -> Z;
  swNum : Z
}.

(** *** Constants of the platform headers, which are not among the
    sources: the module state bits, the signal bits of the notifications,
    the "undefined" marker, and the test
    [ethMode & FM_ETH_MODE_MULTI_LANE_MASK]. *)
Class MgmtHeader := {
  FM_PLAT_XCVR_PRESENT : Z;
  FM_PLAT_XCVR_ENABLE : Z;
  FM_PLAT_XCVR_RXLOS : Z;
  FM_PLAT_XCVR_TXFAULT : Z;
  FM_PLAT_XCVR_INTR : Z;
  FM_PORT_XCVRSIG_MODPRES : Z;
  FM_PORT_XCVRSIG_RXLOS : Z;
  FM_PORT_XCVRSIG_TXFAULT : Z;
  FM_PLAT_UNDEFINED : Z;
  XCVR_EEPROM_CACHE_SIZE : Z;
  FM_ETH_MODE_MULTI_LANE_MASK_set : fm_ethMode -> bool
}.

(** *** The platform library and the other code the file calls

    [HW] is the state of everything behind these calls.  The entries of
    the shared library are optional ([libFunc->F] may be NULL); the
    EEPROM decoders are pure functions of the cached bytes. *)
Class MgmtEnv (HW : Type) := {
  (** [GetPortIntrPending(swNum, hwResIdList, max, &numPortsIntr)]:
      the status, the list as the call leaves it, and [numPortsIntr] *)
  GetPortIntrPending :
    option (HW -> Z -> list Z -> Z -> HW * fm_status * list Z * Z);
  SelectBus : option (HW -> Z -> Z -> HW * fm_status);
  (** [GetPortXcvrState(swNum, hwResIdList, numPorts, valid, state)]:
      the status and the two output arrays as the call leaves them *)
  GetPortXcvrState :
    option (HW -> Z -> list Z -> Z -> list Z -> list Z
            -> HW * fm_status * list Z * list Z);
  (** [fmPlatformXcvrEepromRead(sw, port, page, offset, data, length)]:
      the status and the buffer as the call leaves it *)
  fmPlatformXcvrEepromRead :
    HW -> Z -> Z -> Z -> list Z -> Z -> HW * fm_status * list Z;
  fmPlatformXcvrMemWrite : HW -> Z -> Z -> Z -> Z -> HW * fm_status;
  fmPlatformPhyEnable1000BaseTAutoNeg : HW -> Z -> bool -> HW * fm_status;
  (** [fmGetPortAttributeV2(sw, port, 0, 0, FM_PORT_AUTONEG, &value)] *)
  fmGetPortAttributeV2_AUTONEG : HW -> Z -> fm_status * fm_autonegMode;
  fmPlatformSetPortSerdesTxCfg : HW -> Z -> bool -> fm_ethMode -> HW;
  fmNotifyXcvrChange : HW -> Z -> Z -> Z -> Z -> HW;
  fmPlatformEventSendPortXcvrState : HW -> Z -> Z -> fm_portLane -> Z -> HW;
  fmPlatformXcvrEepromIsBaseCsumValid : list Z -> bool;
  fmPlatformXcvrEepromIsExtCsumValid : list Z -> bool;
  fmPlatformXcvrEepromGetType : list Z -> fm_platformXcvrType;
  fmPlatformXcvrEepromGetLen : list Z -> Z;
  fmPlatformXcvrIs1000BaseT : list Z -> bool;
  fmPlatformXcvrIs10G1G : list Z -> bool
}.

(** The platform state: GET_PLAT_STATE(sw)->xcvrInfo and the hardware. *)
Record plat_state {HW : Type} := {
  xcvrInfo : list fm_platXcvrInfo;
  hw : HW
}.
Arguments plat_state : clear implicits.

(** Field assignments on a transceiver record. *)
Definition set_modState (v : Z) (x : fm_platXcvrInfo) : fm_platXcvrInfo :=
  {| modState := v; present := present x; ethMode := ethMode x;
     anEnabled := anEnabled x; type := type x; cableLength := cableLength x;
     eeprom := eeprom x; eepromBaseValid := eepromBaseValid x;
     eepromExtValid := eepromExtValid x;
     eepromReadRetries := eepromReadRetries x;
     configRetries := configRetries x |}.

Definition set_present (v : bool) (x : fm_platXcvrInfo) : fm_platXcvrInfo :=
  {| modState := modState x; present := v; ethMode := ethMode x;
     anEnabled := anEnabled x; type := type x; cableLength := cableLength x;
     eeprom := eeprom x; eepromBaseValid := eepromBaseValid x;
     eepromExtValid := eepromExtValid x;
     eepromReadRetries := eepromReadRetries x;
     configRetries := configRetries x |}.

Definition set_anEnabled (v : bool) (x : fm_platXcvrInfo) : fm_platXcvrInfo :=
  {| modState := modState x; present := present x; ethMode := ethMode x;
     anEnabled := v; type := type x; cableLength := cableLength x;
     eeprom := eeprom x; eepromBaseValid := eepromBaseValid x;
     eepromExtValid := eepromExtValid x;
     eepromReadRetries := eepromReadRetries x;
     configRetries := configRetries x |}.

Definition set_type (v : fm_platformXcvrType) (x : fm_platXcvrInfo)
  : fm_platXcvrInfo :=
  {| modState := modState x; present := present x; ethMode := ethMode x;
     anEnabled := anEnabled x; type := v; cableLength := cableLength x;
     eeprom := eeprom x; eepromBaseValid := eepromBaseValid x;
     eepromExtValid := eepromExtValid x;
     eepromReadRetries := eepromReadRetries x;
     configRetries := configRetries x |}.

Definition set_cableLength (v : Z) (x : fm_platXcvrInfo) : fm_platXcvrInfo :=
  {| modState := modState x; present := present x; ethMode := ethMode x;
     anEnabled := anEnabled x; type := type x; cableLength := v;
     eeprom := eeprom x; eepromBaseValid := eepromBaseValid x;
     eepromExtValid := eepromExtValid x;
     eepromReadRetries := eepromReadRetries x;
     configRetries := configRetries x |}.

Definition set_eeprom (v : list Z) (x : fm_platXcvrInfo) : fm_platXcvrInfo :=
  {| modState := modState x; present := present x; ethMode := ethMode x;
     anEnabled := anEnabled x; type := type x; cableLength := cableLength x;
     eeprom := v; eepromBaseValid := eepromBaseValid x;
     eepromExtValid := eepromExtValid x;
     eepromReadRetries := eepromReadRetries x;
     configRetries := configRetries x |}.

Definition set_eepromBaseValid (v : bool) (x : fm_platXcvrInfo)
  : fm_platXcvrInfo :=
  {| modState := modState x; present := present x; ethMode := ethMode x;
     anEnabled := anEnabled x; type := type x; cableLength := cableLength x;
     eeprom := eeprom x; eepromBaseValid := v;
     eepromExtValid := eepromExtValid x;
     eepromReadRetries := eepromReadRetries x;
     configRetries := configRetries x |}.

Definition set_eepromExtValid (v : bool) (x : fm_platXcvrInfo)
  : fm_platXcvrInfo :=
  {| modState := modState x; present := present x; ethMode := ethMode x;
     anEnabled := anEnabled x; type := type x; cableLength := cableLength x;
     eeprom := eeprom x; eepromBaseValid := eepromBaseValid x;
     eepromExtValid := v;
     eepromReadRetries := eepromReadRetries x;
     configRetries := configRetries x |}.

Definition set_eepromReadRetries (v : Z) (x : fm_platXcvrInfo)
  : fm_platXcvrInfo :=
  {| modState := modState x; present := present x; ethMode := ethMode x;
     anEnabled := anEnabled x; type := type x; cableLength := cableLength x;
     eeprom := eeprom x; eepromBaseValid := eepromBaseValid x;
     eepromExtValid := eepromExtValid x;
     eepromReadRetries := v;
     configRetries := configRetries x |}.

Definition set_configRetries (v : Z) (x : fm_platXcvrInfo) : fm_platXcvrInfo :=
  {| modState := modState x; present := present x; ethMode := ethMode x;
     anEnabled := anEnabled x; type := type x; cableLength := cableLength x;
     eeprom := eeprom x; eepromBaseValid := eepromBaseValid x;
     eepromExtValid := eepromExtValid x;
     eepromReadRetries := eepromReadRetries x;
     configRetries := v |}.

(** [xcvrInfo[idx].field = ...]: an assignment to the record at [idx]. *)
Definition update_xcvrInfo {HW} (st : plat_state HW) (idx : Z)
  (f : fm_platXcvrInfo -> fm_platXcvrInfo) : option (plat_state HW) :=
  x ← array_get (xcvrInfo st) idx;
  l ← array_set (xcvrInfo st) idx (f x);
  Some {| xcvrInfo := l; hw := hw st |}.

Definition set_hw {HW} (st : plat_state HW) (h : HW) : plat_state HW :=
  {| xcvrInfo := xcvrInfo st; hw := h |}.

(** [for (i = 0; i < n; i++) body], threading the state; [None] once an
    iteration read or wrote outside an array. *)
Definition for_loop {S : Type} (n : Z) (body : Z -> S -> option S) (s : S)
  : option S :=
  fold_left (fun acc i => s ← acc; body i s) (seqZ 0 n) (Some s).

Section Code.
Context `{MgmtHeader}.
Context {HW : Type} `{MgmtEnv HW}.

(** *** The EEPROM and port predicates *)
Definition IsSfppModule1000BaseT (xcvrInfo : fm_platXcvrInfo) : bool :=
  if eepromBaseValid xcvrInfo
  then fmPlatformXcvrIs1000BaseT (eeprom xcvrInfo) else false.

Definition IsSfppModuleDualRate (xcvrInfo : fm_platXcvrInfo) : bool :=
  if eepromBaseValid xcvrInfo
  then fmPlatformXcvrIs10G1G (eeprom xcvrInfo) else false.

Definition IsSfppPort1G (xcvrInfo : fm_platXcvrInfo) : bool :=
  match ethMode xcvrInfo with
  | FM_ETH_MODE_DISABLED
  | FM_ETH_MODE_SGMII
  | FM_ETH_MODE_1000BASE_X
  | FM_ETH_MODE_1000BASE_KX => true
  | _ => false
  end.

Definition IsPortAnEnabled (h : HW) (port : Z) : bool :=
  let '(status, anEnabled) := fmGetPortAttributeV2_AUTONEG h port in
  if is_ok status then
    bool_decide (anEnabled = FM_PORT_AUTONEG_SGMII)
    || bool_decide (anEnabled = FM_PORT_AUTONEG_CLAUSE_37)
  else false.

(** *** ConfigureSfppXcvr *)
Definition ConfigureSfppXcvr (h : HW) (port : Z) (xcvrInfo : fm_platXcvrInfo)
  : HW * fm_status :=
  if negb (truthy (Z.land (modState xcvrInfo) FM_PLAT_XCVR_ENABLE)) then
    (h, FM_OK)
  else
    let '(h, dual) :=
      if IsSfppModuleDualRate xcvrInfo then
        let data := if IsSfppPort1G xcvrInfo then 0 else 8 in
        let '(h, status) := fmPlatformXcvrMemWrite h port 1 110 data in
        if negb (is_ok status) then (h, status)
        else fmPlatformXcvrMemWrite h port 1 118 data
      else (h, FM_OK) in
    if negb (is_ok dual) then (h, dual)
    else if IsSfppModule1000BaseT xcvrInfo then
      let enable := IsPortAnEnabled h port in
      if negb (eqb (anEnabled xcvrInfo) enable) then
        let '(h, status) := fmPlatformPhyEnable1000BaseTAutoNeg h port enable in
        if negb (is_ok status) then (h, status) else (h, FM_OK)
      else (h, FM_OK)
    else (h, FM_OK).

(** *** UpdateSerdesSettings *)
Definition UpdateSerdesSettings (sw : fm_platformCfgSwitch)
  (st : plat_state HW) (portIndex : Z) : option (plat_state HW) :=
  portCfg ← array_get (ports sw) portIndex;
  if bool_decide (intfType portCfg = FM_PLAT_INTF_TYPE_SFPP) then
    xcvr ← array_get (xcvrInfo st) portIndex;
    Some (set_hw st
            (fmPlatformSetPortSerdesTxCfg (hw st) (port portCfg) false
               (ethMode xcvr)))
  else if bool_decide (intfType portCfg = FM_PLAT_INTF_TYPE_QSFP_LANE0) then
    xcvr ← array_get (xcvrInfo st) portIndex;
    if FM_ETH_MODE_MULTI_LANE_MASK_set (ethMode xcvr) then
      Some (set_hw st
              (fmPlatformSetPortSerdesTxCfg (hw st) (port portCfg) true
                 (ethMode xcvr)))
    else
      let epl := epl portCfg in
      for_loop 4
        (fun lane st =>
           let portIndex := laneToPortIdx sw epl lane in
           if negb (portIndex =? FM_PLAT_UNDEFINED) then
             portCfg ← array_get (ports sw) portIndex;
             xcvr ← array_get (xcvrInfo st) portIndex;
             Some (set_hw st
                     (fmPlatformSetPortSerdesTxCfg (hw st) (port portCfg)
                        false (ethMode xcvr)))
           else Some st)
        st
  else Some st.

(** *** UpdateXcvrConfig *)
Definition UpdateXcvrConfig (sw : fm_platformCfgSwitch) (st : plat_state HW)
  (portIndex retries : Z) : option (plat_state HW) :=
  portCfg ← array_get (ports sw) portIndex;
  if bool_decide (intfType portCfg = FM_PLAT_INTF_TYPE_SFPP) then
    st ← update_xcvrInfo st portIndex (set_configRetries (retries - 1));
    xcvr ← array_get (xcvrInfo st) portIndex;
    let '(h, status) := ConfigureSfppXcvr (hw st) (port portCfg) xcvr in
    let st := set_hw st h in
    if negb (is_ok status) then
      update_xcvrInfo st portIndex (set_configRetries (retries - 1))
    else
      update_xcvrInfo st portIndex (set_configRetries 0)
  else Some st.

(** *** XcvrReadAndValidateEeprom *)
Definition XcvrReadAndValidateEeprom (sw : fm_platformCfgSwitch)
  (st : plat_state HW) (portIndex : Z) (retry : bool)
  : option (plat_state HW * fm_status) :=
  portCfg ← array_get (ports sw) portIndex;
  xcvr ← array_get (xcvrInfo st) portIndex;
  let '(h, status, data) :=
    fmPlatformXcvrEepromRead (hw st) (port portCfg) 0 0 (eeprom xcvr)
      XCVR_EEPROM_CACHE_SIZE in
  let st := set_hw st h in
  st ← update_xcvrInfo st portIndex (set_eeprom data);
  if is_ok status then
    st ← update_xcvrInfo st portIndex (set_eepromReadRetries 0);
    st ← update_xcvrInfo st portIndex
           (set_eepromBaseValid (fmPlatformXcvrEepromIsBaseCsumValid data));
    st ← update_xcvrInfo st portIndex
           (set_eepromExtValid (fmPlatformXcvrEepromIsExtCsumValid data));
    st ← (if fmPlatformXcvrEepromIsBaseCsumValid data then
            st ← update_xcvrInfo st portIndex
                   (set_type (fmPlatformXcvrEepromGetType data));
            update_xcvrInfo st portIndex
              (set_cableLength (fmPlatformXcvrEepromGetLen data))
          else
            st ← update_xcvrInfo st portIndex
                   (set_type FM_PLATFORM_XCVR_TYPE_UNKNOWN);
            update_xcvrInfo st portIndex (set_cableLength 0));
    Some (st, status)
  else if negb retry then
    st ← update_xcvrInfo st portIndex
           (set_eepromReadRetries MAX_EEPROM_READ_RETRY);
    st ← update_xcvrInfo st portIndex (set_type FM_PLATFORM_XCVR_TYPE_UNKNOWN);
    Some (st, status)
  else Some (st, status).

(** *** XcvrUpdateState *)

(** [(valid & bit) && (oldState & bit) != (xcvrState & bit)] *)
Definition bit_changed (xcvrStateValid oldState xcvrState bit : Z) : bool :=
  truthy (Z.land xcvrStateValid bit)
  && negb (Z.land oldState bit =? Z.land xcvrState bit).

(** The block run when the PRESENT bit changed.  Every assignment goes
    to [xcvrInfo[portIdx]] except the last: [xcvrInfo->eeprom] is the
    EEPROM cache of the first record of the table. *)
Definition present_changed (st : plat_state HW) (portIdx : Z) (present : bool)
  : option (plat_state HW) :=
  st ← update_xcvrInfo st portIdx (set_type FM_PLATFORM_XCVR_TYPE_NOT_PRESENT);
  st ← update_xcvrInfo st portIdx (set_cableLength 0);
  st ← update_xcvrInfo st portIdx (set_present present);
  st ← update_xcvrInfo st portIdx (set_eepromBaseValid false);
  st ← update_xcvrInfo st portIdx (set_eepromExtValid false);
  st ← update_xcvrInfo st portIdx (set_eepromReadRetries 0);
  update_xcvrInfo st 0
    (fun x => set_eeprom (replicate (length (eeprom x)) 255) x).

(** The block run when the ENABLE bit changed: both assignments go
    through [xcvrInfo->], the first record of the table. *)
Definition enable_changed (st : plat_state HW) : option (plat_state HW) :=
  st ← update_xcvrInfo st 0 (set_configRetries 0);
  update_xcvrInfo st 0 (set_anEnabled false).

(** The body of [if (oldState ^ xcvrState)]; the result carries [notify]. *)
Definition state_changed (sw : fm_platformCfgSwitch) (st : plat_state HW)
  (portIdx xcvrStateValid xcvrState oldState : Z) (present : bool)
  (notify : bool) : option (plat_state HW * bool) :=
  st ← update_xcvrInfo st portIdx (set_modState xcvrState);
  '(st, notify) ←
    (if bit_changed xcvrStateValid oldState xcvrState FM_PLAT_XCVR_PRESENT then
       st ← present_changed st portIdx present; Some (st, true)
     else Some (st, notify));
  '(st, notify) ←
    (if bit_changed xcvrStateValid oldState xcvrState FM_PLAT_XCVR_ENABLE then
       st ← enable_changed st; Some (st, true)
     else Some (st, notify));
  st ←
    (if notify && present && truthy (Z.land xcvrState FM_PLAT_XCVR_ENABLE) then
       '(st, status) ← XcvrReadAndValidateEeprom sw st portIdx false;
       if is_ok status then
         st ← UpdateSerdesSettings sw st portIdx;
         UpdateXcvrConfig sw st portIdx MAX_CONFIG_RETRY
       else Some st
     else Some st);
  let notify :=
    if bit_changed xcvrStateValid oldState xcvrState FM_PLAT_XCVR_RXLOS
    then true else notify in
  let notify :=
    if bit_changed xcvrStateValid oldState xcvrState FM_PLAT_XCVR_TXFAULT
    then true else notify in
  Some (st, notify).

(** The body of [if (notify || force)]: the notifications to the API and
    to the application. *)
Definition send_notifications (sw : fm_platformCfgSwitch) (st : plat_state HW)
  (portIdx : Z) (portCfg : fm_platformCfgPort) (present : bool)
  (xcvrState : Z) : option (plat_state HW) :=
  let port := port portCfg in
  let xcvrSignals := 0 in
  let xcvrSignals :=
    if present then Z.lor xcvrSignals FM_PORT_XCVRSIG_MODPRES else xcvrSignals in
  if bool_decide (intfType portCfg = FM_PLAT_INTF_TYPE_SFPP) then
    let xcvrSignals :=
      if truthy (Z.land xcvrState FM_PLAT_XCVR_RXLOS)
      then Z.lor xcvrSignals FM_PORT_XCVRSIG_RXLOS else xcvrSignals in
    let xcvrSignals :=
      if truthy (Z.land xcvrState FM_PLAT_XCVR_TXFAULT)
      then Z.lor xcvrSignals FM_PORT_XCVRSIG_TXFAULT else xcvrSignals in
    xcvr ← array_get (xcvrInfo st) portIdx;
    let st :=
      if negb (bool_decide (ethMode xcvr = FM_ETH_MODE_DISABLED))
      then set_hw st (fmNotifyXcvrChange (hw st) port 0 0 xcvrSignals)
      else st in
    Some (set_hw st
            (fmPlatformEventSendPortXcvrState (hw st) port 0 FM_PORT_LANE_NA
               xcvrSignals))
  else if bool_decide (intfType portCfg = FM_PLAT_INTF_TYPE_QSFP_LANE0) then
    xcvr ← array_get (xcvrInfo st) portIdx;
    if negb (FM_ETH_MODE_MULTI_LANE_MASK_set (ethMode xcvr)) then
      let epl := epl portCfg in
      st ← for_loop 4
             (fun lane st =>
                let lanePortIdx := laneToPortIdx sw epl lane in
                if lanePortIdx =? FM_PLAT_UNDEFINED then Some st
                else
                  laneXcvr ← array_get (xcvrInfo st) lanePortIdx;
                  if negb (bool_decide (ethMode laneXcvr = FM_ETH_MODE_DISABLED))
                  then
                    pCfg ← array_get (ports sw) lanePortIdx;
                    Some (set_hw st
                            (fmNotifyXcvrChange (hw st) (Mgmt.port pCfg) 0 0
                               xcvrSignals))
                  else Some st)
             st;
      Some (set_hw st
              (fmPlatformEventSendPortXcvrState (hw st) port 0 FM_PORT_LANE_NA
                 xcvrSignals))
    else
      st ← for_loop 4
             (fun lane st =>
                xcvr ← array_get (xcvrInfo st) portIdx;
                if negb (bool_decide (ethMode xcvr = FM_ETH_MODE_DISABLED))
                then Some (set_hw st
                             (fmNotifyXcvrChange (hw st) port 0 lane xcvrSignals))
                else Some st)
             st;
      Some (set_hw st
              (fmPlatformEventSendPortXcvrState (hw st) port 0 FM_PORT_LANE_ALL
                 xcvrSignals))
  else Some st.

(** One iteration of the loop over the candidate ports, for the entry
    [(portIdx, xcvrStateValid, xcvrState)] of the three arrays.
    [present] holds [xcvrState & FM_PLAT_XCVR_PRESENT] as a truth
    value. *)
Definition XcvrUpdateState_port (sw : fm_platformCfgSwitch) (force : bool)
  (st : plat_state HW) (portIdx xcvrStateValid xcvrState : Z)
  : option (plat_state HW) :=
  portCfg ← array_get (ports sw) portIdx;
  if negb (bool_decide (intfType portCfg = FM_PLAT_INTF_TYPE_SFPP)
           || bool_decide (intfType portCfg = FM_PLAT_INTF_TYPE_QSFP_LANE0))
  then Some st
  else
    xcvr ← array_get (xcvrInfo st) portIdx;
    let oldState := modState xcvr in
    let present := truthy (Z.land xcvrState FM_PLAT_XCVR_PRESENT) in
    let notify := false in
    '(st, notify) ←
      (if truthy (Z.lxor oldState xcvrState) then
         state_changed sw st portIdx xcvrStateValid xcvrState oldState present
           notify
       else Some (st, notify));
    if notify || force then
      send_notifications sw st portIdx portCfg present xcvrState
    else Some st.

(** [for (hwResIdIdx = 0 ; hwResIdIdx < numPorts ; hwResIdIdx++)]; the
    three arrays are read at [hwResIdIdx] before the iteration is
    entered. *)
Definition XcvrUpdateState_loop (sw : fm_platformCfgSwitch) (force : bool)
  (numPorts : Z) (hwResIdIdxList xcvrStateValidList xcvrStateList : list Z)
  (st : plat_state HW) : option (plat_state HW) :=
  for_loop numPorts
    (fun hwResIdIdx st =>
       portIdx ← array_get hwResIdIdxList hwResIdIdx;
       xcvrStateValid ← array_get xcvrStateValidList hwResIdIdx;
       xcvrState ← array_get xcvrStateList hwResIdIdx;
       XcvrUpdateState_port sw force st portIdx xcvrStateValid xcvrState)
    st.

(** The local arrays of [XcvrUpdateState] as it finds them on entry. *)
Record locals := {
  hwResIdList : list Z;
  hwResIdIdxList : list Z;
  xcvrStateValidList : list Z;
  xcvrStateList : list Z
}.

(** The candidate ports taken from the pending interrupts: for every
    pending id, every port index with that id is recorded at the id's
    position.  The state is [(hwResIdIdxList, numPorts)]. *)
Definition ports_from_interrupts (sw : fm_platformCfgSwitch)
  (hwResIdList : list Z) (numPortsIntr : Z) (hwResIdIdxList : list Z)
  : option (list Z * Z) :=
  for_loop numPortsIntr
    (fun cnt s =>
       for_loop (Z.of_nat (length (ports sw)))
         (fun portIdx '(hwResIdIdxList, numPorts) =>
            portCfg ← array_get (ports sw) portIdx;
            id ← array_get hwResIdList cnt;
            if hwResourceId portCfg =? id then
              l ← array_set hwResIdIdxList cnt portIdx;
              Some (l, numPorts + 1)
            else Some (hwResIdIdxList, numPorts))
         s)
    (hwResIdIdxList, 0).

(** The candidate ports when every transceiver port is updated.  The
    state is [(hwResIdList, hwResIdIdxList, numPorts)]. *)
Definition ports_all (sw : fm_platformCfgSwitch)
  (hwResIdList hwResIdIdxList : list Z) : option (list Z * list Z * Z) :=
  for_loop (Z.of_nat (length (ports sw)))
    (fun portIdx '(hwResIdList, hwResIdIdxList, numPorts) =>
       portCfg ← array_get (ports sw) portIdx;
       if negb (bool_decide (intfType portCfg = FM_PLAT_INTF_TYPE_SFPP)
                || bool_decide (intfType portCfg = FM_PLAT_INTF_TYPE_QSFP_LANE0))
       then Some (hwResIdList, hwResIdIdxList, numPorts)
       else
         l1 ← array_set hwResIdList numPorts (hwResourceId portCfg);
         l2 ← array_set hwResIdIdxList numPorts portIdx;
         Some (l1, l2, numPorts + 1))
    (hwResIdList, hwResIdIdxList, 0).

(** The function itself.  The bus lock taken around the library calls is
    not modelled: one thread runs. *)
Definition XcvrUpdateState (sw : fm_platformCfgSwitch) (st : plat_state HW)
  (force interrupting : bool) (loc : locals) : option (plat_state HW) :=
  match GetPortXcvrState with
  | None => Some st
  | Some getPortXcvrState =>
      let numPortsIntr := 0 in
      let numPorts := 0 in
      '(st, hwResIdList, hwResIdIdxList, numPortsIntr, numPorts) ←
        match interrupting, GetPortIntrPending with
        | true, Some getPortIntrPending =>
            let '(h, status, hwResIdList, numPortsIntr) :=
              getPortIntrPending (hw st) (swNum sw) (hwResIdList loc)
                MAX_TEMP_PORTS in
            let st := set_hw st h in
            if is_ok status then
              '(hwResIdIdxList, numPorts) ←
                ports_from_interrupts sw hwResIdList numPortsIntr
                  (hwResIdIdxList loc);
              Some (st, hwResIdList, hwResIdIdxList, numPortsIntr, numPorts)
            else
              Some (st, hwResIdList, hwResIdIdxList loc, numPortsIntr, numPorts)
        | _, _ =>
            Some (st, hwResIdList loc, hwResIdIdxList loc, numPortsIntr, numPorts)
        end;
      '(hwResIdList, hwResIdIdxList, numPorts) ←
        (if numPortsIntr <=? 0 then ports_all sw hwResIdList hwResIdIdxList
         else Some (hwResIdList, hwResIdIdxList, numPorts));
      if numPorts =? 0 then Some st
      else
        st ←
          match SelectBus with
          | Some selectBus =>
              id ← array_get hwResIdList 0;
              let '(h, _) := selectBus (hw st) (swNum sw) id in
              Some (set_hw st h)
          | None => Some st
          end;
        let '(h, status, xcvrStateValidList, xcvrStateList) :=
          getPortXcvrState (hw st) (swNum sw) hwResIdList numPorts
            (xcvrStateValidList loc) (xcvrStateList loc) in
        let st := set_hw st h in
        if negb (is_ok status) then Some st
        else
          XcvrUpdateState_loop sw force numPorts hwResIdIdxList
            xcvrStateValidList xcvrStateList st
  end.

End Code.


(** *** Vocabulary of the properties *)
Section Vocabulary.
Context `{MgmtHeader} {HW : Type} `{MgmtEnv HW}.

(** The assignments of the PRESENT block to [xcvrInfo[portIdx]]. *)
Definition reset_record (present : bool) (x : fm_platXcvrInfo) : fm_platXcvrInfo :=
  set_eepromReadRetries 0
    (set_eepromExtValid false
       (set_eepromBaseValid false
          (set_present present
             (set_cableLength 0
                (set_type FM_PLATFORM_XCVR_TYPE_NOT_PRESENT x))))).

(** The memset of the PRESENT block. *)
Definition wipe_eeprom (x : fm_platXcvrInfo) : fm_platXcvrInfo :=
  set_eeprom (replicate (length (eeprom x)) 255) x.

(** The lane table of the switch only names port indices of the table. *)
Definition lanes_ok (sw : fm_platformCfgSwitch) (st : plat_state HW) : Prop :=
  length (ports sw) = length (xcvrInfo st)
  /\ forall epl lane,
       laneToPortIdx sw epl lane = FM_PLAT_UNDEFINED
       \/ 0 <= laneToPortIdx sw epl lane < Z.of_nat (length (ports sw)).

(** What the PRESENT block leaves in the record of its port. *)
Definition is_reset (present : bool) (xcvrState : Z) (x : fm_platXcvrInfo) : Prop :=
  type x = FM_PLATFORM_XCVR_TYPE_NOT_PRESENT
  /\ cableLength x = 0
  /\ eepromBaseValid x = false
  /\ eepromExtValid x = false
  /\ eepromReadRetries x = 0
  /\ Mgmt.present x = present
  /\ modState x = xcvrState.

(** [x'] is [x] up to the three fields written through [xcvrInfo->]:
    the EEPROM cache, the configuration retries and [anEnabled]. *)
Definition same_core (x x' : fm_platXcvrInfo) : Prop :=
  modState x' = modState x /\ present x' = present x /\ ethMode x' = ethMode x
  /\ type x' = type x /\ cableLength x' = cableLength x
  /\ eepromBaseValid x' = eepromBaseValid x
  /\ eepromExtValid x' = eepromExtValid x
  /\ eepromReadRetries x' = eepromReadRetries x.

(** What the iteration of another port leaves of the record at [p]:
    all of it, or all but those three fields when [p] is the first
    record of the table. *)
Definition kept (p : Z) (x x' : fm_platXcvrInfo) : Prop :=
  if decide (p = 0) then same_core x x' else x' = x.

Definition frame (p : Z) (st st' : plat_state HW) : Prop :=
  length (xcvrInfo st') = length (xcvrInfo st)
  /\ forall x, array_get (xcvrInfo st) p = Some x ->
       exists x', array_get (xcvrInfo st') p = Some x' /\ kept p x x'.

(** [m] returns a state, and it keeps the record at [p]. *)
Definition framed (p : Z) (st : plat_state HW) (m : option (plat_state HW)) : Prop :=
  exists st', m = Some st' /\ frame p st st'.

End Vocabulary.

End Mgmt.

(* ===================================================================== *)
(** ** Sample headers, callbacks and states                               *)
(* ===================================================================== *)

(** One admissible choice for everything Part I leaves open, used to
    exhibit concrete runs.  The header values follow the page and
    register layouts of IEEE 802.3 Clause 73 and Annex 28C. *)
Module Sample.
Import Std An.

Definition header : AnHeader := {|
  FM10000_AN_IP_b_An73AbilityDetect := 1;
  FM10000_AN_IP_b_An73AcknowledgeDetect := 2;
  FM10000_AN_IP_b_An73CompleteAcknowledge := 3;
  FM10000_AN_IP_b_An73NextPageWait := 4;
  FM10000_AN_IP_b_An73AnGoodCheck := 5;
  FM10000_AN_IP_b_An73AnGood := 6;
  FM10000_AN_IP_b_An73TransmitDisable := 0;
  FM10000_AN_IP_b_An37AnEnable := 9;
  FM10000_AN_IP_b_An37AnRestart := 10;
  FM10000_AN_IP_b_An37AnDisableLinkOk := 11;
  FM10000_AN_IP_b_An37AbilityDetect := 12;
  FM10000_AN_IP_b_An37CompleteAcknowledge := 14;
  FM10000_AN_IP_b_An37NextPageWait := 15;
  FM10000_AN_IP_b_An37IdleDetect := 16;
  FM10000_AN_IP_b_An37LinkOk := 17;
  FM10000_AN_IM := fun epl lane => 1024 * epl + 128 * lane + 23;
  FM10000_AN_73_BASE_PAGE_TX_l_A := 21;
  FM10000_AN_73_BASE_PAGE_TX_h_A := 45;
  FM10000_AN_73_NEXT_PAGE_RX_l_MU := 0;
  FM10000_AN_73_NEXT_PAGE_RX_h_MU := 10;
  FM10000_AN_NEXTPAGE_OUI_MSG_CODE := 5;
  FM10000_AN73_ABILITY_1000BASE_KX := 1;
  FM10000_AN73_ABILITY_10GBASE_KR := 4;
  FM10000_AN73_ABILITY_25GBASE_KR := 512;
  FM10000_AN73_ABILITY_25GBASE_CR := 1024;
  FM10000_AN73_ABILITY_40GBASE_KR4 := 8;
  FM10000_AN73_ABILITY_40GBASE_CR4 := 16;
  FM10000_AN73_ABILITY_100GBASE_KR4 := 128;
  FM10000_AN73_ABILITY_100GBASE_CR4 := 256;
  FM10000_AN73_ABILITIES_40G := 24;
  FM10000_AN73_ABILITIES_100G := 384;
  FM10000_AN73_SUPPORTED_ABILITIES := 1949;
  FM10000_AN73_UNSUPPORTED_ABILITIES := Z.lnot 1949;
  FM_PORT_CAPABILITY_SPEED_1G := 4;
  FM_PORT_CAPABILITY_SPEED_10G := 16;
  FM_PORT_CAPABILITY_SPEED_25G := 64;
  FM_PORT_CAPABILITY_SPEED_40G := 128;
  FM_PORT_CAPABILITY_SPEED_100G := 256;
  FM10000_AN73_INT_MASK := 511;
  FM10000_AN37_INT_MASK := 523776
|}.

(** Callbacks that change nothing; the framework calls return
    [notifyStatus], [startStatus] and FM_OK. *)
Definition env (notifyStatus startStatus : fm_status) : AnEnv unit := {|
  fmNotifyStateMachineEvent := fun sw _ _ _ => (sw, notifyStatus);
  fmStartStateMachine := fun sw _ _ _ => (sw, startStatus);
  fmStopStateMachine := fun sw _ => (sw, FM_OK);
  MaskUINT32 := fun sw _ _ _ => (sw, FM_OK);
  fm10000MapEplLaneToSerdes := fun _ epl lane => (FM_OK, 4 * epl + lane);
  fm10000GetMultiLaneCapabilities := fun _ _ => (FM_OK, false, false)
|}.

Definition no_pages : fm_anNextPages := {| numPages := 0; nextPages := [] |}.

(** A switch whose every port is a physical EPL port bound to the AN
    state machine type [t], with capabilities [caps], configured next
    pages [np] and 25G next-page OUI [oui]. *)
Definition sw (t : fm_smType) (caps : Z) (np : fm_anNextPages) (oui : Z)
  : switch unit := {|
  GET_PORT_PTR := fun p =>
    {| portType := FM_PORT_TYPE_PHYSICAL; capabilities := caps;
       portNumber := p |};
  GET_PORT_EXT := fun _ =>
    {| ring := FM10000_SERDES_RING_EPL;
       smType := FM_SMTYPE_OTHER 7; smHandle := 100;
       anSmType := t; anSmHandle := 200;
       anInterruptMask := 0;
       eventInfo := {| info := InfoUnset; regLockTaken := true |} |};
  GET_PORT_ATTR := fun _ =>
    {| autoNegMode := FM_PORT_AUTONEG_CLAUSE_73;
       autoNegBasePage := 4 * 2 ^ 21;
       autoNegNextPages := np;
       autoNeg25GNxtPgOui := oui |};
  GET_LANE_EXT := fun s => Some {| parentPortExt := Some (s + 1) |};
  fw := tt
|}.

(** Next pages carrying the 25G extended technology ability: a message
    page with the OUI message code and an unformatted page with code 3,
    together spelling the OUI 6A-73-7D, the second with bit 21 set.  The
    storage has room for a third page. *)
Definition oui_25g : Z := 6976381.

Definition pages_25g : fm_anNextPages :=
  {| numPages := 2; nextPages := [5355879989253; 2097667; 0] |}.

(** A Clause 73 port with 10G capability configured with these pages. *)
Definition sw73 : switch unit :=
  sw FM10000_CLAUSE73_AN_STATE_MACHINE 16 pages_25g oui_25g.

(** A single page, an OUI message page, in storage of exactly one page. *)
Definition lone_oui_page : fm_anNextPages :=
  {| numPages := 1; nextPages := [5] |}.

End Sample.

Module MgmtSample.
Import Std Mgmt.

Definition header : MgmtHeader := {|
  FM_PLAT_XCVR_PRESENT := 1;
  FM_PLAT_XCVR_ENABLE := 2;
  FM_PLAT_XCVR_RXLOS := 4;
  FM_PLAT_XCVR_TXFAULT := 8;
  FM_PLAT_XCVR_INTR := 16;
  FM_PORT_XCVRSIG_MODPRES := 1;
  FM_PORT_XCVRSIG_RXLOS := 2;
  FM_PORT_XCVRSIG_TXFAULT := 4;
  FM_PLAT_UNDEFINED := -1;
  XCVR_EEPROM_CACHE_SIZE := 4;
  FM_ETH_MODE_MULTI_LANE_MASK_set := fun m =>
    match m with
    | FM_ETH_MODE_40GBASE_KR4 | FM_ETH_MODE_40GBASE_CR4
    | FM_ETH_MODE_100GBASE_KR4 | FM_ETH_MODE_100GBASE_CR4 => true
    | _ => false
    end
|}.

(** A platform without interrupt support whose state query reports
    [valid] and [state] for the candidate ports, whose EEPROM reads
    fail, and whose other calls succeed. *)
Definition platform (valid state : list Z) : MgmtEnv unit := {|
  GetPortIntrPending := None;
  SelectBus := None;
  GetPortXcvrState := Some (fun h _ _ _ _ _ => (h, FM_OK, valid, state));
  fmPlatformXcvrEepromRead := fun h _ _ _ data _ =>
    (h, FM_ERR_I2C_NO_RESPONSE, data);
  fmPlatformXcvrMemWrite := fun h _ _ _ _ => (h, FM_OK);
  fmPlatformPhyEnable1000BaseTAutoNeg := fun h _ _ => (h, FM_OK);
  fmGetPortAttributeV2_AUTONEG := fun _ _ => (FM_OK, FM_PORT_AUTONEG_NONE);
  fmPlatformSetPortSerdesTxCfg := fun h _ _ _ => h;
  fmNotifyXcvrChange := fun h _ _ _ _ => h;
  fmPlatformEventSendPortXcvrState := fun h _ _ _ _ => h;
  fmPlatformXcvrEepromIsBaseCsumValid := fun _ => true;
  fmPlatformXcvrEepromIsExtCsumValid := fun _ => true;
  fmPlatformXcvrEepromGetType := fun _ => FM_PLATFORM_XCVR_TYPE_OTHER 3;
  fmPlatformXcvrEepromGetLen := fun _ => 0;
  fmPlatformXcvrIs1000BaseT := fun _ => false;
  fmPlatformXcvrIs10G1G := fun _ => false
|}.

(** The module of the second port was pulled: every bit is valid, the
    first port reports PRESENT and ENABLE, the second ENABLE only. *)
Definition removal : MgmtEnv unit := platform [31; 31] [3; 2].

(** Two SFP+ ports. *)
Definition sw : fm_platformCfgSwitch := {|
  ports :=
    [ {| intfType := FM_PLAT_INTF_TYPE_SFPP; port := 1; epl := 0;
         hwResourceId := 10 |};
      {| intfType := FM_PLAT_INTF_TYPE_SFPP; port := 2; epl := 0;
         hwResourceId := 11 |} ];
  laneToPortIdx := fun _ _ => -1;
  swNum := 0
|}.

(** A module that is present and enabled, was read successfully, and is
    in the middle of its configuration retries. *)
Definition plugged (bytes : list Z) : fm_platXcvrInfo := {|
  modState := 3;
  present := true;
  ethMode := FM_ETH_MODE_10GBASE_KR;
  anEnabled := false;
  type := FM_PLATFORM_XCVR_TYPE_OTHER 3;
  cableLength := 5;
  eeprom := bytes;
  eepromBaseValid := true;
  eepromExtValid := true;
  eepromReadRetries := 0;
  configRetries := 3
|}.

Definition state : plat_state unit :=
  {| xcvrInfo := [plugged [3; 4; 7; 33]; plugged [3; 4; 9; 35]]; hw := tt |}.

(** The local arrays as the function finds them. *)
Definition stack : locals := {|
  hwResIdList := replicate 96 0;
  hwResIdIdxList := replicate 96 0;
  xcvrStateValidList := replicate 96 0;
  xcvrStateList := replicate 96 0
|}.

End MgmtSample.

(* ===================================================================== *)
(** ** fm10000_api_an.c: timers, the nonce, next pages and the HCD        *)
(* ===================================================================== *)
Module AnAttr.
Import Std An.

(** *** Constants of the headers these functions take *)
Class AnAttrHeader := {
  (** capacity of a port's list of next pages *)
  MAX_NUM_NEXTPAGES : Z;
  (** position of the NP bit of a transmitted next page *)
  FM10000_AN_73_NEXT_PAGE_TX_b_NP : Z;
  (** the EEE message code and the EEE bits of a received next page *)
  FM10000_AN_NEXTPAGE_EEE_MSG_CODE : Z;
  FM10000_AN_73_NEXTPAGE_EEE_10GBASE_KR : Z;
  FM10000_AN_73_NEXTPAGE_EEE_1000BASE_KX : Z;
  (** link fail inhibit timers, in milliseconds *)
  LINK_INHIBIT_TIMER_MILLISEC : Z;
  LINK_INHIBIT_TIMER_MILLISEC_KX : Z;
  FM10000_AN73_LINK_FAIL_INHIBIT_TIMEOUT_DEBUG : Z;
  FM10000_AN73_LINK_FAIL_INHIBIT_TIMEOUT_MAX : Z;
  (** the AN_73_CFG register of an EPL lane and its IgnoreNonceMatch bit *)
  FM10000_AN_73_CFG : Z -> Z -> Z;
  FM10000_AN_73_CFG_b_IgnoreNonceMatch : Z;
  (** highest common denominators the file maps to an Ethernet mode *)
  AN73_HCD_KX : Z;
  AN73_HCD_10_KR : Z;
  AN73_HCD_40_CR4 : Z;
  AN73_HCD_40_KR4 : Z;
  AN73_HCD_100_KR4 : Z;
  AN73_HCD_100_CR4 : Z;
  AN73_HCD_25_KR : Z;
  AN73_HCD_25_CR : Z
}.

(** [FM_SET_BIT(lvalue, reg, bit, bitvalue)] of the SDK's standard header
    on an [fm_uint32]:
    [(lvalue & ~(1 << b)) | ((bitvalue & 1) << b)]. *)
Definition FM_SET_BIT (lvalue b bitvalue : Z) : Z :=
  fm_uint32
    (Z.lor (Z.land lvalue (Z.lnot (Z.shiftl 1 b)))
       (Z.shiftl (Z.land bitvalue 1) b)).

(** [fm_bool] as the integer it is. *)
Definition fm_bool_val (b : bool) : Z := if b then 1 else 0.

(** [fm10000_portAttr], the FM10000 extension of the port attributes: the
    members this file writes. *)
Record fm10000_portAttr := {
  autoNegLinkInhbTimer : Z;
  autoNegLinkInhbTimerKx : Z;
  autoNegIgnoreNonce : bool;
  negotiatedEeeModeEnabled : bool
}.

Definition set_autoNegLinkInhbTimer (v : Z) (a : fm10000_portAttr) :=
  {| autoNegLinkInhbTimer := v;
     autoNegLinkInhbTimerKx := autoNegLinkInhbTimerKx a;
     autoNegIgnoreNonce := autoNegIgnoreNonce a;
     negotiatedEeeModeEnabled := negotiatedEeeModeEnabled a |}.

Definition set_autoNegLinkInhbTimerKx (v : Z) (a : fm10000_portAttr) :=
  {| autoNegLinkInhbTimer := autoNegLinkInhbTimer a;
     autoNegLinkInhbTimerKx := v;
     autoNegIgnoreNonce := autoNegIgnoreNonce a;
     negotiatedEeeModeEnabled := negotiatedEeeModeEnabled a |}.

Definition set_autoNegIgnoreNonce (v : bool) (a : fm10000_portAttr) :=
  {| autoNegLinkInhbTimer := autoNegLinkInhbTimer a;
     autoNegLinkInhbTimerKx := autoNegLinkInhbTimerKx a;
     autoNegIgnoreNonce := v;
     negotiatedEeeModeEnabled := negotiatedEeeModeEnabled a |}.

Definition set_negotiatedEeeModeEnabled (v : bool) (a : fm10000_portAttr) :=
  {| autoNegLinkInhbTimer := autoNegLinkInhbTimer a;
     autoNegLinkInhbTimerKx := autoNegLinkInhbTimerKx a;
     autoNegIgnoreNonce := autoNegIgnoreNonce a;
     negotiatedEeeModeEnabled := v |}.

(** [portAttr->autoNegNextPages] with its pointer: [None] is NULL,
    [Some l] a pointer to the storage [l]. *)
Record next_pages_ptr := {
  numPages_of : Z;
  nextPages_of : option (list Z)
}.

(** The register accesses of the switch ([switchPtr->ReadUINT32],
    [switchPtr->WriteUINT32]) over [RW], the state of the register
    layer. *)
Class RegEnv (RW : Type) := {
  ReadUINT32 : RW -> Z -> RW * fm_status * Z;
  WriteUINT32 : RW -> Z -> Z -> RW * fm_status
}.

(** What a function does to the registers and to their lock, in order. *)
Inductive reg_op :=
| TAKE_REG_LOCK
| DROP_REG_LOCK
| OpReadUINT32 (addr : Z) (result : fm_status)
| OpWriteUINT32 (addr value : Z) (result : fm_status).

Section Code.
Context `{AnHeader} `{AnAttrHeader}.

(** *** fm10000An73SetLinkInhibitTimer and fm10000An73SetLinkInhibitTimerKx

    [anTimerAllowOutSpec] is [GET_PROPERTY()->anTimerAllowOutSpec];
    [timeout] is an [fm_uint]. *)
Definition fm10000An73SetLinkInhibitTimer (anTimerAllowOutSpec : bool)
  (portAttrExt : fm10000_portAttr) (timeout : Z)
  : fm_status * fm10000_portAttr :=
  if timeout =? 0 then
    (FM_OK, set_autoNegLinkInhbTimer LINK_INHIBIT_TIMER_MILLISEC portAttrExt)
  else
    let linkTimeoutMax :=
      if anTimerAllowOutSpec
      then fm_uint32 FM10000_AN73_LINK_FAIL_INHIBIT_TIMEOUT_DEBUG
      else fm_uint32 FM10000_AN73_LINK_FAIL_INHIBIT_TIMEOUT_MAX in
    if (timeout >? linkTimeoutMax) || (timeout <? 1) then
      (FM_ERR_INVALID_ARGUMENT, portAttrExt)
    else (FM_OK, set_autoNegLinkInhbTimer timeout portAttrExt).

Definition fm10000An73SetLinkInhibitTimerKx (anTimerAllowOutSpec : bool)
  (portAttrExt : fm10000_portAttr) (timeout : Z)
  : fm_status * fm10000_portAttr :=
  if timeout =? 0 then
    (FM_OK, set_autoNegLinkInhbTimerKx LINK_INHIBIT_TIMER_MILLISEC_KX portAttrExt)
  else
    let linkTimeoutMax :=
      if anTimerAllowOutSpec
      then fm_uint32 FM10000_AN73_LINK_FAIL_INHIBIT_TIMEOUT_DEBUG
      else fm_uint32 FM10000_AN73_LINK_FAIL_INHIBIT_TIMEOUT_MAX in
    if (timeout >? linkTimeoutMax) || (timeout <? 1) then
      (FM_ERR_INVALID_ARGUMENT, portAttrExt)
    else (FM_OK, set_autoNegLinkInhbTimerKx timeout portAttrExt).

(** *** fm10000An73SetIgnoreNonce

    [epl] and [lane] are [portExt->endpoint.epl] and
    [portExt->nativeLaneExt->physLane].  The result is the register
    state, the accesses made, [err] and the port attributes. *)
Definition fm10000An73SetIgnoreNonce {RW : Type} `{RegEnv RW} (rw : RW)
  (epl lane : Z) (portAttrExt : fm10000_portAttr) (ignoreNonce : bool)
  : RW * list reg_op * fm_status * fm10000_portAttr :=
  let addr := fm_uint32 (FM10000_AN_73_CFG epl lane) in
  let ops := [TAKE_REG_LOCK] in
  let '(rw, err, anCfg) := ReadUINT32 rw addr in
  let ops := ops ++ [OpReadUINT32 addr err] in
  if negb (is_ok err) then (rw, ops ++ [DROP_REG_LOCK], err, portAttrExt)
  else
    let anCfg :=
      FM_SET_BIT anCfg FM10000_AN_73_CFG_b_IgnoreNonceMatch
        (fm_bool_val ignoreNonce) in
    let '(rw, err) := WriteUINT32 rw addr anCfg in
    let ops := ops ++ [OpWriteUINT32 addr anCfg err] in
    if negb (is_ok err) then (rw, ops ++ [DROP_REG_LOCK], err, portAttrExt)
    else
      (rw, ops ++ [DROP_REG_LOCK], err,
       set_autoNegIgnoreNonce ignoreNonce portAttrExt).

(** *** fm10000An73HcdToEthMode

    The [switch], its cases in the order of the source. *)
Definition fm10000An73HcdToEthMode (hcd : Z) : fm_ethMode :=
  if hcd =? AN73_HCD_KX then FM_ETH_MODE_1000BASE_KX
  else if hcd =? AN73_HCD_10_KR then FM_ETH_MODE_10GBASE_KR
  else if hcd =? AN73_HCD_40_CR4 then FM_ETH_MODE_40GBASE_CR4
  else if hcd =? AN73_HCD_40_KR4 then FM_ETH_MODE_40GBASE_KR4
  else if hcd =? AN73_HCD_100_KR4 then FM_ETH_MODE_100GBASE_KR4
  else if hcd =? AN73_HCD_100_CR4 then FM_ETH_MODE_100GBASE_CR4
  else if hcd =? AN73_HCD_25_KR then FM_ETH_MODE_25GBASE_KR
  else if hcd =? AN73_HCD_25_CR then FM_ETH_MODE_25GBASE_CR
  else FM_ETH_MODE_DISABLED.

(** *** fm10000AnAddNextPage

    [validSwitch] is the outcome of VALIDATE_SWITCH(sw), which returns
    FM_ERR_INVALID_SWITCH from the function for a switch that is not
    valid.  [fmAlloc n] is the allocation of [n] 64-bit words: the
    storage obtained, with whatever it holds, or [None] for NULL.  The
    result is the status with the next pages of the port as the function
    leaves them, [None] once an access fell outside the storage. *)
Definition fm10000AnAddNextPage (validSwitch : bool)
  (fmAlloc : Z -> option (list Z)) (autoNegNextPages : next_pages_ptr)
  (nextPage : Z) : option (fm_status * next_pages_ptr) :=
  let status := FM_OK in
  if negb validSwitch then Some (FM_ERR_INVALID_SWITCH, autoNegNextPages)
  else
    let autoNegNextPages :=
      match nextPages_of autoNegNextPages with
      | None =>
          {| numPages_of := 0; nextPages_of := fmAlloc MAX_NUM_NEXTPAGES |}
      | Some _ => autoNegNextPages
      end in
    match nextPages_of autoNegNextPages with
    | None => Some (FM_ERR_NO_MEM, autoNegNextPages)
    | Some nextPages =>
        let curNumPages := numPages_of autoNegNextPages in
        if curNumPages <? MAX_NUM_NEXTPAGES then
          nextPages ← array_set nextPages curNumPages (fm_uint64 nextPage);
          let numPages := curNumPages + 1 in
          nextPages ←
            (if curNumPages >? 0 then
               prev ← array_get nextPages (curNumPages - 1);
               array_set nextPages (curNumPages - 1)
                 (Z.lor prev
                    (fm_uint64 (Z.shiftl 1 FM10000_AN_73_NEXT_PAGE_TX_b_NP)))
             else Some nextPages);
          Some (status,
                {| numPages_of := numPages; nextPages_of := Some nextPages |})
        else Some (FM_ERR_NO_FREE_RESOURCES, autoNegNextPages)
    end.

(** *** fm10000AnVerifyEeeNegotiation *)

(** [while (curNumPages < numPages) { ... }], with [n] the number of
    iterations left; the result is [negotiatedEeeModeEnabled]. *)
Fixpoint VerifyEee_loop (n : nat) (autoNegMode : fm_autonegMode)
  (ethMode : fm_ethMode) (autoNegPartnerNextPages : fm_anNextPages)
  (curNumPages : Z) (enabled : bool) : Rd bool :=
  match n with
  | O => rd_ret enabled
  | S n' =>
      if curNumPages <? numPages autoNegPartnerNextPages then
        rd_bind (rd_read (nextPages autoNegPartnerNextPages) curNumPages)
          (fun rxPage =>
             let curNumPages := curNumPages + 1 in
             if (FM_GET_FIELD64 rxPage FM10000_AN_73_NEXT_PAGE_RX_l_MU
                   FM10000_AN_73_NEXT_PAGE_RX_h_MU
                 =? FM10000_AN_NEXTPAGE_EEE_MSG_CODE)
                && bool_decide (autoNegMode = FM_PORT_AUTONEG_CLAUSE_73)
             then
               if (bool_decide (ethMode = FM_ETH_MODE_10GBASE_KR)
                   && truthy (Z.land rxPage FM10000_AN_73_NEXTPAGE_EEE_10GBASE_KR))
                  || (bool_decide (ethMode = FM_ETH_MODE_1000BASE_KX)
                      && truthy (Z.land rxPage
                                   FM10000_AN_73_NEXTPAGE_EEE_1000BASE_KX))
               then rd_ret true
               else VerifyEee_loop n' autoNegMode ethMode
                      autoNegPartnerNextPages curNumPages enabled
             else VerifyEee_loop n' autoNegMode ethMode
                    autoNegPartnerNextPages curNumPages enabled)
      else rd_ret enabled
  end.

(** The pages read are those the link partner sent
    ([portAttr->autoNegPartnerNextPages]); the result is the status with
    the extension attributes as the function leaves them. *)
Definition fm10000AnVerifyEeeNegotiation (autoNegMode : fm_autonegMode)
  (autoNegPartnerNextPages : fm_anNextPages) (portAttrExt : fm10000_portAttr)
  (ethMode : fm_ethMode) : Rd (fm_status * fm10000_portAttr) :=
  let status := FM_OK in
  let portAttrExt := set_negotiatedEeeModeEnabled false portAttrExt in
  rd_bind
    (VerifyEee_loop (Z.to_nat (numPages autoNegPartnerNextPages)) autoNegMode
       ethMode autoNegPartnerNextPages 0 false)
    (fun enabled =>
       rd_ret (status, set_negotiatedEeeModeEnabled enabled portAttrExt)).

End Code.

(** *** Vocabulary of the properties *)
Section Vocabulary.
Context `{AnHeader} `{AnAttrHeader}.

(** A page with the NP bit set as [fm10000AnAddNextPage] sets it. *)
Definition with_NP (page : Z) : Z :=
  Z.lor (fm_uint64 page)
    (fm_uint64 (Z.shiftl 1 FM10000_AN_73_NEXT_PAGE_TX_b_NP)).

(** Adding the pages of a list one after the other; the result holds
    the status of every call. *)
Fixpoint add_pages (validSwitch : bool) (fmAlloc : Z -> option (list Z))
  (a : next_pages_ptr) (ps : list Z) : option (list fm_status * next_pages_ptr) :=
  match ps with
  | [] => Some ([], a)
  | p :: ps' =>
      '(st, a) ← fm10000AnAddNextPage validSwitch fmAlloc a p;
      '(sts, a) ← add_pages validSwitch fmAlloc a ps';
      Some (st :: sts, a)
  end.

(** The list of next pages is either not allocated, or allocated with
    room for MAX_NUM_NEXTPAGES pages of which it holds at most that
    many. *)
Definition pages_ok (a : next_pages_ptr) : Prop :=
  match nextPages_of a with
  | None => True
  | Some l =>
      Z.of_nat (length l) = MAX_NUM_NEXTPAGES
      /\ 0 <= numPages_of a <= MAX_NUM_NEXTPAGES
  end.

(** Asked for the storage of a list of next pages, the allocator
    returns that much or nothing. *)
Definition alloc_ok (fmAlloc : Z -> option (list Z)) : Prop :=
  forall l,
    fmAlloc MAX_NUM_NEXTPAGES = Some l ->
    Z.of_nat (length l) = MAX_NUM_NEXTPAGES.

(** The received page [rxPage] announces EEE for [ethMode]. *)
Definition eee_page (ethMode : fm_ethMode) (rxPage : Z) : Prop :=
  FM_GET_FIELD64 rxPage FM10000_AN_73_NEXT_PAGE_RX_l_MU
    FM10000_AN_73_NEXT_PAGE_RX_h_MU = FM10000_AN_NEXTPAGE_EEE_MSG_CODE
  /\ ((ethMode = FM_ETH_MODE_10GBASE_KR
       /\ Z.land rxPage FM10000_AN_73_NEXTPAGE_EEE_10GBASE_KR <> 0)
      \/ (ethMode = FM_ETH_MODE_1000BASE_KX
          /\ Z.land rxPage FM10000_AN_73_NEXTPAGE_EEE_1000BASE_KX <> 0)).

(** The cases of [fm10000An73HcdToEthMode]. *)
Definition hcd_table : list (Z * fm_ethMode) :=
  [ (AN73_HCD_KX, FM_ETH_MODE_1000BASE_KX);
    (AN73_HCD_10_KR, FM_ETH_MODE_10GBASE_KR);
    (AN73_HCD_40_CR4, FM_ETH_MODE_40GBASE_CR4);
    (AN73_HCD_40_KR4, FM_ETH_MODE_40GBASE_KR4);
    (AN73_HCD_100_KR4, FM_ETH_MODE_100GBASE_KR4);
    (AN73_HCD_100_CR4, FM_ETH_MODE_100GBASE_CR4);
    (AN73_HCD_25_KR, FM_ETH_MODE_25GBASE_KR);
    (AN73_HCD_25_CR, FM_ETH_MODE_25GBASE_CR) ].

End Vocabulary.

End AnAttr.

(** A choice of the constants and callbacks of [AnAttr]: the timer
    bounds are those of the comment in the source, the HCD codes those
    printed by [fm10000An73HCDStr]; registers are a memory. *)
Module AnAttrSample.
Import Std An AnAttr.

Definition header : AnAttrHeader := {|
  MAX_NUM_NEXTPAGES := 3;
  FM10000_AN_73_NEXT_PAGE_TX_b_NP := 15;
  FM10000_AN_NEXTPAGE_EEE_MSG_CODE := 10;
  FM10000_AN_73_NEXTPAGE_EEE_10GBASE_KR := 4194304;
  FM10000_AN_73_NEXTPAGE_EEE_1000BASE_KX := 1048576;
  LINK_INHIBIT_TIMER_MILLISEC := 500;
  LINK_INHIBIT_TIMER_MILLISEC_KX := 50;
  FM10000_AN73_LINK_FAIL_INHIBIT_TIMEOUT_DEBUG := 1023;
  FM10000_AN73_LINK_FAIL_INHIBIT_TIMEOUT_MAX := 511;
  FM10000_AN_73_CFG := fun epl lane => 917504 + 1024 * epl + 128 * lane + 9;
  FM10000_AN_73_CFG_b_IgnoreNonceMatch := 11;
  AN73_HCD_KX := 3;
  AN73_HCD_10_KR := 1;
  AN73_HCD_40_CR4 := 5;
  AN73_HCD_40_KR4 := 4;
  AN73_HCD_100_KR4 := 8;
  AN73_HCD_100_CR4 := 9;
  AN73_HCD_25_KR := 10;
  AN73_HCD_25_CR := 11
|}.

(** Registers as a memory that always answers. *)
Definition registers : RegEnv (Z -> Z) := {|
  ReadUINT32 := fun rw addr => (rw, FM_OK, rw addr);
  WriteUINT32 := fun rw addr value =>
    (fun a => if a =? addr then value else rw a, FM_OK)
|}.

(** Registers whose reads fail. *)
Definition dead_registers : RegEnv (Z -> Z) := {|
  ReadUINT32 := fun rw addr => (rw, FM_FAIL, 0);
  WriteUINT32 := fun rw addr value => (rw, FM_FAIL)
|}.

Definition attributes : fm10000_portAttr := {|
  autoNegLinkInhbTimer := 500;
  autoNegLinkInhbTimerKx := 50;
  autoNegIgnoreNonce := false;
  negotiatedEeeModeEnabled := true
|}.

(** An allocator handing out storage that holds sevens. *)
Definition fmAlloc (n : Z) : option (list Z) := Some (replicate (Z.to_nat n) 7).

(** What a partner announcing EEE for 10GBASE-KR sent: a null message
    page and the EEE message page. *)
Definition partner_pages : fm_anNextPages :=
  {| numPages := 2; nextPages := [1; 4194314] |}.

End AnAttrSample.

(* ===================================================================== *)
(** ** platform_mgmt.c: the retry sweeps, initialisation and the calls    *)
(**    of the API                                                         *)
(* ===================================================================== *)
Module MgmtTasks.
Import Std Mgmt.

(** The members of the platform configuration these functions read
    beside those of [fm_platformCfgSwitch]. *)
Record fm_platformCfgMore := {
  (** [FM_PLAT_GET_PORT_CFG(sw, portIdx)->ethMode] *)
  portEthMode : Z -> fm_ethMode;
  (** [FM_PLAT_GET_SWITCH_CFG(sw)->xcvrPollPeriodMsec] and [->gpioPortIntr] *)
  xcvrPollPeriodMsec : Z;
  gpioPortIntr : Z
}.

(** What these functions use of the platform library and of the other
    files, beside [MgmtEnv]. *)
Class MgmtTasksEnv (HW : Type) := {
  (** whether [libFunc->I2cWriteRead] is set *)
  I2cWriteRead : bool;
  (** [EnablePortIntr(swNum, hwResIdList, numPorts, enable)] *)
  EnablePortIntr : option (HW -> Z -> list Z -> Z -> list bool -> HW * fm_status);
  (** [fmPlatformCfgPortGetIndex(sw, port)]: the index of a logical port
      in the port table, negative when it has none *)
  fmPlatformCfgPortGetIndex : Z -> Z;
  (** [fmPlatformGpioSetDirection(sw, gpio, FM_PLAT_GPIO_DIR_INPUT, 0)] *)
  fmPlatformGpioSetDirection : HW -> Z -> HW;
  (** [fmPlatformGpioUnmaskIntr(sw, gpio, FM_PLAT_GPIO_INTR_FALLING)] *)
  fmPlatformGpioUnmaskIntr : HW -> Z -> HW;
  (** [fmSignalSemaphore(&mgmtSem)] *)
  fmSignalSemaphore : HW -> HW
}.

(** The platform state with the two flags of the file,
    [pollingPendingTask] and [enableMgmt]. *)
Record mgmt_state {HW : Type} := {
  plat : plat_state HW;
  pollingPendingTask : bool;
  enableMgmt : bool
}.
Arguments mgmt_state : clear implicits.

Definition set_ethMode (v : fm_ethMode) (x : fm_platXcvrInfo) : fm_platXcvrInfo :=
  {| modState := modState x; present := present x; ethMode := v;
     anEnabled := anEnabled x; type := type x; cableLength := cableLength x;
     eeprom := eeprom x; eepromBaseValid := eepromBaseValid x;
     eepromExtValid := eepromExtValid x;
     eepromReadRetries := eepromReadRetries x;
     configRetries := configRetries x |}.

(** [portCfg->intfType] is FM_PLAT_INTF_TYPE_SFPP or
    FM_PLAT_INTF_TYPE_QSFP_LANE0. *)
Definition is_xcvr_port (portCfg : fm_platformCfgPort) : bool :=
  bool_decide (intfType portCfg = FM_PLAT_INTF_TYPE_SFPP)
  || bool_decide (intfType portCfg = FM_PLAT_INTF_TYPE_QSFP_LANE0).

(** A pointer to an output variable: [None] is NULL, [Some v] the
    variable holding [v]. *)
Definition out (A : Type) : Type := option A.

(** [if (p) *p = v] *)
Definition store_if_set {A : Type} (p : out A) (v : A) : out A :=
  match p with Some _ => Some v | None => None end.

Section Code.
Context `{MgmtHeader}.
Context {HW : Type} `{MgmtEnv HW} `{MgmtTasksEnv HW}.

(** *** XcvrRetryEepromRead *)

(** The body of the loop at [portIdx]. *)
Definition XcvrRetryEepromRead_port (sw : fm_platformCfgSwitch)
  (st : plat_state HW) (portIdx : Z) : option (plat_state HW) :=
  portCfg ← array_get (ports sw) portIdx;
  if negb (bool_decide (intfType portCfg = FM_PLAT_INTF_TYPE_SFPP))
     && negb (bool_decide (intfType portCfg = FM_PLAT_INTF_TYPE_QSFP_LANE0))
  then Some st
  else
    xcvr ← array_get (xcvrInfo st) portIdx;
    if eepromReadRetries xcvr >? 0 then
      st ← update_xcvrInfo st portIdx
             (fun x => set_eepromReadRetries (eepromReadRetries x - 1) x);
      '(st, status) ← XcvrReadAndValidateEeprom sw st portIdx true;
      if negb (is_ok status) then Some st
      else
        st ← update_xcvrInfo st portIdx (set_eepromReadRetries 0);
        UpdateSerdesSettings sw st portIdx
    else Some st.

Definition XcvrRetryEepromRead (sw : fm_platformCfgSwitch) (st : plat_state HW)
  : option (plat_state HW) :=
  if negb I2cWriteRead then Some st
  else
    for_loop (Z.of_nat (length (ports sw)))
      (fun portIdx st => XcvrRetryEepromRead_port sw st portIdx) st.

(** *** XcvrRetryConfig *)

(** The body of the loop at [portIdx]. *)
Definition XcvrRetryConfig_port (sw : fm_platformCfgSwitch)
  (st : plat_state HW) (portIdx : Z) : option (plat_state HW) :=
  portCfg ← array_get (ports sw) portIdx;
  if negb (bool_decide (intfType portCfg = FM_PLAT_INTF_TYPE_SFPP))
     && negb (bool_decide (intfType portCfg = FM_PLAT_INTF_TYPE_QSFP_LANE0))
  then Some st
  else
    xcvr ← array_get (xcvrInfo st) portIdx;
    if eepromBaseValid xcvr && (configRetries xcvr >? 0) then
      st ← update_xcvrInfo st portIdx
             (fun x => set_configRetries (configRetries x - 1) x);
      if bool_decide (intfType portCfg = FM_PLAT_INTF_TYPE_SFPP) then
        xcvr ← array_get (xcvrInfo st) portIdx;
        let '(h, status) := ConfigureSfppXcvr (hw st) (port portCfg) xcvr in
        let st := set_hw st h in
        if is_ok status then update_xcvrInfo st portIdx (set_configRetries 0)
        else Some st
      else Some st
    else Some st.

Definition XcvrRetryConfig (sw : fm_platformCfgSwitch) (st : plat_state HW)
  : option (plat_state HW) :=
  if negb I2cWriteRead then Some st
  else
    for_loop (Z.of_nat (length (ports sw)))
      (fun portIdx st => XcvrRetryConfig_port sw st portIdx) st.

(** *** fmPlatformMgmtXcvrInitialize *)

(** The assignments that initialise the record of a port. *)
Definition initialize_record (ethMode : fm_ethMode) (x : fm_platXcvrInfo)
  : fm_platXcvrInfo :=
  let x := set_ethMode ethMode x in
  let x := set_modState 0 x in
  let x := set_present false x in
  let x := set_anEnabled false x in
  let x := set_type FM_PLATFORM_XCVR_TYPE_NOT_PRESENT x in
  let x := set_cableLength 0 x in
  let x := set_eepromBaseValid false x in
  let x := set_eepromExtValid false x in
  let x := set_eepromReadRetries 0 x in
  let x := set_configRetries 0 x in
  set_eeprom (replicate (length (eeprom x)) 255) x.

(** The first loop: every record is initialised and the transceiver
    ports are listed.  The state is the platform state with
    [(hwResIdList, hwResIdIdxList, numPorts)]. *)
Definition XcvrInitialize_records (sw : fm_platformCfgSwitch)
  (more : fm_platformCfgMore) (st : plat_state HW)
  (hwResIdList hwResIdIdxList : list Z)
  : option (plat_state HW * list Z * list Z * Z) :=
  for_loop (Z.of_nat (length (ports sw)))
    (fun portIdx '(st, hwResIdList, hwResIdIdxList, numPorts) =>
       portCfg ← array_get (ports sw) portIdx;
       st ← update_xcvrInfo st portIdx
              (initialize_record (portEthMode more portIdx));
       if negb (bool_decide (is_Some GetPortXcvrState))
          || negb (bool_decide (intfType portCfg = FM_PLAT_INTF_TYPE_SFPP)
                   || bool_decide (intfType portCfg = FM_PLAT_INTF_TYPE_QSFP_LANE0))
       then Some (st, hwResIdList, hwResIdIdxList, numPorts)
       else
         l1 ← array_set hwResIdList numPorts (hwResourceId portCfg);
         l2 ← array_set hwResIdIdxList numPorts portIdx;
         Some (st, l1, l2, numPorts + 1))
    (st, hwResIdList, hwResIdIdxList, 0).

(** The last loop, at the entry [hwResIdIdx] of the tables. *)
Definition XcvrInitialize_module (sw : fm_platformCfgSwitch)
  (hwResIdIdxList xcvrStateValidList xcvrStateList : list Z)
  (hwResIdIdx : Z) (st : plat_state HW) : option (plat_state HW) :=
  portIdx ← array_get hwResIdIdxList hwResIdIdx;
  xcvrState ← array_get xcvrStateList hwResIdIdx;
  st ← update_xcvrInfo st portIdx (set_modState xcvrState);
  xcvrStateValid ← array_get xcvrStateValidList hwResIdIdx;
  st ←
    (if truthy (Z.land xcvrStateValid FM_PLAT_XCVR_PRESENT)
        && truthy (Z.land xcvrState FM_PLAT_XCVR_PRESENT)
     then update_xcvrInfo st portIdx (set_present true)
     else Some st);
  if truthy (Z.land xcvrStateValid FM_PLAT_XCVR_ENABLE)
     && truthy (Z.land xcvrState FM_PLAT_XCVR_ENABLE)
  then
    xcvr ← array_get (xcvrInfo st) portIdx;
    if present xcvr then
      '(st, _) ← XcvrReadAndValidateEeprom sw st portIdx false;
      Some st
    else Some st
  else Some st.

(** The function; the result is the platform state with the status
    returned. *)
Definition fmPlatformMgmtXcvrInitialize (sw : fm_platformCfgSwitch)
  (more : fm_platformCfgMore) (st : plat_state HW) (loc : locals)
  : option (plat_state HW * fm_status) :=
  '(st, hwResIdList, hwResIdIdxList, numPorts) ←
    XcvrInitialize_records sw more st (hwResIdList loc) (hwResIdIdxList loc);
  match GetPortXcvrState with
  | None => Some (st, FM_OK)
  | Some getPortXcvrState =>
      if numPorts =? 0 then Some (st, FM_OK)
      else
        '(st, selected) ←
          match SelectBus with
          | Some selectBus =>
              id ← array_get hwResIdList 0;
              let '(h, status) := selectBus (hw st) (swNum sw) id in
              Some (set_hw st h, status)
          | None => Some (st, FM_OK)
          end;
        if negb (is_ok selected) then Some (st, selected)
        else
          let '(h, status, xcvrStateValidList, xcvrStateList) :=
            getPortXcvrState (hw st) (swNum sw) hwResIdList numPorts
              (xcvrStateValidList loc) (xcvrStateList loc) in
          let st := set_hw st h in
          if negb (is_ok status) then Some (st, status)
          else
            st ← for_loop numPorts
                   (XcvrInitialize_module sw hwResIdIdxList xcvrStateValidList
                      xcvrStateList)
                   st;
            Some (st, FM_OK)
  end.

(** *** fmPlatformMgmtEnableInterrupt *)

(** The loop that lists the transceiver ports; its [break] leaves the
    remaining iterations without effect.  The state is
    [(hwResIdList, enable, numPorts, stopped)]. *)
Definition EnableInterrupt_ports (sw : fm_platformCfgSwitch)
  (hwResIdList : list Z) (enable : list bool)
  : option (list Z * list bool * Z * bool) :=
  for_loop (Z.of_nat (length (ports sw)))
    (fun portIdx '(hwResIdList, enable, numPorts, stopped) =>
       if (stopped : bool) then Some (hwResIdList, enable, numPorts, stopped)
       else
         portCfg ← array_get (ports sw) portIdx;
         if negb (bool_decide (intfType portCfg = FM_PLAT_INTF_TYPE_SFPP)
                  || bool_decide (intfType portCfg = FM_PLAT_INTF_TYPE_QSFP_LANE0))
         then Some (hwResIdList, enable, numPorts, stopped)
         else if numPorts >=? MAX_TEMP_PORTS
         then Some (hwResIdList, enable, numPorts, true)
         else
           l1 ← array_set hwResIdList numPorts (hwResourceId portCfg);
           l2 ← array_set enable numPorts true;
           Some (l1, l2, numPorts + 1, stopped))
    (hwResIdList, enable, 0, false).

(** [hwResIdList] and [enable] are the two local arrays of the function
    as it finds them, [loc] those of [XcvrUpdateState]. *)
Definition fmPlatformMgmtEnableInterrupt (sw : fm_platformCfgSwitch)
  (more : fm_platformCfgMore) (st : mgmt_state HW) (hwResIdList : list Z)
  (enable : list bool) (loc : locals) : option (mgmt_state HW) :=
  p ←
    match EnablePortIntr with
    | Some enablePortIntr =>
        '(hwResIdList, enable, numPorts, _) ←
          EnableInterrupt_ports sw hwResIdList enable;
        let '(h, _) :=
          enablePortIntr (hw (plat st)) (swNum sw) hwResIdList numPorts enable in
        Some (set_hw (plat st) h)
    | None => Some (plat st)
    end;
  let gpio := gpioPortIntr more in
  let p :=
    if negb (gpio =? FM_PLAT_UNDEFINED) then
      let h := fmPlatformGpioSetDirection (hw p) gpio in
      set_hw p (fmPlatformGpioUnmaskIntr h gpio)
    else p in
  p ← XcvrUpdateState sw p true false loc;
  Some {| plat := p; pollingPendingTask := pollingPendingTask st;
          enableMgmt := true |}.

(** *** fmPlatformMgmtSignalPollingThread *)
Definition fmPlatformMgmtSignalPollingThread (st : mgmt_state HW)
  : mgmt_state HW :=
  {| plat := set_hw (plat st) (fmSignalSemaphore (hw (plat st)));
     pollingPendingTask := true;
     enableMgmt := enableMgmt st |}.

(** *** fmPlatformMgmtGetTransceiverType

    The result is the status with [*xcvrType] and [*xcvrLen]. *)
Definition fmPlatformMgmtGetTransceiverType (sw : fm_platformCfgSwitch)
  (st : plat_state HW) (port : Z) (xcvrType : out fm_platformXcvrType)
  (xcvrLen : out Z)
  : option (fm_status * out fm_platformXcvrType * out Z) :=
  let portIdx := fmPlatformCfgPortGetIndex port in
  if portIdx <? 0 then Some (FM_ERR_INVALID_PORT, xcvrType, xcvrLen)
  else
    portCfg ← array_get (ports sw) portIdx;
    let portIdx :=
      if bool_decide (intfType portCfg = FM_PLAT_INTF_TYPE_QSFP_LANE1)
         || bool_decide (intfType portCfg = FM_PLAT_INTF_TYPE_QSFP_LANE2)
         || bool_decide (intfType portCfg = FM_PLAT_INTF_TYPE_QSFP_LANE3)
      then laneToPortIdx sw (epl portCfg) 0
      else portIdx in
    xcvr ← array_get (xcvrInfo st) portIdx;
    Some (FM_OK, store_if_set xcvrType (type xcvr),
          store_if_set xcvrLen (cableLength xcvr)).

(** *** fmPlatformMgmtNotifyEthModeChange *)
Definition fmPlatformMgmtNotifyEthModeChange (sw : fm_platformCfgSwitch)
  (more : fm_platformCfgMore) (st : mgmt_state HW) (port : Z)
  (mode : fm_ethMode) : option (mgmt_state HW) :=
  let portIdx := fmPlatformCfgPortGetIndex port in
  if portIdx <? 0 then Some st
  else
    p ← update_xcvrInfo (plat st) portIdx (set_ethMode mode);
    if FM_ETH_MODE_MULTI_LANE_MASK_set mode then
      Some {| plat := set_hw p (fmPlatformSetPortSerdesTxCfg (hw p) port true mode);
              pollingPendingTask := pollingPendingTask st;
              enableMgmt := enableMgmt st |}
    else
      let p := set_hw p (fmPlatformSetPortSerdesTxCfg (hw p) port false mode) in
      portCfg ← array_get (ports sw) portIdx;
      xcvr ← array_get (xcvrInfo p) portIdx;
      if bool_decide (intfType portCfg = FM_PLAT_INTF_TYPE_SFPP) && present xcvr
      then
        if xcvrPollPeriodMsec more =? 0 then
          let '(h, _) := ConfigureSfppXcvr (hw p) (Mgmt.port portCfg) xcvr in
          Some {| plat := set_hw p h;
                  pollingPendingTask := pollingPendingTask st;
                  enableMgmt := enableMgmt st |}
        else
          p ← update_xcvrInfo p portIdx (set_configRetries MAX_CONFIG_RETRY);
          Some (fmPlatformMgmtSignalPollingThread
                  {| plat := p; pollingPendingTask := pollingPendingTask st;
                     enableMgmt := enableMgmt st |})
      else
        Some {| plat := p; pollingPendingTask := pollingPendingTask st;
                enableMgmt := enableMgmt st |}.

(** *** fmPlatformMgmtConfigSfppXcvrAutoNeg *)
Definition fmPlatformMgmtConfigSfppXcvrAutoNeg (more : fm_platformCfgMore)
  (st : mgmt_state HW) (port : Z) (enable : bool)
  : option (mgmt_state HW * fm_status) :=
  if xcvrPollPeriodMsec more =? 0 then Some (st, FM_ERR_UNSUPPORTED)
  else
    let portIdx := fmPlatformCfgPortGetIndex port in
    if portIdx <? 0 then Some (st, FM_ERR_INVALID_ARGUMENT)
    else
      p ← update_xcvrInfo (plat st) portIdx (set_configRetries MAX_CONFIG_RETRY);
      Some (fmPlatformMgmtSignalPollingThread
              {| plat := p; pollingPendingTask := pollingPendingTask st;
                 enableMgmt := enableMgmt st |},
            FM_OK).

End Code.

(** *** Vocabulary of the properties *)
Section Vocabulary.
Context `{MgmtHeader}.
Context {HW : Type} `{MgmtEnv HW} `{MgmtTasksEnv HW}.

(** The state [st] with [x] as the record at [q] and [h] as the
    hardware. *)
Definition put (st : plat_state HW) (q : Z) (x : fm_platXcvrInfo) (h : HW)
  : plat_state HW :=
  {| xcvrInfo := <[Z.to_nat q := x]> (xcvrInfo st); hw := h |}.

(** The port at an index of the table is a transceiver port. *)
Definition is_xcvr_at (sw : fm_platformCfgSwitch) (portIdx : Z) : bool :=
  match array_get (ports sw) portIdx with
  | Some portCfg => is_xcvr_port portCfg
  | None => false
  end.

(** The indices of the transceiver ports among the first [n] ports of
    the table, in order. *)
Definition xcvr_ports (sw : fm_platformCfgSwitch) (n : Z) : list Z :=
  List.filter (is_xcvr_at sw) (seqZ 0 n).

Definition all_xcvr_ports (sw : fm_platformCfgSwitch) : list Z :=
  xcvr_ports sw (Z.of_nat (length (ports sw))).

(** The hardware resource id of the port at an index of the table. *)
Definition hwResourceId_at (sw : fm_platformCfgSwitch) (portIdx : Z) : Z :=
  match array_get (ports sw) portIdx with
  | Some portCfg => hwResourceId portCfg
  | None => 0
  end.

(** The record [x] after [XcvrReadAndValidateEeprom] when the read of
    the EEPROM returned [status] and left [data] in the buffer. *)
Definition eeprom_read_record (retry : bool) (status : fm_status)
  (data : list Z) (x : fm_platXcvrInfo) : fm_platXcvrInfo :=
  let x := set_eeprom data x in
  if is_ok status then
    let x := set_eepromReadRetries 0 x in
    let x := set_eepromBaseValid (fmPlatformXcvrEepromIsBaseCsumValid data) x in
    let x := set_eepromExtValid (fmPlatformXcvrEepromIsExtCsumValid data) x in
    if fmPlatformXcvrEepromIsBaseCsumValid data then
      set_cableLength (fmPlatformXcvrEepromGetLen data)
        (set_type (fmPlatformXcvrEepromGetType data) x)
    else set_cableLength 0 (set_type FM_PLATFORM_XCVR_TYPE_UNKNOWN x)
  else if negb retry then
    set_type FM_PLATFORM_XCVR_TYPE_UNKNOWN
      (set_eepromReadRetries MAX_EEPROM_READ_RETRY x)
  else x.

(** The record of [portIdx] in the iteration of the sweep that found
    its PRESENT bit changed, once the PRESENT and ENABLE blocks are
    through: the new state is saved and the record reset; the memset of
    the PRESENT block and the assignments of the ENABLE block reach the
    record only when it is the first of the table. *)
Definition record_after_blocks (portIdx : Z) (present enableChanged : bool)
  (xcvrState : Z) (x : fm_platXcvrInfo) : fm_platXcvrInfo :=
  let x := reset_record present (set_modState xcvrState x) in
  let x := if portIdx =? 0 then wipe_eeprom x else x in
  if (portIdx =? 0) && enableChanged
  then set_anEnabled false (set_configRetries 0 x)
  else x.

(** The record at the end of that iteration, [x1] being the record the
    blocks left and [h0] the hardware state: the EEPROM of a module that
    is present and enabled is read into the record, and after a read
    that succeeded the serdes of an SFP+ port is set and the module
    configured. *)
Definition record_after_iteration (portCfg : fm_platformCfgPort) (h0 : HW)
  (present enabled : bool) (x1 : fm_platXcvrInfo) : fm_platXcvrInfo :=
  if present && enabled then
    let '(h, status, data) :=
      fmPlatformXcvrEepromRead h0 (port portCfg) 0 0 (eeprom x1)
        XCVR_EEPROM_CACHE_SIZE in
    let x := eeprom_read_record false status data x1 in
    if is_ok status
       && bool_decide (intfType portCfg = FM_PLAT_INTF_TYPE_SFPP)
    then
      let h := fmPlatformSetPortSerdesTxCfg h (port portCfg) false (ethMode x) in
      let '(_, configured) :=
        ConfigureSfppXcvr h (port portCfg)
          (set_configRetries (MAX_CONFIG_RETRY - 1) x) in
      set_configRetries
        (if is_ok configured then 0 else MAX_CONFIG_RETRY - 1) x
    else x
  else x1.

(** [x'] is [x] but for the EEPROM cache and what is decoded from it:
    the fields a read of the EEPROM may write. *)
Definition same_but_eeprom (x x' : fm_platXcvrInfo) : Prop :=
  modState x' = modState x /\ present x' = present x
  /\ ethMode x' = ethMode x /\ anEnabled x' = anEnabled x
  /\ configRetries x' = configRetries x.

(** The record [x] after the iteration of [XcvrRetryEepromRead] that
    retried its read, when the read returned [status] and left [data]
    in the buffer. *)
Definition reread_record (status : fm_status) (data : list Z)
  (x : fm_platXcvrInfo) : fm_platXcvrInfo :=
  let x := set_eepromReadRetries (eepromReadRetries x - 1) x in
  let x := eeprom_read_record true status data x in
  if is_ok status then set_eepromReadRetries 0 x else x.

(** [XcvrRetryEepromRead] has a read to retry at [portIdx]. *)
Definition read_pending (sw : fm_platformCfgSwitch) (portIdx : Z)
  (x : fm_platXcvrInfo) : bool :=
  I2cWriteRead && is_xcvr_at sw portIdx && (eepromReadRetries x >? 0).

(** [XcvrRetryConfig] has a configuration to retry at [portIdx]. *)
Definition config_pending (sw : fm_platformCfgSwitch) (portIdx : Z)
  (x : fm_platXcvrInfo) : bool :=
  I2cWriteRead && is_xcvr_at sw portIdx && eepromBaseValid x
  && (configRetries x >? 0).

(** The port at [portIdx] is an SFP+ port. *)
Definition is_sfpp_at (sw : fm_platformCfgSwitch) (portIdx : Z) : bool :=
  match array_get (ports sw) portIdx with
  | Some portCfg => bool_decide (intfType portCfg = FM_PLAT_INTF_TYPE_SFPP)
  | None => false
  end.

(** The state query leaves the two arrays it fills as long as they
    were. *)
Definition query_keeps_sizes : Prop :=
  forall query, GetPortXcvrState = Some query ->
  forall h swNum ids numPorts valid state,
    let '(_, _, valid', state') := query h swNum ids numPorts valid state in
    length valid' = length valid /\ length state' = length state.

(** [fmPlatformMgmtNotifyEthModeChange] leaves the configuration of the
    module at [portIdx] to the thread: the new mode is a single lane
    mode, the port an SFP+ port with a module, and the thread polls. *)
Definition config_deferred (sw : fm_platformCfgSwitch)
  (more : fm_platformCfgMore) (portIdx : Z) (mode : fm_ethMode)
  (x : fm_platXcvrInfo) : bool :=
  negb (FM_ETH_MODE_MULTI_LANE_MASK_set mode) && is_sfpp_at sw portIdx
  && present x && negb (xcvrPollPeriodMsec more =? 0).

(** The port at [portIdx] is one of the lanes 1 to 3 of a QSFP. *)
Definition is_qsfp_upper_lane (portCfg : fm_platformCfgPort) : bool :=
  bool_decide (intfType portCfg = FM_PLAT_INTF_TYPE_QSFP_LANE1)
  || bool_decide (intfType portCfg = FM_PLAT_INTF_TYPE_QSFP_LANE2)
  || bool_decide (intfType portCfg = FM_PLAT_INTF_TYPE_QSFP_LANE3).

(** [k] runs of a sweep, one after the other. *)
Fixpoint sweeps (sweep : plat_state HW -> option (plat_state HW)) (k : nat)
  (st : plat_state HW) : option (plat_state HW) :=
  match k with
  | O => Some st
  | S k' => st ← sweep st; sweeps sweep k' st
  end.

(** What [fmPlatformMgmtXcvrInitialize] leaves in a record: the port's
    configured mode, no autonegotiation, no retry of configuration, and,
    unless a module is present, nothing of a module. *)
Definition initialized (ethMode : fm_ethMode) (x : fm_platXcvrInfo) : Prop :=
  Mgmt.ethMode x = ethMode
  /\ anEnabled x = false
  /\ configRetries x = 0
  /\ (present x = false ->
      type x = FM_PLATFORM_XCVR_TYPE_NOT_PRESENT
      /\ cableLength x = 0
      /\ eeprom x = replicate (length (eeprom x)) 255
      /\ eepromBaseValid x = false
      /\ eepromExtValid x = false
      /\ eepromReadRetries x = 0).

End Vocabulary.

End MgmtTasks.

(** ** Sample values for the tasks of platform_mgmt.c *)
Module MgmtTasksSample.
Import Std Mgmt MgmtTasks.

(** A platform as [MgmtSample.platform], but its state query writes the
    state of two modules into the arrays it is handed (every bit valid;
    the first module present and enabled, the second enabled only) and
    its EEPROM reads succeed. *)
Definition platform : MgmtEnv unit := {|
  GetPortIntrPending := None;
  SelectBus := None;
  GetPortXcvrState := Some (fun h _ _ _ valid state =>
    (h, FM_OK, <[0%nat := 31]> (<[1%nat := 31]> valid),
     <[0%nat := 3]> (<[1%nat := 2]> state)));
  fmPlatformXcvrEepromRead := fun h _ _ _ data _ => (h, FM_OK, data);
  fmPlatformXcvrMemWrite := fun h _ _ _ _ => (h, FM_OK);
  fmPlatformPhyEnable1000BaseTAutoNeg := fun h _ _ => (h, FM_OK);
  fmGetPortAttributeV2_AUTONEG := fun _ _ => (FM_OK, FM_PORT_AUTONEG_NONE);
  fmPlatformSetPortSerdesTxCfg := fun h _ _ _ => h;
  fmNotifyXcvrChange := fun h _ _ _ _ => h;
  fmPlatformEventSendPortXcvrState := fun h _ _ _ _ => h;
  fmPlatformXcvrEepromIsBaseCsumValid := fun _ => true;
  fmPlatformXcvrEepromIsExtCsumValid := fun _ => true;
  fmPlatformXcvrEepromGetType := fun _ => FM_PLATFORM_XCVR_TYPE_OTHER 3;
  fmPlatformXcvrEepromGetLen := fun _ => 0;
  fmPlatformXcvrIs1000BaseT := fun _ => false;
  fmPlatformXcvrIs10G1G := fun _ => false
|}.

(** A library with I2C access and no interrupt control; the logical
    ports 1 and 2 are the two ports of the table. *)
Definition library : MgmtTasksEnv unit := {|
  I2cWriteRead := true;
  EnablePortIntr := None;
  fmPlatformCfgPortGetIndex := fun port =>
    if (1 <=? port) && (port <=? 2) then port - 1 else -1;
  fmPlatformGpioSetDirection := fun h _ => h;
  fmPlatformGpioUnmaskIntr := fun h _ => h;
  fmSignalSemaphore := fun h => h
|}.

(** The thread polls every second; no GPIO for the interrupts. *)
Definition more : fm_platformCfgMore := {|
  portEthMode := fun _ => FM_ETH_MODE_10GBASE_KR;
  xcvrPollPeriodMsec := 1000;
  gpioPortIntr := -1
|}.

(** The first two lanes of a QSFP. *)
Definition qsfp : fm_platformCfgSwitch := {|
  ports :=
    [ {| intfType := FM_PLAT_INTF_TYPE_QSFP_LANE0; port := 1; epl := 0;
         hwResourceId := 10 |};
      {| intfType := FM_PLAT_INTF_TYPE_QSFP_LANE1; port := 2; epl := 0;
         hwResourceId := 10 |} ];
  laneToPortIdx := fun _ lane => if lane <? 2 then lane else -1;
  swNum := 0
|}.

(** A module whose EEPROM could not be read yet: the read is retried
    [retries] more times. *)
Definition unread (retries : Z) : fm_platXcvrInfo := {|
  modState := 3;
  present := true;
  ethMode := FM_ETH_MODE_10GBASE_KR;
  anEnabled := false;
  type := FM_PLATFORM_XCVR_TYPE_UNKNOWN;
  cableLength := 0;
  eeprom := [0; 0; 0; 0];
  eepromBaseValid := false;
  eepromExtValid := false;
  eepromReadRetries := retries;
  configRetries := 0
|}.

(** Both modules wait for their EEPROM. *)
Definition waiting : plat_state unit :=
  {| xcvrInfo := [unread 4; unread 2]; hw := tt |}.

(** Both modules were given up: nothing is left to retry. *)
Definition settled : plat_state unit :=
  {| xcvrInfo := [unread 0; unread 0]; hw := tt |}.

Definition tasks : mgmt_state unit :=
  {| plat := MgmtSample.state; pollingPendingTask := false;
     enableMgmt := false |}.

End MgmtTasksSample.

(* ===================================================================== *)
(** * Part II: properties                                                 *)
(* ===================================================================== *)

(** ** Arithmetic, bit fields and arrays *)
Module StdFacts.
Import Std.

Lemma FM_FIELD_MASK_ones l h : l <= h -> FM_FIELD_MASK l h = Z.ones (h - l + 1).
Proof.
  intros Hlh. unfold FM_FIELD_MASK.
  rewrite Z.shiftl_mul_pow2 by lia.
  rewrite Z.ones_equiv, Z.pow_add_r by lia. lia.
Qed.

Lemma FM_GET_FIELD64_mod v l h :
  0 <= l <= h -> FM_GET_FIELD64 v l h = (v / 2 ^ l) mod 2 ^ (h - l + 1).
Proof.
  intros Hlh. unfold FM_GET_FIELD64.
  rewrite FM_FIELD_MASK_ones, Z.land_ones, Z.shiftr_div_pow2 by lia. reflexivity.
Qed.

Lemma FM_GET_FIELD64_range v l h :
  0 <= l <= h -> 0 <= FM_GET_FIELD64 v l h < 2 ^ (h - l + 1).
Proof.
  intros Hlh. rewrite FM_GET_FIELD64_mod by lia.
  apply Z.mod_pos_bound. apply Z.pow_pos_nonneg; lia.
Qed.

Lemma FM_GET_FIELD64_testbit v l h i :
  0 <= l <= h -> 0 <= i ->
  Z.testbit (FM_GET_FIELD64 v l h) i
  = if i <? h - l + 1 then Z.testbit v (i + l) else false.
Proof.
  intros Hlh Hi. unfold FM_GET_FIELD64.
  rewrite FM_FIELD_MASK_ones by lia.
  rewrite Z.land_spec, Z.shiftr_spec by lia.
  destruct (i <? h - l + 1) eqn:E.
  - rewrite Z.ones_spec_low by lia. apply andb_true_r.
  - rewrite Z.ones_spec_high by lia. apply andb_false_r.
Qed.

Lemma FM_SET_FIELD64_testbit lv l h v i :
  0 <= l <= h -> h < 64 -> 0 <= i ->
  Z.testbit (FM_SET_FIELD64 lv l h v) i
  = if i <? 64 then
      if (l <=? i) && (i <=? h) then Z.testbit v (i - l) else Z.testbit lv i
    else false.
Proof.
  intros Hlh Hh Hi. unfold FM_SET_FIELD64, fm_uint64.
  destruct (i <? 64) eqn:E64.
  - rewrite Z.mod_pow2_bits_low by lia.
    rewrite Z.lxor_spec.
    destruct (l <=? i) eqn:El; simpl.
    + rewrite Z.shiftl_spec by lia.
      rewrite Z.land_spec, Z.lxor_spec, Z.shiftr_spec by lia.
      rewrite FM_FIELD_MASK_ones by lia.
      replace (i - l + l) with i by lia.
      destruct (i <=? h) eqn:Eh.
      * rewrite Z.ones_spec_low by lia.
        rewrite andb_true_r. destruct (Z.testbit lv i), (Z.testbit v (i - l)); reflexivity.
      * rewrite Z.ones_spec_high by lia.
        rewrite andb_false_r. apply xorb_false_r.
    + rewrite Z.shiftl_spec_low by lia. apply xorb_false_r.
  - rewrite Z.mod_pow2_bits_high by lia. reflexivity.
Qed.

Lemma FM_GET_SET_FIELD64 lv l h v :
  0 <= l <= h -> h < 64 -> 0 <= v < 2 ^ (h - l + 1) ->
  FM_GET_FIELD64 (FM_SET_FIELD64 lv l h v) l h = v.
Proof.
  intros Hlh Hh Hv. apply Z.bits_inj'. intros i Hi.
  rewrite FM_GET_FIELD64_testbit by lia.
  destruct (i <? h - l + 1) eqn:E.
  - rewrite FM_SET_FIELD64_testbit by lia.
    replace (i + l <? 64) with true by lia.
    replace ((l <=? i + l) && (i + l <=? h)) with true by lia.
    f_equal. lia.
  - symmetry. apply (Z.bits_above_log2 v i); [lia|].
    destruct (Z.eq_dec v 0) as [->|Hv0]; [simpl; lia|].
    apply Z.log2_lt_pow2; [lia|].
    eapply Z.lt_le_trans; [apply Hv|]. apply Z.pow_le_mono_r; lia.
Qed.

Lemma land_bound a b n : 0 <= n -> 0 <= a < 2 ^ n -> 0 <= Z.land a b < 2 ^ n.
Proof.
  intros Hn Ha. split.
  - apply Z.land_nonneg. lia.
  - rewrite <- (Z.mod_small a (2 ^ n)) by lia.
    rewrite <- Z.land_ones by lia.
    rewrite <- Z.land_assoc, (Z.land_comm (Z.ones n)), Z.land_assoc.
    rewrite Z.land_ones by lia. apply Z.mod_pos_bound. apply Z.pow_pos_nonneg; lia.
Qed.

Lemma fm_uint32_small z : 0 <= z < 2 ^ 32 -> fm_uint32 z = z.
Proof. intros. unfold fm_uint32. apply Z.mod_small. lia. Qed.


Lemma div_mul_le_self us d : 0 <= us -> 0 < d -> 0 <= d * (us / d) <= us.
Proof.
  intros Hus Hd. pose proof (Z.mul_div_le us d Hd).
  assert (0 <= us / d) by (apply Z.div_pos; lia). nia.
Qed.

Lemma div_mul_gap us d : 0 <= us -> 0 < d -> us - d * (us / d) < d.
Proof.
  intros Hus Hd. pose proof (Z.mod_pos_bound us d Hd).
  rewrite Z.mod_eq in H by lia. lia.
Qed.


Lemma array_get_in_range {A} (a : list A) i :
  0 <= i < Z.of_nat (length a) -> exists x, array_get a i = Some x.
Proof.
  intros Hi. unfold array_get.
  destruct (i <? 0) eqn:E; [lia|].
  destruct (lookup_lt_is_Some_2 a (Z.to_nat i)) as [x Hx]; [lia|].
  exists x. exact Hx.
Qed.


Lemma array_get_Some_range {A} (a : list A) i x :
  array_get a i = Some x -> 0 <= i < Z.of_nat (length a).
Proof.
  unfold array_get. destruct (i <? 0) eqn:E; [discriminate|].
  intros Hx. apply lookup_lt_Some in Hx. lia.
Qed.

Lemma array_set_spec {A} (a : list A) i v :
  0 <= i < Z.of_nat (length a) ->
  exists a',
    array_set a i v = Some a'
    /\ length a' = length a
    /\ forall j, array_get a' j = if decide (j = i) then Some v else array_get a j.
Proof.
  intros Hi. unfold array_set.
  replace ((0 <=? i) && (i <? Z.of_nat (length a))) with true by lia.
  eexists. split; [reflexivity|]. split; [apply length_insert|].
  intros j. unfold array_get. destruct (decide (j = i)) as [->|Hne].
  - replace (i <? 0) with false by lia.
    apply list_lookup_insert_eq. lia.
  - destruct (j <? 0) eqn:E; [reflexivity|].
    apply list_lookup_insert_ne. lia.
Qed.


End StdFacts.

(** ** fm10000_api_an.c *)
Module AnProofs.
Import Std An StdFacts.
Local Open Scope an_scope.

(** *** The timer scaler *)

(** One pass of the loop body with the scale [10^e] *)
Lemma timescale_return us e :
  0 <= us < 2 ^ 32 -> 0 <= e <= 5 ->
  fm_uint32 (fm_uint32 (10 ^ e * 10) / 10 * (us / 10 ^ e)) = 10 ^ e * (us / 10 ^ e).
Proof.
  intros Hus He.
  assert (H10 : 0 < 10 ^ e) by (apply Z.pow_pos_nonneg; lia).
  assert (Hle : 10 ^ e <= 10 ^ 5) by (apply Z.pow_le_mono_r; lia).
  rewrite (fm_uint32_small (10 ^ e * 10)) by (change (2 ^ 32) with 4294967296; change (10 ^ 5) with 100000 in Hle; lia).
  rewrite Z.div_mul by lia.
  apply fm_uint32_small.
  pose proof (div_mul_le_self us (10 ^ e)). lia.
Qed.

Lemma AnGetTimeScale_loop_first_fit (timeoutUsec timeoutMax : Z) :
  0 <= timeoutUsec < 2 ^ 32 ->
  forall (n : nat) (k timeout : Z),
    2 <= k <= 8 ->
    8 - k < Z.of_nat n ->
    (forall j, 2 <= j < k -> ~ timeoutUsec / 10 ^ (j - 2) < timeoutMax) ->
    (k = 8 -> timeout = timeoutUsec / 10 ^ 5) ->
    first_fit timeoutUsec timeoutMax
      (AnGetTimeScale_loop n timeoutUsec timeoutMax (10 ^ (k - 2)) k timeout).
Proof.
  intros Hus n. induction n as [|n IH]; intros k timeout Hk Hfuel Hprev Hlast.
  { lia. }
  cbn [AnGetTimeScale_loop].
  destruct (k <=? 7) eqn:Ek.
  - assert (H10 : 0 < 10 ^ (k - 2)) by (apply Z.pow_pos_nonneg; lia).
    assert (Hts : fm_uint32 (10 ^ (k - 2) * 10) = 10 ^ (k + 1 - 2)).
    { replace (k + 1 - 2) with (k - 2 + 1) by lia.
      rewrite Z.pow_add_r by lia. change (10 ^ 1) with 10.
      apply fm_uint32_small.
      assert (10 ^ (k - 2) <= 10 ^ 5) by (apply Z.pow_le_mono_r; lia).
      change (10 ^ 5) with 100000 in *. change (2 ^ 32) with 4294967296. lia. }
    destruct (timeoutUsec / 10 ^ (k - 2) <? timeoutMax) eqn:Elt.
    + exists k. rewrite timescale_return by lia.
      pose proof (div_mul_le_self timeoutUsec (10 ^ (k - 2)) ltac:(lia) H10).
      pose proof (div_mul_gap timeoutUsec (10 ^ (k - 2)) ltac:(lia) H10).
      assert (10 ^ (k - 2) < 10 ^ (k - 1)) by (apply Z.pow_lt_mono_r; lia).
      split; [lia|]. split; [reflexivity|]. split; [reflexivity|].
      split; [exact Hprev|]. left. lia.
    + rewrite Hts. apply IH; try lia.
      * intros j Hj. destruct (Z.eq_dec j k) as [->|]; [lia|]. apply Hprev. lia.
      * intros Hk8. assert (k = 7) as -> by lia. reflexivity.
  - assert (k = 8) as -> by lia. rewrite Hlast by reflexivity.
    change (10 ^ (8 - 2) / 10) with (10 ^ 5).
    assert (H10 : 0 < 10 ^ 5) by lia.
    pose proof (div_mul_le_self timeoutUsec (10 ^ 5) ltac:(lia) H10).
    rewrite fm_uint32_small by lia.
    exists 7. change (7 - 2) with 5.
    split; [lia|]. split; [reflexivity|]. split; [reflexivity|].
    split; [intros j Hj; apply Hprev; lia|].
    right. split; [|lia]. apply (Hprev 7). lia.
Qed.

(** C7.  For a timeout in microseconds that fits an [fm_uint], the scaler
    tries the timescales 2, 3, ..., 7 with [count = timeoutUsec / 10^(k-2)]
    and stops at the first [k] whose count is below [timeoutMax]: [k] is
    the timescale of the last pass made, no earlier pass had a fitting
    count, and the value returned is [10^(k-2) * count].  When a pass
    fits, [*timeScale] is that [k] and the value returned differs from
    [timeoutUsec] by less than [10^(k-1)]; when none does, the last pass
    is the one for 7 and [*timeScale] is left at 8. *)
Theorem AnGetTimeScale_first_fit (timeoutUsec timeoutMax timeout0 : Z) :
  0 <= timeoutUsec < 2 ^ 32 ->
  let '(effective, timeScale, count) :=
    fm10000AnGetTimeScale timeoutUsec timeoutMax timeout0 in
  exists k,
    2 <= k <= 7
    /\ count = timeoutUsec / 10 ^ (k - 2)
    /\ effective = 10 ^ (k - 2) * count
    /\ (forall j, 2 <= j < k -> ~ timeoutUsec / 10 ^ (j - 2) < timeoutMax)
    /\ ((count < timeoutMax /\ timeScale = k
         /\ Z.abs (effective - timeoutUsec) < 10 ^ (k - 1))
        \/ (~ count < timeoutMax /\ k = 7 /\ timeScale = 8)).
Proof.
  intros Hus.
  apply (AnGetTimeScale_loop_first_fit timeoutUsec timeoutMax Hus 7 2 timeout0);
    try lia.
Qed.

(** *** The base page validator *)

Section ValidateProofs.
Context `{AnHeader} {FW : Type}.

Lemma header_ok_bounds :
  header_ok = true ->
  0 <= FM10000_AN_73_BASE_PAGE_TX_l_A <= FM10000_AN_73_BASE_PAGE_TX_h_A
  /\ FM10000_AN_73_BASE_PAGE_TX_h_A < 64
  /\ FM10000_AN_73_BASE_PAGE_TX_h_A - FM10000_AN_73_BASE_PAGE_TX_l_A < 32.
Proof. unfold header_ok. rewrite !andb_true_iff. lia. Qed.

Lemma ability_field_range basepage :
  header_ok = true ->
  0 <= ability_field basepage
       < 2 ^ (FM10000_AN_73_BASE_PAGE_TX_h_A - FM10000_AN_73_BASE_PAGE_TX_l_A + 1).
Proof.
  intros Hok. apply header_ok_bounds in Hok.
  unfold ability_field. apply FM_GET_FIELD64_range. lia.
Qed.

Lemma ability_field_uint32 basepage :
  header_ok = true -> 0 <= ability_field basepage < 2 ^ 32.
Proof.
  intros Hok. pose proof (ability_field_range basepage Hok) as Hr.
  apply header_ok_bounds in Hok.
  split; [lia|]. eapply Z.lt_le_trans; [apply Hr|].
  apply Z.pow_le_mono_r; lia.
Qed.

(** C10.  A Clause 73 base page whose ability field is zero is accepted
    whatever the port's capabilities and whatever the header calls
    unsupported: the status is FM_OK and the ability field of the
    modified base page is written as zero. *)
Theorem validate_zero_ability (sw : switch FW) (port basepage modBasePage : Z) :
  header_ok = true ->
  ability_field basepage = 0 ->
  fm10000AnValidateBasePage sw port FM_PORT_AUTONEG_CLAUSE_73 basepage modBasePage
  = (FM_OK,
     FM_SET_FIELD64 modBasePage FM10000_AN_73_BASE_PAGE_TX_l_A
       FM10000_AN_73_BASE_PAGE_TX_h_A 0)
  /\ ability_field
       (snd (fm10000AnValidateBasePage sw port FM_PORT_AUTONEG_CLAUSE_73
               basepage modBasePage)) = 0.
Proof.
  intros Hok Hz.
  assert (Hres :
    fm10000AnValidateBasePage sw port FM_PORT_AUTONEG_CLAUSE_73 basepage modBasePage
    = (FM_OK,
       FM_SET_FIELD64 modBasePage FM10000_AN_73_BASE_PAGE_TX_l_A
         FM10000_AN_73_BASE_PAGE_TX_h_A 0)).
  { unfold fm10000AnValidateBasePage. fold (ability_field basepage).
    rewrite Hz. reflexivity. }
  split; [exact Hres|].
  rewrite Hres. simpl. unfold ability_field.
  pose proof (header_ok_bounds Hok) as Hb.
  apply FM_GET_SET_FIELD64; lia.
Qed.

Lemma lacks_speed_cases (caps a : Z) (p : Z * Z) :
  truthy (Z.land a (fst p)) && negb (truthy (Z.land caps (snd p)))
  = lacks_speed caps a p.
Proof. reflexivity. Qed.

(** C5 (as amended).  For a Clause 73 base page whose ability field is
    not zero, the abilities outside the supported mask are masked off;
    if nothing is left the function fails with FM_ERR_UNSUPPORTED; if one
    of the abilities the function tests (1000BASE-KX, 10GBASE-KR,
    25GBASE-KR, 40GBASE-KR4/CR4, 100GBASE-KR4/CR4) is left and the port
    lacks its speed, it fails with FM_ERR_UNSUPPORTED; and if no ability
    that is left, 25GBASE-CR included, lacks its speed, it returns FM_OK
    and the modified base page carries the cleaned ability field. *)
Theorem validate_nonzero_ability (sw : switch FW) (port basepage modBasePage : Z) :
  header_ok = true ->
  ability_field basepage <> 0 ->
  let caps := capabilities (GET_PORT_PTR sw port) in
  let cleaned :=
    Z.land (ability_field basepage) (Z.lnot FM10000_AN73_UNSUPPORTED_ABILITIES) in
  let r := fm10000AnValidateBasePage sw port FM_PORT_AUTONEG_CLAUSE_73
             basepage modBasePage in
  (cleaned = 0 -> r = (FM_ERR_UNSUPPORTED, modBasePage))
  /\ (cleaned <> 0 ->
      Exists (fun p => lacks_speed caps cleaned p = true) checked_speeds ->
      r = (FM_ERR_UNSUPPORTED, modBasePage))
  /\ (cleaned <> 0 ->
      Forall (fun p => lacks_speed caps cleaned p = false) all_speeds ->
      r = (FM_OK,
           FM_SET_FIELD64 modBasePage FM10000_AN_73_BASE_PAGE_TX_l_A
             FM10000_AN_73_BASE_PAGE_TX_h_A cleaned)
      /\ ability_field (snd r) = cleaned).
Proof.
  intros Hok Hnz caps cleaned r.
  pose proof (ability_field_uint32 basepage Hok) as H32.
  pose proof (ability_field_range basepage Hok) as Hr.
  pose proof (header_ok_bounds Hok) as Hb.
  assert (Hc32 : 0 <= cleaned < 2 ^ 32) by (apply land_bound; lia).
  assert (Hcr : 0 <= cleaned
                < 2 ^ (FM10000_AN_73_BASE_PAGE_TX_h_A
                       - FM10000_AN_73_BASE_PAGE_TX_l_A + 1))
    by (apply land_bound; lia).
  assert (Hr_eq : r =
    match validate_abilities caps (ability_field basepage) with
    | Return st => (st, modBasePage)
    | Continue a =>
        (FM_OK, FM_SET_FIELD64 modBasePage FM10000_AN_73_BASE_PAGE_TX_l_A
                  FM10000_AN_73_BASE_PAGE_TX_h_A a)
    end).
  { subst r. unfold fm10000AnValidateBasePage. fold (ability_field basepage).
    rewrite (fm_uint32_small _ H32).
    destruct (ability_field basepage =? 0) eqn:E; [lia|]. reflexivity. }
  unfold validate_abilities in Hr_eq. fold cleaned in Hr_eq.
  rewrite (fm_uint32_small _ Hc32) in Hr_eq.
  split; [|split].
  - intros Hc0. rewrite Hr_eq, Hc0. reflexivity.
  - intros Hc Hex. rewrite Hr_eq.
    destruct (cleaned =? 0) eqn:E; [lia|].
    unfold checked_speeds in Hex.
    rewrite !Exists_cons, Exists_nil in Hex. unfold lacks_speed in Hex. simpl in Hex.
    repeat match goal with
           | |- context [if ?b then _ else _] =>
               destruct b eqn:?; [reflexivity|]
           end.
    exfalso. intuition congruence.
  - intros Hc Hall.
    assert (Hreq : r = (FM_OK,
              FM_SET_FIELD64 modBasePage FM10000_AN_73_BASE_PAGE_TX_l_A
                FM10000_AN_73_BASE_PAGE_TX_h_A cleaned)).
    { rewrite Hr_eq.
      destruct (cleaned =? 0) eqn:E; [lia|].
      unfold all_speeds, checked_speeds in Hall.
      rewrite !Forall_cons in Hall. unfold lacks_speed in Hall. simpl in Hall.
      destruct Hall as (_ & -> & -> & -> & -> & -> & -> & -> & _). reflexivity. }
    split; [exact Hreq|].
    rewrite Hreq. simpl. unfold ability_field. apply FM_GET_SET_FIELD64; lia.
Qed.

End ValidateProofs.

(** *** The event dispatchers *)

Section DispatchProofs.
Context `{AnHeader} {FW : Type} `{AnEnv FW}.

Lemma is_ok_true st : is_ok st = true -> st = FM_OK.
Proof. destruct st; simpl; congruence. Qed.

Lemma is_ok_false st : is_ok st = false -> st <> FM_OK.
Proof. destruct st; simpl; congruence. Qed.

Lemma get_set_port_ext (sw : switch FW) port p :
  GET_PORT_EXT (set_port_ext sw port p) port = p.
Proof. unfold set_port_ext; simpl. destruct (decide (port = port)); congruence. Qed.

(** A block whose bit is not pending does nothing. *)
Lemma notify_if_pending_skip smT port anIp bit e status (s : switch FW * list (call FW)) :
  truthy (FM_GET_BIT anIp bit) = false ->
  notify_if_pending smT port anIp bit e status s = (Done status, s).
Proof. intros Hb. unfold notify_if_pending. rewrite Hb. reflexivity. Qed.

(** A block whose bit is pending makes one delivery, and aborts unless
    it returned FM_OK. *)
Lemma notify_if_pending_fire smT port anIp bit e status (sw : switch FW) log :
  truthy (FM_GET_BIT anIp bit) = true ->
  exists sw' c st,
    delivered smT port st e c
    /\ notify_if_pending smT port anIp bit e status (sw, log)
       = (if is_ok st then Done st else Aborted st, (sw', log ++ [c])).
Proof.
  intros Hb. unfold notify_if_pending. rewrite Hb.
  unfold bind, update_port_ext, get_switch, call_fmNotifyStateMachineEvent,
    FM_LOG_ABORT_ON_ERR, ret. cbn [fst snd].
  set (sw1 := set_port_ext sw port (set_regLockTaken false (GET_PORT_EXT sw port))).
  set (ev := {| SmEvent.smType := smT; SmEvent.eventId := e;
                SmEvent.dontSaveRecord := false |}).
  destruct (fmNotifyStateMachineEvent sw1 (anSmHandle (GET_PORT_EXT sw1 port))
              ev port) as [sw2 st] eqn:En.
  exists sw2, (Call sw1 (OpNotify (anSmHandle (GET_PORT_EXT sw1 port)) ev port) st), st.
  split.
  - split; [reflexivity|]. cbn [call_before]. subst sw1.
    rewrite get_set_port_ext. reflexivity.
  - destruct (is_ok st); reflexivity.
Qed.

Lemma pending_events_cons_true anIp bit e rest :
  truthy (FM_GET_BIT anIp bit) = true ->
  pending_events anIp ((bit, e) :: rest) = e :: pending_events anIp rest.
Proof.
  intros Hb. unfold pending_events. rewrite filter_cons. simpl.
  destruct (decide (truthy (FM_GET_BIT anIp bit) = true)); [reflexivity|congruence].
Qed.

Lemma pending_events_cons_false anIp bit e rest :
  truthy (FM_GET_BIT anIp bit) = false ->
  pending_events anIp ((bit, e) :: rest) = pending_events anIp rest.
Proof.
  intros Hb. unfold pending_events. rewrite filter_cons. simpl.
  destruct (decide (truthy (FM_GET_BIT anIp bit) = true)); [congruence|reflexivity].
Qed.

Lemma notify_chain_run smT port anIp blocks :
  forall (sw : switch FW) log,
  exists sw' calls r,
    notify_chain smT port anIp blocks FM_OK (sw, log) = (r, (sw', log ++ calls))
    /\ chain_run smT port anIp blocks r calls.
Proof.
  induction blocks as [|[bit e] rest IH]; intros sw log.
  - exists sw, [], (Done FM_OK). split.
    + simpl. unfold ret. rewrite app_nil_r. reflexivity.
    + left. split; [reflexivity|]. constructor.
  - cbn [notify_chain]. unfold bind at 1.
    destruct (truthy (FM_GET_BIT anIp bit)) eqn:Hb.
    + destruct (notify_if_pending_fire smT port anIp bit e FM_OK sw log Hb)
        as (sw1 & c & st & Hdel & Hrun).
      rewrite Hrun. destruct (is_ok st) eqn:Hok.
      * apply is_ok_true in Hok. subst st.
        destruct (IH sw1 (log ++ [c])) as (sw' & calls & r & Hrest & Hspec).
        exists sw', (c :: calls), r. split.
        { rewrite Hrest. rewrite <- app_assoc. reflexivity. }
        unfold chain_run. rewrite pending_events_cons_true by exact Hb.
        destruct Hspec as [[-> Hall] | (st & pre & e' & post & cs & c' & -> & Hne & Hevs & -> & Hpre & Hlast)].
        { left. split; [reflexivity|]. constructor; assumption. }
        right. exists st, (e :: pre), e', post, (c :: cs), c'.
        rewrite Hevs.
        split; [reflexivity|]. split; [exact Hne|]. split; [reflexivity|].
        split; [reflexivity|]. split; [constructor; assumption|exact Hlast].
      * apply is_ok_false in Hok.
        exists sw1, [c], (Aborted st). split; [reflexivity|].
        right. exists st, [], e, (pending_events anIp rest), [], c.
        rewrite pending_events_cons_true by exact Hb.
        split; [reflexivity|]. split; [exact Hok|]. split; [reflexivity|].
        split; [reflexivity|]. split; [constructor|exact Hdel].
    + rewrite notify_if_pending_skip by exact Hb.
      destruct (IH sw log) as (sw' & calls & r & Hrest & Hspec).
      exists sw', calls, r. split; [exact Hrest|].
      unfold chain_run. rewrite pending_events_cons_false by exact Hb. exact Hspec.
Qed.

Lemma NotifyClause73Events_chain port anIp :
  NotifyClause73Events port anIp
  = at_ABORT_return
      (notify_chain FM10000_CLAUSE73_AN_STATE_MACHINE port anIp clause73_order FM_OK).
Proof. reflexivity. Qed.

Lemma NotifyClause37Events_chain port anIp :
  NotifyClause37Events port anIp
  = at_ABORT_return
      (notify_chain FM10000_CLAUSE37_AN_STATE_MACHINE port anIp clause37_blocks FM_OK).
Proof. reflexivity. Qed.

Lemma at_ABORT_return_chain smT port anIp blocks (sw : switch FW) log :
  exists sw' calls status,
    at_ABORT_return (notify_chain smT port anIp blocks FM_OK) (sw, log)
    = (Done status, (sw', log ++ calls))
    /\ dispatch_run smT port anIp blocks status calls.
Proof.
  destruct (notify_chain_run smT port anIp blocks sw log)
    as (sw' & calls & r & Hrun & Hspec).
  unfold at_ABORT_return. rewrite Hrun.
  destruct Hspec as [[-> Hall] | (st & pre & e & post & cs & c & -> & Hne & Hevs & Hcalls & Hpre & Hlast)].
  - exists sw', calls, FM_OK. split; [reflexivity|]. left. auto.
  - exists sw', calls, st. split; [reflexivity|]. right. split; [exact Hne|].
    exists pre, e, post, cs, c. auto.
Qed.

(** A chain of blocks entered with FM_OK makes the deliveries of its
    pending bits in order, each answered by the framework, and is on its
    way to ABORT exactly when the last of them was not answered FM_OK. *)
Lemma notify_chain_deliver smT port anIp blocks :
  forall (sw : switch FW) log,
    notify_chain smT port anIp blocks FM_OK (sw, log)
    = (let '(calls, sw', status) :=
         deliver_in_order smT port (pending_events anIp blocks) sw in
       (if is_ok status then Done status else Aborted status,
        (sw', log ++ calls))).
Proof.
  induction blocks as [|[bit e] rest IH]; intros sw log.
  - simpl. unfold ret. rewrite app_nil_r. reflexivity.
  - cbn [notify_chain]. unfold bind at 1.
    destruct (truthy (FM_GET_BIT anIp bit)) eqn:Hb.
    + rewrite pending_events_cons_true by exact Hb.
      cbn [deliver_in_order].
      unfold notify_if_pending. rewrite Hb.
      unfold bind, update_port_ext, get_switch, call_fmNotifyStateMachineEvent,
        FM_LOG_ABORT_ON_ERR, ret. cbn [fst snd].
      destruct (fmNotifyStateMachineEvent _ _ _ _) as [sw2 st].
      destruct (is_ok st) eqn:Hok; [|rewrite Hok; reflexivity].
      apply is_ok_true in Hok. subst st.
      rewrite IH.
      destruct (deliver_in_order smT port (pending_events anIp rest) sw2)
        as [[calls sw'] status].
      rewrite <- app_assoc. reflexivity.
    + rewrite pending_events_cons_false by exact Hb.
      rewrite notify_if_pending_skip by exact Hb. apply IH.
Qed.

(** C3.  Whatever the pending mask and whatever the state machine
    framework does, the Clause 73 dispatcher delivers, to the Clause 73
    state machine of the port, the events of the pending bits among
    AbilityDetect, AcknowledgeDetect, CompleteAcknowledge, NextPageWait,
    AnGoodCheck, AnGood, TransmitDisable in that order, one delivery
    per pending bit, each the event named after its bit, each made in
    the state the delivery before it left and logged with the status
    the framework answered.  Either every delivery was answered FM_OK
    and all of them were made, or the deliveries stop with the first one
    that was not, whose status is returned; the switch is left as the
    last delivery left it. *)
Theorem NotifyClause73Events_in_order (port anIp : Z) (sw : switch FW)
  (log : list (call FW)) :
  exists sw' calls status,
    NotifyClause73Events port anIp (sw, log) = (Done status, (sw', log ++ calls))
    /\ (calls, sw', status)
       = deliver_in_order FM10000_CLAUSE73_AN_STATE_MACHINE port
           (pending_events anIp clause73_order) sw
    /\ let evs := pending_events anIp clause73_order in
       (status = FM_OK
        /\ Forall2 (delivered FM10000_CLAUSE73_AN_STATE_MACHINE port FM_OK) evs calls)
       \/ (status <> FM_OK
           /\ exists pre e post cs c,
                evs = pre ++ e :: post /\ calls = cs ++ [c]
                /\ Forall2 (delivered FM10000_CLAUSE73_AN_STATE_MACHINE port FM_OK)
                     pre cs
                /\ delivered FM10000_CLAUSE73_AN_STATE_MACHINE port status e c).
Proof.
  destruct (at_ABORT_return_chain FM10000_CLAUSE73_AN_STATE_MACHINE port anIp
              clause73_order sw log) as (sw' & calls & status & Hrun & Hspec).
  exists sw', calls, status.
  rewrite NotifyClause73Events_chain. split; [exact Hrun|].
  split; [|exact Hspec].
  unfold at_ABORT_return in Hrun. rewrite notify_chain_deliver in Hrun.
  destruct (deliver_in_order FM10000_CLAUSE73_AN_STATE_MACHINE port
              (pending_events anIp clause73_order) sw) as [[calls0 sw0] status0].
  assert (Heq : (Done status0 : outcome fm_status, (sw0, log ++ calls0))
                = (Done status, (sw', log ++ calls))).
  { destruct (is_ok status0); exact Hrun. }
  injection Heq as Hst Hsw Hlog. apply app_inv_head in Hlog. congruence.
Qed.

End DispatchProofs.

(** *** The event handler *)

Section HandlerProofs.
Context `{AnHeader} {FW : Type} `{AnEnv FW}.

Lemma delivered_is_delivery smT port st e (c : call FW) :
  delivered smT port st e c -> is_delivery c.
Proof. intros [-> _]. do 3 eexists. reflexivity. Qed.

Lemma Forall2_delivered_deliveries smT port st evs (calls : list (call FW)) :
  Forall2 (delivered smT port st) evs calls -> Forall is_delivery calls.
Proof.
  induction 1; constructor; eauto using delivered_is_delivery.
Qed.

Lemma dispatch_run_deliveries smT port anIp order status (calls : list (call FW)) :
  dispatch_run smT port anIp order status calls -> Forall is_delivery calls.
Proof.
  intros [[_ Hall]|(_ & pre & e & post & cs & c & _ & -> & Hpre & Hlast)].
  - eapply Forall2_delivered_deliveries; eassumption.
  - apply Forall_app. split.
    + eapply Forall2_delivered_deliveries; eassumption.
    + constructor; [|constructor]. eapply delivered_is_delivery; eassumption.
Qed.

(** The part above the ABORT label only makes deliveries. *)
Lemma AnEventHandler_body_deliveries epl lane anIp (sw : switch FW) log :
  exists r sw1 calls,
    AnEventHandler_body epl lane anIp (sw, log) = (r, (sw1, log ++ calls))
    /\ Forall is_delivery calls.
Proof.
  unfold AnEventHandler_body. unfold bind at 1, get_switch at 1. cbn [fst].
  destruct (fm10000MapEplLaneToSerdes sw epl lane) as [status serDes].
  unfold bind at 1, FM_LOG_ABORT_ON_ERR at 1.
  destruct (is_ok status).
  2:{ exists (Aborted status), sw, []. rewrite app_nil_r. split; [reflexivity|constructor]. }
  destruct (GET_LANE_EXT sw serDes) as [laneExt|].
  2:{ exists (Done tt), sw, []. rewrite app_nil_r. split; [reflexivity|constructor]. }
  destruct (parentPortExt laneExt) as [port|].
  2:{ exists (Done tt), sw, []. rewrite app_nil_r. split; [reflexivity|constructor]. }
  unfold bind at 1, update_port_ext at 1. cbn [fst snd].
  set (sw0 := set_port_ext sw port (set_info (InfoPhysLane lane) (GET_PORT_EXT sw port))).
  unfold bind at 1, get_switch at 1. cbn [fst].
  destruct (bool_decide (anSmType (GET_PORT_EXT sw0 port)
                         = FM10000_CLAUSE73_AN_STATE_MACHINE)).
  { rewrite NotifyClause73Events_chain. unfold bind.
    destruct (at_ABORT_return_chain FM10000_CLAUSE73_AN_STATE_MACHINE port anIp
                clause73_order sw0 log) as (sw' & calls & st & Hrun & Hspec).
    rewrite Hrun. unfold FM_LOG_ABORT_ON_ERR.
    apply dispatch_run_deliveries in Hspec.
    destruct (is_ok st); do 3 eexists; (split; [reflexivity|exact Hspec]). }
  destruct (bool_decide (anSmType (GET_PORT_EXT sw0 port)
                         = FM10000_CLAUSE37_AN_STATE_MACHINE)).
  { rewrite NotifyClause37Events_chain. unfold bind.
    destruct (at_ABORT_return_chain FM10000_CLAUSE37_AN_STATE_MACHINE port anIp
                clause37_blocks sw0 log) as (sw' & calls & st & Hrun & Hspec).
    rewrite Hrun. unfold FM_LOG_ABORT_ON_ERR.
    apply dispatch_run_deliveries in Hspec.
    destruct (is_ok st); do 3 eexists; (split; [reflexivity|exact Hspec]). }
  exists (Done tt), sw0, []. rewrite app_nil_r. split; [reflexivity|constructor].
Qed.

(** C8.  On every path through the AN event handler (the lane does not
    map to a SerDes, no lane or no port owns it, the port is bound to no
    AN state machine, the event chain succeeds, or a delivery fails and
    aborts the chain) the last thing the handler does is to ask the
    register layer to clear the bits of [anIp] in the AN interrupt mask
    register of the lane ([MaskUINT32] with [on = FALSE]); everything
    before it is a delivery of an event, and the handler returns the
    status of that register write. *)
Theorem AnEventHandler_rearms (epl lane anIp : Z) (sw : switch FW)
  (log : list (call FW)) :
  exists sw1 calls sw' status,
    fm10000AnEventHandler epl lane anIp (sw, log)
    = (Done status,
       (sw', log ++ calls
               ++ [Call sw1 (OpMaskUINT32 (FM10000_AN_IM epl lane) anIp false)
                     status]))
    /\ MaskUINT32 sw1 (FM10000_AN_IM epl lane) anIp false = (sw', status)
    /\ Forall (fun c => exists handle ev port,
                          call_op c = OpNotify handle ev port) calls.
Proof.
  destruct (AnEventHandler_body_deliveries epl lane anIp sw log)
    as (r & sw1 & calls & Hbody & Hcalls).
  unfold fm10000AnEventHandler. rewrite Hbody.
  destruct (MaskUINT32 sw1 (FM10000_AN_IM epl lane) anIp false) as [sw' status] eqn:Em.
  exists sw1, calls, sw', status.
  split; [|split; [exact Em|exact Hcalls]].
  unfold call_MaskUINT32. rewrite Em, <- app_assoc. reflexivity.
Qed.

End HandlerProofs.

(** *** Restart on a new configuration *)

Section ReadinessProofs.
Context `{AnHeader} {FW : Type} `{AnEnv FW}.

Lemma is_ethernet_port_decide (sw : switch FW) port :
  is_ethernet_port sw port <->
  (bool_decide (portType (GET_PORT_PTR sw port) = FM_PORT_TYPE_PHYSICAL)
   || (bool_decide (portType (GET_PORT_PTR sw port) = FM_PORT_TYPE_CPU)
       && negb (port =? 0)))
  && bool_decide (ring (GET_PORT_EXT sw port) = FM10000_SERDES_RING_EPL) = true.
Proof.
  unfold is_ethernet_port.
  rewrite andb_true_iff, orb_true_iff, andb_true_iff, negb_true_iff,
    !bool_decide_eq_true, Z.eqb_neq.
  tauto.
Qed.

Lemma IsPortAutonegReady_ready (sw : switch FW) port ethMode anMode :
  an_ready sw port ethMode anMode ->
  exists newT,
    expected_smType anMode = Some newT
    /\ fm10000IsPortAutonegReady sw port ethMode anMode = (FM_OK, true, newT).
Proof.
  intros [Heth Hmode]. apply is_ethernet_port_decide in Heth.
  unfold fm10000IsPortAutonegReady. rewrite Heth.
  destruct Hmode as [[-> ->]|[[->| ->] [->| ->]]]; eexists; split; reflexivity.
Qed.

Lemma IsPortAutonegReady_not_ready (sw : switch FW) port ethMode anMode :
  ~ an_ready sw port ethMode anMode ->
  exists status newT,
    fm10000IsPortAutonegReady sw port ethMode anMode = (status, false, newT).
Proof.
  intros Hnot. unfold fm10000IsPortAutonegReady.
  destruct ((bool_decide (portType (GET_PORT_PTR sw port) = FM_PORT_TYPE_PHYSICAL)
             || (bool_decide (portType (GET_PORT_PTR sw port) = FM_PORT_TYPE_CPU)
                 && negb (port =? 0)))
            && bool_decide (ring (GET_PORT_EXT sw port) = FM10000_SERDES_RING_EPL))
    eqn:Heth; [|do 2 eexists; reflexivity].
  apply is_ethernet_port_decide in Heth.
  assert (Hm : ~ ((anMode = FM_PORT_AUTONEG_CLAUSE_73 /\ ethMode = FM_ETH_MODE_AN_73)
      \/ ((anMode = FM_PORT_AUTONEG_CLAUSE_37 \/ anMode = FM_PORT_AUTONEG_SGMII)
          /\ (ethMode = FM_ETH_MODE_1000BASE_X \/ ethMode = FM_ETH_MODE_SGMII))))
    by (intros Hm; apply Hnot; split; assumption).
  destruct anMode; cbn [bool_decide decide_rel fm_autonegMode_eq_dec].
  - do 2 eexists; reflexivity.
  - destruct (bool_decide (ethMode = FM_ETH_MODE_1000BASE_X)) eqn:E1.
    { apply bool_decide_eq_true in E1. exfalso. apply Hm. right. auto. }
    destruct (bool_decide (ethMode = FM_ETH_MODE_SGMII)) eqn:E2.
    { apply bool_decide_eq_true in E2. exfalso. apply Hm. right. auto. }
    do 2 eexists; reflexivity.
  - destruct (bool_decide (ethMode = FM_ETH_MODE_1000BASE_X)) eqn:E1.
    { apply bool_decide_eq_true in E1. exfalso. apply Hm. right. auto. }
    destruct (bool_decide (ethMode = FM_ETH_MODE_SGMII)) eqn:E2.
    { apply bool_decide_eq_true in E2. exfalso. apply Hm. right. auto. }
    do 2 eexists; reflexivity.
  - destruct (bool_decide (ethMode = FM_ETH_MODE_AN_73)) eqn:E1.
    { apply bool_decide_eq_true in E1. exfalso. apply Hm. left. auto. }
    do 2 eexists; reflexivity.
Qed.

(** A config event is one delivery to the port state machine that
    carries the configuration. *)
Lemma AnSendConfigEvent_run port e mode basepage pages (sw : switch FW) log :
  exists sw' c,
    fm10000AnSendConfigEvent port e mode basepage pages (sw, log)
    = (Done (call_result c), (sw', log ++ [c]))
    /\ config_event port e mode basepage pages (call_result c) c
    /\ anSmType (GET_PORT_EXT (call_before c) port) = anSmType (GET_PORT_EXT sw port)
    /\ anSmHandle (GET_PORT_EXT (call_before c) port) = anSmHandle (GET_PORT_EXT sw port)
    /\ anInterruptMask (GET_PORT_EXT (call_before c) port)
       = anInterruptMask (GET_PORT_EXT sw port)
    /\ event_info_written port sw (call_before c)
    /\ answered c sw'.
Proof.
  unfold fm10000AnSendConfigEvent, bind, get_switch, update_port_ext,
    call_fmNotifyStateMachineEvent. cbn [fst snd].
  set (sw1 := set_port_ext _ port (set_regLockTaken false _)).
  set (ev := {| SmEvent.smType := smType (GET_PORT_EXT sw port);
                SmEvent.eventId := e; SmEvent.dontSaveRecord := false |}).
  destruct (fmNotifyStateMachineEvent sw1 (smHandle (GET_PORT_EXT sw1 port)) ev port)
    as [sw' st] eqn:En.
  exists sw', (Call sw1 (OpNotify (smHandle (GET_PORT_EXT sw1 port)) ev port) st).
  split; [reflexivity|].
  assert (Hp : GET_PORT_EXT sw1 port
               = set_regLockTaken false
                   (set_info (InfoAnConfig mode basepage pages) (GET_PORT_EXT sw port))).
  { subst sw1. rewrite !get_set_port_ext. reflexivity. }
  split; [|split; [|split; [|split; [|split; [|exact En]]]]];
    cbn [call_before call_result]; try (rewrite !Hp; reflexivity).
  { unfold config_event. cbn [call_before]. rewrite !Hp.
    repeat split; reflexivity. }
  unfold event_info_written, written_only_at. rewrite !Hp.
  repeat split; try reflexivity.
  intros q Hq. subst sw1. unfold set_port_ext. cbn [GET_PORT_EXT].
  rewrite !decide_False by exact Hq. reflexivity.
Qed.

End ReadinessProofs.

Section RebindProofs.
Context `{AnHeader} {FW : Type} `{AnEnv FW}.

Lemma bind_done {A B} (m : M FW A) (f : A -> M FW B) s a s' :
  m s = (Done a, s') -> bind m f s = f a s'.
Proof. intros Hm. unfold bind. rewrite Hm. reflexivity. Qed.

Lemma bind_aborted {A B} (m : M FW A) (f : A -> M FW B) s st s' :
  m s = (Aborted st, s') -> bind m f s = (Aborted st, s').
Proof. intros Hm. unfold bind. rewrite Hm. reflexivity. Qed.

Lemma change_interrupt_mask_run anMode port (sw : switch FW) log :
  expected_smType anMode <> None ->
  change_interrupt_mask port anMode (sw, log)
  = (Done tt,
     (set_port_ext sw port
        (set_anInterruptMask (mask_template anMode) (GET_PORT_EXT sw port)), log)).
Proof. destruct anMode; intros Hm; [cbn in Hm; congruence| | |]; reflexivity. Qed.

(** Stopping a bound state machine: the DISABLE request with the
    configuration of the port attributes, then the stop. *)
Lemma stop_current_sm_bound port (sw : switch FW) log :
  anSmType (GET_PORT_EXT sw port) <> FM_SMTYPE_UNSPECIFIED ->
  exists cDisable cStop sw',
    stop_current_sm port (sw, log) = (Done tt, (sw', log ++ [cDisable; cStop]))
    /\ config_event port FM10000_PORT_EVENT_AN_DISABLE_REQ
         (autoNegMode (GET_PORT_ATTR sw port))
         (autoNegBasePage (GET_PORT_ATTR sw port))
         (autoNegNextPages (GET_PORT_ATTR sw port))
         (call_result cDisable) cDisable
    /\ call_op cStop = OpStop (anSmHandle (GET_PORT_EXT (call_before cStop) port))
    /\ event_info_written port sw (call_before cDisable)
    /\ answered cDisable (call_before cStop)
    /\ answered cStop sw'.
Proof.
  intros Hbound.
  destruct (AnSendConfigEvent_run port FM10000_PORT_EVENT_AN_DISABLE_REQ
              (autoNegMode (GET_PORT_ATTR sw port))
              (autoNegBasePage (GET_PORT_ATTR sw port))
              (autoNegNextPages (GET_PORT_ATTR sw port)) sw log)
    as (sw1 & cD & Hrun & Hcfg & _ & _ & _ & Hwritten & Hanswered).
  destruct (fmStopStateMachine sw1 (anSmHandle (GET_PORT_EXT sw1 port)))
    as [sw2 st] eqn:Estop.
  exists cD, (Call sw1 (OpStop (anSmHandle (GET_PORT_EXT sw1 port))) st), sw2.
  split; [|split; [exact Hcfg|]; split; [reflexivity|];
           split; [exact Hwritten|]; split; [exact Hanswered|exact Estop]].
  unfold stop_current_sm.
  erewrite bind_done; [|reflexivity]. cbn [fst].
  rewrite bool_decide_eq_false_2 by exact Hbound. cbn [negb].
  erewrite bind_done; [|exact Hrun].
  erewrite bind_done; [|reflexivity]. cbn [fst].
  erewrite bind_done; cycle 1.
  { unfold call_fmStopStateMachine. rewrite Estop. reflexivity. }
  unfold ret. rewrite <- app_assoc. reflexivity.
Qed.

Lemma stop_current_sm_unbound port (sw : switch FW) log :
  anSmType (GET_PORT_EXT sw port) = FM_SMTYPE_UNSPECIFIED ->
  stop_current_sm port (sw, log) = (Done tt, (sw, log)).
Proof.
  intros Hun. unfold stop_current_sm.
  erewrite bind_done; [|reflexivity]. cbn [fst].
  rewrite bool_decide_eq_true_2 by exact Hun. reflexivity.
Qed.

(** Starting the new state machine: one start in state DISABLED; on
    success the port is bound to the new type. *)
Lemma start_new_sm_run port newT (sw : switch FW) log :
  exists cStart sw1,
    cStart = Call sw (OpStart (anSmHandle (GET_PORT_EXT sw port)) newT
                        FM10000_AN_STATE_DISABLED) (call_result cStart)
    /\ answered cStart sw1
    /\ start_new_sm port newT (sw, log)
       = if is_ok (call_result cStart)
         then (Done tt,
               (set_port_ext sw1 port (set_anSmType newT (GET_PORT_EXT sw1 port)),
                log ++ [cStart]))
         else (Aborted (call_result cStart), (sw1, log ++ [cStart])).
Proof.
  destruct (fmStartStateMachine sw (anSmHandle (GET_PORT_EXT sw port)) newT
              FM10000_AN_STATE_DISABLED) as [sw1 st] eqn:Estart.
  exists (Call sw (OpStart (anSmHandle (GET_PORT_EXT sw port)) newT
                     FM10000_AN_STATE_DISABLED) st), sw1.
  split; [reflexivity|]. split; [exact Estart|]. cbn [call_result].
  unfold start_new_sm, bind, get_switch, call_fmStartStateMachine,
    FM_LOG_ABORT_ON_ERR, update_port_ext. cbn [fst snd]. rewrite Estart.
  destruct (is_ok st); reflexivity.
Qed.

(** After a successful start: the mask, then the CONFIG request. *)
Lemma mask_and_config_run port anMode basepage pages (sw : switch FW) log :
  expected_smType anMode <> None ->
  exists cConfig sw',
    (change_interrupt_mask port anMode ;;;
     status <-- fm10000AnSendConfigEvent port FM10000_PORT_EVENT_AN_CONFIG_REQ
                  anMode basepage pages ;;
     ret status) (sw, log)
    = (Done (call_result cConfig), (sw', log ++ [cConfig]))
    /\ config_event port FM10000_PORT_EVENT_AN_CONFIG_REQ anMode basepage pages
         (call_result cConfig) cConfig
    /\ anSmType (GET_PORT_EXT (call_before cConfig) port)
       = anSmType (GET_PORT_EXT sw port)
    /\ anInterruptMask (GET_PORT_EXT (call_before cConfig) port)
       = mask_template anMode
    /\ rebound port (anSmType (GET_PORT_EXT sw port)) (mask_template anMode)
         sw (call_before cConfig)
    /\ answered cConfig sw'.
Proof.
  intros Hexp.
  set (sw1 := set_port_ext sw port
                (set_anInterruptMask (mask_template anMode) (GET_PORT_EXT sw port))).
  destruct (AnSendConfigEvent_run port FM10000_PORT_EVENT_AN_CONFIG_REQ anMode
              basepage pages sw1 log)
    as (sw' & c & Hrun & Hcfg & Htype & _ & Hmask & Hwritten & Hanswered).
  exists c, sw'. split.
  { erewrite bind_done; [|apply change_interrupt_mask_run; exact Hexp].
    erewrite bind_done; [|exact Hrun]. reflexivity. }
  split; [exact Hcfg|].
  assert (Hp1 : GET_PORT_EXT sw1 port
                = set_anInterruptMask (mask_template anMode) (GET_PORT_EXT sw port))
    by (subst sw1; apply get_set_port_ext).
  split; [rewrite Htype, Hp1; reflexivity|].
  split; [rewrite Hmask, Hp1; reflexivity|].
  split; [|exact Hanswered].
  destruct Hwritten as ((Hptr & Hattr & Hlane & Hfw & Hothers)
                        & Hr & Hs & Hh & Ht & Hah & Hm).
  rewrite Hp1 in Hr, Hs, Hh, Ht, Hah, Hm.
  unfold rebound, written_only_at.
  split; [|repeat split; assumption].
  split; [exact Hptr|]. split; [exact Hattr|]. split; [exact Hlane|].
  split; [exact Hfw|].
  intros q Hq. rewrite (Hothers q Hq). subst sw1. unfold set_port_ext.
  cbn [GET_PORT_EXT]. rewrite decide_False by exact Hq. reflexivity.
Qed.

(** C2 (as amended).  When the port is not ready the operation returns
    without touching the switch state and without any outside call.
    When it is ready and the requested mode maps to a state machine type
    other than the one bound: if a state machine is bound, exactly one
    AN_DISABLE_REQ carrying the configuration of the port attributes is
    sent to the port state machine and the bound AN state machine is
    stopped, and if none is bound (FM_SMTYPE_UNSPECIFIED) neither
    happens; then the new state machine is started in state DISABLED.
    If the start fails its status is returned and nothing else is done:
    the switch is left as the failed start left it.  Otherwise exactly
    one AN_CONFIG_REQ carrying the new mode, base page and next pages is
    sent, and at that moment the port is bound to the new type and its
    AN interrupt mask is the template of the mode.  Every call is made
    in the state the call before it left, in which the operation itself
    wrote nothing but the event information of the port and, after a
    successful start, the binding and the mask. *)
Theorem AnRestartOnNewConfig_rebinds (port : Z) (ethMode : fm_ethMode)
  (anMode : fm_autonegMode) (basepage : Z) (pages : fm_anNextPages)
  (sw : switch FW) (log : list (call FW)) :
  let bound := anSmType (GET_PORT_EXT sw port) in
  let attr := GET_PORT_ATTR sw port in
  let run := fm10000AnRestartOnNewConfig port ethMode anMode basepage pages
               (sw, log) in
  (~ an_ready sw port ethMode anMode ->
   exists status, run = (Done status, (sw, log)))
  /\ (an_ready sw port ethMode anMode ->
      forall newT,
        expected_smType anMode = Some newT ->
        newT <> bound ->
        exists before cStart swStart,
          (* what precedes the start *)
          ((bound = FM_SMTYPE_UNSPECIFIED /\ before = []
            /\ call_before cStart = sw)
           \/ (bound <> FM_SMTYPE_UNSPECIFIED
               /\ exists cDisable cStop,
                    before = [cDisable; cStop]
                    /\ config_event port FM10000_PORT_EVENT_AN_DISABLE_REQ
                         (autoNegMode attr) (autoNegBasePage attr)
                         (autoNegNextPages attr) (call_result cDisable) cDisable
                    /\ call_op cStop
                       = OpStop (anSmHandle (GET_PORT_EXT (call_before cStop) port))
                    /\ event_info_written port sw (call_before cDisable)
                    /\ answered cDisable (call_before cStop)
                    /\ answered cStop (call_before cStart)))
          (* the start *)
          /\ call_op cStart
             = OpStart (anSmHandle (GET_PORT_EXT (call_before cStart) port)) newT
                 FM10000_AN_STATE_DISABLED
          /\ answered cStart swStart
          (* what follows it *)
          /\ ((call_result cStart <> FM_OK
               /\ run = (Done (call_result cStart),
                         (swStart, log ++ before ++ [cStart])))
              \/ (call_result cStart = FM_OK
                  /\ exists cConfig sw',
                       run = (Done (call_result cConfig),
                              (sw', log ++ before ++ [cStart; cConfig]))
                       /\ config_event port FM10000_PORT_EVENT_AN_CONFIG_REQ
                            anMode basepage pages (call_result cConfig) cConfig
                       /\ anSmType (GET_PORT_EXT (call_before cConfig) port) = newT
                       /\ anInterruptMask (GET_PORT_EXT (call_before cConfig) port)
                          = mask_template anMode
                       /\ rebound port newT (mask_template anMode) swStart
                            (call_before cConfig)
                       /\ answered cConfig sw'))).
Proof.
  intros bound attr run. split.
  - intros Hnot.
    destruct (IsPortAutonegReady_not_ready sw port ethMode anMode Hnot)
      as (status & newT & Hready).
    exists status. subst run. unfold fm10000AnRestartOnNewConfig, at_ABORT_return.
    erewrite bind_done; [|reflexivity]. cbn [fst]. rewrite Hready.
    rewrite andb_false_r. reflexivity.
  - intros Hr newT Hexp Hdiff.
    destruct (IsPortAutonegReady_ready sw port ethMode anMode Hr)
      as (newT' & Hexp' & Hready).
    rewrite Hexp in Hexp'. injection Hexp' as <-.
    assert (Hrun : run =
      at_ABORT_return
        ((stop_current_sm port ;;; start_new_sm port newT) ;;;
         change_interrupt_mask port anMode ;;;
         status <-- fm10000AnSendConfigEvent port
                      FM10000_PORT_EVENT_AN_CONFIG_REQ anMode basepage pages ;;
         ret status) (sw, log)).
    { subst run. unfold fm10000AnRestartOnNewConfig, at_ABORT_return.
      erewrite bind_done; [|reflexivity]. cbn [fst]. rewrite Hready.
      cbn [is_ok andb]. fold bound.
      rewrite bool_decide_eq_false_2 by exact Hdiff. reflexivity. }
    assert (Hstop : exists before sw1,
      stop_current_sm port (sw, log) = (Done tt, (sw1, log ++ before))
      /\ ((bound = FM_SMTYPE_UNSPECIFIED /\ before = [] /\ sw1 = sw)
          \/ (bound <> FM_SMTYPE_UNSPECIFIED
              /\ exists cDisable cStop,
                   before = [cDisable; cStop]
                   /\ config_event port FM10000_PORT_EVENT_AN_DISABLE_REQ
                        (autoNegMode attr) (autoNegBasePage attr)
                        (autoNegNextPages attr) (call_result cDisable) cDisable
                   /\ call_op cStop
                      = OpStop (anSmHandle (GET_PORT_EXT (call_before cStop) port))
                   /\ event_info_written port sw (call_before cDisable)
                   /\ answered cDisable (call_before cStop)
                   /\ answered cStop sw1))).
    { destruct (decide (bound = FM_SMTYPE_UNSPECIFIED)) as [Hun|Hb].
      - exists [], sw. rewrite app_nil_r. split; [|left; auto].
        apply stop_current_sm_unbound. exact Hun.
      - destruct (stop_current_sm_bound port sw log Hb)
          as (cD & cS & sw1 & Hs & Hcfg & Hop & Hw & HaD & HaS).
        exists [cD; cS], sw1. split; [exact Hs|]. right. split; [exact Hb|].
        exists cD, cS. auto 10. }
    destruct Hstop as (before & sw1 & Hstop & Hbefore).
    destruct (start_new_sm_run port newT sw1 (log ++ before))
      as (cStart & sw2 & HcStart & HaStart & Hstart).
    assert (Hb1 : call_before cStart = sw1) by (rewrite HcStart; reflexivity).
    exists before, cStart, sw2.
    split.
    { rewrite Hb1.
      destruct Hbefore as [(Hun & Hnil & Hsw)|(Hb & cD & cS & Hrest)];
        [left; auto|right]. split; [exact Hb|]. exists cD, cS. exact Hrest. }
    split; [rewrite HcStart; reflexivity|].
    split; [exact HaStart|].
    rewrite Hrun. unfold at_ABORT_return.
    destruct (is_ok (call_result cStart)) eqn:Eok.
    + right. split; [apply is_ok_true; exact Eok|].
      set (sw3 := set_port_ext sw2 port (set_anSmType newT (GET_PORT_EXT sw2 port))) in *.
      destruct (mask_and_config_run port anMode basepage pages sw3
                  ((log ++ before) ++ [cStart]))
        as (cConfig & sw' & Hcfgrun & Hcfg & Htype & Hmask & Hreb & HaCfg);
        [congruence|].
      assert (Hp3 : GET_PORT_EXT sw3 port = set_anSmType newT (GET_PORT_EXT sw2 port))
        by (subst sw3; apply get_set_port_ext).
      exists cConfig, sw'. split.
      { erewrite bind_done; cycle 1.
        { erewrite bind_done; [|exact Hstop]. exact Hstart. }
        rewrite Hcfgrun. rewrite <- !app_assoc. reflexivity. }
      split; [exact Hcfg|].
      split; [rewrite Htype, Hp3; reflexivity|].
      split; [exact Hmask|]. split; [|exact HaCfg].
      destruct Hreb as ((Hptr & Hattr & Hlane & Hfw & Hothers)
                        & Hr' & Hs' & Hh' & Hah' & Ht' & Hm').
      rewrite Hp3 in Hr', Hs', Hh', Hah', Ht'.
      unfold rebound, written_only_at.
      split; [|repeat split; assumption].
      split; [exact Hptr|]. split; [exact Hattr|]. split; [exact Hlane|].
      split; [exact Hfw|].
      intros q Hq. rewrite (Hothers q Hq). subst sw3. unfold set_port_ext.
      cbn [GET_PORT_EXT]. rewrite decide_False by exact Hq. reflexivity.
    + left. split; [apply is_ok_false; exact Eok|].
      erewrite bind_aborted; cycle 1.
      { erewrite bind_done; [|exact Hstop]. exact Hstart. }
      rewrite <- !app_assoc. reflexivity.
Qed.

End RebindProofs.

(** *** Next pages and the maximum speed *)

Section ScanProofs.
Context `{AnHeader} {FW : Type}.

Lemma scan_acc_step (sw : switch FW) port pages b acc :
  ~ ext_tech_page_at sw port pages (b + 1) ->
  scan_acc sw port pages b acc -> scan_acc sw port pages (b + 1) acc.
Proof.
  intros Hno [[-> Hnone]|(idx & -> & Hi & Hm & Hlast)].
  - left. split; [reflexivity|]. intros j Hj.
    destruct (Z.eq_dec j (b + 1)) as [->|]; [exact Hno|]. apply Hnone. lia.
  - right. exists idx. split; [reflexivity|]. split; [lia|]. split; [exact Hm|].
    intros j Hj. destruct (Z.eq_dec j (b + 1)) as [->|]; [exact Hno|].
    apply Hlast. lia.
Qed.

Lemma ext_tech_page_total (sw : switch FW) port pages numPages pageNum acc :
  0 <= pageNum < numPages ->
  pageNum + 1 < Z.of_nat (length pages) ->
  numPages < 2 ^ 31 ->
  scan_acc sw port pages pageNum acc ->
  exists reads acc',
    ext_tech_page sw port pages numPages pageNum acc = (reads, Some acc')
    /\ scan_acc sw port pages (pageNum + 1) acc'.
Proof.
  intros Hp Hlen H31 Hacc. unfold ext_tech_page, rd_bind, rd_read, rd_ret.
  destruct (array_get_in_range pages pageNum ltac:(lia)) as [pageA HA].
  destruct (array_get_in_range pages (pageNum + 1) ltac:(lia)) as [pageB HB].
  rewrite HA.
  assert (Hkeep : ~ ext_tech_page_at sw port pages (pageNum + 1) ->
                  scan_acc sw port pages (pageNum + 1) acc)
    by (intros Hno; apply scan_acc_step; assumption).
  assert (Hinv : ext_tech_page_at sw port pages (pageNum + 1) ->
     FM_GET_FIELD64 pageA FM10000_AN_73_NEXT_PAGE_RX_l_MU
       FM10000_AN_73_NEXT_PAGE_RX_h_MU = FM10000_AN_NEXTPAGE_OUI_MSG_CODE
     /\ fm_uint32 (FM_GET_UNNAMED_FIELD64 pageB 0 9) = 3
     /\ nextpage_oui pageA pageB = autoNeg25GNxtPgOui (GET_PORT_ATTR sw port)).
  { intros (pA & pB & HpA & HpB & Hmu & Hval & Houi).
    replace (pageNum + 1 - 1) with pageNum in HpA by lia.
    rewrite HA in HpA. rewrite HB in HpB.
    injection HpA as <-. injection HpB as <-. auto. }
  destruct (FM_GET_FIELD64 pageA FM10000_AN_73_NEXT_PAGE_RX_l_MU
              FM10000_AN_73_NEXT_PAGE_RX_h_MU =? FM10000_AN_NEXTPAGE_OUI_MSG_CODE)
    eqn:Emu.
  2:{ do 2 eexists. split; [reflexivity|]. apply Hkeep. intros Hm.
      apply Hinv in Hm. lia. }
  destruct (pageNum >=? numPages) eqn:Ege; [lia|].
  rewrite HB.
  destruct (fm_uint32 (FM_GET_UNNAMED_FIELD64 pageB 0 9) =? 3) eqn:Eval.
  2:{ do 2 eexists. split; [reflexivity|]. apply Hkeep. intros Hm.
      apply Hinv in Hm. lia. }
  destruct (nextpage_oui pageA pageB =? autoNeg25GNxtPgOui (GET_PORT_ATTR sw port))
    eqn:Eoui.
  2:{ do 2 eexists. split; [reflexivity|]. apply Hkeep. intros Hm.
      apply Hinv in Hm. lia. }
  do 2 eexists. split; [reflexivity|].
  right. exists (pageNum + 1). split.
  { f_equal. apply fm_uint32_small. change (2 ^ 31) with 2147483648 in H31.
    change (2 ^ 32) with 4294967296. lia. }
  split; [lia|]. split; [|intros j Hj; lia].
  exists pageA, pageB. replace (pageNum + 1 - 1) with pageNum by lia.
  repeat split; try assumption; lia.
Qed.

Lemma ext_tech_loop_total (sw : switch FW) port pages numPages :
  numPages < Z.of_nat (length pages) ->
  numPages < 2 ^ 31 ->
  forall (n : nat) pageNum acc,
    0 <= pageNum ->
    pageNum + Z.of_nat n = numPages ->
    scan_acc sw port pages pageNum acc ->
    exists reads acc',
      ext_tech_loop sw port pages numPages n pageNum acc = (reads, Some acc')
      /\ scan_acc sw port pages numPages acc'.
Proof.
  intros Hlen H31 n. induction n as [|n IH]; intros pageNum acc Hp Hsum Hacc.
  - simpl. do 2 eexists. split; [reflexivity|].
    replace numPages with pageNum by lia. exact Hacc.
  - cbn [ext_tech_loop].
    destruct (ext_tech_page_total sw port pages numPages pageNum acc)
      as (r1 & acc1 & Hpage & Hacc1); try lia; try assumption.
    rewrite Hpage. unfold rd_bind at 1.
    destruct (IH (pageNum + 1) acc1) as (r2 & acc2 & Hloop & Hacc2);
      try lia; try assumption.
    rewrite Hloop. do 2 eexists. split; [reflexivity|]. exact Hacc2.
Qed.

(** With one element of storage beyond [numPages], the scan completes
    and reports either FM_ERR_NOT_FOUND, when no page is an extended
    technology ability page, or the index of the last one. *)
Lemma ExtTechAbilityIndex_total (sw : switch FW) port pages numPages :
  numPages < Z.of_nat (length pages) ->
  numPages < 2 ^ 31 ->
  exists reads err idx,
    fm10000AnGetNextPageExtTechAbilityIndex sw port pages numPages
    = (reads, Some (err, idx))
    /\ ((err = FM_ERR_NOT_FOUND /\ idx = fm_uint32 (-1)
         /\ forall j, 1 <= j <= numPages -> ~ ext_tech_page_at sw port pages j)
        \/ (err = FM_OK /\ last_ext_tech_page sw port pages numPages idx)).
Proof.
  intros Hlen H31. unfold fm10000AnGetNextPageExtTechAbilityIndex.
  destruct (Z_lt_le_dec numPages 0) as [Hneg|Hpos].
  - replace (Z.to_nat numPages) with O by lia. simpl.
    do 3 eexists. split; [reflexivity|]. left.
    split; [reflexivity|]. split; [reflexivity|]. intros j Hj. lia.
  - destruct (ext_tech_loop_total sw port pages numPages Hlen H31
                (Z.to_nat numPages) 0 (fm_uint32 (-1), FM_ERR_NOT_FOUND))
      as (reads & acc' & Hloop & Hacc); try lia.
    { left. split; [reflexivity|]. intros j Hj. lia. }
    rewrite Hloop. unfold rd_bind, rd_ret.
    destruct Hacc as [[-> Hnone]|(idx & -> & Hm)].
    + do 3 eexists. split; [reflexivity|]. left. auto.
    + do 3 eexists. split; [reflexivity|]. right. auto.
Qed.

(** The same for storage that holds the pages and, behind a last page
    that is an OUI message page, one word more. *)
Lemma ext_tech_page_stored (sw : switch FW) port pages numPages pageNum acc :
  0 <= pageNum < numPages ->
  pages_stored pages numPages ->
  numPages < 2 ^ 31 ->
  scan_acc sw port pages pageNum acc ->
  exists reads acc',
    ext_tech_page sw port pages numPages pageNum acc = (reads, Some acc')
    /\ scan_acc sw port pages (pageNum + 1) acc'.
Proof.
  intros Hp [Hlen Hlast] H31 Hacc.
  destruct (Z_lt_le_dec numPages (Z.of_nat (length pages))) as [Hroom|Hfull].
  { apply ext_tech_page_total; try assumption. lia. }
  destruct (Z.eq_dec pageNum (numPages - 1)) as [Hend|Hinner].
  2:{ apply ext_tech_page_total; try assumption. lia. }
  (* the last page of storage that is full: it is no OUI message page *)
  subst pageNum. unfold ext_tech_page, rd_bind, rd_read, rd_ret.
  destruct (array_get_in_range pages (numPages - 1) ltac:(lia)) as [pageA HA].
  rewrite HA.
  destruct (FM_GET_FIELD64 pageA FM10000_AN_73_NEXT_PAGE_RX_l_MU
              FM10000_AN_73_NEXT_PAGE_RX_h_MU =? FM10000_AN_NEXTPAGE_OUI_MSG_CODE)
    eqn:Emu.
  { exfalso. assert (numPages < Z.of_nat (length pages)); [|lia].
    apply Hlast. exists pageA. split; [exact HA|lia]. }
  do 2 eexists. split; [reflexivity|].
  apply scan_acc_step; [|exact Hacc].
  intros (pA & pB & HpA & _ & Hmu & _).
  replace (numPages - 1 + 1 - 1) with (numPages - 1) in HpA by lia.
  rewrite HA in HpA. injection HpA as <-. lia.
Qed.

Lemma ext_tech_loop_stored (sw : switch FW) port pages numPages :
  pages_stored pages numPages ->
  numPages < 2 ^ 31 ->
  forall (n : nat) pageNum acc,
    0 <= pageNum ->
    pageNum + Z.of_nat n = numPages ->
    scan_acc sw port pages pageNum acc ->
    exists reads acc',
      ext_tech_loop sw port pages numPages n pageNum acc = (reads, Some acc')
      /\ scan_acc sw port pages numPages acc'.
Proof.
  intros Hst H31 n. induction n as [|n IH]; intros pageNum acc Hp Hsum Hacc.
  - simpl. do 2 eexists. split; [reflexivity|].
    replace numPages with pageNum by lia. exact Hacc.
  - cbn [ext_tech_loop].
    destruct (ext_tech_page_stored sw port pages numPages pageNum acc)
      as (r1 & acc1 & Hpage & Hacc1); try lia; try assumption.
    rewrite Hpage. unfold rd_bind at 1.
    destruct (IH (pageNum + 1) acc1) as (r2 & acc2 & Hloop & Hacc2);
      try lia; try assumption.
    rewrite Hloop. do 2 eexists. split; [reflexivity|]. exact Hacc2.
Qed.

Lemma ExtTechAbilityIndex_stored (sw : switch FW) port pages numPages :
  pages_stored pages numPages ->
  numPages < 2 ^ 31 ->
  exists reads err idx,
    fm10000AnGetNextPageExtTechAbilityIndex sw port pages numPages
    = (reads, Some (err, idx))
    /\ ((err = FM_ERR_NOT_FOUND /\ idx = fm_uint32 (-1)
         /\ forall j, 1 <= j <= numPages -> ~ ext_tech_page_at sw port pages j)
        \/ (err = FM_OK /\ last_ext_tech_page sw port pages numPages idx)).
Proof.
  intros Hst H31. unfold fm10000AnGetNextPageExtTechAbilityIndex.
  destruct (Z_lt_le_dec numPages 0) as [Hneg|Hpos].
  - replace (Z.to_nat numPages) with O by lia. simpl.
    do 3 eexists. split; [reflexivity|]. left.
    split; [reflexivity|]. split; [reflexivity|]. intros j Hj. lia.
  - destruct (ext_tech_loop_stored sw port pages numPages Hst H31
                (Z.to_nat numPages) 0 (fm_uint32 (-1), FM_ERR_NOT_FOUND))
      as (reads & acc' & Hloop & Hacc); try lia.
    { left. split; [reflexivity|]. intros j Hj. lia. }
    rewrite Hloop. unfold rd_bind, rd_ret.
    destruct Hacc as [[-> Hnone]|(idx & -> & Hm)].
    + do 3 eexists. split; [reflexivity|]. left. auto.
    + do 3 eexists. split; [reflexivity|]. right. auto.
Qed.

(** An extended technology ability page follows an OUI message page:
    unless the pages end with such a page, it is one of them. *)
Lemma ext_tech_page_among (sw : switch FW) port pages numPages idx :
  ~ ends_with_oui_message pages numPages ->
  last_ext_tech_page sw port pages numPages idx ->
  1 <= idx < numPages.
Proof.
  intros Hend ((Hlo & Hhi) & (pA & pB & HpA & _ & Hmu & _) & _).
  destruct (Z.eq_dec idx numPages) as [->|Hne]; [|lia].
  exfalso. apply Hend. exists pA. split; assumption.
Qed.

Lemma IsAn25GConfiguredInNextPage_stored (sw : switch FW) port (np : fm_anNextPages) :
  pages_stored (nextPages np) (numPages np) ->
  numPages np < 2 ^ 31 ->
  exists reads is25G,
    IsAn25GConfiguredInNextPage sw port np = (reads, Some (FM_OK, is25G))
    /\ (is25G = true <->
        exists idx, last_ext_tech_page sw port (nextPages np) (numPages np) idx
                    /\ advertises_25G (nextPages np) idx).
Proof.
  intros Hst H31. unfold IsAn25GConfiguredInNextPage.
  destruct (ExtTechAbilityIndex_stored sw port (nextPages np) (numPages np) Hst H31)
    as (reads & err & idx & Hscan & [(-> & -> & Hnone)|(-> & Hlast)]).
  - rewrite Hscan. unfold rd_bind, rd_ret. simpl.
    do 2 eexists. split; [reflexivity|]. split; [discriminate|].
    intros (j & (Hj & Hm & _) & _). exfalso. exact (Hnone j Hj Hm).
  - rewrite Hscan. unfold rd_bind at 1. cbn [is_ok].
    pose proof Hlast as (Hi & Hm & Hafter).
    assert (Hpage : exists page, array_get (nextPages np) idx = Some page).
    { destruct Hm as (_ & pB & _ & HpB & _). eauto. }
    destruct Hpage as [page Hpage].
    unfold rd_bind, rd_read, rd_ret. rewrite Hpage.
    assert (Huniq : forall j, last_ext_tech_page sw port (nextPages np) (numPages np) j
                              -> j = idx).
    { intros j (Hj & Hmj & Hafterj).
      destruct (Z.lt_trichotomy j idx) as [Hlt|[Heq|Hgt]]; [|exact Heq|].
      - exfalso. apply (Hafterj idx); [lia|exact Hm].
      - exfalso. apply (Hafter j); [lia|exact Hmj]. }
    destruct (truthy (FM_GET_UNNAMED_BIT64 page 21)
              || truthy (FM_GET_UNNAMED_BIT64 page 20)) eqn:Ebits.
    + do 2 eexists. split; [reflexivity|]. split; [|reflexivity]. intros _.
      exists idx. split; [exact Hlast|].
      exists page. split; [exact Hpage|exact Ebits].
    + do 2 eexists. split; [reflexivity|]. split; [discriminate|].
      intros (j & Hj & (page' & Hpage' & Hbits)).
      apply Huniq in Hj. subst j. rewrite Hpage in Hpage'.
      injection Hpage' as <-. congruence.
Qed.

End ScanProofs.

Section MaxSpeedProofs.
Context `{AnHeader} {FW : Type} `{AnEnv FW}.

Lemma truthy_lor a b : truthy (Z.lor a b) = truthy a || truthy b.
Proof.
  unfold truthy. destruct (Z.eq_dec a 0) as [->|Ha].
  - rewrite Z.lor_0_l. reflexivity.
  - replace (a =? 0) with false by lia. simpl.
    destruct (Z.lor a b =? 0) eqn:E; [|reflexivity].
    apply Z.eqb_eq, Z.lor_eq_0_iff in E. lia.
Qed.

Lemma priority_tail (status : fm_status) (ability : Z) (is25G : bool) :
  (if truthy (Z.land ability FM10000_AN73_ABILITIES_100G)
   then rd_ret (status, 100000, FM_SCHED_PORT_MODE_QUAD)
   else if truthy (Z.land ability FM10000_AN73_ABILITIES_40G)
   then rd_ret (status, 40000, FM_SCHED_PORT_MODE_QUAD)
   else if truthy
             (Z.land ability
                (Z.lor FM10000_AN73_ABILITY_25GBASE_KR
                   FM10000_AN73_ABILITY_25GBASE_CR))
           || is25G
   then rd_ret (status, 25000, FM_SCHED_PORT_MODE_SINGLE)
   else if truthy (Z.land ability FM10000_AN73_ABILITY_10GBASE_KR)
   then rd_ret (status, 10000, FM_SCHED_PORT_MODE_SINGLE)
   else if truthy (Z.land ability FM10000_AN73_ABILITY_1000BASE_KX)
   then rd_ret (status, 2500, FM_SCHED_PORT_MODE_SINGLE)
   else rd_ret (status, 0, FM_SCHED_PORT_MODE_NONE))
  = rd_ret (status, fst (speed_by_priority ability is25G),
            snd (speed_by_priority ability is25G)).
Proof.
  unfold speed_by_priority.
  rewrite Z.land_lor_distr_r, truthy_lor.
  repeat match goal with
         | |- context [if ?b then _ else _] => destruct b; try reflexivity
         end.
Qed.


End MaxSpeedProofs.

(** *** Runs on the sample switch *)

(** Witness of C7: half a second against a 9-bit counter. *)
Lemma AnGetTimeScale_first_fit_witness :
  0 <= 500000 < 2 ^ 32
  /\ first_fit 500000 512 (fm10000AnGetTimeScale 500000 512 0).
Proof.
  assert (Hrange : 0 <= 500000 < 2 ^ 32) by (split; [lia|reflexivity]).
  split; [exact Hrange|].
  exact (AnGetTimeScale_first_fit 500000 512 0 Hrange).
Defined.

(** The scaler on two inputs: a fitting pass, and none. *)
Example AnGetTimeScale_half_second :
  fm10000AnGetTimeScale 500000 512 0 = (500000, 5, 500).
Proof. reflexivity. Qed.

Example AnGetTimeScale_no_fit :
  fm10000AnGetTimeScale 4294967295 1 0 = (4294900000, 8, 42949).
Proof. reflexivity. Qed.


(** Witness of C10: the zero base page, with [*modBasePage = 12345]. *)
Lemma validate_zero_ability_witness :
  @fm10000AnValidateBasePage Sample.header unit Sample.sw73 1 FM_PORT_AUTONEG_CLAUSE_73 0 12345
  = (FM_OK, FM_SET_FIELD64 12345 21 45 0)
  /\ @ability_field Sample.header
       (snd (@fm10000AnValidateBasePage Sample.header unit Sample.sw73 1
               FM_PORT_AUTONEG_CLAUSE_73 0 12345)) = 0.
Proof.
  apply (@validate_zero_ability Sample.header unit Sample.sw73 1 0 12345); reflexivity.
Defined.

(** Witness of C5: a base page advertising 10GBASE-KR on a port with
    the 10G capability. *)
Lemma validate_nonzero_ability_witness :
  @fm10000AnValidateBasePage Sample.header unit Sample.sw73 1 FM_PORT_AUTONEG_CLAUSE_73
    8388608 0
  = (FM_OK, FM_SET_FIELD64 0 21 45 4).
Proof.
  assert (Hnz : @ability_field Sample.header 8388608 <> 0) by (vm_compute; discriminate).
  destruct (@validate_nonzero_ability Sample.header unit Sample.sw73 1 8388608 0
              eq_refl Hnz) as (_ & _ & Hok).
  apply Hok.
  - vm_compute. discriminate.
  - repeat constructor.
Defined.

(** Counterexample to C5 as stated: the ability field of the zero base
    page is zero after masking, and the function does not fail. *)
Lemma validate_zero_ability_accepted :
  Z.land (@ability_field Sample.header 0)
    (Z.lnot (@FM10000_AN73_UNSUPPORTED_ABILITIES Sample.header)) = 0
  /\ fst (@fm10000AnValidateBasePage Sample.header unit Sample.sw73 1
            FM_PORT_AUTONEG_CLAUSE_73 0 0) <> FM_ERR_UNSUPPORTED.
Proof. split; [reflexivity|]. vm_compute. discriminate. Qed.

(** The test the validator lacks: 25GBASE-CR advertised on a port
    without the 25G capability is accepted. *)
Example validate_25G_CR_unchecked :
  lacks_speed 16 1024
    (@FM10000_AN73_ABILITY_25GBASE_CR Sample.header,
     @FM_PORT_CAPABILITY_SPEED_25G Sample.header) = true
  /\ fst (@fm10000AnValidateBasePage Sample.header unit Sample.sw73 1
            FM_PORT_AUTONEG_CLAUSE_73 2147483648 0) = FM_OK.
Proof. split; reflexivity. Qed.



(** C9 fails on the code.  One next page, an OUI message page, in storage
    of one page: the scan reads index 0 and then index 1, which is not
    below [numPages = 1] and lies outside the storage. *)
Lemma ExtTechAbilityIndex_reads_past_numPages :
  @fm10000AnGetNextPageExtTechAbilityIndex Sample.header unit Sample.sw73 1
    (nextPages Sample.lone_oui_page) (numPages Sample.lone_oui_page)
  = ([0; 1], None)
  /\ ~ 1 < numPages Sample.lone_oui_page.
Proof. split; [reflexivity|]. simpl. lia. Qed.

(** C4 fails on the code.  With the NextPageWait bit alone pending, the
    event the specification names is the next-page-wait indication;
    the Clause 37 dispatcher delivers the good-check indication. *)
Lemma NotifyClause37Events_NextPageWait_event :
  let sw := Sample.sw FM10000_CLAUSE37_AN_STATE_MACHINE 16 Sample.no_pages 0 in
  let anIp := 2 ^ @FM10000_AN_IP_b_An37NextPageWait Sample.header in
  map call_op
    (snd (snd (@NotifyClause37Events Sample.header unit (Sample.env FM_OK FM_OK)
                 1 anIp (sw, []))))
  = [OpNotify 200
       {| SmEvent.smType := FM10000_CLAUSE37_AN_STATE_MACHINE;
          SmEvent.eventId := FM10000_AN_EVENT_GOOD_CHECK_IND;
          SmEvent.dontSaveRecord := false |} 1]
  /\ pending_events anIp (@clause37_order Sample.header)
     = [FM10000_AN_EVENT_NEXT_PAGE_WAIT_IND].
Proof. split; reflexivity. Qed.

(** Counterexample to C2 as stated: a ready port bound to no AN state
    machine, asked for Clause 73.  The types differ, and the outside
    calls are the start and the CONFIG request only: no AN_DISABLE_REQ
    is sent and nothing is stopped. *)
Lemma AnRestartOnNewConfig_unbound_no_disable :
  let sw := Sample.sw FM_SMTYPE_UNSPECIFIED 16 Sample.no_pages 0 in
  @an_ready unit sw 1 FM_ETH_MODE_AN_73 FM_PORT_AUTONEG_CLAUSE_73
  /\ expected_smType FM_PORT_AUTONEG_CLAUSE_73
     <> Some (anSmType (GET_PORT_EXT sw 1))
  /\ map call_op
       (snd (snd (@fm10000AnRestartOnNewConfig Sample.header unit
                    (Sample.env FM_OK FM_OK) 1 FM_ETH_MODE_AN_73
                    FM_PORT_AUTONEG_CLAUSE_73 8388608 Sample.no_pages (sw, []))))
     = [OpStart 200 FM10000_CLAUSE73_AN_STATE_MACHINE FM10000_AN_STATE_DISABLED;
        OpNotify 100
          {| SmEvent.smType := FM_SMTYPE_OTHER 7;
             SmEvent.eventId := FM10000_PORT_EVENT_AN_CONFIG_REQ;
             SmEvent.dontSaveRecord := false |} 1].
Proof.
  intros sw. split; [|split; [discriminate|reflexivity]].
  split; [split; [left; reflexivity|reflexivity]|]. left. split; reflexivity.
Qed.

(** A failing start: the operation stops there, the mask is untouched
    and no CONFIG request is sent. *)
Example AnRestartOnNewConfig_start_failure :
  let sw := Sample.sw FM10000_CLAUSE73_AN_STATE_MACHINE 16 Sample.no_pages 0 in
  let run := @fm10000AnRestartOnNewConfig Sample.header unit
               (Sample.env FM_OK FM_ERR_STATE_MACHINE_TYPE) 1 FM_ETH_MODE_1000BASE_X
               FM_PORT_AUTONEG_CLAUSE_37 0 Sample.no_pages (sw, []) in
  fst run = Done FM_ERR_STATE_MACHINE_TYPE
  /\ map call_op (snd (snd run))
     = [OpNotify 100
          {| SmEvent.smType := FM_SMTYPE_OTHER 7;
             SmEvent.eventId := FM10000_PORT_EVENT_AN_DISABLE_REQ;
             SmEvent.dontSaveRecord := false |} 1;
        OpStop 200;
        OpStart 200 FM10000_CLAUSE37_AN_STATE_MACHINE FM10000_AN_STATE_DISABLED]
  /\ anInterruptMask (GET_PORT_EXT (fst (snd run)) 1) = 0.
Proof. repeat split. Qed.

(** The live switch from Clause 73 to Clause 37 of the specification's
    scenario S4. *)
Example AnRestartOnNewConfig_live_switch :
  let sw := Sample.sw FM10000_CLAUSE73_AN_STATE_MACHINE 16 Sample.no_pages 0 in
  let run := @fm10000AnRestartOnNewConfig Sample.header unit
               (Sample.env FM_OK FM_OK) 1 FM_ETH_MODE_1000BASE_X
               FM_PORT_AUTONEG_CLAUSE_37 0 Sample.no_pages (sw, []) in
  fst run = Done FM_OK
  /\ map call_op (snd (snd run))
     = [OpNotify 100
          {| SmEvent.smType := FM_SMTYPE_OTHER 7;
             SmEvent.eventId := FM10000_PORT_EVENT_AN_DISABLE_REQ;
             SmEvent.dontSaveRecord := false |} 1;
        OpStop 200;
        OpStart 200 FM10000_CLAUSE37_AN_STATE_MACHINE FM10000_AN_STATE_DISABLED;
        OpNotify 100
          {| SmEvent.smType := FM_SMTYPE_OTHER 7;
             SmEvent.eventId := FM10000_PORT_EVENT_AN_CONFIG_REQ;
             SmEvent.dontSaveRecord := false |} 1]
  /\ anInterruptMask (GET_PORT_EXT (fst (snd run)) 1)
     = @FM10000_AN37_INT_MASK Sample.header
  /\ anSmType (GET_PORT_EXT (fst (snd run)) 1) = FM10000_CLAUSE37_AN_STATE_MACHINE.
Proof. repeat split. Qed.

End AnProofs.

(** ** platform_mgmt.c *)
Module MgmtProofs.
Import Std Mgmt StdFacts.

(** *** Loops: an invariant, and an invariant that follows the index *)

Lemma for_loop_invariant {S : Type} (I : S -> Prop) (n : Z)
  (body : Z -> S -> option S) (s : S) :
  (forall i s, 0 <= i < n -> I s -> exists s', body i s = Some s' /\ I s') ->
  I s -> exists s', for_loop n body s = Some s' /\ I s'.
Proof.
  intros Hbody. unfold for_loop.
  assert (Hgen : forall l, Forall (fun i => 0 <= i < n) l ->
            forall s, I s ->
            exists s', fold_left (fun acc i => s ← acc; body i s) l (Some s) = Some s'
                       /\ I s').
  { induction l as [|i l IH]; intros Hl s0 Hs0.
    - exists s0. split; [reflexivity|exact Hs0].
    - inversion Hl as [|? ? Hi Hl']; subst. simpl.
      destruct (Hbody i s0 Hi Hs0) as (s1 & Hb & Hs1). rewrite Hb.
      apply IH; assumption. }
  intros Hs. apply Hgen; [|exact Hs].
  apply Forall_forall. intros i Hi. apply elem_of_seqZ in Hi. lia.
Qed.

Lemma for_loop_step {S : Type} (k : nat) (body : Z -> S -> option S) (s : S) :
  for_loop (Z.of_nat (Datatypes.S k)) body s
  = (s' ← for_loop (Z.of_nat k) body s; body (Z.of_nat k) s').
Proof.
  unfold for_loop. rewrite seqZ_S, fold_left_app. simpl.
  destruct (fold_left _ _ _); reflexivity.
Qed.

Lemma for_loop_indexed {S : Type} (I : Z -> S -> Prop) (n : Z)
  (body : Z -> S -> option S) (s : S) :
  0 <= n ->
  (forall i s, 0 <= i < n -> I i s -> exists s', body i s = Some s' /\ I (i + 1) s') ->
  I 0 s -> exists s', for_loop n body s = Some s' /\ I n s'.
Proof.
  intros Hn Hbody H0.
  assert (Hgen : forall k : nat, Z.of_nat k <= n ->
            exists s', for_loop (Z.of_nat k) body s = Some s' /\ I (Z.of_nat k) s').
  { induction k as [|k IH]; intros Hk.
    - exists s. split; [reflexivity|exact H0].
    - destruct IH as (s1 & Hs1 & HI1); [lia|].
      destruct (Hbody (Z.of_nat k) s1 ltac:(lia) HI1) as (s2 & Hs2 & HI2).
      exists s2. rewrite for_loop_step, Hs1. simpl.
      replace (Z.of_nat (Datatypes.S k)) with (Z.of_nat k + 1) by lia. auto. }
  destruct (Hgen (Z.to_nat n)) as (s' & Hs' & HI'); [lia|].
  rewrite Z2Nat.id in Hs', HI' by lia. eauto.
Qed.

(** *** The blocks of an iteration *)

Section BlockProofs.
Context `{MgmtHeader} {HW : Type} `{MgmtEnv HW}.

Lemma update_xcvrInfo_spec (st : plat_state HW) idx f x :
  array_get (xcvrInfo st) idx = Some x ->
  exists st',
    update_xcvrInfo st idx f = Some st'
    /\ hw st' = hw st
    /\ length (xcvrInfo st') = length (xcvrInfo st)
    /\ forall j, array_get (xcvrInfo st') j
                 = if decide (j = idx) then Some (f x) else array_get (xcvrInfo st) j.
Proof.
  intros Hx. unfold update_xcvrInfo. rewrite Hx. simpl.
  destruct (array_set_spec (xcvrInfo st) idx (f x) (array_get_Some_range _ _ _ Hx))
    as (a' & Hset & Hlen & Hget).
  rewrite Hset. simpl. eexists. split; [reflexivity|]. simpl. auto.
Qed.

Lemma present_changed_spec (st : plat_state HW) portIdx present x :
  array_get (xcvrInfo st) portIdx = Some x ->
  exists st',
    present_changed st portIdx present = Some st'
    /\ hw st' = hw st
    /\ length (xcvrInfo st') = length (xcvrInfo st)
    /\ forall j, array_get (xcvrInfo st') j
                 = if decide (j = 0) then
                     wipe_eeprom <$>
                       (if decide (0 = portIdx) then Some (reset_record present x)
                        else array_get (xcvrInfo st) 0)
                   else if decide (j = portIdx) then Some (reset_record present x)
                   else array_get (xcvrInfo st) j.
Proof.
  intros Hx. unfold present_changed.
  destruct (update_xcvrInfo_spec st portIdx
              (set_type FM_PLATFORM_XCVR_TYPE_NOT_PRESENT) x Hx)
    as (s1 & -> & Hh1 & Hl1 & Hg1). simpl.
  pose proof (Hg1 portIdx) as Hx1. rewrite decide_True in Hx1 by reflexivity.
  destruct (update_xcvrInfo_spec s1 portIdx (set_cableLength 0) _ Hx1)
    as (s2 & -> & Hh2 & Hl2 & Hg2). simpl.
  pose proof (Hg2 portIdx) as Hx2. rewrite decide_True in Hx2 by reflexivity.
  destruct (update_xcvrInfo_spec s2 portIdx (set_present present) _ Hx2)
    as (s3 & -> & Hh3 & Hl3 & Hg3). simpl.
  pose proof (Hg3 portIdx) as Hx3. rewrite decide_True in Hx3 by reflexivity.
  destruct (update_xcvrInfo_spec s3 portIdx (set_eepromBaseValid false) _ Hx3)
    as (s4 & -> & Hh4 & Hl4 & Hg4). simpl.
  pose proof (Hg4 portIdx) as Hx4. rewrite decide_True in Hx4 by reflexivity.
  destruct (update_xcvrInfo_spec s4 portIdx (set_eepromExtValid false) _ Hx4)
    as (s5 & -> & Hh5 & Hl5 & Hg5). simpl.
  pose proof (Hg5 portIdx) as Hx5. rewrite decide_True in Hx5 by reflexivity.
  destruct (update_xcvrInfo_spec s5 portIdx (set_eepromReadRetries 0) _ Hx5)
    as (s6 & -> & Hh6 & Hl6 & Hg6). simpl.
  assert (Hall : forall j, array_get (xcvrInfo s6) j
                 = if decide (j = portIdx) then Some (reset_record present x)
                   else array_get (xcvrInfo st) j).
  { intros j. rewrite Hg6. destruct (decide (j = portIdx)); [reflexivity|].
    rewrite Hg5, Hg4, Hg3, Hg2, Hg1. rewrite !decide_False by assumption.
    reflexivity. }
  pose proof (array_get_Some_range _ _ _ Hx) as Hrange.
  assert (Hzero : exists x0, array_get (xcvrInfo s6) 0 = Some x0
            /\ Some x0 = (if decide (0 = portIdx) then Some (reset_record present x)
                          else array_get (xcvrInfo st) 0)).
  { rewrite Hall. destruct (decide (0 = portIdx)); [eauto|].
    destruct (array_get_in_range (xcvrInfo st) 0 ltac:(lia)) as [x0 Hx0].
    exists x0. rewrite Hx0. auto. }
  destruct Hzero as (x0 & Hx0 & Hx0eq).
  destruct (update_xcvrInfo_spec s6 0
              (fun x => set_eeprom (replicate (length (eeprom x)) 255) x) _ Hx0)
    as (s7 & -> & Hh7 & Hl7 & Hg7).
  exists s7. split; [reflexivity|]. split; [congruence|]. split; [congruence|].
  intros j. rewrite Hg7. destruct (decide (j = 0)) as [->|Hj].
  - rewrite <- Hx0eq. reflexivity.
  - apply Hall.
Qed.

Lemma enable_changed_spec (st : plat_state HW) x0 :
  array_get (xcvrInfo st) 0 = Some x0 ->
  exists st',
    enable_changed st = Some st'
    /\ hw st' = hw st
    /\ length (xcvrInfo st') = length (xcvrInfo st)
    /\ forall j, array_get (xcvrInfo st') j
                 = if decide (j = 0)
                   then Some (set_anEnabled false (set_configRetries 0 x0))
                   else array_get (xcvrInfo st) j.
Proof.
  intros Hx0. unfold enable_changed.
  destruct (update_xcvrInfo_spec st 0 (set_configRetries 0) x0 Hx0)
    as (s1 & -> & Hh1 & Hl1 & Hg1). simpl.
  pose proof (Hg1 0) as Hx1. rewrite decide_True in Hx1 by reflexivity.
  destruct (update_xcvrInfo_spec s1 0 (set_anEnabled false) _ Hx1)
    as (s2 & -> & Hh2 & Hl2 & Hg2).
  exists s2. split; [reflexivity|]. split; [congruence|]. split; [congruence|].
  intros j. rewrite Hg2. destruct (decide (j = 0)); [reflexivity|].
  rewrite Hg1. rewrite decide_False by assumption. reflexivity.
Qed.

Lemma send_notifications_spec sw (st : plat_state HW) portIdx portCfg present
  xcvrState x :
  lanes_ok sw st ->
  array_get (xcvrInfo st) portIdx = Some x ->
  exists st',
    send_notifications sw st portIdx portCfg present xcvrState = Some st'
    /\ xcvrInfo st' = xcvrInfo st.
Proof.
  intros [Hlen Hlanes] Hx. unfold send_notifications.
  destruct (bool_decide (intfType portCfg = FM_PLAT_INTF_TYPE_SFPP)).
  { rewrite Hx. simpl. eexists. split; [reflexivity|].
    destruct (negb _); reflexivity. }
  destruct (bool_decide (intfType portCfg = FM_PLAT_INTF_TYPE_QSFP_LANE0));
    [|eexists; split; reflexivity].
  rewrite Hx. simpl.
  destruct (negb (FM_ETH_MODE_MULTI_LANE_MASK_set (ethMode x))).
  - match goal with
    | |- context [for_loop 4 ?body st] =>
        destruct (for_loop_invariant (fun s => xcvrInfo s = xcvrInfo st) 4 body st)
          as (s' & Hloop & Hs')
    end.
    { intros lane s Hlane Hs.
      destruct (laneToPortIdx sw (epl portCfg) lane =? FM_PLAT_UNDEFINED) eqn:E;
        [eauto|].
      destruct (Hlanes (epl portCfg) lane) as [Hu|Hr]; [lia|].
      destruct (array_get_in_range (xcvrInfo s) (laneToPortIdx sw (epl portCfg) lane))
        as [lx Hlx]; [rewrite Hs; lia|].
      destruct (array_get_in_range (ports sw) (laneToPortIdx sw (epl portCfg) lane))
        as [pc Hpc]; [lia|].
      rewrite Hlx. simpl.
      destruct (negb (bool_decide (ethMode lx = FM_ETH_MODE_DISABLED)));
        [|eauto].
      rewrite Hpc. simpl. eexists. split; [reflexivity|exact Hs]. }
    { reflexivity. }
    rewrite Hloop. simpl. eexists. split; [reflexivity|exact Hs'].
  - match goal with
    | |- context [for_loop 4 ?body st] =>
        destruct (for_loop_invariant (fun s => xcvrInfo s = xcvrInfo st) 4 body st)
          as (s' & Hloop & Hs')
    end.
    { intros lane s Hlane Hs. rewrite Hs, Hx. simpl.
      destruct (negb (bool_decide (ethMode x = FM_ETH_MODE_DISABLED)));
        eexists; (split; [reflexivity|exact Hs]). }
    { reflexivity. }
    rewrite Hloop. simpl. eexists. split; [reflexivity|exact Hs'].
Qed.

End BlockProofs.

(** *** What the iteration of a port leaves of another port's record *)

Section FrameProofs.
Context `{MgmtHeader} {HW : Type} `{MgmtEnv HW}.

Lemma same_core_refl x : same_core x x.
Proof. repeat split. Qed.

Lemma same_core_trans x y z : same_core x y -> same_core y z -> same_core x z.
Proof. unfold same_core. intuition congruence. Qed.

Lemma kept_refl p x : kept p x x.
Proof. unfold kept. destruct (decide (p = 0)); [apply same_core_refl|reflexivity]. Qed.

Lemma kept_trans p x y z : kept p x y -> kept p y z -> kept p x z.
Proof.
  unfold kept. destruct (decide (p = 0)); [apply same_core_trans|congruence].
Qed.

Lemma frame_refl p (st : plat_state HW) : frame p st st.
Proof. split; [reflexivity|]. intros x Hx. exists x. split; [exact Hx|apply kept_refl]. Qed.

Lemma frame_trans p (a b c : plat_state HW) :
  frame p a b -> frame p b c -> frame p a c.
Proof.
  intros [Hl1 H1] [Hl2 H2]. split; [congruence|].
  intros x Hx. destruct (H1 x Hx) as (y & Hy & Hk1).
  destruct (H2 y Hy) as (z & Hz & Hk2). exists z. split; [exact Hz|].
  eapply kept_trans; eassumption.
Qed.

Lemma update_frame p (st : plat_state HW) idx f :
  0 <= idx < Z.of_nat (length (xcvrInfo st)) ->
  (idx = p -> p = 0 /\ forall x, same_core x (f x)) ->
  framed p st (update_xcvrInfo st idx f).
Proof.
  intros Hr Hf.
  destruct (array_get_in_range (xcvrInfo st) idx Hr) as [x Hx].
  destruct (update_xcvrInfo_spec st idx f x Hx) as (st' & Hu & Hh & Hl & Hg).
  exists st'. split; [exact Hu|]. split; [exact Hl|].
  intros y Hy. rewrite Hg. destruct (decide (p = idx)) as [->|Hne].
  - destruct (Hf eq_refl) as [Hz Hc]. rewrite Hx in Hy. injection Hy as <-.
    exists (f x). split; [reflexivity|]. unfold kept.
    rewrite decide_True by assumption. apply Hc.
  - exists y. split; [exact Hy|apply kept_refl].
Qed.

(** One assignment [xcvrInfo[i].field = ...] of the goal: it is in
    range, and the frame [Hcum] extends over it. *)
Ltac upd p Hcum :=
  match goal with
  | |- context [update_xcvrInfo ?s ?i ?f] =>
      let s' := fresh "s" in
      let Hu := fresh "Hu" in
      let Hf := fresh "Hf" in
      destruct (update_frame p s i f) as (s' & Hu & Hf);
      [ try (simpl; rewrite ?(proj1 Hcum); lia)
      | try (intros; exfalso; lia)
      | rewrite Hu; simpl;
        apply (frame_trans _ _ _ _ Hcum) in Hf; clear Hcum; rename Hf into Hcum ]
  end.

Lemma XcvrReadAndValidateEeprom_frame p sw (st : plat_state HW) q retry :
  length (ports sw) = length (xcvrInfo st) ->
  0 <= q < Z.of_nat (length (ports sw)) ->
  q <> p ->
  exists st' status,
    XcvrReadAndValidateEeprom sw st q retry = Some (st', status)
    /\ frame p st st'.
Proof.
  intros Hlen Hq Hne. unfold XcvrReadAndValidateEeprom.
  destruct (array_get_in_range (ports sw) q Hq) as [pc ->]. simpl.
  destruct (array_get_in_range (xcvrInfo st) q ltac:(lia)) as [x ->]. simpl.
  destruct (fmPlatformXcvrEepromRead _ _ _ _ _ _) as [[h status] data].
  pose proof (frame_refl p st) as Hcum.
  upd p Hcum.
  destruct (is_ok status).
  - upd p Hcum. upd p Hcum. upd p Hcum.
    destruct (fmPlatformXcvrEepromIsBaseCsumValid data);
      upd p Hcum; upd p Hcum; eauto.
  - destruct (negb retry); [|eauto].
    upd p Hcum. upd p Hcum. eauto.
Qed.


Lemma UpdateSerdesSettings_spec sw (st : plat_state HW) q :
  lanes_ok sw st ->
  0 <= q < Z.of_nat (length (ports sw)) ->
  exists st', UpdateSerdesSettings sw st q = Some st' /\ xcvrInfo st' = xcvrInfo st.
Proof.
  intros [Hlen Hlanes] Hq. unfold UpdateSerdesSettings.
  destruct (array_get_in_range (ports sw) q Hq) as [pc ->]. simpl.
  destruct (array_get_in_range (xcvrInfo st) q ltac:(lia)) as [x Hx].
  destruct (bool_decide (intfType pc = FM_PLAT_INTF_TYPE_SFPP)).
  { rewrite Hx. simpl. eauto. }
  destruct (bool_decide (intfType pc = FM_PLAT_INTF_TYPE_QSFP_LANE0)); [|eauto].
  rewrite Hx. simpl.
  destruct (FM_ETH_MODE_MULTI_LANE_MASK_set (ethMode x)); [eauto|].
  apply (for_loop_invariant (fun s => xcvrInfo s = xcvrInfo st)); [|reflexivity].
  intros lane s Hlane Hs.
  destruct (negb (laneToPortIdx sw (epl pc) lane =? FM_PLAT_UNDEFINED)) eqn:E;
    [|eauto].
  destruct (Hlanes (epl pc) lane) as [Hu|Hr];
    [rewrite Hu, Z.eqb_refl in E; discriminate|].
  destruct (array_get_in_range (ports sw) _ Hr) as [pc' ->]. simpl.
  destruct (array_get_in_range (xcvrInfo s) (laneToPortIdx sw (epl pc) lane))
    as [x' ->]; [rewrite Hs; lia|].
  simpl. eauto.
Qed.

Lemma UpdateXcvrConfig_frame p sw (st : plat_state HW) q retries :
  length (ports sw) = length (xcvrInfo st) ->
  0 <= q < Z.of_nat (length (ports sw)) ->
  q <> p ->
  framed p st (UpdateXcvrConfig sw st q retries).
Proof.
  intros Hlen Hq Hne. unfold UpdateXcvrConfig, framed.
  destruct (array_get_in_range (ports sw) q Hq) as [pc ->]. simpl.
  destruct (bool_decide (intfType pc = FM_PLAT_INTF_TYPE_SFPP));
    [|eauto using frame_refl].
  pose proof (frame_refl p st) as Hcum.
  upd p Hcum.
  destruct (array_get_in_range (xcvrInfo s) q) as [x ->];
    [rewrite (proj1 Hcum); lia|]. simpl.
  destruct (ConfigureSfppXcvr _ _ _) as [h status].
  destruct (negb (is_ok status)); upd p Hcum; eauto.
Qed.

Lemma state_changed_frame p sw (st : plat_state HW) q valid state old present notify :
  lanes_ok sw st ->
  0 <= q < Z.of_nat (length (ports sw)) ->
  q <> p ->
  exists st' notify',
    state_changed sw st q valid state old present notify = Some (st', notify')
    /\ frame p st st'.
Proof.
  intros [Hlen Hlanes] Hq Hne. unfold state_changed.
  pose proof (frame_refl p st) as Hcum.
  upd p Hcum.
  assert (Hwipe : forall s0 : plat_state HW, frame p st s0 ->
            exists s1 n1,
              (if bit_changed valid old state FM_PLAT_XCVR_PRESENT
               then st ← present_changed s0 q present; Some (st, true)
               else Some (s0, notify)) = Some (s1, n1)
              /\ frame p st s1).
  { intros s0 Hc. destruct (bit_changed valid old state FM_PLAT_XCVR_PRESENT);
      [|eauto].
    unfold present_changed.
    do 6 upd p Hc.
    upd p Hc; [intros Hz; split; [lia|]; intros; repeat split|].
    eauto. }
  destruct (Hwipe s Hcum) as (s1 & n1 & -> & Hc1). simpl. clear Hwipe Hcum.
  assert (Hen : exists s2 n2,
              (if bit_changed valid old state FM_PLAT_XCVR_ENABLE
               then st ← enable_changed s1; Some (st, true)
               else Some (s1, n1)) = Some (s2, n2)
              /\ frame p st s2).
  { destruct (bit_changed valid old state FM_PLAT_XCVR_ENABLE); [|eauto].
    unfold enable_changed.
    upd p Hc1; [intros Hz; split; [lia|]; intros; repeat split|].
    upd p Hc1; [intros Hz; split; [lia|]; intros; repeat split|].
    eauto. }
  destruct Hen as (s2 & n2 & -> & Hc2). simpl. clear Hc1.
  assert (Hrd : exists s3,
              (if n2 && present && truthy (Z.land state FM_PLAT_XCVR_ENABLE)
               then '(st, status) ← XcvrReadAndValidateEeprom sw s2 q false;
                    if is_ok status
                    then st ← UpdateSerdesSettings sw st q;
                         UpdateXcvrConfig sw st q MAX_CONFIG_RETRY
                    else Some st
               else Some s2) = Some s3
              /\ frame p st s3).
  { destruct (n2 && present && truthy (Z.land state FM_PLAT_XCVR_ENABLE)); [|eauto].
    pose proof (proj1 Hc2) as Hl2.
    destruct (XcvrReadAndValidateEeprom_frame p sw s2 q false)
      as (s3 & status & -> & Hf3); [congruence|lia|exact Hne|]. simpl.
    pose proof (frame_trans _ _ _ _ Hc2 Hf3) as Hc3. pose proof (proj1 Hc3) as Hl3.
    destruct (is_ok status); [|eauto].
    destruct (UpdateSerdesSettings_spec sw s3 q) as (s4 & -> & Hx4);
      [split; [congruence|exact Hlanes]|exact Hq|]. simpl.
    destruct (UpdateXcvrConfig_frame p sw s4 q MAX_CONFIG_RETRY)
      as (s5 & -> & Hf5); [congruence|exact Hq|exact Hne|].
    exists s5. split; [reflexivity|].
    eapply frame_trans; [exact Hc3|].
    destruct Hf5 as [Hl5 Hg5]. split; [congruence|].
    intros x Hx. apply Hg5. rewrite Hx4. exact Hx. }
  destruct Hrd as (s3 & -> & Hc3). simpl. eauto.
Qed.

Lemma XcvrUpdateState_port_frame p sw force (st : plat_state HW) q valid state :
  lanes_ok sw st ->
  0 <= q < Z.of_nat (length (ports sw)) ->
  q <> p ->
  framed p st (XcvrUpdateState_port sw force st q valid state).
Proof.
  intros Hok Hq Hne. pose proof Hok as [Hlen Hlanes].
  unfold XcvrUpdateState_port, framed.
  destruct (array_get_in_range (ports sw) q Hq) as [pc ->]. simpl.
  destruct (negb _); [eauto using frame_refl|].
  destruct (array_get_in_range (xcvrInfo st) q ltac:(lia)) as [x ->]. simpl.
  assert (Hsc : exists s1 n1,
            (if truthy (Z.lxor (modState x) state)
             then state_changed sw st q valid state (modState x)
                    (truthy (Z.land state FM_PLAT_XCVR_PRESENT)) false
             else Some (st, false)) = Some (s1, n1)
            /\ frame p st s1).
  { destruct (truthy (Z.lxor (modState x) state)); [|eauto using frame_refl].
    apply state_changed_frame; assumption. }
  destruct Hsc as (s1 & n1 & -> & Hf1). simpl.
  destruct (n1 || force); [|eauto].
  pose proof (proj1 Hf1) as Hl1.
  destruct (array_get_in_range (xcvrInfo s1) q ltac:(lia)) as [x1 Hx1].
  destruct (send_notifications_spec sw s1 q pc
              (truthy (Z.land state FM_PLAT_XCVR_PRESENT)) state x1)
    as (s2 & -> & Hx2); [split; [congruence|exact Hlanes]|exact Hx1|].
  exists s2. split; [reflexivity|].
  destruct Hf1 as [_ Hg1]. split; [congruence|].
  intros y Hy. rewrite Hx2. apply Hg1. exact Hy.
Qed.

End FrameProofs.

(** *** The iteration of a port whose PRESENT bit changed *)

Section PresentChangeProofs.
Context `{MgmtHeader} {HW : Type} `{MgmtEnv HW}.

(** The iteration of a port whose valid PRESENT bit changed and whose
    EEPROM is not read: what it leaves in the port's record. *)
Lemma XcvrUpdateState_port_without_read (sw : fm_platformCfgSwitch) (force : bool)
  (st : plat_state HW) (portIdx xcvrStateValid xcvrState : Z)
  (portCfg : fm_platformCfgPort) (xcvr : fm_platXcvrInfo) :
  array_get (ports sw) portIdx = Some portCfg ->
  intfType portCfg = FM_PLAT_INTF_TYPE_SFPP
  \/ intfType portCfg = FM_PLAT_INTF_TYPE_QSFP_LANE0 ->
  array_get (xcvrInfo st) portIdx = Some xcvr ->
  bit_changed xcvrStateValid (modState xcvr) xcvrState FM_PLAT_XCVR_PRESENT = true ->
  truthy (Z.land xcvrState FM_PLAT_XCVR_PRESENT)
  && truthy (Z.land xcvrState FM_PLAT_XCVR_ENABLE) = false ->
  lanes_ok sw st ->
  exists st' x',
    XcvrUpdateState_port sw force st portIdx xcvrStateValid xcvrState = Some st'
    /\ length (xcvrInfo st') = length (xcvrInfo st)
    /\ array_get (xcvrInfo st') portIdx = Some x'
    /\ is_reset (truthy (Z.land xcvrState FM_PLAT_XCVR_PRESENT)) xcvrState x'
    /\ configRetries x'
       = (if (portIdx =? 0)
             && bit_changed xcvrStateValid (modState xcvr) xcvrState
                  FM_PLAT_XCVR_ENABLE
          then 0 else configRetries xcvr)
    /\ (portIdx <> 0 -> eeprom x' = eeprom xcvr).
Proof.
  intros Hcfg Htype Hx Hchg Hnoread [Hlen Hlanes].
  set (present := truthy (Z.land xcvrState FM_PLAT_XCVR_PRESENT)) in *.
  destruct (update_xcvrInfo_spec st portIdx (set_modState xcvrState) xcvr Hx)
    as (st0 & Hst0 & Hh0 & Hl0 & Hg0).
  pose proof (Hg0 portIdx) as Hx0. rewrite decide_True in Hx0 by reflexivity.
  destruct (present_changed_spec st0 portIdx present _ Hx0)
    as (st1 & Hst1 & Hh1 & Hl1 & Hg1).
  assert (Hx1 : exists x1, array_get (xcvrInfo st1) portIdx = Some x1
                           /\ is_reset present xcvrState x1
                           /\ configRetries x1 = configRetries xcvr
                           /\ (portIdx <> 0 -> eeprom x1 = eeprom xcvr)).
  { rewrite Hg1. destruct (decide (portIdx = 0)) as [->|Hne].
    - rewrite decide_True by reflexivity. simpl.
      eexists. split; [reflexivity|]. split; [repeat split|].
      split; [reflexivity|]. intros Hc. contradiction.
    - rewrite decide_True by reflexivity.
      eexists. split; [reflexivity|]. split; [repeat split|].
      split; reflexivity. }
  destruct Hx1 as (x1 & Hx1 & Hr1 & Hc1 & He1).
  assert (Hsc : exists st2 x2,
    state_changed sw st portIdx xcvrStateValid xcvrState (modState xcvr) present false
    = Some (st2, true)
    /\ length (xcvrInfo st2) = length (xcvrInfo st)
    /\ array_get (xcvrInfo st2) portIdx = Some x2
    /\ is_reset present xcvrState x2
    /\ configRetries x2
       = (if (portIdx =? 0)
             && bit_changed xcvrStateValid (modState xcvr) xcvrState
                  FM_PLAT_XCVR_ENABLE
          then 0 else configRetries xcvr)
    /\ (portIdx <> 0 -> eeprom x2 = eeprom xcvr)).
  { unfold state_changed. rewrite Hst0. simpl. rewrite Hchg, Hst1. simpl.
    destruct (bit_changed xcvrStateValid (modState xcvr) xcvrState
                FM_PLAT_XCVR_ENABLE) eqn:Een.
    - pose proof (array_get_Some_range _ _ _ Hx1) as Hrange.
      destruct (array_get_in_range (xcvrInfo st1) 0 ltac:(lia)) as [z0 Hz0].
      destruct (enable_changed_spec st1 z0 Hz0) as (st2 & Hst2 & Hh2 & Hl2 & Hg2).
      rewrite Hst2. simpl. rewrite Hnoread.
      destruct (bit_changed _ _ _ FM_PLAT_XCVR_RXLOS),
               (bit_changed _ _ _ FM_PLAT_XCVR_TXFAULT);
        (destruct (decide (portIdx = 0)) as [->|Hne];
         [ rewrite Hx1 in Hz0; injection Hz0 as <-;
           exists st2; eexists; split; [reflexivity|];
           split; [congruence|]; rewrite Hg2, decide_True by reflexivity;
           split; [reflexivity|]; split; [exact Hr1|];
           split; [reflexivity|]; intros Hc; contradiction
         | exists st2, x1; split; [reflexivity|];
           split; [congruence|]; rewrite Hg2, decide_False by assumption;
           split; [exact Hx1|]; split; [exact Hr1|];
           replace (portIdx =? 0) with false by lia;
           split; [exact Hc1|exact He1] ]).
    - simpl. rewrite Hnoread.
      rewrite andb_false_r.
      destruct (bit_changed _ _ _ FM_PLAT_XCVR_RXLOS),
               (bit_changed _ _ _ FM_PLAT_XCVR_TXFAULT);
        (exists st1, x1; split; [reflexivity|]; split; [congruence|];
         split; [exact Hx1|]; split; [exact Hr1|]; split; [exact Hc1|exact He1]). }
  destruct Hsc as (st2 & x2 & Hsc & Hl2 & Hx2 & Hr2 & Hc2 & He2).
  assert (Hok2 : lanes_ok sw st2) by (split; [congruence|exact Hlanes]).
  destruct (send_notifications_spec sw st2 portIdx portCfg present xcvrState x2
              Hok2 Hx2) as (st' & Hsend & Hinfo).
  exists st', x2.
  split.
  { unfold XcvrUpdateState_port. rewrite Hcfg. simpl.
    replace (negb (bool_decide (intfType portCfg = FM_PLAT_INTF_TYPE_SFPP)
                   || bool_decide (intfType portCfg = FM_PLAT_INTF_TYPE_QSFP_LANE0)))
      with false.
    2:{ symmetry. apply negb_false_iff, orb_true_iff.
        destruct Htype; [left|right]; apply bool_decide_eq_true; assumption. }
    rewrite Hx. simpl.
    assert (Hxor : truthy (Z.lxor (modState xcvr) xcvrState) = true).
    { unfold bit_changed in Hchg. apply andb_true_iff in Hchg as [_ Hne].
      unfold truthy. apply negb_true_iff, Z.eqb_neq. intros Hz.
      apply Z.lxor_eq in Hz. rewrite Hz, Z.eqb_refl in Hne. discriminate. }
    rewrite Hxor. fold present. rewrite Hsc. simpl. exact Hsend. }
  rewrite Hinfo. auto.
Qed.

End PresentChangeProofs.

(** *** The loop over the candidate ports *)

Section SweepProofs.
Context `{MgmtHeader} {HW : Type} `{MgmtEnv HW}.

Lemma kept_modState p x y : kept p x y -> modState y = modState x.
Proof.
  unfold kept. destruct (decide (p = 0)); [intros Hc; apply Hc|congruence].
Qed.

Lemma kept_is_reset p present state x y :
  kept p x y -> is_reset present state x -> is_reset present state y.
Proof.
  unfold kept, is_reset, same_core.
  destruct (decide (p = 0)); [|intros ->; auto].
  intros (Hm & Hp & _ & Ht & Hc & Hb & He & Hr). intuition congruence.
Qed.

Lemma kept_eq p x y : p <> 0 -> kept p x y -> y = x.
Proof. unfold kept. intros Hp. rewrite decide_False by assumption. auto. Qed.

(** X1.  The loop of the sweep over candidate ports that lie in the
    tables, one of which, met once, is an SFP+ or QSFP lane-0 port
    whose valid PRESENT bit changed with the module absent or not
    enabled: the loop runs to its end without leaving an array, the
    record of that port ends reset, and when the record is not the
    first of the table its EEPROM cache and its configuration retries
    are what they were before the loop. *)
Theorem sweep_resets_pulled_module (sw : fm_platformCfgSwitch) (force : bool)
  (numPorts : Z) (hwResIdIdxList xcvrStateValidList xcvrStateList : list Z)
  (st : plat_state HW) (k portIdx xcvrStateValid xcvrState : Z)
  (portCfg : fm_platformCfgPort) (xcvr : fm_platXcvrInfo) :
  lanes_ok sw st ->
  (forall i, 0 <= i < numPorts ->
     exists q v s,
       array_get hwResIdIdxList i = Some q
       /\ array_get xcvrStateValidList i = Some v
       /\ array_get xcvrStateList i = Some s
       /\ 0 <= q < Z.of_nat (length (ports sw))) ->
  0 <= k < numPorts ->
  array_get hwResIdIdxList k = Some portIdx ->
  (forall i, 0 <= i < numPorts -> array_get hwResIdIdxList i = Some portIdx -> i = k) ->
  array_get xcvrStateValidList k = Some xcvrStateValid ->
  array_get xcvrStateList k = Some xcvrState ->
  array_get (ports sw) portIdx = Some portCfg ->
  intfType portCfg = FM_PLAT_INTF_TYPE_SFPP
  \/ intfType portCfg = FM_PLAT_INTF_TYPE_QSFP_LANE0 ->
  array_get (xcvrInfo st) portIdx = Some xcvr ->
  bit_changed xcvrStateValid (modState xcvr) xcvrState FM_PLAT_XCVR_PRESENT = true ->
  truthy (Z.land xcvrState FM_PLAT_XCVR_PRESENT)
  && truthy (Z.land xcvrState FM_PLAT_XCVR_ENABLE) = false ->
  exists st' x',
    XcvrUpdateState_loop sw force numPorts hwResIdIdxList xcvrStateValidList
      xcvrStateList st = Some st'
    /\ array_get (xcvrInfo st') portIdx = Some x'
    /\ is_reset (truthy (Z.land xcvrState FM_PLAT_XCVR_PRESENT)) xcvrState x'
    /\ (portIdx <> 0 ->
        eeprom x' = eeprom xcvr /\ configRetries x' = configRetries xcvr).
Proof.
  intros [Hlen Hlanes] Hfilled Hk Hidx Hone Hvalid Hstate Hcfg Htype Hx Hchg Hnoread.
  set (present := truthy (Z.land xcvrState FM_PLAT_XCVR_PRESENT)) in *.
  set (I := fun (i : Z) (s : plat_state HW) =>
    length (xcvrInfo s) = length (xcvrInfo st)
    /\ ((i <= k /\ exists x, array_get (xcvrInfo s) portIdx = Some x
                             /\ kept portIdx xcvr x)
        \/ (k < i /\ exists x', array_get (xcvrInfo s) portIdx = Some x'
                   /\ is_reset present xcvrState x'
                   /\ (portIdx <> 0 ->
                       eeprom x' = eeprom xcvr
                       /\ configRetries x' = configRetries xcvr)))).
  unfold XcvrUpdateState_loop.
  match goal with
  | |- context [for_loop numPorts ?body st] =>
      destruct (for_loop_indexed I numPorts body st) as (st' & Hloop & Hl' & HI')
  end.
  - lia.
  - intros i s Hi [Hls HIs].
    destruct (Hfilled i Hi) as (q & v & s_ & Hq & Hv & Hs & Hqr).
    rewrite Hq, Hv, Hs. simpl.
    assert (Hoks : lanes_ok sw s) by (split; [congruence|exact Hlanes]).
    destruct (decide (i = k)) as [->|Hik].
    + assert (q = portIdx) by congruence. assert (v = xcvrStateValid) by congruence.
      assert (s_ = xcvrState) by congruence. subst q v s_.
      destruct HIs as [(_ & x & Hxs & Hkx)|(Hlt & _)]; [|lia].
      destruct (XcvrUpdateState_port_without_read sw force s portIdx xcvrStateValid
                  xcvrState portCfg x Hcfg Htype Hxs)
        as (s' & x' & Hrun & Hl & Hx' & Hr & Hc & He);
        [rewrite (kept_modState _ _ _ Hkx); exact Hchg|exact Hnoread|exact Hoks|].
      exists s'. split; [exact Hrun|]. split; [congruence|]. right.
      split; [lia|]. exists x'. split; [exact Hx'|]. split; [exact Hr|].
      intros Hp. pose proof (kept_eq _ _ _ Hp Hkx) as ->.
      split; [apply He; exact Hp|]. rewrite Hc.
      replace (portIdx =? 0) with false by lia. reflexivity.
    + assert (Hne : q <> portIdx).
      { intros ->. apply Hik. apply Hone; assumption. }
      destruct (XcvrUpdateState_port_frame portIdx sw force s q v s_ Hoks Hqr Hne)
        as (s' & Hrun & Hl & Hg).
      exists s'. split; [exact Hrun|]. split; [congruence|].
      destruct HIs as [(Hle & x & Hxs & Hkx)|(Hlt & x & Hxs & Hr & He)].
      * left. split; [lia|]. destruct (Hg x Hxs) as (y & Hy & Hky).
        exists y. split; [exact Hy|]. eapply kept_trans; eassumption.
      * right. split; [lia|]. destruct (Hg x Hxs) as (y & Hy & Hky).
        exists y. split; [exact Hy|].
        split; [eapply kept_is_reset; eassumption|].
        intros Hp. rewrite (kept_eq _ _ _ Hp Hky). apply He; exact Hp.
  - split; [reflexivity|]. left. split; [lia|]. exists xcvr.
    split; [exact Hx|apply kept_refl].
  - destruct HI' as [(Hle & _)|(_ & x' & Hx' & Hr & He)]; [lia|].
    exists st', x'. auto.
Qed.

End SweepProofs.

(** *** Runs on the sample platform *)



(** Witness of X1: the loop over both sample ports, the second module
    pulled. *)
Lemma sweep_resets_pulled_module_witness :
  exists st' x',
    @XcvrUpdateState_loop MgmtSample.header unit MgmtSample.removal MgmtSample.sw
      false 2 [0; 1] [31; 31] [3; 2] MgmtSample.state = Some st'
    /\ array_get (xcvrInfo st') 1 = Some x'
    /\ type x' = FM_PLATFORM_XCVR_TYPE_NOT_PRESENT
    /\ present x' = false
    /\ eeprom x' = [3; 4; 9; 35]
    /\ configRetries x' = 3.
Proof.
  destruct (@sweep_resets_pulled_module MgmtSample.header unit MgmtSample.removal
              MgmtSample.sw false 2 [0; 1] [31; 31] [3; 2] MgmtSample.state
              1 1 31 2
              {| intfType := FM_PLAT_INTF_TYPE_SFPP; port := 2; epl := 0;
                 hwResourceId := 11 |}
              (MgmtSample.plugged [3; 4; 9; 35]))
    as (st' & x' & Hrun & Hx & Hreset & Hkeep).
  - split; [reflexivity|]. intros e l. left. reflexivity.
  - intros i Hi. assert (Hcase : i = 0 \/ i = 1) by lia.
    destruct Hcase as [->| ->]; do 3 eexists;
      (split; [reflexivity|]); (split; [reflexivity|]); (split; [reflexivity|]);
      simpl; lia.
  - lia.
  - reflexivity.
  - intros i Hi Hget. assert (Hcase : i = 0 \/ i = 1) by lia.
    destruct Hcase as [->| ->]; [discriminate Hget|reflexivity].
  - reflexivity.
  - reflexivity.
  - reflexivity.
  - left. reflexivity.
  - reflexivity.
  - reflexivity.
  - reflexivity.
  - destruct Hreset as (Ht & _ & _ & _ & _ & Hp & _).
    destruct Hkeep as [He Hc]; [lia|].
    exists st', x'. repeat split; assumption.
Defined.

End MgmtProofs.

(** ** Arrays written at their first free entry *)
Module ArrayFacts.
Import Std.

Lemma array_get_middle {A} (l1 : list A) x l2 :
  array_get (l1 ++ x :: l2) (Z.of_nat (length l1)) = Some x.
Proof.
  unfold array_get.
  destruct (Z.ltb_spec (Z.of_nat (length l1)) 0) as [Hneg|_]; [lia|].
  rewrite Nat2Z.id. apply list_lookup_middle. reflexivity.
Qed.

Lemma array_set_middle {A} (l1 : list A) x l2 v :
  array_set (l1 ++ x :: l2) (Z.of_nat (length l1)) v = Some (l1 ++ v :: l2).
Proof.
  unfold array_set. rewrite length_app. simpl.
  destruct (Z.leb_spec 0 (Z.of_nat (length l1))) as [_|Hneg]; [|lia].
  destruct (Z.ltb_spec (Z.of_nat (length l1))
              (Z.of_nat (length l1 + S (length l2)))) as [_|Hge]; [|lia].
  simpl. rewrite Nat2Z.id. f_equal.
  rewrite insert_app_r_alt by lia. rewrite Nat.sub_diag. reflexivity.
Qed.

End ArrayFacts.

(** ** fm10000_api_an.c: timers, the nonce, next pages and the HCD *)
Module AnAttrProofs.
Import Std An StdFacts ArrayFacts AnAttr.

Section TimerProofs.
Context `{AnHeader} `{AnAttrHeader}.

(** X2.  Setting a link fail inhibit timer (both the plain and the KX
    timer): a zero timeout stores the default and succeeds; a non-zero
    timeout (an [fm_uint]) succeeds exactly when it does not exceed the
    maximum selected by [anTimerAllowOutSpec], and is then stored as
    given; a rejected timeout returns FM_ERR_INVALID_ARGUMENT and leaves
    the attributes as they were.  Neither function touches another
    attribute. *)
Theorem SetLinkInhibitTimer_accepts (anTimerAllowOutSpec : bool)
  (portAttrExt : fm10000_portAttr) (timeout : Z) :
  0 <= timeout < 2 ^ 32 ->
  let linkTimeoutMax :=
    fm_uint32 (if anTimerAllowOutSpec
               then FM10000_AN73_LINK_FAIL_INHIBIT_TIMEOUT_DEBUG
               else FM10000_AN73_LINK_FAIL_INHIBIT_TIMEOUT_MAX) in
  let accepted := timeout = 0 \/ timeout <= linkTimeoutMax in
  let r := fm10000An73SetLinkInhibitTimer anTimerAllowOutSpec portAttrExt timeout in
  let rkx := fm10000An73SetLinkInhibitTimerKx anTimerAllowOutSpec portAttrExt timeout in
  (accepted ->
   r = (FM_OK,
        set_autoNegLinkInhbTimer
          (if timeout =? 0 then LINK_INHIBIT_TIMER_MILLISEC else timeout)
          portAttrExt)
   /\ rkx = (FM_OK,
             set_autoNegLinkInhbTimerKx
               (if timeout =? 0 then LINK_INHIBIT_TIMER_MILLISEC_KX else timeout)
               portAttrExt))
  /\ (~ accepted ->
      r = (FM_ERR_INVALID_ARGUMENT, portAttrExt)
      /\ rkx = (FM_ERR_INVALID_ARGUMENT, portAttrExt)).
Proof.
  intros Ht linkTimeoutMax accepted r rkx.
  unfold r, rkx, fm10000An73SetLinkInhibitTimer, fm10000An73SetLinkInhibitTimerKx.
  assert (Hmax : (if anTimerAllowOutSpec
                  then fm_uint32 FM10000_AN73_LINK_FAIL_INHIBIT_TIMEOUT_DEBUG
                  else fm_uint32 FM10000_AN73_LINK_FAIL_INHIBIT_TIMEOUT_MAX)
                 = linkTimeoutMax)
    by (unfold linkTimeoutMax; destruct anTimerAllowOutSpec; reflexivity).
  rewrite Hmax. unfold accepted.
  destruct (timeout =? 0) eqn:E0.
  - split; [auto|]. intros Hn. exfalso. apply Hn. left. lia.
  - replace (timeout <? 1) with false by lia. rewrite orb_false_r.
    destruct (timeout >? linkTimeoutMax) eqn:Egt.
    + split; [intros [Hz|Hle]; lia|auto].
    + split; [auto|]. intros Hn. exfalso. apply Hn. right. lia.
Qed.

End TimerProofs.

Section HcdProofs.
Context `{AnHeader} `{AnAttrHeader}.

(** First match in a table of cases, as a [switch] with a default. *)
Lemma switch_default {V : Type} (table : list (Z * V)) (default : V) (k : Z) :
  ~ In k (map fst table) ->
  match find (fun kv => k =? fst kv) table with
  | Some kv => snd kv
  | None => default
  end = default.
Proof.
  induction table as [|[k' v] table IH]; intros Hk; [reflexivity|].
  simpl in *. destruct (Z.eqb_spec k k') as [->|Hne].
  - exfalso. apply Hk. left. reflexivity.
  - apply IH. intros Hin. apply Hk. right. exact Hin.
Qed.

Lemma switch_case {V : Type} (table : list (Z * V)) (default : V) (k : Z) :
  In k (map fst table) ->
  exists v, In (k, v) table
            /\ match find (fun kv => k =? fst kv) table with
               | Some kv => snd kv
               | None => default
               end = v.
Proof.
  induction table as [|[k' v] table IH]; intros Hk; [destruct Hk|].
  simpl in *. destruct (Z.eqb_spec k k') as [->|Hne].
  - exists v. auto.
  - destruct Hk as [E|Hk]; [congruence|].
    destruct (IH Hk) as (v' & Hin & Hv). exists v'. auto.
Qed.

Lemma NoDup_snd_inj {V : Type} (table : list (Z * V)) k1 k2 v :
  NoDup (map snd table) -> In (k1, v) table -> In (k2, v) table -> k1 = k2.
Proof.
  induction table as [|[k' v'] table IH]; intros Hnd H1 H2; [destruct H1|].
  simpl in *. apply NoDup_cons in Hnd as [Hni Hnd].
  assert (Hin : forall k, In (k, v') table -> v' ∈ map snd table).
  { intros k Hk. apply list_elem_of_In, in_map_iff. exists (k, v'). auto. }
  destruct H1 as [E1|H1], H2 as [E2|H2].
  - congruence.
  - injection E1 as -> ->. exfalso. eauto.
  - injection E2 as -> ->. exfalso. eauto.
  - eauto.
Qed.

Lemma HcdToEthMode_table hcd :
  fm10000An73HcdToEthMode hcd
  = match find (fun kv => hcd =? fst kv) hcd_table with
    | Some kv => snd kv
    | None => FM_ETH_MODE_DISABLED
    end.
Proof.
  unfold fm10000An73HcdToEthMode, hcd_table. simpl.
  repeat (match goal with
          | |- context [hcd =? ?c] => destruct (hcd =? c)
          end; [reflexivity|]).
  reflexivity.
Qed.

(** X3.  The HCD decoder, given that the eight codes it has a case for
    are distinct (as the labels of a [switch] are): a code is mapped to
    FM_ETH_MODE_DISABLED exactly when it is none of the eight, and two
    of the eight codes are never mapped to the same Ethernet mode. *)
Theorem HcdToEthMode_decodes :
  NoDup (map fst hcd_table) ->
  (forall hcd,
     fm10000An73HcdToEthMode hcd = FM_ETH_MODE_DISABLED
     <-> ~ In hcd (map fst hcd_table))
  /\ (forall h1 h2,
        In h1 (map fst hcd_table) -> In h2 (map fst hcd_table) ->
        fm10000An73HcdToEthMode h1 = fm10000An73HcdToEthMode h2 -> h1 = h2).
Proof.
  intros Hnd.
  assert (Hvals : NoDup (map snd hcd_table)
                  /\ ~ In FM_ETH_MODE_DISABLED (map snd hcd_table)).
  { split.
    - simpl. repeat (apply NoDup_cons; split;
                     [rewrite ?elem_of_cons, elem_of_nil; intuition discriminate|]).
      apply NoDup_nil. exact I.
    - simpl. intuition discriminate. }
  destruct Hvals as [Hvnd Hvdis].
  split.
  - intros hcd. rewrite HcdToEthMode_table. split.
    + intros Hd Hin.
      destruct (switch_case hcd_table FM_ETH_MODE_DISABLED hcd Hin)
        as (v & Hkv & Hv).
      rewrite Hv in Hd. subst v. apply Hvdis.
      apply in_map_iff. exists (hcd, FM_ETH_MODE_DISABLED). auto.
    + apply switch_default.
  - intros h1 h2 Hin1 Hin2. rewrite !HcdToEthMode_table.
    destruct (switch_case hcd_table FM_ETH_MODE_DISABLED h1 Hin1)
      as (v1 & Hkv1 & ->).
    destruct (switch_case hcd_table FM_ETH_MODE_DISABLED h2 Hin2)
      as (v2 & Hkv2 & ->).
    intros <-. eapply NoDup_snd_inj; eassumption.
Qed.

End HcdProofs.


Section NonceProofs.
Context `{AnHeader} `{AnAttrHeader}.

Lemma FM_SET_BIT_testbit lvalue b (v : bool) i :
  0 <= b < 32 -> 0 <= i < 32 ->
  Z.testbit (FM_SET_BIT lvalue b (fm_bool_val v)) i
  = if i =? b then v else Z.testbit lvalue i.
Proof.
  intros Hb Hi. unfold FM_SET_BIT, fm_uint32.
  rewrite Z.mod_pow2_bits_low by lia.
  rewrite Z.lor_spec, Z.land_spec, Z.lnot_spec, !Z.shiftl_spec by lia.
  destruct (Z.eqb_spec i b) as [->|Hne].
  - rewrite Z.sub_diag. change (Z.testbit 1 0) with true.
    rewrite andb_false_r. destruct v; reflexivity.
  - assert (Hone : forall j, j <> 0 -> Z.testbit 1 j = false).
    { intros j Hj. destruct (Z_lt_le_dec j 0); [apply Z.testbit_neg_r; lia|].
      apply (Z.bits_above_log2 1 j); simpl; lia. }
    assert (Hv : Z.testbit (Z.land (fm_bool_val v) 1) (i - b) = false).
    { rewrite Z.land_spec, (Hone (i - b)) by lia. apply andb_false_r. }
    rewrite Hv, (Hone (i - b)) by lia. simpl.
    rewrite andb_true_r, orb_false_r. reflexivity.
Qed.

(** X4.  Setting IgnoreNonceMatch is a read-modify-write under the
    register lock.  The lock is taken first and dropped last on every
    path.  When the read fails nothing is written and the attribute is
    left as it was.  Otherwise exactly one value is written to the
    register that was read: it fits 32 bits, its IgnoreNonceMatch bit is
    [ignoreNonce] and every other bit is the one that was read; the
    attribute is updated only when the write succeeded. *)
Theorem SetIgnoreNonce_read_modify_write {RW : Type} `{RegEnv RW} (rw : RW)
  (epl lane : Z) (portAttrExt : fm10000_portAttr) (ignoreNonce : bool) :
  0 <= FM10000_AN_73_CFG_b_IgnoreNonceMatch < 32 ->
  let addr := fm_uint32 (FM10000_AN_73_CFG epl lane) in
  let '(rw1, rerr, anCfg) := ReadUINT32 rw addr in
  let '(rw', ops, err, portAttrExt') :=
    fm10000An73SetIgnoreNonce rw epl lane portAttrExt ignoreNonce in
  (rerr <> FM_OK ->
   rw' = rw1 /\ err = rerr /\ portAttrExt' = portAttrExt
   /\ ops = [TAKE_REG_LOCK; OpReadUINT32 addr rerr; DROP_REG_LOCK])
  /\ (rerr = FM_OK ->
      exists value,
        WriteUINT32 rw1 addr value = (rw', err)
        /\ ops = [TAKE_REG_LOCK; OpReadUINT32 addr FM_OK;
                  OpWriteUINT32 addr value err; DROP_REG_LOCK]
        /\ 0 <= value < 2 ^ 32
        /\ Z.testbit value FM10000_AN_73_CFG_b_IgnoreNonceMatch = ignoreNonce
        /\ (forall i, 0 <= i < 32 -> i <> FM10000_AN_73_CFG_b_IgnoreNonceMatch ->
            Z.testbit value i = Z.testbit anCfg i)
        /\ portAttrExt'
           = if is_ok err then set_autoNegIgnoreNonce ignoreNonce portAttrExt
             else portAttrExt).
Proof.
  intros Hb addr. unfold fm10000An73SetIgnoreNonce. fold addr.
  destruct (ReadUINT32 rw addr) as [[rw1 rerr] anCfg].
  destruct (is_ok rerr) eqn:Er; simpl.
  - assert (rerr = FM_OK) as -> by (destruct rerr; try discriminate; reflexivity).
    set (value := FM_SET_BIT anCfg FM10000_AN_73_CFG_b_IgnoreNonceMatch
                    (fm_bool_val ignoreNonce)).
    destruct (WriteUINT32 rw1 addr value) as [rw2 werr] eqn:Ew.
    assert (Hvalue : 0 <= value < 2 ^ 32
                     /\ Z.testbit value FM10000_AN_73_CFG_b_IgnoreNonceMatch = ignoreNonce
                     /\ forall i, 0 <= i < 32 ->
                          i <> FM10000_AN_73_CFG_b_IgnoreNonceMatch ->
                          Z.testbit value i = Z.testbit anCfg i).
    { split; [apply Z.mod_pos_bound; lia|]. split.
      - unfold value. rewrite FM_SET_BIT_testbit by lia.
        rewrite Z.eqb_refl. reflexivity.
      - intros i Hi Hne. unfold value. rewrite FM_SET_BIT_testbit by lia.
        replace (i =? FM10000_AN_73_CFG_b_IgnoreNonceMatch) with false by lia.
        reflexivity. }
    destruct Hvalue as (Hr & Hbit & Hrest).
    destruct (is_ok werr) eqn:Ewok; simpl;
      (split; [intros Hc; contradiction|]; intros _; exists value;
       split; [exact Ew|]; split; [reflexivity|]; split; [exact Hr|];
       split; [exact Hbit|]; split; [exact Hrest|rewrite Ewok; reflexivity]).
  - split; [intros _; auto|]. intros ->. discriminate.
Qed.

End NonceProofs.

Section EeeProofs.
Context `{AnHeader} `{AnAttrHeader}.

Lemma eee_page_test (ethMode : fm_ethMode) (rxPage : Z) :
  ((FM_GET_FIELD64 rxPage FM10000_AN_73_NEXT_PAGE_RX_l_MU
      FM10000_AN_73_NEXT_PAGE_RX_h_MU =? FM10000_AN_NEXTPAGE_EEE_MSG_CODE)
   && ((bool_decide (ethMode = FM_ETH_MODE_10GBASE_KR)
        && truthy (Z.land rxPage FM10000_AN_73_NEXTPAGE_EEE_10GBASE_KR))
       || (bool_decide (ethMode = FM_ETH_MODE_1000BASE_KX)
           && truthy (Z.land rxPage FM10000_AN_73_NEXTPAGE_EEE_1000BASE_KX)))
   = true)
  <-> eee_page ethMode rxPage.
Proof.
  unfold eee_page, truthy.
  rewrite andb_true_iff, orb_true_iff, !andb_true_iff, !bool_decide_eq_true,
    !negb_true_iff, !Z.eqb_neq, Z.eqb_eq.
  reflexivity.
Qed.

Lemma VerifyEee_loop_scans (autoNegMode : fm_autonegMode) (ethMode : fm_ethMode)
  (np : fm_anNextPages) :
  numPages np <= Z.of_nat (length (nextPages np)) ->
  forall (n : nat) (c : Z),
    0 <= c ->
    c + Z.of_nat n = numPages np ->
    exists k enabled,
      VerifyEee_loop n autoNegMode ethMode np c false = (seqZ c k, Some enabled)
      /\ 0 <= k <= Z.of_nat n
      /\ (enabled = true
          <-> autoNegMode = FM_PORT_AUTONEG_CLAUSE_73
              /\ exists i page,
                   c <= i < numPages np
                   /\ array_get (nextPages np) i = Some page
                   /\ eee_page ethMode page).
Proof.
  intros Hlen n. induction n as [|n IH]; intros c Hc Hsum.
  - exists 0, false. split; [reflexivity|]. split; [lia|]. split; [discriminate|].
    intros (_ & i & page & Hi & _). lia.
  - cbn [VerifyEee_loop].
    replace (c <? numPages np) with true by lia.
    destruct (array_get_in_range (nextPages np) c ltac:(lia)) as [page Hpage].
    unfold rd_bind at 1, rd_read. rewrite Hpage.
    destruct (IH (c + 1) ltac:(lia) ltac:(lia)) as (k & enabled & Hloop & Hk & Hen).
    assert (Hskip : ~ (autoNegMode = FM_PORT_AUTONEG_CLAUSE_73 /\ eee_page ethMode page) ->
              exists k0 enabled0,
                (let '(l', r) :=
                   VerifyEee_loop n autoNegMode ethMode np (c + 1) false in
                 ([c] ++ l', r)) = (seqZ c k0, Some enabled0)
                /\ 0 <= k0 <= Z.of_nat (S n)
                /\ (enabled0 = true
                    <-> autoNegMode = FM_PORT_AUTONEG_CLAUSE_73
                        /\ exists i page,
                             c <= i < numPages np
                             /\ array_get (nextPages np) i = Some page
                             /\ eee_page ethMode page)).
    { intros Hno. exists (k + 1), enabled. rewrite Hloop. split.
      - replace (k + 1) with (Z.succ k) by lia.
        rewrite (seqZ_cons c (Z.succ k)) by lia.
        replace (Z.pred (Z.succ k)) with k by lia. reflexivity.
      - split; [lia|]. rewrite Hen. split.
        + intros (Hm & i & pg & Hi & Hpg & He). split; [exact Hm|].
          exists i, pg. split; [lia|auto].
        + intros (Hm & i & pg & Hi & Hpg & He). split; [exact Hm|].
          exists i, pg. split; [|auto].
          destruct (Z.eq_dec i c) as [->|Hne]; [|lia].
          exfalso. apply Hno. rewrite Hpage in Hpg. injection Hpg as <-. auto. }
    pose proof (eee_page_test ethMode page) as Htest.
    destruct (FM_GET_FIELD64 page FM10000_AN_73_NEXT_PAGE_RX_l_MU
                FM10000_AN_73_NEXT_PAGE_RX_h_MU =? FM10000_AN_NEXTPAGE_EEE_MSG_CODE)
      eqn:Emu; simpl in *.
    2:{ apply Hskip. intros [_ He]. apply Htest in He. discriminate. }
    destruct (bool_decide (autoNegMode = FM_PORT_AUTONEG_CLAUSE_73)) eqn:Emode.
    2:{ apply Hskip. intros [Hm _]. apply bool_decide_eq_false in Emode. auto. }
    apply bool_decide_eq_true in Emode.
    match goal with
    | |- context [if ?b then rd_ret true else _] => destruct b eqn:Einner
    end.
    + exists 1, true. split; [reflexivity|]. split; [lia|].
      split; [|reflexivity]. intros _. split; [exact Emode|].
      exists c, page. split; [lia|]. split; [exact Hpage|].
      apply Htest. reflexivity.
    + apply Hskip. intros [_ He]. apply Htest in He. discriminate.
Qed.

(** X5.  Verifying the EEE negotiation over next-page storage that
    holds the [numPages] pages the partner sent: the pages are read in
    order from index 0, every index read lies below [numPages], and the
    function returns FM_OK with [negotiatedEeeModeEnabled] set exactly
    when the port negotiates under Clause 73 and one of those pages
    carries the EEE message code with the EEE bit of the negotiated
    mode (10GBASE-KR or 1000BASE-KX); no other attribute changes. *)
Theorem VerifyEeeNegotiation_scans (autoNegMode : fm_autonegMode)
  (autoNegPartnerNextPages : fm_anNextPages) (portAttrExt : fm10000_portAttr)
  (ethMode : fm_ethMode) :
  numPages autoNegPartnerNextPages
  <= Z.of_nat (length (nextPages autoNegPartnerNextPages)) ->
  exists k enabled,
    fm10000AnVerifyEeeNegotiation autoNegMode autoNegPartnerNextPages
      portAttrExt ethMode
    = (seqZ 0 k,
       Some (FM_OK, set_negotiatedEeeModeEnabled enabled portAttrExt))
    /\ 0 <= k <= Z.max 0 (numPages autoNegPartnerNextPages)
    /\ (enabled = true
        <-> autoNegMode = FM_PORT_AUTONEG_CLAUSE_73
            /\ exists i page,
                 0 <= i < numPages autoNegPartnerNextPages
                 /\ array_get (nextPages autoNegPartnerNextPages) i = Some page
                 /\ eee_page ethMode page).
Proof.
  intros Hlen. unfold fm10000AnVerifyEeeNegotiation.
  destruct (Z_lt_le_dec (numPages autoNegPartnerNextPages) 0) as [Hneg|Hpos].
  - replace (Z.to_nat (numPages autoNegPartnerNextPages)) with O by lia.
    exists 0, false. split; [reflexivity|]. split; [lia|].
    split; [discriminate|]. intros (_ & i & page & Hi & _). lia.
  - destruct (VerifyEee_loop_scans autoNegMode ethMode autoNegPartnerNextPages Hlen
                (Z.to_nat (numPages autoNegPartnerNextPages)) 0)
      as (k & enabled & Hloop & Hk & Hen); [lia|lia|].
    exists k, enabled. rewrite Hloop. unfold rd_bind, rd_ret.
    rewrite app_nil_r. split; [reflexivity|]. split; [lia|exact Hen].
Qed.

End EeeProofs.


Section NextPageProofs.
Context `{AnHeader} `{AnAttrHeader}.

(** X6.  Adding a page to a list that has room: the call succeeds, the
    count grows by one, the page is stored (as 64 bits) at the index of
    the old count, the page before it, if there is one, has the NP bit
    set and its other bits kept, and no other element of the storage
    changes. *)
Theorem AddNextPage_appends (fmAlloc : Z -> option (list Z))
  (autoNegNextPages : next_pages_ptr) (nextPages : list Z) (nextPage : Z) :
  nextPages_of autoNegNextPages = Some nextPages ->
  0 <= numPages_of autoNegNextPages < MAX_NUM_NEXTPAGES ->
  numPages_of autoNegNextPages < Z.of_nat (length nextPages) ->
  let n := numPages_of autoNegNextPages in
  exists nextPages',
    fm10000AnAddNextPage true fmAlloc autoNegNextPages nextPage
    = Some (FM_OK, {| numPages_of := n + 1; nextPages_of := Some nextPages' |})
    /\ length nextPages' = length nextPages
    /\ array_get nextPages' n = Some (fm_uint64 nextPage)
    /\ (0 < n ->
        exists prev,
          array_get nextPages (n - 1) = Some prev
          /\ array_get nextPages' (n - 1)
             = Some (Z.lor prev
                       (fm_uint64 (Z.shiftl 1 FM10000_AN_73_NEXT_PAGE_TX_b_NP))))
    /\ (forall j, j <> n -> j <> n - 1 ->
        array_get nextPages' j = array_get nextPages j).
Proof.
  intros Hptr Hn Hlen n. unfold fm10000AnAddNextPage. simpl.
  rewrite Hptr. simpl. rewrite Hptr. fold n.
  replace (n <? MAX_NUM_NEXTPAGES) with true by lia.
  destruct (array_set_spec nextPages n (fm_uint64 nextPage) ltac:(lia))
    as (l1 & -> & Hl1 & Hg1). simpl.
  destruct (n >? 0) eqn:Epos.
  - destruct (array_get_in_range nextPages (n - 1) ltac:(lia)) as [prev Hprev].
    assert (Hprev1 : array_get l1 (n - 1) = Some prev).
    { rewrite Hg1. rewrite decide_False by lia. exact Hprev. }
    rewrite Hprev1. simpl.
    destruct (array_set_spec l1 (n - 1)
                (Z.lor prev (fm_uint64 (Z.shiftl 1 FM10000_AN_73_NEXT_PAGE_TX_b_NP)))
                ltac:(lia)) as (l2 & -> & Hl2 & Hg2). simpl.
    exists l2. split; [reflexivity|]. split; [congruence|].
    split; [rewrite Hg2, decide_False by lia; rewrite Hg1, decide_True by lia;
            reflexivity|].
    split.
    + intros _. exists prev. split; [exact Hprev|].
      rewrite Hg2, decide_True by reflexivity. reflexivity.
    + intros j Hj1 Hj2. rewrite Hg2, decide_False by assumption.
      rewrite Hg1, decide_False by assumption. reflexivity.
  - exists l1. split; [reflexivity|]. split; [exact Hl1|].
    split; [rewrite Hg1, decide_True by reflexivity; reflexivity|].
    split; [intros Hpos; lia|].
    intros j Hj1 Hj2. rewrite Hg1, decide_False by assumption. reflexivity.
Qed.

(** X7.  The capacity of the list is kept, whatever is added and
    whatever the switch or the allocator answer: a call on a list that
    is not allocated, or is allocated for MAX_NUM_NEXTPAGES pages and
    holds at most that many, never leaves the storage and returns such a
    list again.  A call that does not return FM_OK leaves the storage as
    it was, and the count too unless it was the allocation that failed;
    a list holding MAX_NUM_NEXTPAGES pages answers
    FM_ERR_NO_FREE_RESOURCES. *)
Theorem AddNextPage_keeps_capacity (validSwitch : bool)
  (fmAlloc : Z -> option (list Z)) (autoNegNextPages : next_pages_ptr)
  (nextPage : Z) :
  0 < MAX_NUM_NEXTPAGES ->
  alloc_ok fmAlloc ->
  pages_ok autoNegNextPages ->
  exists status autoNegNextPages',
    fm10000AnAddNextPage validSwitch fmAlloc autoNegNextPages nextPage
    = Some (status, autoNegNextPages')
    /\ pages_ok autoNegNextPages'
    /\ (status <> FM_OK ->
        nextPages_of autoNegNextPages' = nextPages_of autoNegNextPages
        /\ (status <> FM_ERR_NO_MEM -> autoNegNextPages' = autoNegNextPages))
    /\ (validSwitch = true ->
        nextPages_of autoNegNextPages <> None ->
        numPages_of autoNegNextPages = MAX_NUM_NEXTPAGES ->
        status = FM_ERR_NO_FREE_RESOURCES).
Proof.
  intros Hmax Halloc Hok. unfold fm10000AnAddNextPage.
  destruct validSwitch; simpl.
  2:{ exists FM_ERR_INVALID_SWITCH, autoNegNextPages.
      split; [reflexivity|]. split; [exact Hok|].
      split; [auto|]. intros Hc. discriminate. }
  destruct autoNegNextPages as [n [l|]]; simpl in *.
  - destruct Hok as [Hlen Hn]. unfold pages_ok in *. simpl.
    destruct (n <? MAX_NUM_NEXTPAGES) eqn:Elt.
    + simpl in Hn.
      destruct (array_set_spec l n (fm_uint64 nextPage) ltac:(lia))
        as (l1 & -> & Hl1 & Hg1). simpl.
      assert (Hprev : exists l2,
                (if n >? 0
                 then prev ← array_get l1 (n - 1);
                      array_set l1 (n - 1)
                        (Z.lor prev
                           (fm_uint64
                              (Z.shiftl 1 FM10000_AN_73_NEXT_PAGE_TX_b_NP)))
                 else Some l1) = Some l2
                /\ length l2 = length l1).
      { destruct (n >? 0) eqn:Epos; [|eauto].
        destruct (array_get_in_range l1 (n - 1) ltac:(lia)) as [prev ->]. simpl.
        destruct (array_set_spec l1 (n - 1)
                    (Z.lor prev
                       (fm_uint64 (Z.shiftl 1 FM10000_AN_73_NEXT_PAGE_TX_b_NP)))
                    ltac:(lia)) as (l2 & -> & Hl2 & _).
        eauto. }
      destruct Hprev as (l2 & -> & Hl2). simpl.
      do 2 eexists. split; [reflexivity|]. simpl.
      split; [split; [congruence|lia]|].
      split; [intros Hc; contradiction|]. intros _ _ Hfull. lia.
    + simpl in Hn. do 2 eexists. split; [reflexivity|]. simpl.
      split; [split; [exact Hlen|exact Hn]|].
      split; [auto|]. reflexivity.
  - destruct (fmAlloc MAX_NUM_NEXTPAGES) as [fresh|] eqn:Ea; simpl.
    + pose proof (Halloc _ Ea) as Hlen.
      replace (0 <? MAX_NUM_NEXTPAGES) with true by lia.
      destruct (array_set_spec fresh 0 (fm_uint64 nextPage) ltac:(lia))
        as (l1 & -> & Hl1 & _). simpl.
      do 2 eexists. split; [reflexivity|]. unfold pages_ok. simpl.
      split; [split; [congruence|lia]|].
      split; [intros Hc; contradiction|]. intros _ Hc. contradiction.
    + do 2 eexists. split; [reflexivity|]. unfold pages_ok. simpl.
      split; [exact I|]. split; [|intros _ Hc; contradiction].
      intros _. split; [reflexivity|]. intros Hc. contradiction.
Qed.

Lemma add_pages_app (validSwitch : bool) (fmAlloc : Z -> option (list Z))
  (a : next_pages_ptr) (l1 l2 : list Z) :
  add_pages validSwitch fmAlloc a (l1 ++ l2)
  = ('(s1, a1) ← add_pages validSwitch fmAlloc a l1;
     '(s2, a2) ← add_pages validSwitch fmAlloc a1 l2;
     Some (s1 ++ s2, a2)).
Proof.
  revert a. induction l1 as [|p l1 IH]; intros a; simpl.
  - destruct (add_pages validSwitch fmAlloc a l2) as [[s2 a2]|]; reflexivity.
  - destruct (fm10000AnAddNextPage validSwitch fmAlloc a p) as [[st a1]|];
      [|reflexivity]. simpl.
    rewrite IH.
    destruct (add_pages validSwitch fmAlloc a1 l1) as [[s1 a2]|]; [|reflexivity].
    simpl.
    destruct (add_pages validSwitch fmAlloc a2 l2) as [[s2 a3]|]; reflexivity.
Qed.

Lemma add_pages_from_null (fmAlloc : Z -> option (list Z)) (fresh : list Z)
  (numPages0 : Z) (qs : list Z) (p : Z) :
  fmAlloc MAX_NUM_NEXTPAGES = Some fresh ->
  Z.of_nat (length fresh) = MAX_NUM_NEXTPAGES ->
  Z.of_nat (length qs) < MAX_NUM_NEXTPAGES ->
  add_pages true fmAlloc {| numPages_of := numPages0; nextPages_of := None |}
    (qs ++ [p])
  = Some (replicate (S (length qs)) FM_OK,
          {| numPages_of := Z.of_nat (S (length qs));
             nextPages_of :=
               Some (map with_NP qs ++ fm_uint64 p
                       :: drop (S (length qs)) fresh) |}).
Proof.
  intros Ha Hfresh. revert p.
  induction qs as [|q qs IH] using rev_ind; intros p Hlen.
  - simpl in *. unfold fm10000AnAddNextPage. simpl. rewrite Ha. simpl.
    replace (0 <? MAX_NUM_NEXTPAGES) with true by lia.
    destruct fresh as [|x fresh]; [simpl in Hfresh; lia|].
    reflexivity.
  - rewrite length_app in Hlen. simpl in Hlen.
    rewrite add_pages_app, IH by lia. simpl.
    set (n := S (length qs)).
    assert (Hdrop : exists y, drop n fresh = y :: drop (S n) fresh).
    { destruct (lookup_lt_is_Some_2 fresh n ltac:(lia)) as [y Hy].
      exists y. apply drop_S. exact Hy. }
    destruct Hdrop as [y Hdrop]. rewrite Hdrop.
    unfold fm10000AnAddNextPage. simpl.
    replace (Z.of_nat n <? MAX_NUM_NEXTPAGES) with true by lia.
    replace (map with_NP qs ++ fm_uint64 q :: y :: drop (S n) fresh)
      with ((map with_NP qs ++ [fm_uint64 q]) ++ y :: drop (S n) fresh)
      by (rewrite <- app_assoc; reflexivity).
    assert (Hn : Z.of_nat n = Z.of_nat (length (map with_NP qs ++ [fm_uint64 q]))).
    { rewrite length_app, length_map. simpl. lia. }
    rewrite Hn at 1. rewrite array_set_middle. simpl.
    replace ((map with_NP qs ++ [fm_uint64 q]) ++ fm_uint64 p :: drop (S n) fresh)
      with (map with_NP qs ++ fm_uint64 q :: fm_uint64 p :: drop (S n) fresh)
      by (rewrite <- app_assoc; reflexivity).
    assert (Hn1 : Z.of_nat n - 1 = Z.of_nat (length (map with_NP qs))).
    { rewrite length_map. lia. }
    rewrite Hn1, array_get_middle. simpl. rewrite array_set_middle. simpl.
    rewrite length_app, map_app, <- app_assoc. simpl.
    replace (length qs + 1)%nat with n by lia.
    replace (Z.of_nat n + 1) with (Z.of_nat (S n)) by lia.
    replace (replicate (length qs) FM_OK ++ [FM_OK]) with (replicate n FM_OK);
      [reflexivity|].
    unfold n. replace (S (length qs)) with (length qs + 1)%nat by lia.
    rewrite replicate_add. reflexivity.
Qed.

(** X8.  A list built from nothing.  On a port whose list is not
    allocated, adding the pages [qs] and then [p], no more than
    MAX_NUM_NEXTPAGES in all, succeeds every time and leaves the count at
    their number and, at the head of the allocated storage, the pages in
    the order given: each with the NP bit set except the last, which is
    stored as given.  The storage behind them is as it was allocated. *)
Theorem AddNextPage_builds (fmAlloc : Z -> option (list Z)) (fresh : list Z)
  (numPages0 : Z) (qs : list Z) (p : Z) :
  fmAlloc MAX_NUM_NEXTPAGES = Some fresh ->
  Z.of_nat (length fresh) = MAX_NUM_NEXTPAGES ->
  Z.of_nat (length qs) < MAX_NUM_NEXTPAGES ->
  add_pages true fmAlloc {| numPages_of := numPages0; nextPages_of := None |}
    (qs ++ [p])
  = Some (replicate (S (length qs)) FM_OK,
          {| numPages_of := Z.of_nat (S (length qs));
             nextPages_of :=
               Some (map with_NP qs ++ fm_uint64 p
                       :: drop (S (length qs)) fresh) |}).
Proof. exact (add_pages_from_null fmAlloc fresh numPages0 qs p). Qed.

End NextPageProofs.


Section ScanOfAddedPages.
Context `{AnHeader} `{AnAttrHeader} {FW : Type}.

Lemma ext_tech_page_inside (sw : switch FW) port pages numPages pageNum acc :
  0 <= pageNum ->
  pageNum + 1 < Z.of_nat (length pages) ->
  exists reads acc',
    ext_tech_page sw port pages numPages pageNum acc = (reads, Some acc').
Proof.
  intros Hp Hlen. unfold ext_tech_page, rd_bind, rd_read, rd_ret.
  destruct (array_get_in_range pages pageNum ltac:(lia)) as [pageA ->].
  destruct (array_get_in_range pages (pageNum + 1) ltac:(lia)) as [pageB HB].
  destruct (_ =? FM10000_AN_NEXTPAGE_OUI_MSG_CODE); [|eauto].
  destruct (pageNum >=? numPages); [eauto|].
  rewrite HB.
  destruct (_ =? 3); [|eauto].
  destruct (_ =? autoNeg25GNxtPgOui _); eauto.
Qed.

Lemma ext_tech_loop_S (sw : switch FW) port pages numPages n pageNum acc :
  ext_tech_loop sw port pages numPages (S n) pageNum acc
  = rd_bind (ext_tech_page sw port pages numPages pageNum acc)
      (fun acc' => ext_tech_loop sw port pages numPages n (pageNum + 1) acc').
Proof. reflexivity. Qed.

Lemma ext_tech_loop_past_storage (sw : switch FW) port pages numPages last :
  Z.of_nat (length pages) = numPages ->
  array_get pages (numPages - 1) = Some last ->
  FM_GET_FIELD64 last FM10000_AN_73_NEXT_PAGE_RX_l_MU
    FM10000_AN_73_NEXT_PAGE_RX_h_MU = FM10000_AN_NEXTPAGE_OUI_MSG_CODE ->
  forall (n : nat) pageNum acc,
    0 <= pageNum ->
    pageNum + Z.of_nat (S n) = numPages ->
    exists reads,
      ext_tech_loop sw port pages numPages (S n) pageNum acc
      = (reads ++ [numPages], None).
Proof.
  intros Hlen Hlast Hmu n. induction n as [|n IH]; intros pageNum acc Hp Hsum.
  - assert (pageNum = numPages - 1) as -> by lia.
    rewrite ext_tech_loop_S. unfold ext_tech_page, rd_bind, rd_read, rd_ret.
    rewrite Hlast, Hmu, Z.eqb_refl.
    replace (numPages - 1 >=? numPages) with false by lia.
    replace (numPages - 1 + 1) with numPages by lia.
    assert (Hout : array_get pages numPages = None).
    { unfold array_get. destruct (numPages <? 0); [reflexivity|].
      apply lookup_ge_None_2. lia. }
    rewrite Hout. exists [numPages - 1]. reflexivity.
  - rewrite ext_tech_loop_S.
    destruct (ext_tech_page_inside sw port pages numPages pageNum acc Hp ltac:(lia))
      as (r1 & acc1 & ->).
    destruct (IH (pageNum + 1) acc1 ltac:(lia) ltac:(lia)) as (r2 & Hloop).
    unfold rd_bind at 1. rewrite Hloop.
    exists (r1 ++ r2). rewrite app_assoc. reflexivity.
Qed.

Lemma FM_GET_FIELD64_uint64 v l h :
  0 <= l <= h -> h < 64 -> FM_GET_FIELD64 (fm_uint64 v) l h = FM_GET_FIELD64 v l h.
Proof.
  intros Hlh Hh. apply Z.bits_inj'. intros i Hi.
  rewrite !FM_GET_FIELD64_testbit by lia.
  destruct (i <? h - l + 1) eqn:E; [|reflexivity].
  unfold fm_uint64. apply Z.mod_pow2_bits_low. lia.
Qed.

(** X9.  The scan for the extended technology ability page, run on a
    list built by [fm10000AnAddNextPage] from nothing.  While the list
    holds fewer pages than MAX_NUM_NEXTPAGES every read of the scan falls
    inside the allocated storage.  Once it holds MAX_NUM_NEXTPAGES pages
    and the last of them is a message page with the OUI message code,
    the last read of the scan is at index MAX_NUM_NEXTPAGES, one element
    past the allocation. *)
Theorem scan_of_added_pages (sw : switch FW) (port : Z)
  (fmAlloc : Z -> option (list Z)) (fresh : list Z) (numPages0 : Z)
  (qs : list Z) (p : Z) :
  fmAlloc MAX_NUM_NEXTPAGES = Some fresh ->
  Z.of_nat (length fresh) = MAX_NUM_NEXTPAGES ->
  Z.of_nat (length qs) < MAX_NUM_NEXTPAGES ->
  MAX_NUM_NEXTPAGES < 2 ^ 31 ->
  0 <= FM10000_AN_73_NEXT_PAGE_RX_l_MU <= FM10000_AN_73_NEXT_PAGE_RX_h_MU ->
  FM10000_AN_73_NEXT_PAGE_RX_h_MU < 64 ->
  exists statuses pages,
    let numPages := Z.of_nat (S (length qs)) in
    add_pages true fmAlloc {| numPages_of := numPages0; nextPages_of := None |}
      (qs ++ [p])
    = Some (statuses, {| numPages_of := numPages; nextPages_of := Some pages |})
    /\ Z.of_nat (length pages) = MAX_NUM_NEXTPAGES
    /\ (numPages < MAX_NUM_NEXTPAGES ->
        exists reads result,
          fm10000AnGetNextPageExtTechAbilityIndex sw port pages numPages
          = (reads, Some result))
    /\ (numPages = MAX_NUM_NEXTPAGES ->
        FM_GET_FIELD64 p FM10000_AN_73_NEXT_PAGE_RX_l_MU
          FM10000_AN_73_NEXT_PAGE_RX_h_MU = FM10000_AN_NEXTPAGE_OUI_MSG_CODE ->
        exists reads,
          fm10000AnGetNextPageExtTechAbilityIndex sw port pages numPages
          = (reads ++ [MAX_NUM_NEXTPAGES], None)).
Proof.
  intros Ha Hfresh Hlen H31 Hmu H64.
  do 2 eexists. cbv zeta.
  split; [apply add_pages_from_null; eassumption|].
  set (pages := map with_NP qs ++ fm_uint64 p :: drop (S (length qs)) fresh).
  assert (Hpages : Z.of_nat (length pages) = MAX_NUM_NEXTPAGES).
  { unfold pages. rewrite length_app, length_map. simpl. rewrite length_drop. lia. }
  split; [exact Hpages|]. split.
  - intros Hroom.
    destruct (AnProofs.ExtTechAbilityIndex_total sw port pages
                (Z.of_nat (S (length qs))) ltac:(lia) ltac:(lia))
      as (reads & err & idx & Hrun & _).
    eauto.
  - intros Hfull Hcode. unfold fm10000AnGetNextPageExtTechAbilityIndex.
    rewrite Nat2Z.id.
    destruct (ext_tech_loop_past_storage sw port pages (Z.of_nat (S (length qs)))
                (fm_uint64 p) ltac:(lia)) with (n := length qs) (pageNum := 0)
                (acc := (fm_uint32 (-1), FM_ERR_NOT_FOUND)) as (reads & Hloop).
    + unfold pages.
      replace (Z.of_nat (S (length qs)) - 1)
        with (Z.of_nat (length (map with_NP qs))) by (rewrite length_map; lia).
      apply array_get_middle.
    + rewrite FM_GET_FIELD64_uint64 by lia. exact Hcode.
    + lia.
    + lia.
    + rewrite Hloop. exists reads. rewrite Hfull. reflexivity.
Qed.

End ScanOfAddedPages.


(** *** Runs on the sample attributes *)

(** Witness of X2: 600 ms is rejected by default and stored when the
    out-of-specification range is allowed. *)
Lemma SetLinkInhibitTimer_accepts_witness :
  @fm10000An73SetLinkInhibitTimer AnAttrSample.header false AnAttrSample.attributes 600
  = (FM_ERR_INVALID_ARGUMENT, AnAttrSample.attributes)
  /\ @fm10000An73SetLinkInhibitTimer AnAttrSample.header true AnAttrSample.attributes 600
     = (FM_OK, set_autoNegLinkInhbTimer 600 AnAttrSample.attributes).
Proof.
  split.
  - apply (@SetLinkInhibitTimer_accepts AnAttrSample.header false
             AnAttrSample.attributes 600); [split; [lia|reflexivity]|].
    vm_compute. intros [Hc|Hc]; [discriminate|]. apply Hc. reflexivity.
  - apply (@SetLinkInhibitTimer_accepts AnAttrSample.header true
             AnAttrSample.attributes 600); [split; [lia|reflexivity]|].
    right. vm_compute. discriminate.
Defined.

(** Witness of X3: with the codes of the sample header, KX4 (code 2) has
    no Ethernet mode. *)
Lemma HcdToEthMode_decodes_witness :
  @fm10000An73HcdToEthMode AnAttrSample.header 2 = FM_ETH_MODE_DISABLED.
Proof.
  destruct (@HcdToEthMode_decodes AnAttrSample.header) as [Hdis _].
  - simpl.
    repeat (apply NoDup_cons; split; [rewrite ?elem_of_cons, elem_of_nil; lia|]).
    constructor.
  - apply Hdis. simpl. lia.
Defined.

(** Witness of X4: on the sample registers holding 0xFFFF at the
    register of EPL 1, lane 2, clearing the bit writes a value whose
    bit 11 is clear. *)
Lemma SetIgnoreNonce_read_modify_write_witness :
  exists value,
    snd (fst (fst (@fm10000An73SetIgnoreNonce AnAttrSample.header (Z -> Z)
                     AnAttrSample.registers (fun _ => 65535) 1 2
                     AnAttrSample.attributes false)))
    = [TAKE_REG_LOCK; OpReadUINT32 918793 FM_OK;
       OpWriteUINT32 918793 value FM_OK; DROP_REG_LOCK]
    /\ Z.testbit value 11 = false
    /\ Z.testbit value 10 = true.
Proof.
  pose proof (@SetIgnoreNonce_read_modify_write AnAttrSample.header
                (Z -> Z) AnAttrSample.registers (fun _ => 65535) 1 2
                AnAttrSample.attributes false ltac:(simpl; lia))
    as Hrmw.
  simpl in Hrmw. destruct Hrmw as [_ Hw].
  destruct (Hw eq_refl) as (value & _ & Hops & _ & Hbit & Hrest & _).
  exists value. split; [exact Hops|]. split; [exact Hbit|].
  rewrite (Hrest 10) by lia. reflexivity.
Defined.

(** Witness of X5: the partner of a Clause 73 port negotiating
    10GBASE-KR sent the EEE page second; EEE is enabled. *)
Lemma VerifyEeeNegotiation_scans_witness :
  exists k,
    @fm10000AnVerifyEeeNegotiation Sample.header AnAttrSample.header
      FM_PORT_AUTONEG_CLAUSE_73 AnAttrSample.partner_pages
      AnAttrSample.attributes FM_ETH_MODE_10GBASE_KR
    = (seqZ 0 k,
       Some (FM_OK, set_negotiatedEeeModeEnabled true AnAttrSample.attributes)).
Proof.
  destruct (@VerifyEeeNegotiation_scans Sample.header AnAttrSample.header
              FM_PORT_AUTONEG_CLAUSE_73 AnAttrSample.partner_pages
              AnAttrSample.attributes FM_ETH_MODE_10GBASE_KR)
    as (k & enabled & Hrun & _ & Hen).
  - simpl. lia.
  - assert (enabled = true) as ->.
    { apply Hen. split; [reflexivity|]. exists 1, 4194314.
      split; [simpl; lia|]. split; [reflexivity|].
      split; [reflexivity|]. left. split; [reflexivity|]. vm_compute. discriminate. }
    exists k. exact Hrun.
Defined.

(** Witness of X6: a second page added to a list of one. *)
Lemma AddNextPage_appends_witness :
  exists nextPages',
    @fm10000AnAddNextPage AnAttrSample.header true AnAttrSample.fmAlloc
      {| numPages_of := 1; nextPages_of := Some [5; 7; 7] |} 9
    = Some (FM_OK, {| numPages_of := 2; nextPages_of := Some nextPages' |})
    /\ array_get nextPages' 1 = Some 9
    /\ array_get nextPages' 0 = Some 32773
    /\ array_get nextPages' 2 = Some 7.
Proof.
  destruct (@AddNextPage_appends AnAttrSample.header AnAttrSample.fmAlloc
              {| numPages_of := 1; nextPages_of := Some [5; 7; 7] |} [5; 7; 7] 9
              eq_refl ltac:(simpl; lia) ltac:(simpl; lia))
    as (l' & Hrun & _ & Hnew & Hprev & Hrest).
  exists l'. split; [exact Hrun|]. split; [exact Hnew|]. split.
  - destruct Hprev as (prev & Hp & Hp'); [simpl; lia|].
    simpl in Hp. injection Hp as <-. exact Hp'.
  - rewrite (Hrest 2) by (simpl; lia). reflexivity.
Defined.

(** Witness of X7: a full list refuses a page and stays as it is. *)
Lemma AddNextPage_keeps_capacity_witness :
  @fm10000AnAddNextPage AnAttrSample.header true AnAttrSample.fmAlloc
    {| numPages_of := 3; nextPages_of := Some [32773; 32774; 9] |} 11
  = Some (FM_ERR_NO_FREE_RESOURCES,
          {| numPages_of := 3; nextPages_of := Some [32773; 32774; 9] |}).
Proof.
  destruct (@AddNextPage_keeps_capacity AnAttrSample.header true AnAttrSample.fmAlloc
              {| numPages_of := 3; nextPages_of := Some [32773; 32774; 9] |} 11)
    as (status & a' & Hrun & _ & Hfail & Hfull).
  - simpl. lia.
  - intros l Hl. injection Hl as <-. reflexivity.
  - split; [reflexivity|]. simpl. lia.
  - rewrite Hrun. rewrite (Hfull eq_refl) in * by (simpl; congruence || reflexivity).
    destruct Hfail as [_ Hsame]; [discriminate|].
    rewrite Hsame by discriminate. reflexivity.
Defined.

(** Witness of X8: three pages added to a list that is not allocated. *)
Lemma AddNextPage_builds_witness :
  @add_pages AnAttrSample.header true AnAttrSample.fmAlloc
    {| numPages_of := 0; nextPages_of := None |} [5; 6; 9]
  = Some ([FM_OK; FM_OK; FM_OK],
          {| numPages_of := 3; nextPages_of := Some [32773; 32774; 9] |}).
Proof.
  exact (@AddNextPage_builds AnAttrSample.header AnAttrSample.fmAlloc [7; 7; 7] 0
           [5; 6] 9 eq_refl eq_refl ltac:(simpl; lia)).
Defined.

(** Witness of X9: the list is full and its last page carries the OUI
    message code 5; the scan ends one element past the three allocated. *)
Lemma scan_of_added_pages_witness :
  exists reads,
    @fm10000AnGetNextPageExtTechAbilityIndex Sample.header unit Sample.sw73 1
      [32769; 32770; 5] 3
    = (reads ++ [3], None).
Proof.
  destruct (@scan_of_added_pages Sample.header AnAttrSample.header unit
              Sample.sw73 1 AnAttrSample.fmAlloc [7; 7; 7] 0 [1; 2] 5
              eq_refl eq_refl ltac:(simpl; lia) ltac:(simpl; lia)
              ltac:(simpl; lia) ltac:(simpl; lia))
    as (statuses & pages & Hadd & _ & _ & Hfull).
  cbv zeta in Hadd, Hfull.
  assert (Hpages : pages = [32769; 32770; 5]).
  { vm_compute in Hadd. congruence. }
  subst pages. apply Hfull; reflexivity.
Defined.

End AnAttrProofs.

(** ** platform_mgmt.c: the retry sweeps, initialisation and the calls
    of the API *)
Module MgmtTasksProofs.
Import Std Mgmt StdFacts ArrayFacts MgmtProofs MgmtTasks.

(** *** Records replaced in place *)

Section PutProofs.
Context {HW : Type}.

Lemma length_put (st : plat_state HW) q x h :
  length (xcvrInfo (put st q x h)) = length (xcvrInfo st).
Proof. unfold put. simpl. apply length_insert. Qed.

Lemma hw_put (st : plat_state HW) q x h : hw (put st q x h) = h.
Proof. reflexivity. Qed.

Lemma get_put_eq (st : plat_state HW) q x h :
  0 <= q < Z.of_nat (length (xcvrInfo st)) ->
  array_get (xcvrInfo (put st q x h)) q = Some x.
Proof.
  intros Hq. unfold put, array_get. simpl.
  destruct (Z.ltb_spec q 0); [lia|].
  apply list_lookup_insert_eq. lia.
Qed.

Lemma get_put_ne (st : plat_state HW) q x h j :
  0 <= q -> j <> q ->
  array_get (xcvrInfo (put st q x h)) j = array_get (xcvrInfo st) j.
Proof.
  intros Hq Hne. unfold put, array_get. simpl.
  destruct (Z.ltb_spec j 0); [reflexivity|].
  apply list_lookup_insert_ne. lia.
Qed.

Lemma put_put (st : plat_state HW) q x h x' h' :
  put (put st q x h) q x' h' = put st q x' h'.
Proof. unfold put. simpl. f_equal. apply list_insert_insert_eq. Qed.

Lemma put_same (st : plat_state HW) q x :
  array_get (xcvrInfo st) q = Some x -> put st q x (hw st) = st.
Proof.
  intros Hx. unfold put. destruct st as [l h]. simpl in *. f_equal.
  unfold array_get in Hx. destruct (q <? 0); [discriminate|].
  apply list_insert_id. exact Hx.
Qed.

Lemma update_put (st : plat_state HW) q f x :
  array_get (xcvrInfo st) q = Some x ->
  update_xcvrInfo st q f = Some (put st q (f x) (hw st)).
Proof.
  intros Hx. unfold update_xcvrInfo. rewrite Hx. simpl.
  pose proof (array_get_Some_range _ _ _ Hx) as Hr.
  unfold array_set.
  destruct (Z.leb_spec 0 q); [|lia].
  destruct (Z.ltb_spec q (Z.of_nat (length (xcvrInfo st)))); [|lia].
  reflexivity.
Qed.

Lemma update_put_put (st : plat_state HW) q f x h :
  0 <= q < Z.of_nat (length (xcvrInfo st)) ->
  update_xcvrInfo (put st q x h) q f = Some (put st q (f x) h).
Proof.
  intros Hq. rewrite (update_put _ q f x) by (apply get_put_eq; exact Hq).
  rewrite put_put. reflexivity.
Qed.

End PutProofs.


(** *** The helpers of the sweeps, as equations *)

Section HelperProofs.
Context `{MgmtHeader}.
Context {HW : Type} `{MgmtEnv HW} `{MgmtTasksEnv HW}.

Lemma XcvrReadAndValidateEeprom_run (sw : fm_platformCfgSwitch)
  (st : plat_state HW) (q : Z) (retry : bool) portCfg x :
  array_get (ports sw) q = Some portCfg ->
  array_get (xcvrInfo st) q = Some x ->
  exists h status data,
    fmPlatformXcvrEepromRead (hw st) (port portCfg) 0 0 (eeprom x)
      XCVR_EEPROM_CACHE_SIZE = (h, status, data)
    /\ XcvrReadAndValidateEeprom sw st q retry
       = Some (put st q (eeprom_read_record retry status data x) h, status).
Proof.
  intros Hcfg Hx. unfold XcvrReadAndValidateEeprom. rewrite Hcfg, Hx. simpl.
  pose proof (array_get_Some_range _ _ _ Hx) as Hq.
  destruct (fmPlatformXcvrEepromRead _ _ _ _ _ _) as [[h status] data].
  exists h, status, data. split; [reflexivity|].
  rewrite (update_put (set_hw st h) q (set_eeprom data) x) by exact Hx.
  simpl. change (put (set_hw st h) q) with (put st q).
  unfold eeprom_read_record.
  destruct (is_ok status).
  - destruct (fmPlatformXcvrEepromIsBaseCsumValid data) eqn:Eb;
      repeat (rewrite update_put_put by exact Hq; simpl);
      rewrite ?Eb; reflexivity.
  - destruct retry; simpl; [reflexivity|].
    repeat (rewrite update_put_put by exact Hq; simpl). reflexivity.
Qed.

Lemma UpdateSerdesSettings_run (sw : fm_platformCfgSwitch) (st : plat_state HW) q :
  lanes_ok sw st ->
  0 <= q < Z.of_nat (length (ports sw)) ->
  exists h, UpdateSerdesSettings sw st q = Some (set_hw st h).
Proof.
  intros Hok Hq.
  destruct (UpdateSerdesSettings_spec sw st q Hok Hq) as (st' & -> & Hinfo).
  exists (hw st'). destruct st' as [l h]. simpl in *. subst l. reflexivity.
Qed.

Lemma lanes_ok_put (sw : fm_platformCfgSwitch) (st : plat_state HW) q x h :
  lanes_ok sw st -> lanes_ok sw (put st q x h).
Proof. intros [Hl Hlanes]. split; [rewrite length_put; exact Hl|exact Hlanes]. Qed.

Lemma same_but_eeprom_read retry status data x :
  same_but_eeprom x (eeprom_read_record retry status data x).
Proof.
  unfold eeprom_read_record, same_but_eeprom.
  destruct (is_ok status);
    [destruct (fmPlatformXcvrEepromIsBaseCsumValid data)|destruct retry];
    repeat split.
Qed.

End HelperProofs.

(** *** The iteration of a port whose PRESENT bit changed *)

Section PresentChangeIteration.
Context `{MgmtHeader}.
Context {HW : Type} `{MgmtEnv HW}.

Lemma changed_bit_changes_state valid old state bit :
  bit_changed valid old state bit = true -> truthy (Z.lxor old state) = true.
Proof.
  unfold bit_changed. intros Hchg. apply andb_true_iff in Hchg as [_ Hne].
  unfold truthy. apply negb_true_iff, Z.eqb_neq. intros Hz.
  apply Z.lxor_eq in Hz. rewrite Hz, Z.eqb_refl in Hne. discriminate.
Qed.

(** The PRESENT and ENABLE blocks. *)
Lemma blocks_run (st : plat_state HW) (q xcvrState : Z) (present en : bool) x :
  array_get (xcvrInfo st) q = Some x ->
  exists st2,
    (st0 ← update_xcvrInfo st q (set_modState xcvrState);
     st1 ← present_changed st0 q present;
     if en then s ← enable_changed st1; Some (s, true) else Some (st1, true))
    = Some (st2, true)
    /\ hw st2 = hw st
    /\ length (xcvrInfo st2) = length (xcvrInfo st)
    /\ array_get (xcvrInfo st2) q
       = Some (record_after_blocks q present en xcvrState x).
Proof.
  intros Hx. pose proof (array_get_Some_range _ _ _ Hx) as Hq.
  destruct (update_xcvrInfo_spec st q (set_modState xcvrState) x Hx)
    as (st0 & -> & Hh0 & Hl0 & Hg0). cbn [mbind option_bind].
  pose proof (Hg0 q) as Hx0. rewrite decide_True in Hx0 by reflexivity.
  destruct (present_changed_spec st0 q present _ Hx0)
    as (st1 & -> & Hh1 & Hl1 & Hg1). cbn [mbind option_bind].
  assert (Hx1 : array_get (xcvrInfo st1) q
                = Some (if q =? 0
                        then wipe_eeprom
                               (reset_record present (set_modState xcvrState x))
                        else reset_record present (set_modState xcvrState x))).
  { rewrite Hg1. destruct (decide (q = 0)) as [->|Hne].
    - rewrite decide_True by reflexivity. reflexivity.
    - rewrite decide_True by reflexivity.
      destruct (Z.eqb_spec q 0); [contradiction|reflexivity]. }
  unfold record_after_blocks. cbv zeta.
  destruct en.
  - destruct (array_get_in_range (xcvrInfo st1) 0 ltac:(lia)) as [z0 Hz0].
    destruct (enable_changed_spec st1 z0 Hz0) as (st2 & -> & Hh2 & Hl2 & Hg2).
    cbn [mbind option_bind]. exists st2. split; [reflexivity|].
    split; [congruence|]. split; [congruence|].
    rewrite Hg2. destruct (decide (q = 0)) as [->|Hne].
    + rewrite Hx1 in Hz0. injection Hz0 as <-. reflexivity.
    + destruct (Z.eqb_spec q 0); [contradiction|]. exact Hx1.
  - exists st1. split; [reflexivity|]. split; [congruence|].
    split; [congruence|]. rewrite andb_false_r. exact Hx1.
Qed.

(** The read of the EEPROM and what follows it. *)
Lemma read_and_configure_run (sw : fm_platformCfgSwitch) (st : plat_state HW)
  (q : Z) (present enabled : bool) portCfg x1 :
  array_get (ports sw) q = Some portCfg ->
  intfType portCfg = FM_PLAT_INTF_TYPE_SFPP
  \/ intfType portCfg = FM_PLAT_INTF_TYPE_QSFP_LANE0 ->
  array_get (xcvrInfo st) q = Some x1 ->
  lanes_ok sw st ->
  exists st3,
    (if true && present && enabled then
       '(s, status) ← XcvrReadAndValidateEeprom sw st q false;
       if is_ok status then
         s ← UpdateSerdesSettings sw s q;
         UpdateXcvrConfig sw s q MAX_CONFIG_RETRY
       else Some s
     else Some st) = Some st3
    /\ length (xcvrInfo st3) = length (xcvrInfo st)
    /\ array_get (xcvrInfo st3) q
       = Some (record_after_iteration portCfg (hw st) present enabled x1).
Proof.
  intros Hcfg Htype Hx1 Hok. pose proof Hok as [Hlen Hlanes].
  pose proof (array_get_Some_range _ _ _ Hx1) as Hq.
  unfold record_after_iteration. cbn [andb].
  destruct (present && enabled).
  2:{ exists st. auto. }
  destruct (XcvrReadAndValidateEeprom_run sw st q false portCfg x1 Hcfg Hx1)
    as (h & status & data & -> & ->). cbn [mbind option_bind].
  set (xd := eeprom_read_record false status data x1).
  destruct (is_ok status); cbn [andb].
  2:{ eexists. split; [reflexivity|]. split; [apply length_put|].
      apply get_put_eq. exact Hq. }
  destruct Htype as [Hsfpp|Hqsfp].
  - rewrite bool_decide_eq_true_2 by exact Hsfpp.
    unfold UpdateSerdesSettings. rewrite Hcfg. cbn [mbind option_bind].
    rewrite bool_decide_eq_true_2 by exact Hsfpp.
    rewrite get_put_eq by exact Hq. cbn [mbind option_bind].
    change (hw (put st q xd h)) with h.
    change (set_hw (put st q xd h) ?h') with (put st q xd h').
    unfold UpdateXcvrConfig. rewrite Hcfg. cbn [mbind option_bind].
    rewrite bool_decide_eq_true_2 by exact Hsfpp.
    rewrite update_put_put by exact Hq. cbn [mbind option_bind].
    rewrite get_put_eq by exact Hq. cbn [mbind option_bind].
    match goal with
    | |- context [hw (put st q ?y ?h')] => change (hw (put st q y h')) with h'
    end.
    destruct (ConfigureSfppXcvr _ _ _) as [hc configured].
    change (set_hw (put st q ?y ?h0) hc) with (put st q y hc).
    destruct (is_ok configured); cbn [negb];
      rewrite update_put_put by exact Hq;
      (eexists; split; [reflexivity|]; split; [apply length_put|];
       apply get_put_eq; exact Hq).
  - assert (Hnot : intfType portCfg <> FM_PLAT_INTF_TYPE_SFPP)
      by (rewrite Hqsfp; discriminate).
    rewrite bool_decide_eq_false_2 by exact Hnot.
    destruct (UpdateSerdesSettings_run sw (put st q xd h) q) as (h' & ->).
    { apply lanes_ok_put. exact Hok. }
    { lia. }
    cbn [mbind option_bind].
    unfold UpdateXcvrConfig. rewrite Hcfg. cbn [mbind option_bind].
    rewrite bool_decide_eq_false_2 by exact Hnot.
    eexists. split; [reflexivity|]. split; [apply length_put|].
    apply (get_put_eq st q xd h'). exact Hq.
Qed.

(** What the read leaves in a record. *)
Lemma eeprom_read_record_fields status data x :
  let x' := eeprom_read_record false status data x in
  eeprom x' = data
  /\ present x' = present x /\ modState x' = modState x
  /\ configRetries x' = configRetries x
  /\ (if is_ok status then
        eepromReadRetries x' = 0
        /\ eepromBaseValid x' = fmPlatformXcvrEepromIsBaseCsumValid data
        /\ eepromExtValid x' = fmPlatformXcvrEepromIsExtCsumValid data
        /\ type x'
           = (if fmPlatformXcvrEepromIsBaseCsumValid data
              then fmPlatformXcvrEepromGetType data
              else FM_PLATFORM_XCVR_TYPE_UNKNOWN)
        /\ cableLength x'
           = (if fmPlatformXcvrEepromIsBaseCsumValid data
              then fmPlatformXcvrEepromGetLen data else 0)
      else
        type x' = FM_PLATFORM_XCVR_TYPE_UNKNOWN
        /\ eepromReadRetries x' = MAX_EEPROM_READ_RETRY
        /\ cableLength x' = cableLength x
        /\ eepromBaseValid x' = eepromBaseValid x
        /\ eepromExtValid x' = eepromExtValid x).
Proof.
  unfold eeprom_read_record. cbv zeta.
  destruct (is_ok status); cbn [negb].
  - destruct (fmPlatformXcvrEepromIsBaseCsumValid data) eqn:Eb;
      cbn; rewrite ?Eb; repeat split.
  - repeat split.
Qed.

Lemma record_after_blocks_reset q present en xcvrState x :
  let x1 := record_after_blocks q present en xcvrState x in
  is_reset present xcvrState x1
  /\ configRetries x1 = (if (q =? 0) && en then 0 else configRetries x)
  /\ ethMode x1 = ethMode x
  /\ (q <> 0 -> eeprom x1 = eeprom x /\ anEnabled x1 = anEnabled x)
  /\ (q = 0 -> eeprom x1 = replicate (length (eeprom x)) 255).
Proof.
  unfold record_after_blocks. cbv zeta.
  destruct (Z.eqb_spec q 0) as [->|Hne]; cbn [andb].
  - destruct en; repeat split; intros; congruence.
  - repeat split; intros; congruence.
Qed.


End PresentChangeIteration.


(** *** Sweeps that rewrite one record in each iteration *)

Section SweepShape.
Context {HW : Type}.

Lemma sweep_pointwise (R : Z -> fm_platXcvrInfo -> fm_platXcvrInfo -> Prop)
  (step : Z -> plat_state HW -> option (plat_state HW)) (n : Z)
  (st : plat_state HW) :
  0 <= n <= Z.of_nat (length (xcvrInfo st)) ->
  (forall i s x,
     0 <= i < n ->
     length (xcvrInfo s) = length (xcvrInfo st) ->
     array_get (xcvrInfo s) i = Some x ->
     exists x' h, step i s = Some (put s i x' h) /\ R i x x') ->
  exists st',
    for_loop n step st = Some st'
    /\ length (xcvrInfo st') = length (xcvrInfo st)
    /\ forall j x,
         array_get (xcvrInfo st) j = Some x ->
         exists x',
           array_get (xcvrInfo st') j = Some x'
           /\ (if j <? n then R j x x' else x' = x).
Proof.
  intros Hn Hstep.
  pose (I := fun (i : Z) (s : plat_state HW) =>
    length (xcvrInfo s) = length (xcvrInfo st)
    /\ forall j x,
         array_get (xcvrInfo st) j = Some x ->
         exists x',
           array_get (xcvrInfo s) j = Some x'
           /\ (if j <? i then R j x x' else x' = x)).
  destruct (for_loop_indexed I n step st) as (st' & Hrun & Hlen & Hrec).
  - lia.
  - intros i s Hi [Hlen Hrec].
    destruct (array_get_in_range (xcvrInfo st) i ltac:(lia)) as [x Hx].
    destruct (Hrec i x Hx) as (xi & Hxi & Hsame).
    destruct (Z.ltb_spec i i) as [?|_]; [lia|]. subst xi.
    destruct (Hstep i s x Hi Hlen Hxi) as (x' & h & -> & HR).
    eexists. split; [reflexivity|]. split.
    + rewrite length_put. exact Hlen.
    + intros j y Hy.
      destruct (Z.eq_dec j i) as [->|Hne].
      * exists x'. split.
        { apply get_put_eq. rewrite Hlen. lia. }
        destruct (Z.ltb_spec i (i + 1)) as [_|?]; [|lia].
        rewrite Hx in Hy. injection Hy as <-. exact HR.
      * destruct (Hrec j y Hy) as (y' & Hy' & Hrel).
        exists y'. split.
        { rewrite get_put_ne by lia. exact Hy'. }
        destruct (Z.ltb_spec j i), (Z.ltb_spec j (i + 1)); try lia; exact Hrel.
  - split; [reflexivity|]. intros j x Hx. exists x. split; [exact Hx|].
    pose proof (array_get_Some_range _ _ _ Hx).
    destruct (Z.ltb_spec j 0); [lia|reflexivity].
  - exists st'. auto.
Qed.

(** The same, with the state in which the sweep reaches each record. *)
Lemma sweep_pointwise_at
  (R : Z -> plat_state HW -> fm_platXcvrInfo -> fm_platXcvrInfo -> Prop)
  (step : Z -> plat_state HW -> option (plat_state HW)) (n : Z)
  (st : plat_state HW) :
  0 <= n <= Z.of_nat (length (xcvrInfo st)) ->
  (forall i s x,
     0 <= i < n ->
     length (xcvrInfo s) = length (xcvrInfo st) ->
     array_get (xcvrInfo s) i = Some x ->
     exists x' h, step i s = Some (put s i x' h) /\ R i s x x') ->
  exists st',
    for_loop n step st = Some st'
    /\ length (xcvrInfo st') = length (xcvrInfo st)
    /\ forall j x,
         array_get (xcvrInfo st) j = Some x ->
         j < n ->
         exists sj x',
           for_loop j step st = Some sj
           /\ array_get (xcvrInfo sj) j = Some x
           /\ array_get (xcvrInfo st') j = Some x'
           /\ R j sj x x'.
Proof.
  intros Hn Hstep.
  pose (I := fun (i : Z) (s : plat_state HW) =>
    for_loop i step st = Some s
    /\ length (xcvrInfo s) = length (xcvrInfo st)
    /\ forall j x,
         array_get (xcvrInfo st) j = Some x ->
         (j < i ->
          exists sj x',
            for_loop j step st = Some sj
            /\ array_get (xcvrInfo sj) j = Some x
            /\ array_get (xcvrInfo s) j = Some x'
            /\ R j sj x x')
         /\ (i <= j -> array_get (xcvrInfo s) j = Some x)).
  destruct (for_loop_indexed I n step st) as (st' & Hrun & _ & Hlen & Hrec).
  - lia.
  - intros i s Hi (Hloop & Hlen & Hrec).
    destruct (array_get_in_range (xcvrInfo st) i ltac:(lia)) as [x Hx].
    destruct (Hrec i x Hx) as [_ Hxi]. specialize (Hxi ltac:(lia)).
    destruct (Hstep i s x Hi Hlen Hxi) as (x' & h & Hs & HR).
    eexists. split; [exact Hs|]. split; [|split].
    + replace (i + 1) with (Z.of_nat (S (Z.to_nat i))) by lia.
      rewrite for_loop_step, Z2Nat.id by lia. rewrite Hloop. exact Hs.
    + rewrite length_put. exact Hlen.
    + intros j y Hy. destruct (Hrec j y Hy) as [Hbefore Hafter]. split.
      * intros Hj. destruct (Z.eq_dec j i) as [->|Hne].
        { exists s, x'. rewrite Hx in Hy. injection Hy as <-.
          split; [exact Hloop|]. split; [exact Hxi|].
          split; [apply get_put_eq; rewrite Hlen; lia|exact HR]. }
        destruct (Hbefore ltac:(lia)) as (sj & y' & Hsj & Hyj & Hy' & HRj).
        exists sj, y'. split; [exact Hsj|]. split; [exact Hyj|].
        split; [rewrite get_put_ne by lia; exact Hy'|exact HRj].
      * intros Hj. rewrite get_put_ne by lia. apply Hafter. lia.
  - split; [reflexivity|]. split; [reflexivity|]. intros j x Hx. split.
    + intros Hj. pose proof (array_get_Some_range _ _ _ Hx). lia.
    + intros _. exact Hx.
  - exists st'. split; [exact Hrun|]. split; [exact Hlen|].
    intros j x Hx Hj. apply (Hrec j x Hx). exact Hj.
Qed.

End SweepShape.


(** *** XcvrRetryEepromRead and XcvrRetryConfig *)

Section RetryProofs.
Context `{MgmtHeader}.
Context {HW : Type} `{MgmtEnv HW} `{MgmtTasksEnv HW}.

Lemma is_xcvr_at_get (sw : fm_platformCfgSwitch) q portCfg :
  array_get (ports sw) q = Some portCfg ->
  is_xcvr_at sw q
  = negb (negb (bool_decide (intfType portCfg = FM_PLAT_INTF_TYPE_SFPP))
          && negb (bool_decide (intfType portCfg = FM_PLAT_INTF_TYPE_QSFP_LANE0))).
Proof.
  intros Hcfg. unfold is_xcvr_at, is_xcvr_port. rewrite Hcfg.
  destruct (bool_decide _), (bool_decide _); reflexivity.
Qed.

Lemma XcvrRetryEepromRead_port_run (sw : fm_platformCfgSwitch)
  (st : plat_state HW) q x :
  lanes_ok sw st ->
  array_get (xcvrInfo st) q = Some x ->
  exists x' h,
    XcvrRetryEepromRead_port sw st q = Some (put st q x' h)
    /\ (if is_xcvr_at sw q && (eepromReadRetries x >? 0)
        then exists status data, x' = reread_record status data x
        else x' = x /\ h = hw st).
Proof.
  intros Hok Hx. pose proof Hok as [Hlen Hlanes].
  pose proof (array_get_Some_range _ _ _ Hx) as Hq.
  destruct (array_get_in_range (ports sw) q ltac:(lia)) as [pc Hpc].
  unfold XcvrRetryEepromRead_port. rewrite Hpc. simpl.
  rewrite (is_xcvr_at_get sw q pc Hpc).
  destruct (negb _ && negb _); simpl.
  { exists x, (hw st). rewrite put_same by exact Hx. auto. }
  rewrite Hx. simpl.
  destruct (eepromReadRetries x >? 0).
  2:{ exists x, (hw st). rewrite put_same by exact Hx. auto. }
  rewrite (update_put st q _ x Hx). simpl.
  set (x1 := set_eepromReadRetries (eepromReadRetries x - 1) x).
  destruct (XcvrReadAndValidateEeprom_run sw (put st q x1 (hw st)) q true pc x1)
    as (h & status & data & _ & ->).
  { exact Hpc. }
  { apply get_put_eq. exact Hq. }
  simpl. rewrite put_put.
  unfold reread_record. fold x1.
  destruct (is_ok status) eqn:Eok; cbn [negb mbind option_bind].
  - rewrite update_put_put by exact Hq. cbn [mbind option_bind].
    destruct (UpdateSerdesSettings_run sw
                (put st q (set_eepromReadRetries 0
                             (eeprom_read_record true status data x1)) h) q)
      as (h' & ->).
    { apply lanes_ok_put. exact Hok. }
    { lia. }
    eexists _, h'. split; [reflexivity|].
    exists status, data. rewrite Eok. reflexivity.
  - eexists _, h. split; [reflexivity|].
    exists status, data. rewrite Eok. reflexivity.
Qed.

Lemma XcvrRetryConfig_port_run (sw : fm_platformCfgSwitch)
  (st : plat_state HW) q x :
  length (ports sw) = length (xcvrInfo st) ->
  array_get (xcvrInfo st) q = Some x ->
  exists x' h,
    XcvrRetryConfig_port sw st q = Some (put st q x' h)
    /\ (if is_xcvr_at sw q && eepromBaseValid x && (configRetries x >? 0)
        then exists retries,
               x' = set_configRetries retries x
               /\ (retries = configRetries x - 1
                   \/ retries = 0 /\ is_sfpp_at sw q = true)
        else x' = x /\ h = hw st).
Proof.
  intros Hlen Hx.
  pose proof (array_get_Some_range _ _ _ Hx) as Hq.
  destruct (array_get_in_range (ports sw) q ltac:(lia)) as [pc Hpc].
  unfold XcvrRetryConfig_port. rewrite Hpc. simpl.
  rewrite (is_xcvr_at_get sw q pc Hpc).
  unfold is_sfpp_at. rewrite Hpc.
  destruct (negb _ && negb _); simpl.
  { exists x, (hw st). rewrite put_same by exact Hx. auto. }
  rewrite Hx. simpl.
  destruct (eepromBaseValid x && (configRetries x >? 0)) eqn:Epending.
  2:{ exists x, (hw st). rewrite put_same by exact Hx.
      replace (true && eepromBaseValid x && (configRetries x >? 0))
        with false by (simpl; congruence). auto. }
  replace (true && eepromBaseValid x && (configRetries x >? 0))
    with true by (simpl; congruence).
  rewrite (update_put st q _ x Hx). cbn [mbind option_bind].
  destruct (bool_decide (intfType pc = FM_PLAT_INTF_TYPE_SFPP)).
  2:{ eexists _, (hw st). split; [reflexivity|].
      exists (configRetries x - 1). auto. }
  rewrite get_put_eq by exact Hq. cbn [mbind option_bind].
  destruct (ConfigureSfppXcvr _ _ _) as [h status].
  destruct (is_ok status).
  - change (set_hw (put st q (set_configRetries (configRetries x - 1) x) (hw st)) h)
      with (put st q (set_configRetries (configRetries x - 1) x) h).
    rewrite update_put_put by exact Hq.
    eexists _, h. split; [reflexivity|]. exists 0. auto.
  - eexists _, h. split; [reflexivity|].
    exists (configRetries x - 1). auto.
Qed.


(** The iteration of a port with its read, and with its configuration. *)
Lemma XcvrRetryEepromRead_port_read (sw : fm_platformCfgSwitch)
  (st : plat_state HW) q x portCfg :
  lanes_ok sw st ->
  array_get (xcvrInfo st) q = Some x ->
  array_get (ports sw) q = Some portCfg ->
  exists x' h,
    XcvrRetryEepromRead_port sw st q = Some (put st q x' h)
    /\ (if is_xcvr_at sw q && (eepromReadRetries x >? 0)
        then exists h1 status data,
               fmPlatformXcvrEepromRead (hw st) (port portCfg) 0 0 (eeprom x)
                 XCVR_EEPROM_CACHE_SIZE = (h1, status, data)
               /\ x' = reread_record status data x
        else x' = x /\ h = hw st).
Proof.
  intros Hok Hx Hpc. pose proof Hok as [Hlen Hlanes].
  pose proof (array_get_Some_range _ _ _ Hx) as Hq.
  unfold XcvrRetryEepromRead_port. rewrite Hpc. simpl.
  rewrite (is_xcvr_at_get sw q portCfg Hpc).
  destruct (negb _ && negb _); simpl.
  { exists x, (hw st). rewrite put_same by exact Hx. auto. }
  rewrite Hx. simpl.
  destruct (eepromReadRetries x >? 0).
  2:{ exists x, (hw st). rewrite put_same by exact Hx. auto. }
  rewrite (update_put st q _ x Hx). simpl.
  set (x1 := set_eepromReadRetries (eepromReadRetries x - 1) x).
  destruct (XcvrReadAndValidateEeprom_run sw (put st q x1 (hw st)) q true
              portCfg x1) as (h & status & data & Hread & ->).
  { exact Hpc. }
  { apply get_put_eq. exact Hq. }
  change (hw (put st q x1 (hw st))) with (hw st) in Hread.
  change (eeprom x1) with (eeprom x) in Hread.
  simpl. rewrite put_put.
  unfold reread_record. fold x1.
  destruct (is_ok status) eqn:Eok; cbn [negb mbind option_bind].
  - rewrite update_put_put by exact Hq. cbn [mbind option_bind].
    destruct (UpdateSerdesSettings_run sw
                (put st q (set_eepromReadRetries 0
                             (eeprom_read_record true status data x1)) h) q)
      as (h' & ->).
    { apply lanes_ok_put. exact Hok. }
    { lia. }
    eexists _, h'. split; [reflexivity|].
    exists h, status, data. rewrite Eok. split; [exact Hread|reflexivity].
  - eexists _, h. split; [reflexivity|].
    exists h, status, data. rewrite Eok. split; [exact Hread|reflexivity].
Qed.

Lemma XcvrRetryConfig_port_configure (sw : fm_platformCfgSwitch)
  (st : plat_state HW) q x portCfg :
  length (ports sw) = length (xcvrInfo st) ->
  array_get (xcvrInfo st) q = Some x ->
  array_get (ports sw) q = Some portCfg ->
  exists x' h,
    XcvrRetryConfig_port sw st q = Some (put st q x' h)
    /\ (if is_xcvr_at sw q && eepromBaseValid x && (configRetries x >? 0)
        then x' = set_configRetries
                    (if bool_decide (intfType portCfg = FM_PLAT_INTF_TYPE_SFPP)
                     then if is_ok (snd (ConfigureSfppXcvr (hw st) (port portCfg)
                                           (set_configRetries
                                              (configRetries x - 1) x)))
                          then 0 else configRetries x - 1
                     else configRetries x - 1) x
        else x' = x /\ h = hw st).
Proof.
  intros Hlen Hx Hpc.
  pose proof (array_get_Some_range _ _ _ Hx) as Hq.
  unfold XcvrRetryConfig_port. rewrite Hpc. simpl.
  rewrite (is_xcvr_at_get sw q portCfg Hpc).
  destruct (negb _ && negb _); simpl.
  { exists x, (hw st). rewrite put_same by exact Hx. auto. }
  rewrite Hx. simpl.
  destruct (eepromBaseValid x && (configRetries x >? 0)) eqn:Epending.
  2:{ exists x, (hw st). rewrite put_same by exact Hx.
      replace (true && eepromBaseValid x && (configRetries x >? 0))
        with false by (simpl; congruence). auto. }
  replace (true && eepromBaseValid x && (configRetries x >? 0))
    with true by (simpl; congruence).
  rewrite (update_put st q _ x Hx). cbn [mbind option_bind].
  destruct (bool_decide (intfType portCfg = FM_PLAT_INTF_TYPE_SFPP)).
  2:{ eexists _, (hw st). split; reflexivity. }
  rewrite get_put_eq by exact Hq. cbn [mbind option_bind].
  change (hw (put st q ?y (hw st))) with (hw st).
  destruct (ConfigureSfppXcvr _ _ _) as [h status]. cbn [snd].
  destruct (is_ok status).
  - change (set_hw (put st q (set_configRetries (configRetries x - 1) x) (hw st)) h)
      with (put st q (set_configRetries (configRetries x - 1) x) h).
    rewrite update_put_put by exact Hq.
    eexists _, h. split; reflexivity.
  - eexists _, h. split; reflexivity.
Qed.

Lemma XcvrRetryEepromRead_run (sw : fm_platformCfgSwitch) (st : plat_state HW) :
  lanes_ok sw st ->
  exists st',
    XcvrRetryEepromRead sw st = Some st'
    /\ length (xcvrInfo st') = length (xcvrInfo st)
    /\ forall j x,
         array_get (xcvrInfo st) j = Some x ->
         exists x',
           array_get (xcvrInfo st') j = Some x'
           /\ (if read_pending sw j x
               then exists status data, x' = reread_record status data x
               else x' = x).
Proof.
  intros Hok. pose proof Hok as [Hlen Hlanes].
  unfold XcvrRetryEepromRead, read_pending.
  destruct I2cWriteRead; simpl.
  2:{ exists st. split; [reflexivity|]. split; [reflexivity|]. eauto. }
  destruct (sweep_pointwise
    (fun j x x' =>
       if is_xcvr_at sw j && (eepromReadRetries x >? 0)
       then exists status data, x' = reread_record status data x
       else x' = x)
    (fun portIdx st => XcvrRetryEepromRead_port sw st portIdx)
    (Z.of_nat (length (ports sw))) st) as (st' & Hrun & Hlen' & Hrec).
  - lia.
  - intros i s x Hi Hs Hx.
    destruct (XcvrRetryEepromRead_port_run sw s i x) as (x' & h & Hstep & Hx').
    { split; [congruence|exact Hlanes]. }
    { exact Hx. }
    exists x', h. split; [exact Hstep|].
    destruct (is_xcvr_at sw i && _); [exact Hx'|apply Hx'].
  - exists st'. split; [exact Hrun|]. split; [exact Hlen'|].
    intros j x Hx. destruct (Hrec j x Hx) as (x' & Hx' & Hrel).
    exists x'. split; [exact Hx'|].
    pose proof (array_get_Some_range _ _ _ Hx).
    destruct (Z.ltb_spec j (Z.of_nat (length (ports sw)))); [exact Hrel|lia].
Qed.

Lemma XcvrRetryConfig_run (sw : fm_platformCfgSwitch) (st : plat_state HW) :
  length (ports sw) = length (xcvrInfo st) ->
  exists st',
    XcvrRetryConfig sw st = Some st'
    /\ length (xcvrInfo st') = length (xcvrInfo st)
    /\ forall j x,
         array_get (xcvrInfo st) j = Some x ->
         exists x',
           array_get (xcvrInfo st') j = Some x'
           /\ (if config_pending sw j x
               then exists retries,
                      x' = set_configRetries retries x
                      /\ (retries = configRetries x - 1
                          \/ retries = 0 /\ is_sfpp_at sw j = true)
               else x' = x).
Proof.
  intros Hlen. unfold XcvrRetryConfig, config_pending.
  destruct I2cWriteRead; simpl.
  2:{ exists st. split; [reflexivity|]. split; [reflexivity|]. eauto. }
  destruct (sweep_pointwise
    (fun j x x' =>
       if is_xcvr_at sw j && eepromBaseValid x && (configRetries x >? 0)
       then exists retries,
              x' = set_configRetries retries x
              /\ (retries = configRetries x - 1
                  \/ retries = 0 /\ is_sfpp_at sw j = true)
       else x' = x)
    (fun portIdx st => XcvrRetryConfig_port sw st portIdx)
    (Z.of_nat (length (ports sw))) st) as (st' & Hrun & Hlen' & Hrec).
  - lia.
  - intros i s x Hi Hs Hx.
    destruct (XcvrRetryConfig_port_run sw s i x) as (x' & h & Hstep & Hx').
    { congruence. }
    { exact Hx. }
    exists x', h. split; [exact Hstep|].
    destruct (is_xcvr_at sw i && _ && _); [exact Hx'|apply Hx'].
  - exists st'. split; [exact Hrun|]. split; [exact Hlen'|].
    intros j x Hx. destruct (Hrec j x Hx) as (x' & Hx' & Hrel).
    exists x'. split; [exact Hx'|].
    pose proof (array_get_Some_range _ _ _ Hx).
    destruct (Z.ltb_spec j (Z.of_nat (length (ports sw)))); [exact Hrel|lia].
Qed.

Lemma eepromReadRetries_reread status data x :
  eepromReadRetries (reread_record status data x)
  = if is_ok status then 0 else eepromReadRetries x - 1.
Proof.
  unfold reread_record, eeprom_read_record.
  destruct (is_ok status); [reflexivity|reflexivity].
Qed.

Lemma same_but_eeprom_reread status data x :
  same_but_eeprom x (reread_record status data x).
Proof.
  unfold reread_record, eeprom_read_record, same_but_eeprom.
  destruct (is_ok status);
    [destruct (fmPlatformXcvrEepromIsBaseCsumValid data)|];
    repeat split.
Qed.

Lemma set_configRetries_same x : set_configRetries (configRetries x) x = x.
Proof. destruct x; reflexivity. Qed.

Lemma XcvrRetryConfig_sweeps (sw : fm_platformCfgSwitch) (k : nat) :
  forall (st : plat_state HW) q x,
    length (ports sw) = length (xcvrInfo st) ->
    I2cWriteRead = true ->
    is_xcvr_at sw q = true ->
    array_get (xcvrInfo st) q = Some x ->
    eepromBaseValid x = true ->
    0 <= configRetries x <= Z.of_nat k ->
    exists st',
      sweeps (XcvrRetryConfig sw) k st = Some st'
      /\ length (xcvrInfo st') = length (xcvrInfo st)
      /\ array_get (xcvrInfo st') q = Some (set_configRetries 0 x).
Proof.
  induction k as [|k IH]; intros st q x Hlen Hi2c Hxcvr Hx Hvalid Hc.
  - exists st. split; [reflexivity|]. split; [reflexivity|].
    replace 0 with (configRetries x) by lia.
    rewrite set_configRetries_same. exact Hx.
  - destruct (XcvrRetryConfig_run sw st Hlen) as (st1 & Hrun & Hlen1 & Hrec).
    destruct (Hrec q x Hx) as (x1 & Hx1 & Hrel).
    unfold config_pending in Hrel. rewrite Hi2c, Hxcvr, Hvalid in Hrel.
    simpl in Hrel.
    assert (Hnext : exists retries,
              x1 = set_configRetries retries x /\ 0 <= retries <= Z.of_nat k).
    { destruct (Z.gtb_spec (configRetries x) 0) as [Hpos|Hzero].
      - destruct Hrel as (r & -> & [->|[-> _]]); eexists; split;
          try reflexivity; lia.
      - subst x1. exists (configRetries x).
        rewrite set_configRetries_same. split; [reflexivity|lia]. }
    destruct Hnext as (r & -> & Hr).
    destruct (IH st1 q (set_configRetries r x)) as (st' & Hrun' & Hlen' & Hx');
      try assumption; try congruence.
    exists st'. simpl. rewrite Hrun. simpl.
    split; [exact Hrun'|]. split; [congruence|exact Hx'].
Qed.

(** X10.  A sweep of [XcvrRetryEepromRead] over a table whose lane map
    stays inside it returns.  A record is left as it was unless the
    library has I2C access, its port is an SFP+ or QSFP lane 0 port and
    its retry counter is positive.  Such a record is read again once, in
    the hardware state in which the sweep reaches its port and into the
    cache it has: the counter is 0 after a read that succeeded and one
    less after a read that failed, and beside the counter only the
    EEPROM cache and what is decoded from it may change. *)
Theorem RetryEepromRead_sweep (sw : fm_platformCfgSwitch) (st : plat_state HW) :
  lanes_ok sw st ->
  exists st',
    XcvrRetryEepromRead sw st = Some st'
    /\ length (xcvrInfo st') = length (xcvrInfo st)
    /\ forall j x,
         array_get (xcvrInfo st) j = Some x ->
         exists x',
           array_get (xcvrInfo st') j = Some x'
           /\ same_but_eeprom x x'
           /\ (if read_pending sw j x
               then exists portCfg sj h status data,
                      array_get (ports sw) j = Some portCfg
                      (* the sweep when it reaches the port *)
                      /\ for_loop j
                           (fun portIdx s => XcvrRetryEepromRead_port sw s portIdx)
                           st = Some sj
                      /\ array_get (xcvrInfo sj) j = Some x
                      (* the read *)
                      /\ fmPlatformXcvrEepromRead (hw sj) (port portCfg) 0 0
                           (eeprom x) XCVR_EEPROM_CACHE_SIZE = (h, status, data)
                      /\ x' = reread_record status data x
                      /\ eepromReadRetries x'
                         = (if is_ok status then 0 else eepromReadRetries x - 1)
               else x' = x).
Proof.
  intros Hok. pose proof Hok as [Hlen Hlanes].
  unfold XcvrRetryEepromRead, read_pending.
  destruct I2cWriteRead; cbn [negb andb].
  2:{ exists st. split; [reflexivity|]. split; [reflexivity|].
      intros j x Hx. exists x. split; [exact Hx|]. split; [repeat split|reflexivity]. }
  destruct (sweep_pointwise_at
    (fun j sj x x' =>
       if is_xcvr_at sw j && (eepromReadRetries x >? 0)
       then exists portCfg h status data,
              array_get (ports sw) j = Some portCfg
              /\ fmPlatformXcvrEepromRead (hw sj) (port portCfg) 0 0 (eeprom x)
                   XCVR_EEPROM_CACHE_SIZE = (h, status, data)
              /\ x' = reread_record status data x
       else x' = x)
    (fun portIdx st => XcvrRetryEepromRead_port sw st portIdx)
    (Z.of_nat (length (ports sw))) st) as (st' & Hrun & Hlen' & Hrec).
  - lia.
  - intros i s x Hi Hs Hx.
    destruct (array_get_in_range (ports sw) i Hi) as [pc Hpc].
    destruct (XcvrRetryEepromRead_port_read sw s i x pc)
      as (x' & h & Hstep & Hx').
    { split; [congruence|exact Hlanes]. }
    { exact Hx. }
    { exact Hpc. }
    exists x', h. split; [exact Hstep|].
    destruct (is_xcvr_at sw i && _); [|apply Hx'].
    destruct Hx' as (h1 & status & data & Hread & ->).
    exists pc, h1, status, data. auto.
  - exists st'. split; [exact Hrun|]. split; [exact Hlen'|].
    intros j x Hx. pose proof (array_get_Some_range _ _ _ Hx).
    destruct (Hrec j x Hx ltac:(lia)) as (sj & x' & Hsj & Hxj & Hx' & Hrel).
    exists x'. split; [exact Hx'|].
    destruct (is_xcvr_at sw j && _).
    + destruct Hrel as (pc & h & status & data & Hpc & Hread & ->). split.
      * apply same_but_eeprom_reread.
      * exists pc, sj, h, status, data.
        split; [exact Hpc|]. split; [exact Hsj|]. split; [exact Hxj|].
        split; [exact Hread|]. split; [reflexivity|].
        apply eepromReadRetries_reread.
    + subst x'. split; [repeat split|reflexivity].
Qed.

(** X12.  A sweep of [XcvrRetryConfig] returns and writes nothing but
    configuration retries.  A record is left as it was unless the library
    has I2C access, its port is an SFP+ or QSFP lane 0 port, its EEPROM
    is valid and its retries are positive.  Then, on an SFP+ port, the
    module is configured with [ConfigureSfppXcvr], in the hardware state
    in which the sweep reaches the port, and the retries are 0 if that
    returned FM_OK and one less if it did not; on a QSFP lane 0 port the
    retries are one less. *)
Theorem RetryConfig_sweep (sw : fm_platformCfgSwitch) (st : plat_state HW) :
  length (ports sw) = length (xcvrInfo st) ->
  exists st',
    XcvrRetryConfig sw st = Some st'
    /\ length (xcvrInfo st') = length (xcvrInfo st)
    /\ forall j x,
         array_get (xcvrInfo st) j = Some x ->
         exists retries,
           array_get (xcvrInfo st') j = Some (set_configRetries retries x)
           /\ (if config_pending sw j x
               then (retries = configRetries x - 1
                     \/ retries = 0 /\ is_sfpp_at sw j = true)
                    /\ exists portCfg sj,
                         array_get (ports sw) j = Some portCfg
                         (* the sweep when it reaches the port *)
                         /\ for_loop j
                              (fun portIdx s => XcvrRetryConfig_port sw s portIdx)
                              st = Some sj
                         /\ array_get (xcvrInfo sj) j = Some x
                         (* the configuration of the module *)
                         /\ retries
                            = (if bool_decide
                                    (intfType portCfg = FM_PLAT_INTF_TYPE_SFPP)
                               then
                                 if is_ok
                                      (snd (ConfigureSfppXcvr (hw sj)
                                              (port portCfg)
                                              (set_configRetries
                                                 (configRetries x - 1) x)))
                                 then 0 else configRetries x - 1
                               else configRetries x - 1)
               else retries = configRetries x).
Proof.
  intros Hlen.
  unfold XcvrRetryConfig, config_pending.
  destruct I2cWriteRead; cbn [negb andb].
  2:{ exists st. split; [reflexivity|]. split; [reflexivity|].
      intros j x Hx. exists (configRetries x).
      rewrite set_configRetries_same. split; [exact Hx|reflexivity]. }
  destruct (sweep_pointwise_at
    (fun j sj x x' =>
       exists portCfg,
         array_get (ports sw) j = Some portCfg
         /\ if is_xcvr_at sw j && eepromBaseValid x && (configRetries x >? 0)
            then x' = set_configRetries
                        (if bool_decide
                              (intfType portCfg = FM_PLAT_INTF_TYPE_SFPP)
                         then if is_ok (snd (ConfigureSfppXcvr (hw sj)
                                               (port portCfg)
                                               (set_configRetries
                                                  (configRetries x - 1) x)))
                              then 0 else configRetries x - 1
                         else configRetries x - 1) x
            else x' = x)
    (fun portIdx st => XcvrRetryConfig_port sw st portIdx)
    (Z.of_nat (length (ports sw))) st) as (st' & Hrun & Hlen' & Hrec).
  - lia.
  - intros i s x Hi Hs Hx.
    destruct (array_get_in_range (ports sw) i Hi) as [pc Hpc].
    destruct (XcvrRetryConfig_port_configure sw s i x pc)
      as (x' & h & Hstep & Hx').
    { congruence. }
    { exact Hx. }
    { exact Hpc. }
    exists x', h. split; [exact Hstep|]. exists pc. split; [exact Hpc|].
    destruct (is_xcvr_at sw i && _ && _); [exact Hx'|apply Hx'].
  - exists st'. split; [exact Hrun|]. split; [exact Hlen'|].
    intros j x Hx. pose proof (array_get_Some_range _ _ _ Hx).
    destruct (Hrec j x Hx ltac:(lia))
      as (sj & x' & Hsj & Hxj & Hx' & pc & Hpc & Hrel).
    destruct (is_xcvr_at sw j && _ && _).
    + subst x'. eexists. split; [exact Hx'|]. split.
      * unfold is_sfpp_at. rewrite Hpc.
        destruct (bool_decide (intfType pc = FM_PLAT_INTF_TYPE_SFPP));
          [|left; reflexivity].
        destruct (is_ok _); [right; split; reflexivity|left; reflexivity].
      * exists pc, sj. auto.
    + subst x'. exists (configRetries x).
      rewrite set_configRetries_same. split; [exact Hx'|reflexivity].
Qed.

(** X11.  The retries of an EEPROM read run out: on a transceiver port
    of a library with I2C access, [k] sweeps of [XcvrRetryEepromRead]
    all return and leave a retry counter that was [r >= 0] between 0 and
    [max 0 (r - k)]; the record keeps its module state, presence, mode,
    autonegotiation flag and configuration retries. *)
Theorem eeprom_read_retries_run_out (sw : fm_platformCfgSwitch) (k : nat) :
  forall (st : plat_state HW) q x,
    lanes_ok sw st ->
    I2cWriteRead = true ->
    is_xcvr_at sw q = true ->
    array_get (xcvrInfo st) q = Some x ->
    0 <= eepromReadRetries x ->
    exists st' x',
      sweeps (XcvrRetryEepromRead sw) k st = Some st'
      /\ lanes_ok sw st'
      /\ array_get (xcvrInfo st') q = Some x'
      /\ same_but_eeprom x x'
      /\ 0 <= eepromReadRetries x' <= Z.max 0 (eepromReadRetries x - Z.of_nat k).
Proof.
  induction k as [|k IH]; intros st q x Hok Hi2c Hxcvr Hx Hr.
  - exists st, x. split; [reflexivity|]. split; [exact Hok|].
    split; [exact Hx|]. split; [repeat split|lia].
  - destruct (XcvrRetryEepromRead_run sw st Hok) as (st1 & Hrun & Hlen1 & Hrec).
    destruct (Hrec q x Hx) as (x1 & Hx1 & Hrel).
    unfold read_pending in Hrel. rewrite Hi2c, Hxcvr in Hrel. simpl in Hrel.
    assert (Hok1 : lanes_ok sw st1).
    { destruct Hok as [Hlen Hlanes]. split; [congruence|exact Hlanes]. }
    assert (Hnext : same_but_eeprom x x1
              /\ 0 <= eepromReadRetries x1
                 <= Z.max 0 (eepromReadRetries x - 1)).
    { destruct (Z.gtb_spec (eepromReadRetries x) 0) as [Hpos|Hzero].
      - destruct Hrel as (status & data & ->). split.
        + apply same_but_eeprom_reread.
        + rewrite eepromReadRetries_reread. destruct (is_ok status); lia.
      - subst x1. split; [repeat split|lia]. }
    destruct Hnext as [Hsame1 Hr1].
    destruct (IH st1 q x1 Hok1 Hi2c Hxcvr Hx1 ltac:(lia))
      as (st' & x' & Hrun' & Hok' & Hx' & Hsame' & Hr').
    exists st', x'. simpl. rewrite Hrun. simpl.
    split; [exact Hrun'|]. split; [exact Hok'|]. split; [exact Hx'|]. split.
    + unfold same_but_eeprom in *.
      destruct Hsame1 as (? & ? & ? & ? & ?), Hsame' as (? & ? & ? & ? & ?).
      repeat split; congruence.
    + lia.
Qed.

(** X13.  With nothing to retry, [XcvrRetryEepromRead] and
    [XcvrRetryConfig] return the state as it was: no record is written
    and the hardware is not accessed. *)
Theorem retry_sweeps_idle (sw : fm_platformCfgSwitch) (st : plat_state HW) :
  length (ports sw) = length (xcvrInfo st) ->
  (forall j x, array_get (xcvrInfo st) j = Some x ->
               read_pending sw j x = false) ->
  (forall j x, array_get (xcvrInfo st) j = Some x ->
               config_pending sw j x = false) ->
  XcvrRetryEepromRead sw st = Some st /\ XcvrRetryConfig sw st = Some st.
Proof.
  intros Hlen Hread Hconfig.
  unfold XcvrRetryEepromRead, XcvrRetryConfig.
  destruct I2cWriteRead eqn:Hi2c; simpl; [|auto]. split.
  - destruct (for_loop_invariant (fun s => s = st)
                (Z.of_nat (length (ports sw)))
                (fun portIdx st => XcvrRetryEepromRead_port sw st portIdx) st)
      as (st' & -> & ->); [|reflexivity|reflexivity].
    intros i s Hi ->. exists st. split; [|reflexivity].
    destruct (array_get_in_range (ports sw) i Hi) as [pc Hpc].
    destruct (array_get_in_range (xcvrInfo st) i ltac:(lia)) as [x Hx].
    specialize (Hread i x Hx). unfold read_pending in Hread.
    rewrite Hi2c, (is_xcvr_at_get sw i pc Hpc) in Hread.
    unfold XcvrRetryEepromRead_port. rewrite Hpc. cbn [mbind option_bind].
    destruct (negb _ && negb _); [reflexivity|].
    rewrite Hx. cbn [mbind option_bind]. simpl in Hread. rewrite Hread.
    reflexivity.
  - destruct (for_loop_invariant (fun s => s = st)
                (Z.of_nat (length (ports sw)))
                (fun portIdx st => XcvrRetryConfig_port sw st portIdx) st)
      as (st' & -> & ->); [|reflexivity|reflexivity].
    intros i s Hi ->. exists st. split; [|reflexivity].
    destruct (array_get_in_range (ports sw) i Hi) as [pc Hpc].
    destruct (array_get_in_range (xcvrInfo st) i ltac:(lia)) as [x Hx].
    specialize (Hconfig i x Hx). unfold config_pending in Hconfig.
    rewrite Hi2c, (is_xcvr_at_get sw i pc Hpc) in Hconfig.
    unfold XcvrRetryConfig_port. rewrite Hpc. cbn [mbind option_bind].
    destruct (negb _ && negb _); [reflexivity|].
    rewrite Hx. cbn [mbind option_bind]. simpl in Hconfig. rewrite Hconfig.
    reflexivity.
Qed.

End RetryProofs.


(** *** The lists of transceiver ports *)

Section PortListProofs.
Context `{MgmtHeader}.
Context {HW : Type} `{MgmtEnv HW} `{MgmtTasksEnv HW}.

Lemma xcvr_ports_S (sw : fm_platformCfgSwitch) (k : nat) :
  xcvr_ports sw (Z.of_nat (S k))
  = xcvr_ports sw (Z.of_nat k)
    ++ (if is_xcvr_at sw (Z.of_nat k) then [Z.of_nat k] else []).
Proof.
  unfold xcvr_ports. rewrite seqZ_S, List.filter_app.
  replace (0 + Z.of_nat k) with (Z.of_nat k) by lia. simpl.
  destruct (is_xcvr_at sw (Z.of_nat k)); reflexivity.
Qed.

Lemma xcvr_ports_range (sw : fm_platformCfgSwitch) n p :
  In p (xcvr_ports sw n) -> 0 <= p < n /\ is_xcvr_at sw p = true.
Proof.
  unfold xcvr_ports. rewrite List.filter_In, <- list_elem_of_In, elem_of_seqZ.
  intros [? ?]. split; [lia|assumption].
Qed.

Lemma is_xcvr_at_port (sw : fm_platformCfgSwitch) q portCfg :
  array_get (ports sw) q = Some portCfg ->
  is_xcvr_at sw q
  = (bool_decide (intfType portCfg = FM_PLAT_INTF_TYPE_SFPP)
     || bool_decide (intfType portCfg = FM_PLAT_INTF_TYPE_QSFP_LANE0)).
Proof. intros Hcfg. unfold is_xcvr_at, is_xcvr_port. rewrite Hcfg. reflexivity. Qed.

Lemma drop_cons_length {A} (l : list A) (k : nat) :
  (k < length l)%nat -> exists x, drop k l = x :: drop (S k) l.
Proof.
  intros Hk. destruct (lookup_lt_is_Some_2 l k Hk) as [x Hx].
  exists x. apply drop_S. exact Hx.
Qed.

Lemma array_set_at {A} (n : nat) (l1 : list A) x l2 v :
  length l1 = n ->
  array_set (l1 ++ x :: l2) (Z.of_nat n) v = Some (l1 ++ v :: l2).
Proof. intros <-. apply array_set_middle. Qed.

(** X14.  The list of ports that [fmPlatformMgmtEnableInterrupt] builds
    in its two arrays of MAX_TEMP_PORTS entries: the loop always runs to
    its end inside the arrays; it lists the hardware resource ids of the
    first MAX_TEMP_PORTS transceiver ports of the table, in order, with
    [enable] TRUE for each, counts them, and leaves the remaining entries
    of both arrays as they were. *)
Theorem EnableInterrupt_ports_lists (sw : fm_platformCfgSwitch)
  (hwResIdList : list Z) (enable : list bool) :
  Z.of_nat (length hwResIdList) = MAX_TEMP_PORTS ->
  Z.of_nat (length enable) = MAX_TEMP_PORTS ->
  let listed := take (Z.to_nat MAX_TEMP_PORTS) (all_xcvr_ports sw) in
  exists stopped,
    EnableInterrupt_ports sw hwResIdList enable
    = Some (map (hwResourceId_at sw) listed ++ drop (length listed) hwResIdList,
            replicate (length listed) true ++ drop (length listed) enable,
            Z.of_nat (length listed), stopped).
Proof.
  intros Hl1 Hl2 listed. unfold EnableInterrupt_ports.
  pose (listed_to := fun i : Z => take (Z.to_nat MAX_TEMP_PORTS) (xcvr_ports sw i)).
  pose (I := fun (i : Z) (s : list Z * list bool * Z * bool) =>
    let '(l1, l2, numPorts, stopped) := s in
    l1 = map (hwResourceId_at sw) (listed_to i)
         ++ drop (length (listed_to i)) hwResIdList
    /\ l2 = replicate (length (listed_to i)) true
            ++ drop (length (listed_to i)) enable
    /\ numPorts = Z.of_nat (length (listed_to i))
    /\ (if stopped then MAX_TEMP_PORTS <= Z.of_nat (length (xcvr_ports sw i))
        else Z.of_nat (length (xcvr_ports sw i)) <= MAX_TEMP_PORTS)).
  match goal with
  | |- exists _, for_loop ?n ?body ?s = _ =>
      destruct (for_loop_indexed I n body s) as ([[[l1 l2] np] stopped] & Hrun & HI)
  end.
  - lia.
  - intros i [[[l1 l2] np] stopped] Hi (Hl1' & Hl2' & Hnp & Hstop).
    assert (Hnext : xcvr_ports sw (i + 1)
              = xcvr_ports sw i ++ (if is_xcvr_at sw i then [i] else [])).
    { replace (i + 1) with (Z.of_nat (S (Z.to_nat i))) by lia.
      rewrite xcvr_ports_S. rewrite Z2Nat.id by lia. reflexivity. }
    destruct stopped.
    { eexists. split; [reflexivity|]. unfold I, listed_to in *.
      rewrite Hnext, take_app_le by lia.
      repeat split; try assumption. rewrite length_app. lia. }
    destruct (array_get_in_range (ports sw) i Hi) as [pc Hpc].
    rewrite Hpc. cbn [mbind option_bind].
    rewrite <- (is_xcvr_at_port sw i pc Hpc).
    destruct (is_xcvr_at sw i) eqn:Hxcvr; cbn [negb].
    2:{ eexists. split; [reflexivity|]. unfold I, listed_to in *.
        rewrite Hnext, app_nil_r. auto. }
    assert (Hfull : listed_to i = xcvr_ports sw i).
    { unfold listed_to. apply take_ge. lia. }
    rewrite Hfull in Hl1', Hl2', Hnp.
    destruct (Z.geb_spec np MAX_TEMP_PORTS) as [Hge|Hlt].
    { eexists. split; [reflexivity|]. unfold I, listed_to.
      rewrite Hnext, take_app_le by lia. fold (listed_to i). rewrite Hfull.
      repeat split; try assumption. rewrite length_app. lia. }
    destruct (drop_cons_length hwResIdList (length (xcvr_ports sw i)))
      as [v1 Hv1]; [lia|].
    destruct (drop_cons_length enable (length (xcvr_ports sw i)))
      as [v2 Hv2]; [lia|].
    subst l1 l2 np. rewrite Hv1, Hv2.
    rewrite !(array_set_at (length (xcvr_ports sw i)))
      by first [apply length_map | apply length_replicate].
    cbn [mbind option_bind].
    eexists. split; [reflexivity|]. unfold I, listed_to.
    rewrite Hnext, take_ge by (rewrite length_app; simpl; lia).
    rewrite length_app, map_app. simpl.
    replace (length (xcvr_ports sw i) + 1)%nat
      with (S (length (xcvr_ports sw i))) by lia.
    rewrite replicate_S_end, <- !app_assoc. simpl.
    replace (hwResourceId_at sw i) with (hwResourceId pc)
      by (unfold hwResourceId_at; rewrite Hpc; reflexivity).
    repeat split; lia.
  - unfold I, listed_to. simpl. rewrite !drop_0. repeat split. lia.
  - unfold I, listed_to in HI. destruct HI as (-> & -> & -> & _).
    exists stopped. exact Hrun.
Qed.

End PortListProofs.


(** *** fmPlatformMgmtXcvrInitialize *)

Section InitializeProofs.
Context `{MgmtHeader}.
Context {HW : Type} `{MgmtEnv HW} `{MgmtTasksEnv HW}.

Lemma xcvr_ports_prefix (sw : fm_platformCfgSwitch) i n :
  0 <= i <= n ->
  (length (xcvr_ports sw i) <= length (xcvr_ports sw n))%nat.
Proof.
  intros Hi. unfold xcvr_ports.
  replace n with (i + (n - i)) by lia.
  rewrite seqZ_app, List.filter_app, length_app by lia. lia.
Qed.

Lemma initialized_initialize_record e x :
  initialized e (initialize_record e x)
  /\ present (initialize_record e x) = false.
Proof.
  unfold initialized, initialize_record. simpl.
  rewrite length_replicate. repeat split.
Qed.

(** The first loop. *)
Lemma XcvrInitialize_records_run (sw : fm_platformCfgSwitch)
  (more : fm_platformCfgMore) (st : plat_state HW) (ids idxs : list Z) :
  length (ports sw) = length (xcvrInfo st) ->
  Z.of_nat (length ids) = MAX_TEMP_PORTS ->
  Z.of_nat (length idxs) = MAX_TEMP_PORTS ->
  Z.of_nat (length (all_xcvr_ports sw)) <= MAX_TEMP_PORTS ->
  exists st1 ids1 idxs1 numPorts,
    XcvrInitialize_records sw more st ids idxs
    = Some (st1, ids1, idxs1, numPorts)
    /\ hw st1 = hw st
    /\ length (xcvrInfo st1) = length (xcvrInfo st)
    /\ (forall j x,
          array_get (xcvrInfo st) j = Some x ->
          array_get (xcvrInfo st1) j
          = Some (initialize_record (portEthMode more j) x))
    /\ numPorts <= MAX_TEMP_PORTS
    /\ Z.of_nat (length ids1) = MAX_TEMP_PORTS
    /\ forall k, 0 <= k < numPorts ->
         exists p, array_get idxs1 k = Some p
                   /\ 0 <= p < Z.of_nat (length (ports sw))
                   /\ is_xcvr_at sw p = true.
Proof.
  intros Hlen Hids Hidxs Hcount. unfold XcvrInitialize_records.
  pose (I := fun (i : Z) (s : plat_state HW * list Z * list Z * Z) =>
    let '(s1, l1, l2, numPorts) := s in
    hw s1 = hw st
    /\ length (xcvrInfo s1) = length (xcvrInfo st)
    /\ (forall j x,
          array_get (xcvrInfo st) j = Some x ->
          array_get (xcvrInfo s1) j
          = Some (if j <? i then initialize_record (portEthMode more j) x
                  else x))
    /\ length l1 = length ids /\ length l2 = length idxs
    /\ 0 <= numPorts <= Z.of_nat (length (xcvr_ports sw i))
    /\ forall k, 0 <= k < numPorts ->
         exists p, array_get l2 k = Some p /\ 0 <= p < i
                   /\ is_xcvr_at sw p = true).
  match goal with
  | |- exists _ _ _ _, for_loop ?n ?body ?s = _ /\ _ =>
      destruct (for_loop_indexed I n body s)
        as ([[[s1 l1] l2] np] & Hrun & Hhw & Hlen1 & Hrec & Hl1 & Hl2 & Hnp & Hidx)
  end.
  - lia.
  - intros i [[[s1 l1] l2] np] Hi (Hhw & Hlen1 & Hrec & Hl1 & Hl2 & Hnp & Hidx).
    destruct (array_get_in_range (ports sw) i Hi) as [pc Hpc].
    destruct (array_get_in_range (xcvrInfo st) i ltac:(lia)) as [x Hx].
    pose proof (Hrec i x Hx) as Hxi.
    destruct (Z.ltb_spec i i) as [?|_]; [lia|].
    rewrite Hpc. cbn [mbind option_bind].
    rewrite (update_put s1 i _ x Hxi). cbn [mbind option_bind].
    assert (Hnext : xcvr_ports sw (i + 1)
              = xcvr_ports sw i ++ (if is_xcvr_at sw i then [i] else [])).
    { replace (i + 1) with (Z.of_nat (S (Z.to_nat i))) by lia.
      rewrite xcvr_ports_S. rewrite Z2Nat.id by lia. reflexivity. }
    assert (Hrec' : forall j y,
              array_get (xcvrInfo st) j = Some y ->
              array_get
                (xcvrInfo (put s1 i (initialize_record (portEthMode more i) x)
                             (hw s1))) j
              = Some (if j <? i + 1
                      then initialize_record (portEthMode more j) y else y)).
    { intros j y Hy. destruct (Z.eq_dec j i) as [->|Hne].
      - rewrite get_put_eq by lia.
        destruct (Z.ltb_spec i (i + 1)); [|lia]. congruence.
      - rewrite get_put_ne by lia. rewrite (Hrec j y Hy).
        destruct (Z.ltb_spec j i), (Z.ltb_spec j (i + 1)); try lia; reflexivity. }
    rewrite <- (is_xcvr_at_port sw i pc Hpc).
    destruct (negb (bool_decide (is_Some GetPortXcvrState))
              || negb (is_xcvr_at sw i)) eqn:Hskip.
    + eexists. split; [reflexivity|]. unfold I.
      split; [exact Hhw|]. split; [rewrite length_put; exact Hlen1|].
      split; [exact Hrec'|]. split; [exact Hl1|]. split; [exact Hl2|]. split.
      * rewrite Hnext, length_app. lia.
      * intros k Hk. destruct (Hidx k Hk) as (p & Hp & Hrange & Hxcvr).
        exists p. split; [exact Hp|]. split; [lia|exact Hxcvr].
    + apply orb_false_elim in Hskip as [_ Hxcvr].
      apply negb_false_iff in Hxcvr.
      pose proof (xcvr_ports_prefix sw (i + 1) (Z.of_nat (length (ports sw)))
                    ltac:(lia)) as Hprefix.
      fold (all_xcvr_ports sw) in Hprefix.
      rewrite Hnext, Hxcvr, length_app in Hprefix. simpl in Hprefix.
      destruct (array_set_spec l1 np (hwResourceId pc) ltac:(lia))
        as (l1' & -> & Hl1' & _).
      destruct (array_set_spec l2 np i ltac:(lia)) as (l2' & -> & Hl2' & Hget).
      cbn [mbind option_bind].
      eexists. split; [reflexivity|]. unfold I.
      split; [exact Hhw|]. split; [rewrite length_put; exact Hlen1|].
      split; [exact Hrec'|]. split; [congruence|]. split; [congruence|]. split.
      * rewrite Hnext, Hxcvr, length_app. simpl. lia.
      * intros k Hk. rewrite Hget. destruct (decide (k = np)) as [->|Hne].
        { exists i. split; [reflexivity|]. split; [lia|exact Hxcvr]. }
        destruct (Hidx k ltac:(lia)) as (p & Hp & Hrange & Hxcvr').
        exists p. split; [exact Hp|]. split; [lia|exact Hxcvr'].
  - unfold I. repeat split; try lia.
    intros j x Hx. rewrite Hx.
    pose proof (array_get_Some_range _ _ _ Hx).
    destruct (Z.ltb_spec j 0); [lia|reflexivity].
  - exists s1, l1, l2, np. split; [exact Hrun|].
    split; [exact Hhw|]. split; [exact Hlen1|]. split.
    { intros j x Hx. rewrite (Hrec j x Hx).
      pose proof (array_get_Some_range _ _ _ Hx).
      destruct (Z.ltb_spec j (Z.of_nat (length (ports sw)))); [reflexivity|lia]. }
    fold (all_xcvr_ports sw) in Hnp.
    split; [lia|]. split; [lia|exact Hidx].
Qed.


Lemma initialized_modState e v x :
  initialized e x -> initialized e (set_modState v x).
Proof. intros Hx. exact Hx. Qed.

Lemma initialized_present e x :
  initialized e x -> initialized e (set_present true x).
Proof.
  intros (He & Han & Hc & _). repeat split; try assumption; discriminate.
Qed.

Lemma initialized_read e status data x :
  initialized e x -> present x = true ->
  initialized e (eeprom_read_record false status data x)
  /\ present (eeprom_read_record false status data x) = true.
Proof.
  intros (He & Han & Hc & _) Hp.
  destruct (same_but_eeprom_read false status data x) as (_ & Hp' & He' & Han' & Hc').
  split; [|congruence].
  repeat split; try congruence; intros Hnp; congruence.
Qed.

(** An iteration of the last loop. *)
Lemma XcvrInitialize_module_run (sw : fm_platformCfgSwitch)
  (idxs valid state : list Z) (k p : Z) (e : fm_ethMode)
  (st : plat_state HW) x :
  length (ports sw) = length (xcvrInfo st) ->
  array_get idxs k = Some p ->
  0 <= k < Z.of_nat (length valid) ->
  0 <= k < Z.of_nat (length state) ->
  array_get (xcvrInfo st) p = Some x ->
  initialized e x ->
  exists x' h,
    XcvrInitialize_module sw idxs valid state k st = Some (put st p x' h)
    /\ initialized e x'.
Proof.
  intros Hlen Hp Hkv Hks Hx Hinit.
  pose proof (array_get_Some_range _ _ _ Hx) as Hrange.
  destruct (array_get_in_range valid k Hkv) as [xv Hxv].
  destruct (array_get_in_range state k Hks) as [xs Hxs].
  destruct (array_get_in_range (ports sw) p ltac:(lia)) as [pc Hpc].
  unfold XcvrInitialize_module. rewrite Hp, Hxs. cbn [mbind option_bind].
  rewrite (update_put st p _ x Hx). cbn [mbind option_bind].
  rewrite Hxv. cbn [mbind option_bind].
  set (x1 := set_modState xs x).
  assert (Hinit1 : initialized e x1) by exact Hinit.
  assert (Hstep : exists x2,
            (if truthy (Z.land xv FM_PLAT_XCVR_PRESENT)
                && truthy (Z.land xs FM_PLAT_XCVR_PRESENT)
             then update_xcvrInfo (put st p x1 (hw st)) p (set_present true)
             else Some (put st p x1 (hw st)))
            = Some (put st p x2 (hw st))
            /\ initialized e x2).
  { destruct (truthy _ && truthy _).
    - rewrite update_put_put by exact Hrange.
      eexists. split; [reflexivity|]. apply initialized_present. exact Hinit1.
    - exists x1. split; [reflexivity|exact Hinit1]. }
  destruct Hstep as (x2 & -> & Hinit2). cbn [mbind option_bind].
  destruct (truthy _ && truthy _).
  2:{ exists x2, (hw st). split; [reflexivity|exact Hinit2]. }
  rewrite get_put_eq by exact Hrange. cbn [mbind option_bind].
  destruct (present x2) eqn:Hpresent.
  2:{ exists x2, (hw st). split; [reflexivity|exact Hinit2]. }
  destruct (XcvrReadAndValidateEeprom_run sw (put st p x2 (hw st)) p false pc x2)
    as (h & status & data & _ & ->).
  { exact Hpc. }
  { apply get_put_eq. exact Hrange. }
  cbn [mbind option_bind]. rewrite put_put.
  eexists _, h. split; [reflexivity|].
  apply initialized_read; assumption.
Qed.

(** X15.  [fmPlatformMgmtXcvrInitialize] on a table with at most
    MAX_TEMP_PORTS transceiver ports returns, and on every path every
    record is initialised: it has the configured mode of its port, no
    autonegotiation and no pending configuration, and unless a module is
    present the type NOT_PRESENT, no cable length, an EEPROM cache of
    0xFF, invalid checksums and no pending read.  When the status is not
    FM_OK every record is exactly the initial one. *)
Theorem XcvrInitialize_establishes (sw : fm_platformCfgSwitch)
  (more : fm_platformCfgMore) (st : plat_state HW) (loc : locals) :
  length (ports sw) = length (xcvrInfo st) ->
  Z.of_nat (length (hwResIdList loc)) = MAX_TEMP_PORTS ->
  Z.of_nat (length (hwResIdIdxList loc)) = MAX_TEMP_PORTS ->
  Z.of_nat (length (xcvrStateValidList loc)) = MAX_TEMP_PORTS ->
  Z.of_nat (length (xcvrStateList loc)) = MAX_TEMP_PORTS ->
  Z.of_nat (length (all_xcvr_ports sw)) <= MAX_TEMP_PORTS ->
  query_keeps_sizes ->
  exists st' status,
    fmPlatformMgmtXcvrInitialize sw more st loc = Some (st', status)
    /\ length (xcvrInfo st') = length (xcvrInfo st)
    /\ forall j x,
         array_get (xcvrInfo st) j = Some x ->
         exists x',
           array_get (xcvrInfo st') j = Some x'
           /\ initialized (portEthMode more j) x'
           /\ (is_ok status = false ->
               x' = initialize_record (portEthMode more j) x).
Proof.
  intros Hlen Hids Hidxs Hvalid Hstate Hcount Hquery.
  unfold fmPlatformMgmtXcvrInitialize.
  destruct (XcvrInitialize_records_run sw more st (hwResIdList loc)
              (hwResIdIdxList loc) Hlen Hids Hidxs Hcount)
    as (st1 & ids1 & idxs1 & np & -> & Hhw & Hlen1 & Hrec & Hnp & Hids1 & Hidx).
  cbn [mbind option_bind].
  assert (Hdone : forall (s : plat_state HW) status,
            xcvrInfo s = xcvrInfo st1 ->
            length (xcvrInfo s) = length (xcvrInfo st)
            /\ forall j x,
                 array_get (xcvrInfo st) j = Some x ->
                 exists x',
                   array_get (xcvrInfo s) j = Some x'
                   /\ initialized (portEthMode more j) x'
                   /\ (is_ok status = false ->
                       x' = initialize_record (portEthMode more j) x)).
  { intros s status Hs. rewrite Hs. split; [exact Hlen1|].
    intros j x Hx. eexists. split; [apply Hrec; exact Hx|].
    split; [apply initialized_initialize_record|reflexivity]. }
  destruct GetPortXcvrState as [query|] eqn:Hq.
  2:{ exists st1, FM_OK. split; [reflexivity|]. apply Hdone. reflexivity. }
  destruct (np =? 0) eqn:Hzero.
  { exists st1, FM_OK. split; [reflexivity|]. apply Hdone. reflexivity. }
  assert (Hselect : exists s2 selected,
            match SelectBus with
            | Some selectBus =>
                id ← array_get ids1 0;
                let '(h, status) := selectBus (hw st1) (swNum sw) id in
                Some (set_hw st1 h, status)
            | None => Some (st1, FM_OK)
            end = Some (s2, selected)
            /\ xcvrInfo s2 = xcvrInfo st1).
  { destruct SelectBus as [selectBus|].
    - destruct (array_get_in_range ids1 0 ltac:(unfold MAX_TEMP_PORTS in *; lia))
        as [id ->].
      cbn [mbind option_bind].
      destruct (selectBus _ _ _) as [h status]. eauto.
    - eauto. }
  destruct Hselect as (s2 & selected & -> & Hs2). cbn [mbind option_bind].
  destruct (is_ok selected) eqn:Hsel; cbn [negb].
  2:{ exists s2, selected. split; [reflexivity|]. apply Hdone. exact Hs2. }
  pose proof (Hquery query Hq (hw s2) (swNum sw) ids1 np
                (xcvrStateValidList loc) (xcvrStateList loc)) as Hsizes.
  destruct (query _ _ _ _ _ _) as [[[h status] valid] state].
  destruct Hsizes as [Hv Hs].
  destruct (is_ok status) eqn:Hstatus; cbn [negb].
  2:{ exists (set_hw s2 h), status. split; [reflexivity|].
      apply Hdone. exact Hs2. }
  destruct (for_loop_invariant
    (fun s : plat_state HW =>
       length (xcvrInfo s) = length (xcvrInfo st)
       /\ forall j x,
            array_get (xcvrInfo s) j = Some x ->
            initialized (portEthMode more j) x)
    np (XcvrInitialize_module sw idxs1 valid state) (set_hw s2 h))
    as (st' & -> & Hlen' & Hall).
  - intros k s Hk [Hls Hinit].
    destruct (Hidx k Hk) as (p & Hp & Hrange & _).
    destruct (array_get_in_range (xcvrInfo s) p ltac:(lia)) as [x Hx].
    destruct (XcvrInitialize_module_run sw idxs1 valid state k p
                (portEthMode more p) s x) as (x' & h' & -> & Hx');
      try assumption; try lia.
    { apply Hinit. exact Hx. }
    eexists. split; [reflexivity|]. split.
    + rewrite length_put. exact Hls.
    + intros j y Hy. destruct (Z.eq_dec j p) as [->|Hne].
      * rewrite get_put_eq in Hy by lia. congruence.
      * rewrite get_put_ne in Hy by lia. apply Hinit. exact Hy.
  - simpl. rewrite Hs2. split; [exact Hlen1|].
    intros j x Hx. pose proof (array_get_Some_range _ _ _ Hx).
    destruct (array_get_in_range (xcvrInfo st) j ltac:(lia)) as [x0 Hx0].
    rewrite (Hrec j x0 Hx0) in Hx. injection Hx as <-.
    apply initialized_initialize_record.
  - cbn [mbind option_bind]. exists st', FM_OK. split; [reflexivity|].
    split; [exact Hlen'|]. intros j x Hx.
    pose proof (array_get_Some_range _ _ _ Hx).
    destruct (array_get_in_range (xcvrInfo st') j ltac:(lia)) as [x' Hx'].
    exists x'. split; [exact Hx'|]. split; [apply Hall; exact Hx'|].
    intros Hno. discriminate Hno.
Qed.

End InitializeProofs.


(** *** The calls of the API *)

Section ApiProofs.
Context `{MgmtHeader}.
Context {HW : Type} `{MgmtEnv HW} `{MgmtTasksEnv HW}.

Lemma is_sfpp_is_xcvr (sw : fm_platformCfgSwitch) q :
  is_sfpp_at sw q = true -> is_xcvr_at sw q = true.
Proof.
  unfold is_sfpp_at, is_xcvr_at, is_xcvr_port.
  destruct (array_get (ports sw) q); [|discriminate].
  intros ->. reflexivity.
Qed.

Lemma set_configRetries_twice a b x :
  set_configRetries a (set_configRetries b x) = set_configRetries a x.
Proof. reflexivity. Qed.

(** X16.  The lanes 1 to 3 of a QSFP report the module of lane 0:
    [fmPlatformMgmtGetTransceiverType] on such a port gives what it gives
    on the port at lane 0 of the same EPL, namely FM_OK with the type and
    the cable length of that port's record, stored only through the
    pointers that are not NULL. *)
Theorem GetTransceiverType_lanes (sw : fm_platformCfgSwitch)
  (st : plat_state HW) (port port0 : Z) (xcvrType : out fm_platformXcvrType)
  (xcvrLen : out Z) portCfg portCfg0 :
  array_get (ports sw) (fmPlatformCfgPortGetIndex port) = Some portCfg ->
  array_get (ports sw) (fmPlatformCfgPortGetIndex port0) = Some portCfg0 ->
  is_qsfp_upper_lane portCfg = true ->
  is_qsfp_upper_lane portCfg0 = false ->
  laneToPortIdx sw (epl portCfg) 0 = fmPlatformCfgPortGetIndex port0 ->
  fmPlatformMgmtGetTransceiverType sw st port xcvrType xcvrLen
  = fmPlatformMgmtGetTransceiverType sw st port0 xcvrType xcvrLen
  /\ forall x,
       array_get (xcvrInfo st) (fmPlatformCfgPortGetIndex port0) = Some x ->
       fmPlatformMgmtGetTransceiverType sw st port xcvrType xcvrLen
       = Some (FM_OK, store_if_set xcvrType (type x),
               store_if_set xcvrLen (cableLength x)).
Proof.
  intros Hpc Hpc0 Hlane Hlane0 Hidx.
  pose proof (array_get_Some_range _ _ _ Hpc) as Hq.
  pose proof (array_get_Some_range _ _ _ Hpc0) as Hq0.
  unfold fmPlatformMgmtGetTransceiverType, is_qsfp_upper_lane in *.
  destruct (Z.ltb_spec (fmPlatformCfgPortGetIndex port) 0); [lia|].
  destruct (Z.ltb_spec (fmPlatformCfgPortGetIndex port0) 0); [lia|].
  rewrite Hpc, Hpc0. cbn [mbind option_bind].
  rewrite Hlane, Hlane0, Hidx. split; [reflexivity|].
  intros x ->. reflexivity.
Qed.

(** X17.  [fmPlatformMgmtConfigSfppXcvrAutoNeg] defers the work to the
    thread.  Without polling it returns FM_ERR_UNSUPPORTED, for a port
    without index FM_ERR_INVALID_ARGUMENT, and changes nothing.  Else it
    returns FM_OK, sets the configuration retries of the port's record to
    MAX_CONFIG_RETRY (and nothing else in the table), signals the
    semaphore and sets [pollingPendingTask].  On a transceiver port with
    a valid EEPROM, MAX_CONFIG_RETRY sweeps of [XcvrRetryConfig] then
    bring the retries back to 0 and leave the record otherwise as it
    was. *)
Theorem ConfigSfppXcvrAutoNeg_deferred (sw : fm_platformCfgSwitch)
  (more : fm_platformCfgMore) (st : mgmt_state HW) (port : Z) (enable : bool) :
  let q := fmPlatformCfgPortGetIndex port in
  length (ports sw) = length (xcvrInfo (plat st)) ->
  q < Z.of_nat (length (ports sw)) ->
  exists st' status,
    fmPlatformMgmtConfigSfppXcvrAutoNeg more st port enable = Some (st', status)
    /\ if is_ok status then
         xcvrPollPeriodMsec more <> 0 /\ 0 <= q
         /\ pollingPendingTask st' = true
         /\ enableMgmt st' = enableMgmt st
         /\ exists x,
              array_get (xcvrInfo (plat st)) q = Some x
              /\ plat st' = put (plat st) q (set_configRetries MAX_CONFIG_RETRY x)
                              (fmSignalSemaphore (hw (plat st)))
              /\ (I2cWriteRead = true -> is_xcvr_at sw q = true ->
                  eepromBaseValid x = true ->
                  exists p,
                    sweeps (XcvrRetryConfig sw) (Z.to_nat MAX_CONFIG_RETRY)
                      (plat st') = Some p
                    /\ array_get (xcvrInfo p) q = Some (set_configRetries 0 x))
       else
         st' = st
         /\ (status = FM_ERR_UNSUPPORTED /\ xcvrPollPeriodMsec more = 0
             \/ status = FM_ERR_INVALID_ARGUMENT /\ q < 0).
Proof.
  intros q Hlen Hq. unfold fmPlatformMgmtConfigSfppXcvrAutoNeg. fold q.
  destruct (Z.eqb_spec (xcvrPollPeriodMsec more) 0) as [Hzero|Hpoll].
  { exists st, FM_ERR_UNSUPPORTED. simpl. auto. }
  destruct (Z.ltb_spec q 0) as [Hneg|Hpos].
  { exists st, FM_ERR_INVALID_ARGUMENT. simpl. auto. }
  destruct (array_get_in_range (xcvrInfo (plat st)) q ltac:(lia)) as [x Hx].
  rewrite (update_put (plat st) q _ x Hx). cbn [mbind option_bind].
  eexists _, FM_OK. split; [reflexivity|]. simpl.
  split; [exact Hpoll|]. split; [exact Hpos|].
  split; [reflexivity|]. split; [reflexivity|].
  exists x. split; [exact Hx|]. split; [reflexivity|].
  intros Hi2c Hxcvr Hvalid.
  destruct (XcvrRetryConfig_sweeps sw (Z.to_nat MAX_CONFIG_RETRY)
              (put (plat st) q (set_configRetries MAX_CONFIG_RETRY x)
                 (fmSignalSemaphore (hw (plat st))))
              q (set_configRetries MAX_CONFIG_RETRY x))
    as (p & Hrun & _ & Hp); try assumption.
  - rewrite length_put. exact Hlen.
  - apply get_put_eq. lia.
  - simpl. unfold MAX_CONFIG_RETRY. lia.
  - exists p. split; [exact Hrun|exact Hp].
Qed.

(** X18.  [fmPlatformMgmtNotifyEthModeChange] does nothing for a port
    without index.  Else it stores the mode in the port's record and
    touches no other record.  Exactly when the mode is a single lane
    mode, the port an SFP+ port with a module present and the thread
    polls, it also sets the configuration retries to MAX_CONFIG_RETRY
    and [pollingPendingTask]; with a valid EEPROM, MAX_CONFIG_RETRY
    sweeps of [XcvrRetryConfig] then bring the retries back to 0 with
    the new mode kept. *)
Theorem NotifyEthModeChange_effect (sw : fm_platformCfgSwitch)
  (more : fm_platformCfgMore) (st : mgmt_state HW) (port : Z)
  (mode : fm_ethMode) :
  let q := fmPlatformCfgPortGetIndex port in
  length (ports sw) = length (xcvrInfo (plat st)) ->
  q < Z.of_nat (length (ports sw)) ->
  (q < 0 -> fmPlatformMgmtNotifyEthModeChange sw more st port mode = Some st)
  /\ forall x,
       array_get (xcvrInfo (plat st)) q = Some x ->
       let deferred := config_deferred sw more q mode x in
       let x' := if deferred
                 then set_configRetries MAX_CONFIG_RETRY (set_ethMode mode x)
                 else set_ethMode mode x in
       exists h,
         fmPlatformMgmtNotifyEthModeChange sw more st port mode
         = Some {| plat := put (plat st) q x' h;
                   pollingPendingTask := pollingPendingTask st || deferred;
                   enableMgmt := enableMgmt st |}
         /\ (deferred = true -> I2cWriteRead = true ->
             eepromBaseValid x = true ->
             exists p,
               sweeps (XcvrRetryConfig sw) (Z.to_nat MAX_CONFIG_RETRY)
                 (put (plat st) q x' h) = Some p
               /\ array_get (xcvrInfo p) q
                  = Some (set_configRetries 0 (set_ethMode mode x))).
Proof.
  intros q Hlen Hq. unfold fmPlatformMgmtNotifyEthModeChange. fold q. split.
  { intros Hneg. destruct (Z.ltb_spec q 0); [reflexivity|lia]. }
  intros x Hx. cbv zeta.
  pose proof (array_get_Some_range _ _ _ Hx) as Hrange.
  destruct (Z.ltb_spec q 0); [lia|].
  rewrite (update_put (plat st) q _ x Hx). cbn [mbind option_bind]. unfold config_deferred, is_sfpp_at.
  destruct (FM_ETH_MODE_MULTI_LANE_MASK_set mode); cbn [negb andb].
  { eexists. rewrite orb_false_r. split; [reflexivity|discriminate]. }
  destruct (array_get_in_range (ports sw) q ltac:(lia)) as [pc Hpc].
  rewrite Hpc. cbn [mbind option_bind].
  change (xcvrInfo (set_hw ?s ?h)) with (xcvrInfo s).
  rewrite get_put_eq by exact Hrange. cbn [mbind option_bind].
  change (present (set_ethMode mode x)) with (present x).
  destruct (bool_decide (intfType pc = FM_PLAT_INTF_TYPE_SFPP)) eqn:Hsfpp;
    cbn [andb].
  2:{ eexists. rewrite orb_false_r. split; [reflexivity|discriminate]. }
  destruct (present x); cbn [andb].
  2:{ eexists. rewrite orb_false_r. split; [reflexivity|discriminate]. }
  destruct (Z.eqb_spec (xcvrPollPeriodMsec more) 0) as [Hzero|Hpoll]; cbn [negb].
  { destruct (ConfigureSfppXcvr _ _ _) as [h status].
    exists h. rewrite orb_false_r. split; [reflexivity|discriminate]. }
  change (set_hw (put ?s ?i ?y ?h0) ?h) with (put s i y h).
  rewrite update_put_put by exact Hrange. cbn [mbind option_bind].
  eexists. rewrite orb_true_r. split; [reflexivity|].
  intros _ Hi2c Hvalid.
  match goal with
  | |- exists p, sweeps _ _ ?s = _ /\ _ =>
      destruct (XcvrRetryConfig_sweeps sw (Z.to_nat MAX_CONFIG_RETRY) s q
                  (set_configRetries MAX_CONFIG_RETRY (set_ethMode mode x))
                  ltac:(rewrite length_put; exact Hlen) Hi2c
                  ltac:(apply is_sfpp_is_xcvr; unfold is_sfpp_at;
                        rewrite Hpc; exact Hsfpp)
                  ltac:(apply get_put_eq; exact Hrange)
                  Hvalid
                  ltac:(simpl; unfold MAX_CONFIG_RETRY; lia))
        as (p & Hrun & _ & Hp)
  end.
  exists p. split; [exact Hrun|exact Hp].
Qed.

End ApiProofs.


(** *** Sample runs *)

Lemma sample_lanes_ok (st : plat_state unit) :
  length (xcvrInfo st) = 2%nat -> @lanes_ok MgmtSample.header unit MgmtSample.sw st.
Proof.
  intros Hlen. split; [rewrite Hlen; reflexivity|].
  intros e l. left. reflexivity.
Qed.


(** Witness of X10: both sample modules wait for their EEPROM and the
    reads fail. *)
Lemma RetryEepromRead_sweep_witness :
  exists st',
    @XcvrRetryEepromRead MgmtSample.header unit MgmtSample.removal
      MgmtTasksSample.library MgmtSample.sw MgmtTasksSample.waiting = Some st'
    /\ exists x',
         array_get (xcvrInfo st') 1 = Some x'
         /\ same_but_eeprom (MgmtTasksSample.unread 2) x'.
Proof.
  destruct (@RetryEepromRead_sweep MgmtSample.header unit MgmtSample.removal
              MgmtTasksSample.library MgmtSample.sw MgmtTasksSample.waiting
              (sample_lanes_ok MgmtTasksSample.waiting eq_refl))
    as (st' & Hrun & _ & Hrec).
  exists st'. split; [exact Hrun|].
  destruct (Hrec 1 (MgmtTasksSample.unread 2) eq_refl) as (x' & Hx' & Hsame & _).
  exists x'. split; [exact Hx'|exact Hsame].
Defined.

(** Witness of X11: four sweeps end the retries of the first sample
    module. *)
Lemma eeprom_read_retries_run_out_witness :
  exists st' x',
    sweeps (@XcvrRetryEepromRead MgmtSample.header unit MgmtSample.removal
              MgmtTasksSample.library MgmtSample.sw) 4 MgmtTasksSample.waiting
    = Some st'
    /\ array_get (xcvrInfo st') 0 = Some x'
    /\ eepromReadRetries x' = 0.
Proof.
  destruct (@eeprom_read_retries_run_out MgmtSample.header unit MgmtSample.removal
              MgmtTasksSample.library MgmtSample.sw 4 MgmtTasksSample.waiting 0
              (MgmtTasksSample.unread 4)
              (sample_lanes_ok MgmtTasksSample.waiting eq_refl)
              eq_refl eq_refl eq_refl ltac:(simpl; lia))
    as (st' & x' & Hrun & _ & Hx' & _ & Hr).
  exists st', x'. split; [exact Hrun|]. split; [exact Hx'|].
  simpl in Hr. lia.
Defined.

(** Witness of X12: the two plugged sample modules have three retries
    left. *)
Lemma RetryConfig_sweep_witness :
  exists st' retries,
    @XcvrRetryConfig MgmtSample.header unit MgmtSample.removal
      MgmtTasksSample.library MgmtSample.sw MgmtSample.state = Some st'
    /\ array_get (xcvrInfo st') 0
       = Some (set_configRetries retries (MgmtSample.plugged [3; 4; 7; 33]))
    /\ (retries = 2 \/ retries = 0).
Proof.
  destruct (@RetryConfig_sweep MgmtSample.header unit MgmtSample.removal
              MgmtTasksSample.library MgmtSample.sw MgmtSample.state eq_refl)
    as (st' & Hrun & _ & Hrec).
  destruct (Hrec 0 (MgmtSample.plugged [3; 4; 7; 33]) eq_refl)
    as (retries & Hx' & Hretries).
  exists st', retries. split; [exact Hrun|]. split; [exact Hx'|].
  change (config_pending MgmtSample.sw 0 (MgmtSample.plugged [3; 4; 7; 33]))
    with true in Hretries.
  destruct Hretries as [[->|[-> _]] _]; [left|right]; reflexivity.
Defined.

Lemma sample_record (st : plat_state unit) (P : fm_platXcvrInfo -> Prop) :
  length (xcvrInfo st) = 2%nat ->
  (forall x, array_get (xcvrInfo st) 0 = Some x -> P x) ->
  (forall x, array_get (xcvrInfo st) 1 = Some x -> P x) ->
  forall j x, array_get (xcvrInfo st) j = Some x -> P x.
Proof.
  intros Hlen H0 H1 j x Hx.
  pose proof (array_get_Some_range _ _ _ Hx) as Hj. rewrite Hlen in Hj.
  assert (Hcase : j = 0 \/ j = 1) by lia.
  destruct Hcase as [->| ->]; auto.
Qed.

(** Witness of X13: the settled sample modules. *)
Lemma retry_sweeps_idle_witness :
  @XcvrRetryEepromRead MgmtSample.header unit MgmtSample.removal
    MgmtTasksSample.library MgmtSample.sw MgmtTasksSample.settled
  = Some MgmtTasksSample.settled
  /\ @XcvrRetryConfig MgmtSample.header unit MgmtSample.removal
       MgmtTasksSample.library MgmtSample.sw MgmtTasksSample.settled
     = Some MgmtTasksSample.settled.
Proof.
  apply (@retry_sweeps_idle MgmtSample.header unit MgmtSample.removal
           MgmtTasksSample.library MgmtSample.sw MgmtTasksSample.settled eq_refl).
  - intros j. apply (sample_record MgmtTasksSample.settled
                       (fun x => read_pending MgmtSample.sw j x = false) eq_refl);
      intros x Hx; injection Hx as <-;
      unfold read_pending; simpl; apply andb_false_r.
  - intros j. apply (sample_record MgmtTasksSample.settled
                       (fun x => config_pending MgmtSample.sw j x = false) eq_refl);
      intros x Hx; injection Hx as <-;
      unfold config_pending; simpl; apply andb_false_r.
Defined.

(** Witness of X14: the two sample ports are listed in arrays of 96
    entries. *)
Lemma EnableInterrupt_ports_lists_witness :
  exists stopped,
    EnableInterrupt_ports MgmtSample.sw (replicate 96 0) (replicate 96 false)
    = Some ([10; 11] ++ replicate 94 0, [true; true] ++ replicate 94 false,
            2, stopped).
Proof.
  destruct (EnableInterrupt_ports_lists MgmtSample.sw (replicate 96 0)
              (replicate 96 false) eq_refl eq_refl) as [stopped Hrun].
  exists stopped. exact Hrun.
Defined.

Lemma sample_query_keeps_sizes :
  @query_keeps_sizes unit MgmtTasksSample.platform.
Proof.
  intros query Hq h n ids numPorts valid state.
  injection Hq as <-. rewrite !length_insert. split; reflexivity.
Qed.

(** Witness of X15: the two sample ports, the first module present. *)
Lemma XcvrInitialize_establishes_witness :
  exists st' status x',
    @fmPlatformMgmtXcvrInitialize MgmtSample.header unit MgmtTasksSample.platform
      MgmtSample.sw MgmtTasksSample.more MgmtSample.state MgmtSample.stack
    = Some (st', status)
    /\ array_get (xcvrInfo st') 1 = Some x'
    /\ initialized FM_ETH_MODE_10GBASE_KR x'.
Proof.
  destruct (@XcvrInitialize_establishes MgmtSample.header unit
              MgmtTasksSample.platform MgmtSample.sw MgmtTasksSample.more
              MgmtSample.state MgmtSample.stack eq_refl eq_refl eq_refl eq_refl
              eq_refl ltac:(vm_compute; discriminate) sample_query_keeps_sizes)
    as (st' & status & Hrun & _ & Hrec).
  destruct (Hrec 1 (MgmtSample.plugged [3; 4; 9; 35]) eq_refl)
    as (x' & Hx' & Hinit & _).
  exists st', status, x'. split; [exact Hrun|]. split; [exact Hx'|exact Hinit].
Defined.

(** Witness of X16: the second lane of the sample QSFP reports the
    module of the first. *)
Lemma GetTransceiverType_lanes_witness :
  @fmPlatformMgmtGetTransceiverType unit MgmtTasksSample.library
    MgmtTasksSample.qsfp MgmtSample.state 2 (Some FM_PLATFORM_XCVR_TYPE_UNKNOWN)
    None
  = Some (FM_OK, Some (FM_PLATFORM_XCVR_TYPE_OTHER 3), None).
Proof.
  destruct (@GetTransceiverType_lanes unit MgmtTasksSample.library
              MgmtTasksSample.qsfp MgmtSample.state 2 1
              (Some FM_PLATFORM_XCVR_TYPE_UNKNOWN) None
              {| intfType := FM_PLAT_INTF_TYPE_QSFP_LANE1; port := 2; epl := 0;
                 hwResourceId := 10 |}
              {| intfType := FM_PLAT_INTF_TYPE_QSFP_LANE0; port := 1; epl := 0;
                 hwResourceId := 10 |}
              eq_refl eq_refl eq_refl eq_refl eq_refl) as [_ Hreport].
  exact (Hreport (MgmtSample.plugged [3; 4; 7; 33]) eq_refl).
Defined.

(** Witness of X17: the request for the second sample port, then four
    sweeps. *)
Lemma ConfigSfppXcvrAutoNeg_deferred_witness :
  exists st' p,
    @fmPlatformMgmtConfigSfppXcvrAutoNeg unit MgmtTasksSample.library
      MgmtTasksSample.more MgmtTasksSample.tasks 2 true = Some (st', FM_OK)
    /\ pollingPendingTask st' = true
    /\ sweeps (@XcvrRetryConfig MgmtSample.header unit MgmtSample.removal
                 MgmtTasksSample.library MgmtSample.sw) 4 (plat st') = Some p
    /\ array_get (xcvrInfo p) 1
       = Some (set_configRetries 0 (MgmtSample.plugged [3; 4; 9; 35])).
Proof.
  destruct (@ConfigSfppXcvrAutoNeg_deferred MgmtSample.header unit
              MgmtSample.removal MgmtTasksSample.library MgmtSample.sw
              MgmtTasksSample.more MgmtTasksSample.tasks 2 true eq_refl
              ltac:(simpl; lia))
    as (st' & status & Hrun & Hok).
  assert (Hstatus : status = FM_OK) by (vm_compute in Hrun; congruence).
  subst status. simpl in Hok.
  destruct Hok as (_ & _ & Hpending & _ & x & Hx & _ & Hsweeps).
  injection Hx as <-.
  destruct (Hsweeps eq_refl eq_refl eq_refl) as (p & Hp & Hrecord).
  exists st', p. split; [exact Hrun|]. split; [exact Hpending|].
  split; [exact Hp|exact Hrecord].
Defined.

(** Witness of X18: the first sample port changes to 1000BASE-X. *)
Lemma NotifyEthModeChange_effect_witness :
  exists st',
    @fmPlatformMgmtNotifyEthModeChange MgmtSample.header unit MgmtSample.removal
      MgmtTasksSample.library MgmtSample.sw MgmtTasksSample.more
      MgmtTasksSample.tasks 1 FM_ETH_MODE_1000BASE_X = Some st'
    /\ pollingPendingTask st' = true
    /\ array_get (xcvrInfo (plat st')) 0
       = Some (set_configRetries 4
                 (set_ethMode FM_ETH_MODE_1000BASE_X
                    (MgmtSample.plugged [3; 4; 7; 33]))).
Proof.
  destruct (@NotifyEthModeChange_effect MgmtSample.header unit MgmtSample.removal
              MgmtTasksSample.library MgmtSample.sw MgmtTasksSample.more
              MgmtTasksSample.tasks 1 FM_ETH_MODE_1000BASE_X eq_refl
              ltac:(simpl; lia)) as [_ Hrun].
  destruct (Hrun (MgmtSample.plugged [3; 4; 7; 33]) eq_refl) as (h & Hst & _).
  eexists. split; [exact Hst|]. split; reflexivity.
Defined.

End MgmtTasksProofs.
